(* ===== verification/_CoqProject ===== *)
-Q . S2P
Prelude.v
Schema.v
Format.v
ErrorHandler.v
Occupancy.v
Dashboard.v
Header.v
Toast.v
Leitos.v
BedViews.v
QuickActions.v
Auditoria.v
Pacientes.v
Agendamentos.v
Profissionais.v
Prontuarios.v
Telemedicina.v
Widgets.v
Configuracoes.v
Ajuda.v
Layout.v
Auth.v
