(* ===== verification/Prelude.v ===== *)
(** * MedCore: a verification development of the hospital dashboard

    MedCore (src/src) is a React/TypeScript front end over a Supabase
    back end.  Every page reads rows from remote tables, shapes them on the
    client (grouping, counting, percentages, filters, sorting, truncation)
    and writes rows back with inserts and updates.  The development models,
    as executable Rocq functions, the client-side logic that decides what
    the user sees and which rows are written, together with the state the
    pages keep and the record store's side of each query (filter,
    [ORDER BY], [LIMIT], [maybeSingle]).

    ** How the parts interact

    The pages and cards read tables described by the generated schema
    (integrations/supabase/types.ts), show toasts and log errors through
    lib/errorHandler.ts and hooks/use-toast.ts, and mask their inputs with
    the same [formatCPF]/[formatPhone].  In the model the schema is the
    interface between the pages and the store: a page's insert is a
    [Schema.Row], and a page's theorem that its inserts conform to
    [TablesInsert] is proved against [Schema.insert_conforms], whose own
    theorems show that conforming inserts and updates keep rows typed.

    ** Files, in dependency order (see _CoqProject)

    - [Prelude] (this file): JavaScript primitives modelled once:
      [Math.round] of a quotient as [math_round] (floor of n/d + 1/2 with
      [Z.div]), the stable [Array.prototype.sort] as insertion sort
      [js_sort] with numeric-key comparators [desc_by]/[asc_by], string
      [===], ASCII [toLowerCase]/[toUpperCase], [includes], [toString] of
      an integer ([js_string_of_Z]), [split]/[join] and the first
      character of a UTF-8 text, calendar conversions and date-fns
      formats; the shared lemmas on lists, sums, sorting and rounding, the
      hint database [medcore] and the tactics [case_ifs] and [zbools].
    - [Schema]: integrations/supabase/types.ts.  Each table is a list of
      [Column]s (type, [| null] of [Row], [?] of [Insert]) and its foreign
      keys; [row_conforms], [insert_conforms], [update_conforms] are the
      [Tables]/[TablesInsert]/[TablesUpdate] types as boolean tests.
      Theorems: updates and completed inserts keep rows well typed.
    - [Format]: [formatCPF]/[formatPhone] of QuickActions.tsx (and their
      copies in Pacientes.tsx): each non-global [replace] is
      [replace_first] with an anchored matcher.  Theorems: the result for
      every number of digits, idempotence, the landline layout.
    - [ErrorHandler]: lib/errorHandler.ts.  Theorem: only fixed messages
      are ever shown.
    - [Occupancy]: components/dashboard/BedOccupancy.tsx, the grouping in a
      JS [Map] (association list in insertion order), the fetch handler
      and the card's views.  Theorems: refinement of an abstract
      per-department count, conservation, sortedness, stability.
    - [Dashboard]: pages/Index.tsx and StatsCard.tsx, the seven-request
      [Promise.all] join over the responses the query builders resolve
      with (a failed query resolves with an error and a null count, so
      the join never rejects), the trends and badges.  Theorems: the trend
      rule on every branch, negative baselines included; a failed request
      zeroing only its own figures; the occupancy range; the admissions
      badge printing a count as a percentage.
    - [Header]: components/layout/Header.tsx, module [Notifications] (the
      three queries, the window test, the push loops, sort and slice, the
      bell and the time label) and module [GlobalSearch] (ILIKE, the three
      searches, the search box as a state machine).  Theorems: the feed is
      the ten latest notifications (all of them when fewer); the appointment window; the
      limit-before-window bug; every appointment labelled "Agora"; the
      search popover never showing a result.
    - [Toast]: hooks/use-toast.ts, the module's global state ([Global]:
      counter, memory state, timers, listeners) with [reducer] and
      [dispatch]; user calls and timer expiries are the events of the step
      relation [step], and [reachable] its reflexive-transitive closure
      from [initial].  Theorems by rule induction: at most [TOAST_LIMIT]
      toasts, one timer per id, counter bounds; dismiss then timeout
      removes a toast; distinct ids up to [MAX_SAFE_INTEGER] calls; the
      removal timers terminate ([timer_step], a timer firing with no
      other event, is well founded, measured by the pending keys).
    - [Leitos]: pages/Leitos.tsx, the store ([DB]), the two-request
      admission and discharge mutations with the outcome of each request
      as an argument ([Faults]), the page state (dialogs, filters, form,
      query cache, toasts), every event of the page as [step], and its
      views.  [onSuccess] only invalidates the queries: the refetches'
      answers are events of their own ([BedsRefetch], [AdmissionsRefetch]),
      which may fail and then keep the cached lists.  Theorems: both
      mutations keep beds and admissions in agreement when they succeed,
      and so does every run of page events in which beds and details are
      picked from lists the refetches have brought up to date and the
      store answers without error (an invariant of [step] by induction on
      the events); while the beds' refetch has not succeeded, the form
      still offers an admitted bed and a second admission books it twice;
      the per-department panel counts only its six departments.
    - [BedViews]: the dashboard's occupancy card and the beds page's
      department panel over one store of beds.  Theorem: the same
      counts and percentages on both, and the level labels that differ
      between 70 and 79 percent.
    - [QuickActions]: components/dashboard/QuickActions.tsx, the three
      create handlers; the medical-record creation is a process of three
      requests run by a schedule ([run_schedule]), so interleavings are
      explicit.  Theorems: the record-number round trip [PRO-n] to
      [PRO-(n+1)] for every n, sequential numbering, the race giving two
      records the same number in any store (and letting a patient's later
      creations through the duplicate check), the inserts conforming to
      the schema.
    - [Auditoria]: pages/Auditoria.tsx, filters, alerts, statistics,
      views and the setters of the search card as [step].  Theorems: the
      date filters' time zones, alerts bounded by the alert count,
      "Limpar" showing every log shown before, the "!" mark agreeing with
      the badge row.
    - [Pacientes]: pages/Pacientes.tsx.  The page is a record of its
      [useState]s with one setter each; every user action is an [Event]
      of [step]; each [useMutation] is a request ([*_fn], answered by the
      store when sent) and callbacks ([*_settled]) that run on the page as
      it is when the answer arrives ([Settle i], in any order), so the
      interleavings of pending mutations with user actions are explicit.
      The store keeps a unique constraint on the CPF, which the code's
      error handling expects.  Theorems: an unchanged edit writes the row
      back; the shared form leaks an edited patient into the "Novo
      Paciente" dialog, whose save is refused as a duplicate CPF; a pending
      deletion's callback blocks a later edit; the birth-date filter is
      inclusive by calendar day in every time zone; a digits-only search
      never finds a masked CPF.
    - [Agendamentos]: pages/Agendamentos.tsx, built like [Pacientes]
      (states, setters, events, requests and callbacks), with dates as
      local day numbers ([getDay], [generateWeekDates], the pt-BR long
      date) and the store's [time] column read back as ["HH:MM:SS"].
      Theorems: the video flag agrees with the type in every reachable
      state and every written row (by induction on the events); a failed
      status update leaves the dialog showing the new status; a slot shows
      only its first appointment, so a second one at the same time is
      hidden though counted; the week strip is the Sunday-based week of
      the selected day.
    - [Profissionais]: pages/Profissionais.tsx, built like [Pacientes];
      the numbers of the cards are shown through the section variable
      [num_to_string] (JavaScript's [Number.prototype.toString]).
      Theorems: a successful edit leaves its data in the "Novo
      Profissional" form, so saving it duplicates the professional; the
      specialty filter offers each loaded specialty once, sorted
      ([dedup] and [js_sort] with [default_cmp] of this file).
    - [Prontuarios]: pages/Prontuarios.tsx, built like [Pacientes]: the
      five queries with their joins, the create-record, create-entry and
      status mutations, the events of the page as [step], the filters,
      the four cards, the table rows, the history and the dialogs.  The
      store's [updated_at] is an instant; its text, whose head the
      "Atualizados Hoje" card compares, is [timestamptz_text] (UTC).
      Theorems: by induction on the events, every record the page and
      the store hold is active or archived, so the two tabs split
      "Todos" and the two status cards add up; "Atualizados Hoje" misses
      records updated in the local evening west of UTC.
    - [Telemedicina]: pages/Telemedicina.tsx, built like [Pacientes],
      with the browser's clock taken from each reply and the time zone an
      argument of [step]: the three queries, the status, return and
      prescription mutations (the prescription's [maybeSingle] lookup
      and record insert included), the call's states and every event,
      the call duration and the views.  Theorems: ending a call completes
      whichever call was clicked last, not the one in progress; a
      prescription for a patient with several records adds another; west
      of UTC the record dialog dates entries a day early; the callbacks
      start no request, so every pending request settles; its
      [getInitials] agrees with the professionals page's when the first
      two words are not empty (equivalence of the two routines).
    - [Widgets]: components/dashboard/RecentPatients.tsx,
      components/dashboard/UpcomingAppointments.tsx and
      components/layout/Sidebar.tsx (its data and handlers), in the
      Modules [RecentPatients],
      [UpcomingAppointments] and [Sidebar] (fetch handlers, helpers,
      views; the sidebar's events as [step]), with date-fns' [parseISO]
      and [differenceInYears] written on local calendar fields.
      Theorems: the widget lists the first [min 4 n] of the [n]
      appointments the badge counts; west of UTC both send the next local
      day as "today" in the evening; the age shown is the number of full
      years.
    - [Configuracoes]: pages/Configuracoes.tsx: the settings and profile
      loads and saves ([trim], [|| null], the reload), the photo change
      (guards, upload path, avatar update), the theme and the inputs as
      [step], with each handler run to completion.  Theorems: loading
      the settings and saving them unedited writes the row back when its
      texts are trimmed and its optional texts not empty; a non-image or
      oversized photo reaches neither the bucket nor the profile.  Module
      [ConfiguracoesTabs]: the uncontrolled switches and fields of the
      other tabs, reset when their tab is unmounted, beside the page as
      [screen_step]; theorem: they never change the page or the store.
    - [Ajuda]: pages/Ajuda.tsx: the questions, the quick links, the
      single collapsible accordion (one value, empty when all are closed)
      and the inert buttons.  Theorem: a trigger opens its own answer and
      closes every other one, or closes it when open.
    - [Layout]: the rest of components/layout/Header.tsx ([HeaderShell]:
      the profile read, the logout, the feed's refresh, the clicks, the
      title, the bell's dropdown and the account button, composing
      [Notifications] and [GlobalSearch]), the rest of Sidebar.tsx
      ([SidebarView]: logo, status, collapse and mobile buttons, overlay)
      and MainLayout.tsx ([MainLayout]), and the dashboard page as a
      whole ([IndexPage]: cards, quick actions, widgets).  Theorems: an error toast of the
      header comes only from a [signOut] that threw, so a sign-out that
      resolves with an error is announced as a success; a menu click
      closes the mobile menu and highlights exactly the clicked link.
    - [Auth]: contexts/AuthContext.tsx ([AuthContext]: the provider's
      states and [useAuth]), pages/Login.tsx ([Login]: sign-in, password
      reset, the redirect effect, as [step]) and App.tsx ([Routes]: the
      route table and the header's account menu).  The reset dialog's
      submit also reaches the login form's [onSubmit] (React events
      cross the dialog's portal), modelled as [reset_submit].  Theorems:
      submitting the reset dialog runs the login's guard and sign-in;
      every link
      of the sidebar, the notifications, the search results, the account
      menu, the dashboard widgets and the help page's quick links
      resolves to a protected page.  [Router] composes the router with
      the settings page: a [Screen] holds the address, the store, the
      theme and the mounted page; a navigation within the same route
      keeps the page, another route mounts it afresh from
      [searchParams.get("tab")] (modelled over the query string, with
      its round trip [get_roundtrip]).  Theorems: the page is mounted
      exactly on its route, and the account menu's "Perfil" and
      "Configurações" change the tab only when the page was not on
      screen.

    ** Modelling conventions, bounds and fuel

    - JS numbers used as counts and timestamps are [Z]; they stay far below
      2^53 here, so no floating-point wrap-around is modelled.  Where the
      code wraps explicitly ([generateId] modulo [Number.MAX_SAFE_INTEGER])
      the wrap is written out.  Percentages [Math.round((a / b) * 100)] are
      computed exactly as [math_round (100 * a) b]; the double computation
      differs only when the exact value is a half-integer rounded across.
    - A query result is an [option] or a record of [option]s; a failed
      request resolves with [data: null] (supabase-js does not reject)
      and the code's fallbacks are written out.
      Mutations take the store's answers (success or error) as arguments,
      so every error path is a value of the model.
    - Times are milliseconds since the epoch and the browser's time zone is
      an offset [off] (local = UTC + off).
    - No definition needs fuel: every loop of the code runs over a list it
      is given, and the models recurse on those lists; the process model of
      QuickActions is driven by a finite schedule.  The only loop that is
      not over data, the toast store's timers re-entering the reducer, is
      shown to terminate by a measure (the number of pending keys).

    ** Not modelled

    Styling and layout; routing (only the target paths are modelled); the
    Supabase client and the database itself, whose tables are the inputs
    of the modelled functions (column defaults and timestamp parsing are
    parameters); React's scheduling (each handler runs to completion,
    except the interleaved record creation and the pending mutations of
    the patients page); [toLowerCase]/[toUpperCase] beyond ASCII letters
    (names with accented capitals compare as written).  The Supabase
    client (integrations/supabase/client.ts, not in src/src) is listed
    in PROJECT.json with status [not_modelled]: it is the external
    service whose answers are the models' inputs.  The pages that
    App.tsx imports but the sources do not contain (ProtectedRoute,
    RedefinirSenha, NotFound) are not modelled beyond their routes.
*)

From Stdlib Require Import List ZArith Lia String Ascii Bool Permutation Sorted.
From Stdlib Require Import Morphisms DecimalString DecimalZ DecimalPos.
Import ListNotations.

(** ** Notations of the development *)

Declare Scope js_scope.
Delimit Scope js_scope with js.

(** JS strict equality on strings. *)
Notation "a === b" := (String.eqb a b) (at level 70, no associativity) : js_scope.

(** JS [array.length] as a number. *)
Definition jlen {A : Type} (l : list A) : Z := Z.of_nat (List.length l).

(** JS [x || 0] on a count that may be [null] (a failed request). *)
Definition or_zero (o : option Z) : Z :=
  match o with Some n => n | None => 0 end.

Notation "o '||0'" := (or_zero o) (at level 1) : js_scope.

(** JS [xs || []] on a row list that may be [null]. *)
Definition or_nil {A : Type} (o : option (list A)) : list A :=
  match o with Some l => l | None => [] end.

Open Scope js_scope.

(** ** Hint database and tactics *)

Create HintDb medcore discriminated.
Create Rewrite HintDb medcore.
#[export] Hint Constants Transparent : medcore.

(** Case analysis on every boolean test left in the goal. *)
Ltac case_ifs :=
  repeat match goal with
  | |- context [if ?b then _ else _] => destruct b eqn:?
  end.

(** Turn the boolean comparisons on [Z] of the hypotheses into [Prop]. *)
Ltac zbools :=
  repeat match goal with
  | H : (_ <=? _)%Z = true |- _ => apply Z.leb_le in H
  | H : (_ <=? _)%Z = false |- _ => apply Z.leb_gt in H
  | H : (_ <? _)%Z = true |- _ => apply Z.ltb_lt in H
  | H : (_ <? _)%Z = false |- _ => apply Z.ltb_ge in H
  | H : (_ =? _)%Z = true |- _ => apply Z.eqb_eq in H
  | H : (_ =? _)%Z = false |- _ => apply Z.eqb_neq in H
  | H : (_ === _) = true |- _ => apply String.eqb_eq in H
  end.

(** ** [Math.round] of a quotient *)

Open Scope Z_scope.

(** [Math.round(n / d)] for [d <> 0]: floor of [n/d + 1/2] (ties go to
    +infinity, as in ECMAScript), computed exactly. *)
Definition math_round (n d : Z) : Z := (2 * n + d) / (2 * d).

Lemma math_round_spec (n d r : Z) :
  0 < d -> (math_round n d = r <-> 2 * d * r - d <= 2 * n < 2 * d * r + d).
Proof.
  intros Hd. unfold math_round. split.
  - intros <-.
    pose proof (Z.div_mod (2 * n + d) (2 * d) ltac:(lia)).
    pose proof (Z.mod_pos_bound (2 * n + d) (2 * d) ltac:(lia)). lia.
  - intros H. symmetry. apply Z.div_unique with (r := 2 * n + d - 2 * d * r); lia.
Qed.

(** With a negative divisor the quotient's sign flips, and so do the
    inequalities once multiplied out. *)
Lemma math_round_spec_neg (n d r : Z) :
  d < 0 -> (math_round n d = r <-> 2 * d * r + d < 2 * n <= 2 * d * r - d).
Proof.
  intros Hd. replace (math_round n d) with (math_round (- n) (- d)).
  - rewrite math_round_spec by lia. lia.
  - unfold math_round. rewrite <- Z.div_opp_opp by lia. f_equal; lia.
Qed.

Lemma math_round_exact (k d : Z) : 0 < d -> math_round (k * d) d = k.
Proof. intros Hd. apply math_round_spec; lia. Qed.

Lemma math_round_mono (n1 n2 d : Z) :
  0 < d -> n1 <= n2 -> math_round n1 d <= math_round n2 d.
Proof. intros Hd Hn. unfold math_round. apply Z.div_le_mono; lia. Qed.

(** A quotient between [0] and [m] rounds to an integer between [0] and [m]. *)
Lemma math_round_range (n d m : Z) :
  0 < d -> 0 <= n <= m * d -> 0 <= math_round n d <= m.
Proof.
  intros Hd Hn. rewrite <- (math_round_exact 0 d), <- (math_round_exact m d) by lia.
  split; apply math_round_mono; lia.
Qed.

Lemma math_round_pos (n d : Z) : 0 < d -> 0 < n -> 0 <= math_round n d.
Proof.
  intros Hd Hn. rewrite <- (math_round_exact 0 d) by lia. apply math_round_mono; lia.
Qed.

Close Scope Z_scope.

(** ** [Array.prototype.sort] with a comparator *)

Section JsSort.
Context {A : Type} (cmp : A -> A -> Z).

  (** Insert [x] before the first element it does not sort after. *)
Fixpoint sort_insert (x : A) (l : list A) : list A :=
    match l with
    | [] => [x]
    | y :: ys => if (cmp x y <=? 0)%Z then x :: y :: ys else y :: sort_insert x ys
    end.

  (** Stable insertion sort: an element from further left in the input is
      inserted last, in front of the elements it ties with. *)
Fixpoint js_sort (l : list A) : list A :=
    match l with
    | [] => []
    | x :: xs => sort_insert x (js_sort xs)
    end.

Lemma sort_insert_perm x l : Permutation (sort_insert x l) (x :: l).
  Proof.
    induction l as [|y ys IH]; simpl; [auto|].
    case_ifs; [auto|]. rewrite IH. apply perm_swap.
  Qed.

Lemma js_sort_perm l : Permutation (js_sort l) l.
  Proof.
    induction l as [|x xs IH]; simpl; [auto|].
    rewrite sort_insert_perm, IH. reflexivity.
  Qed.

Lemma js_sort_length l : List.length (js_sort l) = List.length l.
  Proof. apply Permutation_length, js_sort_perm. Qed.

  (** A comparator that never puts both of two elements after the other
      sorts in its order. *)
Lemma js_sort_sorted (Hcmp : forall a b, (0 < cmp a b)%Z -> (cmp b a <= 0)%Z) l :
    Sorted (fun a b => (cmp a b <= 0)%Z) (js_sort l).
  Proof.
    induction l as [|x xs IH]; simpl; [constructor|].
    induction IH as [|y ys Hs IHs Hh]; simpl; [repeat constructor|].
    destruct (Z.leb_spec (cmp x y) 0) as [Hxy|Hxy].
    - constructor; [constructor; assumption|constructor; exact Hxy].
    - constructor; [exact IHs|]. destruct ys as [|z zs]; simpl; [constructor; apply Hcmp, Hxy|].
      inversion Hh; subst. destruct (Z.leb_spec (cmp x z) 0); constructor; [apply Hcmp, Hxy|assumption].
  Qed.
End JsSort.

#[export] Hint Resolve js_sort_perm sort_insert_perm : medcore.

(** Sorting with pointwise-equal comparators gives the same result. *)
#[export] Instance js_sort_proper {A : Type} :
  Proper (pointwise_relation A (pointwise_relation A eq) ==> eq ==> eq) (@js_sort A).
Proof.
  intros c1 c2 Hc l ? <-. induction l as [|x xs IH]; simpl; [reflexivity|].
  rewrite IH. generalize (js_sort c2 xs). intros l.
  induction l as [|y ys IHl]; simpl; [reflexivity|]. rewrite Hc, IHl. reflexivity.
Qed.

(** Sorting by a numeric key, [(a, b) => key(b) - key(a)] (descending). *)
Section KeySort.
Context {A : Type} (key : A -> Z).

Definition desc_by (a b : A) : Z := (key b - key a)%Z.
Definition asc_by (a b : A) : Z := (key a - key b)%Z.

Definition key_ge (a b : A) : Prop := (key b <= key a)%Z.

Lemma sort_insert_desc_sorted x l :
    Sorted key_ge l -> Sorted key_ge (sort_insert desc_by x l).
  Proof.
    unfold key_ge, desc_by.
    induction 1 as [|y ys Hs IH Hh]; simpl; [auto|].
    case_ifs; zbools; [constructor; auto; constructor; lia|].
    constructor; [exact IH|].
    destruct ys as [|z zs]; simpl; [constructor; lia|].
    inversion Hh; subst. case_ifs; zbools; constructor; lia.
  Qed.

Lemma js_sort_desc_sorted l : Sorted key_ge (js_sort desc_by l).
  Proof.
    induction l as [|x xs IH]; simpl; [constructor|].
    apply sort_insert_desc_sorted, IH.
  Qed.

  (** Inserting never moves [x] past an element with the same key. *)
Lemma sort_insert_desc_stable x l k :
    filter (fun y => (key y =? k)%Z) (sort_insert desc_by x l)
    = filter (fun y => (key y =? k)%Z) (x :: l).
  Proof.
    unfold desc_by. induction l as [|y ys IH]; simpl; [reflexivity|].
    case_ifs; simpl in *; rewrite ?IH in *; simpl in *; case_ifs; zbools;
      try congruence; lia.
  Qed.

  (** Stability: the elements of one key class keep their input order. *)
Lemma js_sort_desc_stable l k :
    filter (fun y => (key y =? k)%Z) (js_sort desc_by l)
    = filter (fun y => (key y =? k)%Z) l.
  Proof.
    induction l as [|x xs IH]; simpl; [reflexivity|].
    rewrite sort_insert_desc_stable. simpl. rewrite IH. reflexivity.
  Qed.

End KeySort.

#[export] Hint Resolve js_sort_desc_sorted : medcore.

(** Ascending order is descending order of the opposite key. *)
Lemma js_sort_asc_desc {A : Type} (key : A -> Z) (l : list A) :
  js_sort (asc_by key) l = js_sort (desc_by (fun a => - key a)%Z) l.
Proof.
  apply js_sort_proper; [|reflexivity].
  intros a b. unfold asc_by, desc_by. lia.
Qed.

(** ** Lists *)

Lemma jlen_firstn {A : Type} (n : nat) (l : list A) :
  (jlen (firstn n l) <= Z.of_nat n)%Z.
Proof. unfold jlen. rewrite length_firstn. lia. Qed.

Lemma jlen_filter_le {A : Type} (f : A -> bool) (l : list A) :
  (jlen (filter f l) <= jlen l)%Z.
Proof.
  unfold jlen. induction l as [|x xs IH]; cbn [filter List.length]; [lia|].
  destruct (f x); cbn [List.length]; lia.
Qed.

Lemma jlen_app {A : Type} (l1 l2 : list A) : jlen (l1 ++ l2) = (jlen l1 + jlen l2)%Z.
Proof. unfold jlen. rewrite length_app. lia. Qed.

#[export] Hint Resolve jlen_firstn jlen_filter_le : medcore.
#[export] Hint Rewrite @jlen_app : medcore.

(** ** Strings *)

(** [toLowerCase] on ASCII letters. *)
Definition lower_ascii (c : ascii) : ascii :=
  let n := nat_of_ascii c in
  if (65 <=? n)%nat && (n <=? 90)%nat then ascii_of_nat (n + 32) else c.

Definition upper_ascii (c : ascii) : ascii :=
  let n := nat_of_ascii c in
  if (97 <=? n)%nat && (n <=? 122)%nat then ascii_of_nat (n - 32) else c.

(** [toUpperCase] on ASCII letters. *)
Fixpoint to_upper (s : string) : string :=
  match s with
  | EmptyString => EmptyString
  | String c s' => String (upper_ascii c) (to_upper s')
  end.

Fixpoint to_lower (s : string) : string :=
  match s with
  | EmptyString => EmptyString
  | String c s' => String (lower_ascii c) (to_lower s')
  end.

(** [s.includes(pat)]: [pat] occurs in [s] at some position. *)
Fixpoint includes (s pat : string) : bool :=
  String.prefix pat s ||
  match s with
  | EmptyString => false
  | String _ s' => includes s' pat
  end.

Lemma includes_empty (s : string) : includes s EmptyString = true.
Proof. destruct s; reflexivity. Qed.

#[export] Hint Rewrite includes_empty : medcore.

(** ** Sums over lists *)

Definition zsum {A : Type} (f : A -> Z) (l : list A) : Z :=
  fold_right (fun x acc => (f x + acc)%Z) 0%Z l.

Lemma zsum_app {A : Type} (f : A -> Z) (l1 l2 : list A) :
  zsum f (l1 ++ l2) = (zsum f l1 + zsum f l2)%Z.
Proof. induction l1 as [|x xs IH]; simpl; [reflexivity|]. rewrite IH. lia. Qed.

(** Sums do not depend on the order of the list. *)
#[export] Instance zsum_perm {A : Type} (f : A -> Z) :
  Proper (@Permutation A ==> eq) (zsum f).
Proof.
  intros l1 l2 H. induction H; unfold zsum in *; simpl; lia.
Qed.

Lemma zsum_map {A B : Type} (f : B -> Z) (g : A -> B) (l : list A) :
  zsum f (map g l) = zsum (fun x => f (g x)) l.
Proof. induction l as [|x xs IH]; simpl; [reflexivity|]. rewrite IH. reflexivity. Qed.

Lemma zsum_indicator {A : Type} (p : A -> bool) (l : list A) :
  zsum (fun x => if p x then 1 else 0)%Z l = jlen (filter p l).
Proof.
  unfold jlen. induction l as [|x xs IH]; [reflexivity|].
  cbn [zsum fold_right filter] in *. fold (zsum (fun x => if p x then 1 else 0)%Z xs).
  rewrite IH. destruct (p x); cbn [List.length]; lia.
Qed.

#[export] Hint Rewrite @zsum_app @zsum_map : medcore.

(** ** Responses of the record store *)

(** A Supabase/PostgREST response [{ data, count, error }]: [data] is [null]
    when the request failed, [count] is present only for [count: "exact"]
    queries. *)
Record Response (A : Type) := mkResponse {
  data : option A;
  count : option Z;
  error : option string
}.
Arguments mkResponse {A} _ _ _.
Arguments data {A} _.
Arguments count {A} _.
Arguments error {A} _.

(** ** Membership tests written with [existsb] *)

Lemma existsb_str_true (k : string) (ds : list string) :
  existsb (fun d => d === k) ds = true <-> In k ds.
Proof.
  rewrite existsb_exists. split.
  - intros [d [Hd Hk]]. apply String.eqb_eq in Hk. subst. exact Hd.
  - intros Hk. exists k. split; [exact Hk|apply String.eqb_refl].
Qed.

Lemma existsb_str_false (k : string) (ds : list string) :
  existsb (fun d => d === k) ds = false <-> ~ In k ds.
Proof.
  rewrite <- existsb_str_true. destruct (existsb _ ds); split; congruence.
Qed.

Lemma filter_nil_existsb {A : Type} (p : A -> bool) (l : list A) :
  filter p l = [] <-> existsb p l = false.
Proof.
  induction l as [|x xs IH]; simpl; [tauto|].
  destruct (p x); simpl; [split; discriminate|exact IH].
Qed.

Lemma existsb_weaken {A : Type} (p q : A -> bool) (l : list A) :
  (forall x, p x = true -> q x = true) -> existsb q l = false -> existsb p l = false.
Proof.
  intros Hpq. induction l as [|x xs IH]; simpl; [reflexivity|].
  destruct (p x) eqn:Hp; [rewrite (Hpq x Hp); discriminate|].
  destruct (q x); [discriminate|exact IH].
Qed.

Lemma jlen_filter_mono {A : Type} (p q : A -> bool) (l : list A) :
  (forall x, p x = true -> q x = true) -> (jlen (filter p l) <= jlen (filter q l))%Z.
Proof.
  intros Hpq. unfold jlen. induction l as [|x xs IH]; cbn [filter]; [lia|].
  destruct (p x) eqn:Hp; [rewrite (Hpq x Hp)|destruct (q x)]; cbn [List.length]; lia.
Qed.

Lemma jlen_filter_pos {A : Type} (p : A -> bool) (l : list A) :
  existsb p l = true -> (1 <= jlen (filter p l))%Z.
Proof.
  unfold jlen. induction l as [|x xs IH]; cbn [existsb filter]; [discriminate|].
  destruct (p x); cbn [orb List.length]; [lia|exact IH].
Qed.

Lemma zsum_one {A : Type} (l : list A) : zsum (fun _ => 1%Z) l = jlen l.
Proof.
  unfold jlen. induction l as [|x xs IH]; [reflexivity|].
  cbn [zsum fold_right List.length] in *. fold (zsum (fun _ : A => 1%Z) xs). lia.
Qed.

(** ** Numbers as text *)

(** [String(n)] / a template literal [`${n}`] for an integer [n]. *)
Definition js_string_of_Z (n : Z) : string := NilZero.string_of_int (Z.to_int n).

(** ** Truncated division by a positive constant *)

Lemma quot_range_iff (d q lo hi : Z) :
  (0 < q)%Z -> (1 <= lo)%Z -> (lo <= Z.quot d q <= hi)%Z <-> (lo * q <= d < (hi + 1) * q)%Z.
Proof.
  intros Hq Hlo. destruct (Z.leb_spec 0 d) as [Hd|Hd].
  - rewrite Z.quot_div_nonneg by lia.
    pose proof (Z.div_mod d q ltac:(lia)). pose proof (Z.mod_pos_bound d q Hq).
    split; intros Hr; [nia|].
    split; [apply Z.div_le_lower_bound|apply Z.lt_succ_r, Z.div_lt_upper_bound]; lia.
  - assert (Z.quot d q <= 0)%Z.
    { rewrite <- (Z.opp_involutive d), Z.quot_opp_l by lia.
      pose proof (Z.quot_pos (- d) q ltac:(lia) Hq). lia. }
    lia.
Qed.

(** ** Prefixes of a list sorted by a key *)

Lemma sorted_firstn {A : Type} (R : A -> A -> Prop) (n : nat) (l : list A) :
  Sorted R l -> Sorted R (firstn n l).
Proof.
  revert n. induction l as [|x l IH]; intros n Hs; destruct n as [|n]; simpl; try constructor.
  - inversion Hs; subst. apply IH. assumption.
  - inversion Hs as [|? ? Hs' Hh]; subst.
    destruct n as [|n]; [constructor|]. destruct l as [|y l]; simpl; [constructor|].
    inversion Hh; subst. constructor. assumption.
Qed.

Lemma in_firstn {A : Type} (n : nat) (l : list A) (x : A) : In x (firstn n l) -> In x l.
Proof. intros H. rewrite <- (firstn_skipn n l). apply in_or_app. left. exact H. Qed.

Lemma sorted_firstn_top {A : Type} (key : A -> Z) (n : nat) (l : list A) :
  Sorted (key_ge key) l ->
  forall x y, In x (firstn n l) -> In y (skipn n l) -> (key y <= key x)%Z.
Proof.
  intros Hs. apply Sorted_StronglySorted in Hs; [|intros a b c; unfold key_ge; lia].
  rewrite <- (firstn_skipn n l) in Hs.
  remember (firstn n l) as l1 eqn:E1. remember (skipn n l) as l2 eqn:E2. clear E1 E2.
  induction l1 as [|a l1 IH]; simpl; [contradiction|].
  inversion Hs as [|? ? Hs' Hall]; subst.
  intros x y [<-|Hx] Hy; [|exact (IH Hs' x y Hx Hy)].
  rewrite Forall_forall in Hall. apply Hall, in_or_app. right. exact Hy.
Qed.

Lemma quot_nonpos (d q : Z) : (d <= 0)%Z -> (0 < q)%Z -> (Z.quot d q <= 0)%Z.
Proof.
  intros Hd Hq. rewrite <- (Z.opp_involutive d), Z.quot_opp_l by lia.
  pose proof (Z.quot_pos (- d) q ltac:(lia) Hq). lia.
Qed.

Lemma existsb_map_false {A B : Type} (p : B -> bool) (f : A -> B) (l : list A) :
  (forall x, p (f x) = false) -> existsb p (map f l) = false.
Proof. intros H. induction l as [|x xs IH]; simpl; [reflexivity|]. rewrite H, IH. reflexivity. Qed.

(** ** Calendar dates *)

(** The proleptic Gregorian date [(year, month, day)] of a day number
    (days since 1970-01-01), as JS [Date] computes it. *)
Definition civil_from_days (days : Z) : Z * Z * Z :=
  let z := (days + 719468)%Z in
  let era := (z / 146097)%Z in
  let doe := (z - era * 146097)%Z in
  let yoe := ((doe - doe / 1460 + doe / 36524 - doe / 146096) / 365)%Z in
  let doy := (doe - (365 * yoe + yoe / 4 - yoe / 100))%Z in
  let mp := ((5 * doy + 2) / 153)%Z in
  let d := (doy - (153 * mp + 2) / 5 + 1)%Z in
  let m := if (mp <? 10)%Z then (mp + 3)%Z else (mp - 9)%Z in
  let y := (yoe + era * 400 + (if (m <=? 2)%Z then 1 else 0))%Z in
  (y, m, d).

(** [n.toString().padStart(2, "0")] for [0 <= n]. *)
Definition pad2 (n : Z) : string :=
  if (n <? 10)%Z then ("0" ++ js_string_of_Z n)%string else js_string_of_Z n.

Definition MS_PER_DAY : Z := 86400000.

(** date-fns [format(t, "dd/MM")] and [format(t, "dd/MM/yyyy")] of a local
    time [t] in milliseconds. *)
Definition format_ddMM (t : Z) : string :=
  let '(_, m, d) := civil_from_days (t / MS_PER_DAY) in (pad2 d ++ "/" ++ pad2 m)%string.

Definition format_ddMMyyyy (t : Z) : string :=
  let '(y, m, d) := civil_from_days (t / MS_PER_DAY) in
  (pad2 d ++ "/" ++ pad2 m ++ "/" ++ js_string_of_Z y)%string.

Lemma filter_all_true {A : Type} (f : A -> bool) (l : list A) :
  (forall x, f x = true) -> filter f l = l.
Proof. intros H. induction l as [|x xs IH]; simpl; [reflexivity|]. rewrite H, IH. reflexivity. Qed.

Lemma filter_all_true_on {A : Type} (f : A -> bool) (l : list A) :
  (forall x, In x l -> f x = true) -> filter f l = l.
Proof.
  intros H. induction l as [|x xs IH]; simpl; [reflexivity|].
  rewrite H by (left; reflexivity). rewrite IH; [reflexivity|]. intros y Hy. apply H. right. exact Hy.
Qed.

(** Distinct numbers print as distinct strings. *)
Lemma js_string_of_Z_inj (n m : Z) : js_string_of_Z n = js_string_of_Z m -> n = m.
Proof.
  unfold js_string_of_Z. intros H.
  assert (Hn : forall z, Z.to_int z <> Decimal.Pos Decimal.Nil /\ Z.to_int z <> Decimal.Neg Decimal.Nil).
  { intros [|p|p]; simpl; split; try discriminate; intros Heq; injection Heq;
      apply Unsigned.to_uint_nonnil. }
  apply DecimalZ.to_int_inj.
  pose proof (NilZero.isi (Z.to_int n) (proj1 (Hn n)) (proj2 (Hn n))) as E1.
  pose proof (NilZero.isi (Z.to_int m) (proj1 (Hn m)) (proj2 (Hn m))) as E2.
  rewrite H in E1. congruence.
Qed.

(** A map injective on the elements of a duplicate-free list keeps it free
    of duplicates. *)
Lemma NoDup_map_on {A B : Type} (f : A -> B) (l : list A) :
  (forall x y, In x l -> In y l -> f x = f y -> x = y) -> NoDup l -> NoDup (map f l).
Proof.
  intros Hinj Hnd. induction Hnd as [|x xs Hx Hnd IH]; simpl; constructor.
  - rewrite in_map_iff. intros (y & Hy & Hin).
    assert (y = x) by (apply Hinj; simpl; auto). subst. contradiction.
  - apply IH. intros a b Ha Hb. apply Hinj; simpl; auto.
Qed.

(** Two residues of [c + a] and [c + b] modulo [m] coincide only when [a]
    and [b] are [m] apart. *)
Lemma mod_add_inj (m c a b : Z) :
  (0 < m -> 0 <= a < m -> 0 <= b < m -> (c + a) mod m = (c + b) mod m -> a = b)%Z.
Proof.
  intros Hm Ha Hb E.
  pose proof (Z.div_mod (c + a) m ltac:(lia)) as Da.
  pose proof (Z.div_mod (c + b) m ltac:(lia)) as Db.
  rewrite E in Da.
  assert (Hq : (m * ((c + a) / m - (c + b) / m) = a - b)%Z) by lia.
  destruct (Z.lt_trichotomy ((c + a) / m) ((c + b) / m)) as [Hlt|[Heq|Hgt]]; [nia|nia|nia].
Qed.

Lemma NoDup_map_eq {A B : Type} (f : A -> B) (l : list A) (x y : A) :
  NoDup (map f l) -> In x l -> In y l -> f x = f y -> x = y.
Proof.
  induction l as [|a l IH]; simpl; [tauto|]. intros Hn Hx Hy E.
  inversion Hn as [|? ? Ha Hl]; subst.
  destruct Hx as [<-|Hx], Hy as [<-|Hy]; auto.
  - exfalso. apply Ha. rewrite E. apply in_map, Hy.
  - exfalso. apply Ha. rewrite <- E. apply in_map, Hx.
Qed.

(** ** Counting by classes *)

Lemma zsum_zero {A : Type} (l : list A) : zsum (fun _ => 0%Z) l = 0%Z.
Proof. induction l as [|x xs IH]; simpl; [reflexivity|]. rewrite IH. reflexivity. Qed.

Lemma zsum_plus {A : Type} (f g : A -> Z) (l : list A) :
  zsum (fun x => f x + g x)%Z l = (zsum f l + zsum g l)%Z.
Proof. induction l as [|x xs IH]; simpl; [reflexivity|]. rewrite IH. lia. Qed.

Lemma zsum_ext {A : Type} (f g : A -> Z) (l : list A) :
  (forall x, f x = g x) -> zsum f l = zsum g l.
Proof. intros H. induction l as [|x xs IH]; simpl; [reflexivity|]. rewrite H, IH. reflexivity. Qed.

(** Among distinct keys, at most the one equal to [k] matches it. *)
Lemma count_key_nodup (ks : list string) (k : string) :
  NoDup ks -> jlen (filter (fun d => k === d) ks) = if existsb (fun d => d === k) ks then 1%Z else 0%Z.
Proof.
  intros Hn. induction Hn as [|d ds Hd Hds IH]; [reflexivity|]. cbn [filter existsb].
  destruct (String.eqb_spec k d) as [->|Hne].
  - rewrite String.eqb_refl. simpl. unfold jlen in *. cbn [List.length].
    assert (existsb (fun x => x === d) ds = false) as E by (apply existsb_str_false, Hd).
    rewrite E in IH. lia.
  - replace (d === k) with false by (symmetry; apply String.eqb_neq; congruence). exact IH.
Qed.

(** Counting the elements of each class [k] of a list of distinct keys,
    and adding up, counts the elements whose key is one of them. *)
Lemma zsum_count_classes {A : Type} (key : A -> string) (ks : list string) (l : list A) :
  NoDup ks ->
  zsum (fun k => jlen (filter (fun x => key x === k) l)) ks =
  jlen (filter (fun x => existsb (fun k => k === key x) ks) l).
Proof.
  intros Hn. induction l as [|x l IH]; cbn [filter].
  - apply zsum_zero.
  - transitivity (zsum (fun k => (if key x === k then 1 else 0) + jlen (filter (fun x => key x === k) l))%Z ks).
    + apply zsum_ext. intros k. destruct (key x === k); unfold jlen; cbn [List.length]; lia.
    + rewrite zsum_plus, IH, zsum_indicator, (count_key_nodup _ _ Hn).
      destruct (existsb _ ks); unfold jlen; cbn [List.length]; lia.
Qed.

(** ** Dates given as text *)

(** The day number of a civil date (the inverse of [civil_from_days]). *)
Definition days_from_civil (y m d : Z) : Z :=
  let y := if (m <=? 2)%Z then (y - 1)%Z else y in
  let era := (y / 400)%Z in
  let yoe := (y - era * 400)%Z in
  let mp := if (2 <? m)%Z then (m - 3)%Z else (m + 9)%Z in
  let doy := ((153 * mp + 2) / 5 + d - 1)%Z in
  let doe := (yoe * 365 + yoe / 4 - yoe / 100 + doy)%Z in
  (era * 146097 + doe - 719468)%Z.

(** The value of a string of decimal digits. *)
Definition digits_value (s : string) : option Z :=
  match s with
  | EmptyString => None
  | _ => option_map Z.of_uint (NilEmpty.uint_of_string s)
  end.

(** ["yyyy-MM-dd"] as a day number. *)
Definition parse_ymd (s : string) : option Z :=
  match digits_value (substring 0 4 s), digits_value (substring 5 2 s), digits_value (substring 8 2 s) with
  | Some y, Some m, Some d =>
      if (String.length s =? 10)%nat && (1 <=? m)%Z && (m <=? 12)%Z && (1 <=? d)%Z && (d <=? 31)%Z
      then Some (days_from_civil y m d) else None
  | _, _, _ => None
  end.

(** date-fns [format(t, "HH:mm:ss")] of a local time [t]. *)
Definition format_HHmmss (t : Z) : string :=
  let s := (t mod MS_PER_DAY / 1000)%Z in
  (pad2 (s / 3600) ++ ":" ++ pad2 (s mod 3600 / 60) ++ ":" ++ pad2 (s mod 60))%string.

Lemma jlen_filter_firstn {A : Type} (f : A -> bool) (n : nat) (l : list A) :
  (jlen (filter f (firstn n l)) <= jlen (filter f l))%Z.
Proof.
  unfold jlen. rewrite <- (firstn_skipn n l) at 2. rewrite filter_app, length_app. lia.
Qed.

Lemma jlen_filter_perm {A : Type} (f : A -> bool) (l l' : list A) :
  Permutation l l' -> jlen (filter f l) = jlen (filter f l').
Proof.
  intros H. unfold jlen. f_equal. apply Permutation_length.
  induction H; simpl; try destruct (f x); try destruct (f y); eauto using Permutation.
Qed.

Lemma jlen_firstn_le {A : Type} (n : nat) (l : list A) : (jlen (firstn n l) <= jlen l)%Z.
Proof. unfold jlen. rewrite length_firstn. lia. Qed.

(** ** Splitting and joining text *)

(** [s.split(sep)] for a one-character separator: the pieces between the
    separators, [[""]] for the empty string. *)
Fixpoint js_split (sep : ascii) (s : string) : list string :=
  match s with
  | EmptyString => [EmptyString]
  | String c s' =>
      let rest := js_split sep s' in
      if Ascii.eqb c sep then EmptyString :: rest
      else match rest with
           | w :: ws => String c w :: ws
           | [] => [String c EmptyString]
           end
  end.

(** A UTF-8 continuation byte ([10xxxxxx]). *)
Definition is_continuation (c : ascii) : bool :=
  let n := nat_of_ascii c in (128 <=? n)%nat && (n <? 192)%nat.

Fixpoint take_continuations (s : string) : string :=
  match s with
  | String c s' => if is_continuation c then String c (take_continuations s') else EmptyString
  | EmptyString => EmptyString
  end.

(** [w[0]] on the UTF-8 text [w]: its first character (lead byte and
    continuation bytes), [undefined] on the empty string. *)
Definition first_char (w : string) : option string :=
  match w with
  | EmptyString => None
  | String c w' => Some (String c (take_continuations w'))
  end.

(** [xs.join("")]: an [undefined] element gives the empty string. *)
Definition join_opt (xs : list (option string)) : string :=
  fold_right (fun o acc => match o with Some s => (s ++ acc)%string | None => acc end) EmptyString xs.

(** [l.filter((_, j) => j !== i)]: the list without its [i]-th element. *)
Fixpoint remove_nth {A : Type} (i : nat) (l : list A) : list A :=
  match i, l with
  | _, [] => []
  | O, _ :: l' => l'
  | S i', x :: l' => x :: remove_nth i' l'
  end.

(** [[...new Set(l)]]: the first occurrence of each value, in order;
    [seen] holds the values already taken. *)
Fixpoint dedup (seen : list string) (l : list string) : list string :=
  match l with
  | [] => []
  | x :: xs => if existsb (fun y => y === x) seen then dedup seen xs else x :: dedup (seen ++ [x]) xs
  end.

Lemma in_dedup (seen l : list string) (x : string) : In x (dedup seen l) <-> In x l /\ ~ In x seen.
Proof.
  revert seen. induction l as [|y ys IH]; intros seen; simpl; [tauto|].
  destruct (existsb (fun z => z === y) seen) eqn:E.
  - apply existsb_str_true in E. rewrite IH. split; [tauto|]. intros [[<-|H] Hn]; [contradiction|tauto].
  - apply existsb_str_false in E. simpl. rewrite IH, in_app_iff. simpl.
    split; [intros [<-|[H Hn]]; tauto|]. intros [[<-|H] Hn]; [left; reflexivity|].
    destruct (String.eqb_spec y x); [left; assumption|right; tauto].
Qed.

Lemma dedup_nodup (seen l : list string) : NoDup (dedup seen l).
Proof.
  revert seen. induction l as [|y ys IH]; intros seen; simpl; [constructor|].
  destruct (existsb _ seen); [apply IH|]. constructor; [|apply IH].
  rewrite in_dedup, in_app_iff. simpl. tauto.
Qed.

(** JavaScript's default [sort] comparator on strings: code unit order,
    which on UTF-8 bytes is the order of the characters' code points. *)
Definition default_cmp (a b : string) : Z :=
  match String.compare a b with Lt => -1 | Eq => 0 | Gt => 1 end%Z.

Lemma default_cmp_antisym (a b : string) : (0 < default_cmp a b)%Z -> (default_cmp b a <= 0)%Z.
Proof.
  unfold default_cmp. rewrite (String.compare_antisym a b).
  destruct (String.compare b a); simpl; lia.
Qed.

Fixpoint drop_continuations (s : string) : string :=
  match s with
  | String c s' => if is_continuation c then drop_continuations s' else s
  | EmptyString => EmptyString
  end.

(** [s.substring(0, n)] on UTF-8 text: its first [n] characters. *)
Fixpoint take_chars (n : nat) (s : string) : string :=
  match n, s with
  | O, _ => EmptyString
  | _, EmptyString => EmptyString
  | S n', String c s' =>
      String c (take_continuations s' ++ take_chars n' (drop_continuations s'))%string
  end.

(** date-fns [yyyy]: the year on at least four digits. *)
Definition pad4 (y : Z) : string :=
  if (y <? 10)%Z then ("000" ++ js_string_of_Z y)%string
  else if (y <? 100)%Z then ("00" ++ js_string_of_Z y)%string
  else if (y <? 1000)%Z then ("0" ++ js_string_of_Z y)%string else js_string_of_Z y.

(** date-fns [format(date, "yyyy-MM-dd")] of a day number. *)
Definition format_yyyy_MM_dd (d : Z) : string :=
  let '(y, m, dd) := civil_from_days d in (pad4 y ++ "-" ++ pad2 m ++ "-" ++ pad2 dd)%string.

(** ** First characters of words *)

(** A text that does not start in the middle of a UTF-8 character: in
    valid UTF-8 every word after a space starts with a lead byte. *)
Definition starts_lead (s : string) : bool :=
  match s with String c _ => negb (is_continuation c) | EmptyString => true end.

Lemma append_nil_r_str (s : string) : (s ++ EmptyString)%string = s.
Proof. induction s as [|c s IH]; cbn; [|rewrite IH]; reflexivity. Qed.

Lemma append_assoc_str (a b c : string) : ((a ++ b) ++ c)%string = (a ++ (b ++ c))%string.
Proof. induction a as [|x a IH]; cbn; [|rewrite IH]; reflexivity. Qed.

#[export] Hint Rewrite append_nil_r_str append_assoc_str : medcore.

Lemma take_continuations_app (w s : string) :
  take_continuations (take_continuations w ++ s) = (take_continuations w ++ take_continuations s)%string.
Proof.
  induction w as [|c w IH]; [reflexivity|]. cbn [take_continuations].
  destruct (is_continuation c) eqn:E; cbn [append take_continuations]; [rewrite E, IH|]; reflexivity.
Qed.

Lemma drop_continuations_app (w s : string) :
  drop_continuations (take_continuations w ++ s) = drop_continuations s.
Proof.
  induction w as [|c w IH]; [reflexivity|]. cbn [take_continuations].
  destruct (is_continuation c) eqn:E; cbn [append drop_continuations]; [rewrite E, IH|]; reflexivity.
Qed.

Lemma starts_lead_continuations (s : string) :
  starts_lead s = true -> take_continuations s = EmptyString /\ drop_continuations s = s.
Proof.
  destruct s as [|c s]; cbn; [auto|]. intros H. apply negb_true_iff in H. rewrite H. auto.
Qed.

(** Taking characters of a text that starts with a first character: that
    character, then the characters of the rest. *)
Lemma take_chars_first (k : nat) (c : ascii) (w x : string) :
  starts_lead x = true ->
  take_chars (S k) (String c (take_continuations w) ++ x) = (String c (take_continuations w) ++ take_chars k x)%string.
Proof.
  intros Hx. destruct (starts_lead_continuations x Hx) as [Ht Hd]. cbn [append take_chars].
  rewrite take_continuations_app, drop_continuations_app, Ht, Hd, append_nil_r_str. reflexivity.
Qed.

Lemma join_first_chars_lead (ws : list string) :
  forallb starts_lead ws = true -> starts_lead (join_opt (map first_char ws)) = true.
Proof.
  induction ws as [|w ws IH]; [reflexivity|]. cbn [forallb map]. intros H. apply andb_true_iff in H as [Hw Hws].
  destruct w as [|c w]; cbn [first_char join_opt fold_right]; [exact (IH Hws)|]. exact Hw.
Qed.

(** Removing a present key shortens a list: the measure of loops that
    consume a queue of pending keys. *)
Lemma filter_remove_length (x : string) (l : list string) :
  In x l -> (List.length (filter (fun k => negb (k === x)) l) < List.length l)%nat.
Proof.
  induction l as [|y l IH]; simpl; [contradiction|]. intros Hx.
  pose proof (filter_length_le (fun k => negb (k === x)) l).
  destruct (String.eqb_spec y x) as [->|Hy]; simpl; [lia|].
  destruct Hx as [->|Hx]; [contradiction|]. specialize (IH Hx). lia.
Qed.

Lemma append_cancel_l (p a b : string) : (p ++ a)%string = (p ++ b)%string -> a = b.
Proof. induction p as [|c p IH]; simpl; [tauto|]. intros E. injection E as E. exact (IH E). Qed.
