(* ===== verification/Schema.v ===== *)
(** * The database schema (integrations/supabase/types.ts)

    [types.ts] is the generated description of the record store: for every
    table its [Row] (the columns a [select] returns, with [| null] on the
    nullable ones), its [Insert] (the same columns, with [?] on those the
    database fills in) and its [Update] (every column optional), plus the
    foreign keys ([Relationships]) and the enum [app_role].  The three
    object types of a table are generated from one list of columns, and so
    is the model: a [Column] records the name, the type, [| null] and the
    [?] of [Insert]; [Update] makes every column optional.  Rows are
    JavaScript objects, association lists from column names to values.
    Conformance of a row, an insert and an update to a table is a boolean
    test, and the theorems show that an update or a completed insert keeps
    a row well typed. *)

From Stdlib Require Import List String Bool QArith.
From S2P Require Import Prelude.
Import ListNotations.
Open Scope js_scope.
Open Scope string_scope.

Module Schema.

(** ** Types and values *)

(** [Database["public"]["Enums"]["app_role"]]. *)
Inductive app_role := admin | user.

Definition app_role_name (r : app_role) : string :=
  match r with admin => "admin" | user => "user" end.

(** [Constants.public.Enums.app_role]. *)
Definition app_role_values : list string := map app_role_name [admin; user].

Inductive ColType := TString | TNumber | TBool | TEnum (values : list string).

(** A JSON value of a column: numbers are doubles, kept as rationals. *)
Inductive Value := VString (s : string) | VNumber (q : Q) | VBool (b : bool) | VNull.

Record Column := mkCol {
  col_name : string;
  col_ty : ColType;
  nullable : bool;          (* [| null] in [Row] *)
  insert_optional : bool    (* [?] in [Insert] *)
}.

(** One entry of [Relationships]. *)
Record ForeignKey := mkFk {
  foreignKeyName : string;
  fk_columns : list string;
  isOneToOne : bool;
  referencedRelation : string;
  referencedColumns : list string
}.

Record TableDef := mkTable {
  table_name : string;
  columns : list Column;
  relationships : list ForeignKey
}.

(** Shorthands for the three kinds of column [types.ts] has: required,
    optional in [Insert], and nullable (always optional in [Insert]). *)
Definition req (n : string) (t : ColType) : Column := mkCol n t false false.
Definition dflt (n : string) (t : ColType) : Column := mkCol n t false true.
Definition opt_null (n : string) (t : ColType) : Column := mkCol n t true true.

Definition fk (name col rel : string) : ForeignKey := mkFk name [col] false rel ["id"].

(** ** The tables of the public schema *)

Definition admissions : TableDef :=
  mkTable "admissions"
    [dflt "admission_date" TString; req "bed_id" TString; dflt "condition" TString;
     dflt "created_at" TString; opt_null "diagnosis" TString; opt_null "discharge_date" TString;
     dflt "id" TString; opt_null "notes" TString; req "patient_id" TString;
     opt_null "professional_id" TString; dflt "status" TString; dflt "updated_at" TString]
    [fk "admissions_bed_id_fkey" "bed_id" "beds";
     fk "admissions_patient_id_fkey" "patient_id" "patients";
     fk "admissions_professional_id_fkey" "professional_id" "professionals"].

Definition appointments : TableDef :=
  mkTable "appointments"
    [req "appointment_date" TString; req "appointment_time" TString; dflt "created_at" TString;
     dflt "duration" TNumber; dflt "id" TString; dflt "is_video" TBool; opt_null "notes" TString;
     req "patient_id" TString; req "professional_id" TString; dflt "status" TString;
     dflt "type" TString; dflt "updated_at" TString]
    [fk "appointments_patient_id_fkey" "patient_id" "patients";
     fk "appointments_professional_id_fkey" "professional_id" "professionals"].

Definition audit_logs : TableDef :=
  mkTable "audit_logs"
    [req "action" TString; dflt "created_at" TString; opt_null "details" TString; dflt "id" TString;
     opt_null "ip_address" TString; dflt "log_type" TString; req "resource" TString;
     opt_null "resource_id" TString; dflt "status" TString; req "user_name" TString]
    [].

Definition beds : TableDef :=
  mkTable "beds"
    [req "bed_number" TString; dflt "created_at" TString; req "department" TString;
     dflt "id" TString; dflt "status" TString; dflt "updated_at" TString]
    [].

Definition institution_settings : TableDef :=
  mkTable "institution_settings"
    [opt_null "address" TString; dflt "cnpj" TString; dflt "created_at" TString;
     opt_null "email" TString; dflt "id" TString; dflt "name" TString; opt_null "phone" TString;
     dflt "updated_at" TString]
    [].

Definition medical_record_entries : TableDef :=
  mkTable "medical_record_entries"
    [dflt "created_at" TString; req "description" TString; dflt "entry_date" TString;
     dflt "entry_type" TString; dflt "id" TString; req "medical_record_id" TString;
     opt_null "professional_id" TString]
    [fk "medical_record_entries_medical_record_id_fkey" "medical_record_id" "medical_records";
     fk "medical_record_entries_professional_id_fkey" "professional_id" "professionals"].

Definition medical_records : TableDef :=
  mkTable "medical_records"
    [dflt "created_at" TString; dflt "id" TString; opt_null "notes" TString;
     req "patient_id" TString; opt_null "primary_diagnosis" TString;
     opt_null "primary_professional_id" TString; req "record_number" TString;
     dflt "status" TString; dflt "updated_at" TString]
    [fk "medical_records_patient_id_fkey" "patient_id" "patients";
     fk "medical_records_primary_professional_id_fkey" "primary_professional_id" "professionals"].

Definition patients : TableDef :=
  mkTable "patients"
    [req "birth_date" TString; req "cpf" TString; dflt "created_at" TString;
     opt_null "email" TString; dflt "id" TString; req "name" TString; opt_null "phone" TString;
     dflt "status" TString; dflt "updated_at" TString]
    [].

Definition professionals : TableDef :=
  mkTable "professionals"
    [dflt "created_at" TString; opt_null "email" TString; dflt "id" TString; req "name" TString;
     opt_null "next_available" TString; opt_null "patients_count" TNumber;
     opt_null "phone" TString; opt_null "rating" TNumber; req "registration_number" TString;
     dflt "registration_type" TString; req "specialty" TString; dflt "status" TString;
     dflt "updated_at" TString]
    [].

Definition user_profiles : TableDef :=
  mkTable "user_profiles"
    [opt_null "avatar_url" TString; dflt "created_at" TString; opt_null "email" TString;
     dflt "full_name" TString; dflt "id" TString; opt_null "phone" TString;
     dflt "role" TString; dflt "updated_at" TString]
    [].

Definition user_roles : TableDef :=
  mkTable "user_roles"
    [dflt "created_at" TString; dflt "id" TString; req "role" (TEnum app_role_values);
     req "user_id" TString]
    [].

Definition public_tables : list TableDef :=
  [admissions; appointments; audit_logs; beds; institution_settings; medical_record_entries;
   medical_records; patients; professionals; user_profiles; user_roles].

(** [Tables<"name">]: the table of that name in the default schema. *)
Definition Tables (name : string) : option TableDef :=
  find (fun t => table_name t === name) public_tables.

(** ** Rows, inserts and updates *)

(** A JavaScript object: its own properties in order. *)
Definition Row := list (string * Value).

Fixpoint assoc (k : string) (r : Row) : option Value :=
  match r with
  | [] => None
  | (k', v) :: r' => if k' === k then Some v else assoc k r'
  end.

Definition find_col (t : TableDef) (k : string) : option Column :=
  find (fun c => col_name c === k) (columns t).

(** A value of a column's TypeScript type. *)
Definition has_type (c : Column) (v : Value) : bool :=
  match v, col_ty c with
  | VNull, _ => nullable c
  | VString _, TString => true
  | VString s, TEnum vs => existsb (fun x => x === s) vs
  | VNumber _, TNumber => true
  | VBool _, TBool => true
  | _, _ => false
  end.

Fixpoint nodupb (l : list string) : bool :=
  match l with
  | [] => true
  | x :: xs => negb (existsb (fun y => y === x) xs) && nodupb xs
  end.

(** Every property is a column of the table, with a value of its type, and
    no property is given twice. *)
Definition props_ok (t : TableDef) (r : Row) : bool :=
  forallb (fun kv => match find_col t (fst kv) with
                     | Some c => has_type c (snd kv)
                     | None => false
                     end) r
  && nodupb (map fst r).

(** [Tables<T>]: every column present. *)
Definition row_conforms (t : TableDef) (r : Row) : bool :=
  props_ok t r && forallb (fun c => match assoc (col_name c) r with Some _ => true | None => false end)
                          (columns t).

(** [TablesInsert<T>]: every column without [?] present. *)
Definition insert_conforms (t : TableDef) (r : Row) : bool :=
  props_ok t r && forallb (fun c => insert_optional c || match assoc (col_name c) r with
                                                         | Some _ => true | None => false end)
                          (columns t).

(** [TablesUpdate<T>]: any subset of the columns. *)
Definition update_conforms (t : TableDef) (r : Row) : bool := props_ok t r.

(** [Database["public"]["Functions"]]: the SQL functions, each with the
    object of its [Args] (every argument required) and its [Returns]. *)
Record FunctionDef := mkFun { fn_name : string; fn_args : list Column; fn_returns : ColType }.

Definition public_functions : list FunctionDef :=
  [mkFun "has_role" [mkCol "_role" (TEnum app_role_values) false false; mkCol "_user_id" TString false false] TBool;
   mkFun "is_authenticated" [] TBool].

(** The [Args] of a call conform as an insert into a table whose columns
    are the arguments, none of them optional. *)
Definition args_conform (f : FunctionDef) (args : Row) : bool :=
  insert_conforms (mkTable (fn_name f) (fn_args f) []) args.

(** [Enums<"name">]: the values of an enum of the default schema. *)
Definition Enums (name : string) : option (list string) :=
  if name === "app_role" then Some app_role_values else None.

(** [UPDATE ... SET]: the columns the update names take its values. *)
Definition apply_update (r u : Row) : Row :=
  map (fun kv => (fst kv, match assoc (fst kv) u with Some v => v | None => snd kv end)) r.

(** [INSERT]: the columns the insert leaves out take the table's
    defaults, in column order. *)
Definition complete_insert (t : TableDef) (defaults i : Row) : Row :=
  map (fun c => (col_name c, match assoc (col_name c) i with
                             | Some v => v
                             | None => match assoc (col_name c) defaults with
                                       | Some v => v | None => VNull end
                             end)) (columns t).

(** The column names of a table are distinct. *)
Definition cols_nodup (t : TableDef) : bool := nodupb (map col_name (columns t)).

(** Every foreign key names a column of its table and the [id] of a table
    of the schema. *)
Definition fks_ok (t : TableDef) : bool :=
  forallb (fun f => forallb (fun k => match find_col t k with Some _ => true | None => false end)
                            (fk_columns f)
                    && match Tables (referencedRelation f) with
                       | Some t' => forallb (fun k => match find_col t' k with
                                                      | Some _ => true | None => false end)
                                            (referencedColumns f)
                       | None => false
                       end) (relationships t).

(** Values the table gives the columns an insert leaves out. *)
Definition defaults_conform (t : TableDef) (d : Row) : bool :=
  props_ok t d && forallb (fun c => negb (insert_optional c) || match assoc (col_name c) d with
                                                              | Some _ => true | None => false end)
                          (columns t).

(** ** Lemmas *)

Lemma nodupb_NoDup (l : list string) : nodupb l = true -> NoDup l.
Proof.
  induction l as [|x xs IH]; simpl; [constructor|].
  rewrite andb_true_iff, negb_true_iff, existsb_str_false. intros [Hx Hxs].
  constructor; [exact Hx|apply IH, Hxs].
Qed.

Lemma props_ok_assoc t r k v :
  props_ok t r = true -> assoc k r = Some v ->
  exists c, find_col t k = Some c /\ has_type c v = true.
Proof.
  unfold props_ok. rewrite andb_true_iff, forallb_forall. intros [H _].
  induction r as [|[k' v'] r IH]; simpl; [discriminate|].
  destruct (String.eqb_spec k' k) as [<-|_]; intros E.
  - injection E as <-. specialize (H (k', v') (or_introl eq_refl)). simpl in H.
    destruct (find_col t k'); [eauto|discriminate].
  - apply IH; [intros x Hx; apply H; right; exact Hx|exact E].
Qed.

Lemma props_ok_map_keys t r r' :
  map fst r' = map fst r ->
  (forall k v, In (k, v) r' -> exists c, find_col t k = Some c /\ has_type c v = true) ->
  props_ok t r = true -> props_ok t r' = true.
Proof.
  unfold props_ok. intros Hk Ht. rewrite !andb_true_iff, Hk. intros [_ Hn]. split; [|exact Hn].
  apply forallb_forall. intros [k v] Hin. simpl. destruct (Ht k v Hin) as (c & -> & Hc). exact Hc.
Qed.

Lemma present_iff (k : string) (r : Row) :
  match assoc k r with Some _ => true | None => false end = true <-> In k (map fst r).
Proof.
  induction r as [|[k' v] r IH]; simpl; [split; [discriminate|tauto]|].
  destruct (String.eqb_spec k' k) as [->|Hne]; [split; auto|].
  rewrite IH. split; [auto|intros [E|H]; [congruence|exact H]].
Qed.

Lemma assoc_apply_update k r u :
  assoc k (apply_update r u) =
  option_map (fun v => match assoc k u with Some w => w | None => v end) (assoc k r).
Proof.
  induction r as [|[k' v] r IH]; simpl; [reflexivity|].
  destruct (String.eqb_spec k' k) as [->|_]; [reflexivity|exact IH].
Qed.

Lemma keys_apply_update r u : map fst (apply_update r u) = map fst r.
Proof. unfold apply_update. rewrite map_map. reflexivity. Qed.

Lemma find_col_self t c :
  cols_nodup t = true -> In c (columns t) -> find_col t (col_name c) = Some c.
Proof.
  unfold cols_nodup, find_col. intros Hn. apply nodupb_NoDup in Hn.
  induction (columns t) as [|c' cs IH]; simpl; [tauto|].
  inversion Hn as [|? ? Hc' Hcs]; subst. intros [<-|Hin]; [rewrite String.eqb_refl; reflexivity|].
  destruct (String.eqb_spec (col_name c') (col_name c)) as [E|_]; [|apply IH; assumption].
  exfalso. apply Hc'. rewrite E. apply in_map, Hin.
Qed.

Lemma keys_complete_insert t d i : map fst (complete_insert t d i) = map col_name (columns t).
Proof. unfold complete_insert. rewrite map_map. reflexivity. Qed.

Lemma props_ok_in t r k v :
  props_ok t r = true -> In (k, v) r -> exists c, find_col t k = Some c /\ has_type c v = true.
Proof.
  unfold props_ok. rewrite andb_true_iff, forallb_forall. intros [H _] Hin.
  specialize (H _ Hin). simpl in H. destruct (find_col t k); [eauto|discriminate].
Qed.

Lemma present_true (k : string) (r : Row) :
  match assoc k r with Some _ => true | None => false end = true -> exists v, assoc k r = Some v.
Proof. destruct (assoc k r); [eauto|discriminate]. Qed.

(** ** Updates and inserts keep rows well typed *)

(** An update that conforms to [TablesUpdate<T>], applied to a row
    of [Tables<T>], gives a row of [Tables<T>]: the same columns, each
    with a value of its type. *)
Theorem apply_update_conforms (t : TableDef) (r u : Row) :
  row_conforms t r = true -> update_conforms t u = true ->
  row_conforms t (apply_update r u) = true.
Proof.
  unfold row_conforms, update_conforms. rewrite !andb_true_iff. intros [Hp Hc] Hu. split.
  - apply (props_ok_map_keys t r); [apply keys_apply_update| |exact Hp].
    intros k v Hin. apply in_map_iff in Hin as ([k0 v0] & E & Hin0). simpl in E.
    injection E as <- <-. destruct (props_ok_in _ _ _ _ Hp Hin0) as (c & Hf & Ht).
    destruct (assoc k0 u) as [w|] eqn:Eu; [|eauto].
    destruct (props_ok_assoc _ _ _ _ Hu Eu) as (c' & Hf' & Ht'). rewrite Hf in Hf'.
    injection Hf' as <-. eauto.
  - rewrite forallb_forall in Hc |- *. intros c Hin. rewrite present_iff, keys_apply_update.
    rewrite <- present_iff. apply Hc, Hin.
Qed.

Lemma apply_update_conforms_witness :
  row_conforms beds [("bed_number", VString "101"); ("created_at", VString "2025-01-01");
                     ("department", VString "UTI"); ("id", VString "b1");
                     ("status", VString "Disponível"); ("updated_at", VString "2025-01-01")] = true /\
  update_conforms beds [("status", VString "Ocupado")] = true /\
  row_conforms beds (apply_update [("bed_number", VString "101"); ("created_at", VString "2025-01-01");
                     ("department", VString "UTI"); ("id", VString "b1");
                     ("status", VString "Disponível"); ("updated_at", VString "2025-01-01")]
                     [("status", VString "Ocupado")]) = true.
Proof.
  assert (H1 : row_conforms beds [("bed_number", VString "101"); ("created_at", VString "2025-01-01");
                     ("department", VString "UTI"); ("id", VString "b1");
                     ("status", VString "Disponível"); ("updated_at", VString "2025-01-01")] = true)
    by reflexivity.
  assert (H2 : update_conforms beds [("status", VString "Ocupado")] = true) by reflexivity.
  split; [exact H1|split; [exact H2|]]. apply (apply_update_conforms _ _ _ H1 H2).
Defined.

(** An insert that conforms to [TablesInsert<T>], completed with
    defaults for the columns it may omit, is a row of [Tables<T>]; in
    particular a column without [?] is never filled by a default. *)
Theorem complete_insert_conforms (t : TableDef) (d i : Row) :
  cols_nodup t = true -> insert_conforms t i = true -> defaults_conform t d = true ->
  row_conforms t (complete_insert t d i) = true.
Proof.
  intros Hn. unfold insert_conforms, defaults_conform, row_conforms.
  rewrite !andb_true_iff, !forallb_forall. intros [Hi Hreq] [Hd Hdef].
  split; [unfold props_ok; rewrite andb_true_iff; split|].
  - apply forallb_forall. intros [k v] Hin. unfold complete_insert in Hin.
    apply in_map_iff in Hin as (c & E & Hc). injection E as <- <-. simpl.
    rewrite (find_col_self _ _ Hn Hc).
    destruct (assoc (col_name c) i) as [w|] eqn:Ei.
    + destruct (props_ok_assoc _ _ _ _ Hi Ei) as (c' & Hf & Ht).
      rewrite (find_col_self _ _ Hn Hc) in Hf. injection Hf as <-. exact Ht.
    + specialize (Hreq c Hc). rewrite Ei, orb_false_r in Hreq.
      specialize (Hdef c Hc). rewrite Hreq in Hdef. simpl in Hdef.
      destruct (present_true _ _ Hdef) as [w Ew]. rewrite Ew.
      destruct (props_ok_assoc _ _ _ _ Hd Ew) as (c' & Hf & Ht).
      rewrite (find_col_self _ _ Hn Hc) in Hf. injection Hf as <-. exact Ht.
  - rewrite keys_complete_insert. exact Hn.
  - intros c Hc. rewrite present_iff, keys_complete_insert. apply in_map, Hc.
Qed.

(** The admission the page inserts: bed, patient, condition, diagnosis and
    notes; the database fills in the rest. *)
Definition sample_admission_insert : Row :=
  [("patient_id", VString "p1"); ("bed_id", VString "b1"); ("condition", VString "Estável");
   ("diagnosis", VNull); ("notes", VNull)].

Definition admission_defaults : Row :=
  [("admission_date", VString "2025-01-01"); ("condition", VString "Estável");
   ("created_at", VString "2025-01-01"); ("diagnosis", VNull); ("discharge_date", VNull);
   ("id", VString "a1"); ("notes", VNull); ("professional_id", VNull);
   ("status", VString "Ativa"); ("updated_at", VString "2025-01-01")].

Lemma complete_insert_conforms_witness :
  cols_nodup admissions = true /\ insert_conforms admissions sample_admission_insert = true /\
  defaults_conform admissions admission_defaults = true /\
  row_conforms admissions (complete_insert admissions admission_defaults sample_admission_insert) = true.
Proof.
  assert (H1 : cols_nodup admissions = true) by reflexivity.
  assert (H2 : insert_conforms admissions sample_admission_insert = true) by reflexivity.
  assert (H3 : defaults_conform admissions admission_defaults = true) by reflexivity.
  split; [exact H1|split; [exact H2|split; [exact H3|]]].
  apply (complete_insert_conforms _ _ _ H1 H2 H3).
Defined.

(** The schema is well formed: in every table the column names are
    distinct, every foreign key names a column of its table and the [id]
    of a table of the schema, and [Tables<name>] finds each table by its
    name. *)
Lemma public_schema_well_formed :
  forallb (fun t => cols_nodup t && fks_ok t
                    && match Tables (table_name t) with
                       | Some t' => table_name t' === table_name t | None => false end)
          public_tables = true.
Proof. vm_compute. reflexivity. Qed.

(** [has_role] takes an [app_role] and a user id: a role outside the
    enum, or a missing argument, does not conform. *)
Example has_role_args :
  let f := nth 0 public_functions (mkFun "" [] TBool) in
  args_conform f [("_role", VString "admin"); ("_user_id", VString "u1")] = true /\
  args_conform f [("_role", VString "superuser"); ("_user_id", VString "u1")] = false /\
  args_conform f [("_role", VString "user")] = false /\
  Enums "app_role" = Some ["admin"; "user"].
Proof. vm_compute. repeat split. Qed.

End Schema.
