(* ===== verification/Format.v ===== *)
(** * Input masks: [formatCPF] and [formatPhone]
    (components/dashboard/QuickActions.tsx, pages/Pacientes.tsx)

    Both masks strip the non-digits ([replace(/\D/g, "")]) and then apply a
    chain of [String.prototype.replace] calls with non-global regular
    expressions.  Such a call replaces the leftmost match only; it is
    modelled by [replace_first], which tries an anchored matcher at each
    position from the left.  Each regular expression of the chain is one
    matcher.  The theorems give the masks' result for every number of
    digits, from which follow that a mask keeps the first eleven digits,
    that masking a masked value changes nothing (the [onChange] handlers
    mask the field's current text on every keystroke), and that a
    ten-digit landline gets the mobile layout. *)

From Stdlib Require Import List String Ascii Bool Lia.
From S2P Require Import Prelude.
Import ListNotations.
Open Scope js_scope.
Open Scope char_scope.

Module Format.

(** [\d]. *)
Definition is_digit (c : ascii) : bool :=
  let n := nat_of_ascii c in Nat.leb 48 n && Nat.leb n 57.

(** [value.replace(/\D/g, "")]. *)
Definition digits_only (s : list ascii) : list ascii := filter is_digit s.

(** [s.replace(re, f)] with a non-global [re]: the leftmost position where
    the anchored matcher succeeds is replaced. *)
Fixpoint replace_first (m : list ascii -> option (list ascii * list ascii)) (s : list ascii)
  : list ascii :=
  match m s with
  | Some (out, rest) => out ++ rest
  | None => match s with [] => [] | c :: s' => c :: replace_first m s' end
  end.

Definition all_digits (l : list ascii) : bool := forallb is_digit l.

(** [/(\d{3})(\d)/] with ["$1.$2"]. *)
Definition m_3_1_dot (s : list ascii) : option (list ascii * list ascii) :=
  match s with
  | a :: b :: c :: d :: r => if all_digits [a; b; c; d] then Some ([a; b; c; "."; d], r) else None
  | _ => None
  end.

(** [/(\d{3})(\d{1,2})/] with ["$1-$2"]: the quantifier is greedy. *)
Definition m_3_12_dash (s : list ascii) : option (list ascii * list ascii) :=
  match s with
  | a :: b :: c :: d :: e :: r =>
      if all_digits [a; b; c; d] then
        if is_digit e then Some ([a; b; c; "-"; d; e], r) else Some ([a; b; c; "-"; d], e :: r)
      else None
  | [a; b; c; d] => if all_digits [a; b; c; d] then Some ([a; b; c; "-"; d], []) else None
  | _ => None
  end.

(** [/(-\d{n})\d+?$/] with ["$1"]: a dash, [n] digits, then at least one
    digit up to the end, all dropped. *)
Definition m_dash_tail (n : nat) (s : list ascii) : option (list ascii * list ascii) :=
  match s with
  | c :: r =>
      if Ascii.eqb c "-" && Nat.ltb n (List.length r) && all_digits r
      then Some (c :: firstn n r, []) else None
  | [] => None
  end.

(** [/(\d{2})(\d)/] with ["($1) $2"]. *)
Definition m_2_1_paren (s : list ascii) : option (list ascii * list ascii) :=
  match s with
  | a :: b :: c :: r => if all_digits [a; b; c] then Some (["("; a; b; ")"; " "; c], r) else None
  | _ => None
  end.

(** [/(\d{5})(\d)/] with ["$1-$2"]. *)
Definition m_5_1_dash (s : list ascii) : option (list ascii * list ascii) :=
  match s with
  | a :: b :: c :: d :: e :: f :: r =>
      if all_digits [a; b; c; d; e; f] then Some ([a; b; c; d; e; "-"; f], r) else None
  | _ => None
  end.

Definition formatCPF_chars (s : list ascii) : list ascii :=
  replace_first (m_dash_tail 2)
    (replace_first m_3_12_dash (replace_first m_3_1_dot (replace_first m_3_1_dot (digits_only s)))).

Definition formatPhone_chars (s : list ascii) : list ascii :=
  replace_first (m_dash_tail 4) (replace_first m_5_1_dash (replace_first m_2_1_paren (digits_only s))).

Definition formatCPF (value : string) : string :=
  string_of_list_ascii (formatCPF_chars (list_ascii_of_string value)).

Definition formatPhone (value : string) : string :=
  string_of_list_ascii (formatPhone_chars (list_ascii_of_string value)).

(** ** The masks, for every number of digits *)

(** What [formatCPF] makes of a string of digits. *)
Definition cpf_mask (ds : list ascii) : list ascii :=
  match ds with
  | a :: b :: c :: d :: e :: f :: g :: h :: i :: j :: k :: _ =>
      [a; b; c; "."; d; e; f; "."; g; h; i; "-"; j; k]
  | [a; b; c; d; e; f; g; h; i; j] => [a; b; c; "."; d; e; f; "."; g; h; i; "-"; j]
  | [a; b; c; d; e; f; g; h; i] => [a; b; c; "."; d; e; f; "."; g; h; i]
  | [a; b; c; d; e; f; g; h] => [a; b; c; "."; d; e; f; "."; g; h]
  | [a; b; c; d; e; f; g] => [a; b; c; "."; d; e; f; "."; g]
  | [a; b; c; d; e; f] => [a; b; c; "."; d; e; f]
  | [a; b; c; d; e] => [a; b; c; "."; d; e]
  | [a; b; c; d] => [a; b; c; "."; d]
  | _ => ds
  end.

(** What [formatPhone] makes of a string of digits. *)
Definition phone_mask (ds : list ascii) : list ascii :=
  match ds with
  | a :: b :: c :: d :: e :: f :: g :: h :: i :: j :: k :: _ =>
      ["("; a; b; ")"; " "; c; d; e; f; g; "-"; h; i; j; k]
  | [a; b; c; d; e; f; g; h; i; j] => ["("; a; b; ")"; " "; c; d; e; f; g; "-"; h; i; j]
  | [a; b; c; d; e; f; g; h; i] => ["("; a; b; ")"; " "; c; d; e; f; g; "-"; h; i]
  | [a; b; c; d; e; f; g; h] => ["("; a; b; ")"; " "; c; d; e; f; g; "-"; h]
  | a :: b :: c :: r => ["("; a; b; ")"; " "; c] ++ r
  | _ => ds
  end.

Lemma all_digits_cons c l : all_digits (c :: l) = is_digit c && all_digits l.
Proof. reflexivity. Qed.

Lemma all_digits_filter s : all_digits (digits_only s) = true.
Proof. unfold all_digits, digits_only. apply forallb_forall. intros x Hx. apply filter_In in Hx. tauto. Qed.

Lemma digit_not_dash c : is_digit c = true -> Ascii.eqb c "-" = false.
Proof. intros H. destruct (Ascii.eqb_spec c "-"); [subst; discriminate|reflexivity]. Qed.

Lemma is_digit_punct : is_digit "." = false /\ is_digit "-" = false /\ is_digit "(" = false /\
                       is_digit ")" = false /\ is_digit " " = false.
Proof. repeat split. Qed.

Ltac split_digits :=
  repeat match goal with
  | H : all_digits (_ :: _) = true |- _ => rewrite all_digits_cons, andb_true_iff in H; destruct H
  end.

Ltac eval_masks :=
  repeat (cbn -[is_digit all_digits]; cbn [all_digits forallb];
          repeat match goal with
          | H : is_digit ?x = true |- context [is_digit ?x] => rewrite H
          | H : all_digits ?x = true |- context [all_digits ?x] => rewrite H
          | H : all_digits ?x = true |- context [forallb is_digit ?x] =>
              change (forallb is_digit x) with (all_digits x); rewrite H
          | H : is_digit ?x = true |- context [Ascii.eqb ?x "-"] => rewrite (digit_not_dash x H)
          | |- context [is_digit "."] => rewrite (proj1 is_digit_punct)
          | |- context [is_digit "-"] => rewrite (proj1 (proj2 is_digit_punct))
          | |- context [is_digit "("] => rewrite (proj1 (proj2 (proj2 is_digit_punct)))
          | |- context [is_digit ")"] => rewrite (proj1 (proj2 (proj2 (proj2 is_digit_punct))))
          | |- context [is_digit " "] => rewrite (proj2 (proj2 (proj2 (proj2 is_digit_punct))))
          end).

Lemma formatCPF_chars_digits ds :
  all_digits ds = true ->
  replace_first (m_dash_tail 2)
    (replace_first m_3_12_dash (replace_first m_3_1_dot (replace_first m_3_1_dot ds))) = cpf_mask ds.
Proof.
  intros H.
  destruct ds as [|a [|b [|c [|d [|e [|f [|g [|h [|i [|j [|k r]]]]]]]]]]]; split_digits; eval_masks;
    try reflexivity.
  destruct r as [|x r]; split_digits; eval_masks; reflexivity.
Qed.

Lemma formatPhone_chars_digits ds :
  all_digits ds = true ->
  replace_first (m_dash_tail 4) (replace_first m_5_1_dash (replace_first m_2_1_paren ds)) = phone_mask ds.
Proof.
  intros H.
  destruct ds as [|a [|b [|c [|d [|e [|f [|g [|h [|i [|j [|k r]]]]]]]]]]]; split_digits; eval_masks;
    try reflexivity.
  destruct r as [|x r]; split_digits; eval_masks; reflexivity.
Qed.

Lemma cpf_mask_digits ds : all_digits ds = true -> digits_only (cpf_mask ds) = firstn 11 ds.
Proof.
  intros H. unfold digits_only.
  destruct ds as [|a [|b [|c [|d [|e [|f [|g [|h [|i [|j [|k r]]]]]]]]]]]; split_digits; eval_masks;
    reflexivity.
Qed.

Lemma phone_mask_digits ds : all_digits ds = true -> digits_only (phone_mask ds) = firstn 11 ds.
Proof.
  intros H. unfold digits_only.
  destruct ds as [|a [|b [|c [|d [|e [|f [|g [|h [|i [|j [|k r]]]]]]]]]]]; split_digits; eval_masks;
    reflexivity.
Qed.

Lemma cpf_mask_firstn ds : cpf_mask (firstn 11 ds) = cpf_mask ds.
Proof. destruct ds as [|a [|b [|c [|d [|e [|f [|g [|h [|i [|j [|k r]]]]]]]]]]]; reflexivity. Qed.

Lemma phone_mask_firstn ds : phone_mask (firstn 11 ds) = phone_mask ds.
Proof. destruct ds as [|a [|b [|c [|d [|e [|f [|g [|h [|i [|j [|k r]]]]]]]]]]]; reflexivity. Qed.

Lemma formatCPF_chars_mask s : formatCPF_chars s = cpf_mask (digits_only s).
Proof. apply formatCPF_chars_digits, all_digits_filter. Qed.

Lemma formatPhone_chars_mask s : formatPhone_chars s = phone_mask (digits_only s).
Proof. apply formatPhone_chars_digits, all_digits_filter. Qed.

(** [formatCPF] keeps the first eleven digits of what was typed, in
    the layout ["000.000.000-00"] as far as they go, and masking its own
    result changes nothing, so retyping into the field is stable. *)
Theorem formatCPF_spec (v : string) :
  list_ascii_of_string (formatCPF v) = cpf_mask (firstn 11 (digits_only (list_ascii_of_string v))) /\
  digits_only (list_ascii_of_string (formatCPF v)) = firstn 11 (digits_only (list_ascii_of_string v)) /\
  formatCPF (formatCPF v) = formatCPF v.
Proof.
  unfold formatCPF. rewrite !list_ascii_of_string_of_list_ascii, !formatCPF_chars_mask, cpf_mask_firstn.
  rewrite cpf_mask_digits by apply all_digits_filter. rewrite cpf_mask_firstn. auto.
Qed.

(** [formatPhone] keeps the first eleven digits in the mobile layout
    ["(00) 00000-0000"], is stable under retyping, and gives a ten-digit
    landline the same layout, split after the fifth digit of the number:
    ["(11) 34567-890"] instead of ["(11) 3456-7890"]. *)
Theorem formatPhone_spec (v : string) :
  list_ascii_of_string (formatPhone v) = phone_mask (firstn 11 (digits_only (list_ascii_of_string v))) /\
  formatPhone (formatPhone v) = formatPhone v /\
  formatPhone "1134567890" = "(11) 34567-890"%string.
Proof.
  unfold formatPhone. rewrite !list_ascii_of_string_of_list_ascii, !formatPhone_chars_mask, phone_mask_firstn.
  rewrite phone_mask_digits by apply all_digits_filter. rewrite phone_mask_firstn. auto.
Qed.

End Format.
