(* ===== verification/ErrorHandler.v ===== *)
(** * Error messages (lib/errorHandler.ts)

    [findErrorMessage] lower-cases the error text and returns the message
    of the first entry of [ERROR_PATTERNS] whose pattern it contains, or the
    default message; [handlePatientError] first maps duplicates to the CPF
    message.  [logError] writes to the console only in development.  The
    theorems show that the page never shows the raw error text: the
    result is always one of the fixed messages. *)

From Stdlib Require Import List String Bool.
From S2P Require Import Prelude.
Import ListNotations.
Open Scope js_scope.
Open Scope string_scope.

Module ErrorHandler.

Record ErrorMessageMap := mkPattern { pattern : string; message : string }.

Definition DUPLICATE_MSG : string := "Este registro já existe no sistema.".
Definition RELATED_MSG : string := "Operação não permitida devido a dados relacionados.".
Definition INVALID_MSG : string := "Os dados fornecidos não são válidos.".
Definition PERMISSION_MSG : string := "Você não tem permissão para realizar esta operação.".
Definition CONNECTION_MSG : string := "Erro de conexão. Verifique sua internet e tente novamente.".
Definition TIMEOUT_MSG : string := "A operação demorou muito. Tente novamente.".
Definition NOT_FOUND_MSG : string := "Recurso não encontrado.".
Definition SESSION_MSG : string := "Sessão expirada. Faça login novamente.".

Definition ERROR_PATTERNS : list ErrorMessageMap :=
  [mkPattern "23505" DUPLICATE_MSG; mkPattern "duplicate" DUPLICATE_MSG;
   mkPattern "23503" RELATED_MSG; mkPattern "foreign key" RELATED_MSG;
   mkPattern "23514" INVALID_MSG; mkPattern "check constraint" INVALID_MSG;
   mkPattern "42501" PERMISSION_MSG; mkPattern "policy" PERMISSION_MSG;
   mkPattern "permission" PERMISSION_MSG;
   mkPattern "network" CONNECTION_MSG; mkPattern "fetch" CONNECTION_MSG;
   mkPattern "timeout" TIMEOUT_MSG;
   mkPattern "not found" NOT_FOUND_MSG; mkPattern "404" NOT_FOUND_MSG;
   mkPattern "unauthorized" SESSION_MSG; mkPattern "401" SESSION_MSG].

Definition DEFAULT_ERROR_MESSAGE : string := "Ocorreu um erro. Por favor, tente novamente.".
Definition CPF_DUPLICATE_MESSAGE : string := "CPF já cadastrado no sistema.".

(** The [for ... of] loop with its early [return]. *)
Fixpoint first_match (lower : string) (ps : list ErrorMessageMap) : option string :=
  match ps with
  | [] => None
  | p :: ps' => if includes lower (pattern p) then Some (message p) else first_match lower ps'
  end.

Definition findErrorMessage (errorText : string) : string :=
  match first_match (to_lower errorText) ERROR_PATTERNS with
  | Some m => m
  | None => DEFAULT_ERROR_MESSAGE
  end.

(** What was thrown: an [Error] with its message, or anything else. *)
Inductive Thrown := ThrownError (msg : string) | ThrownOther.

Definition handlePatientError (error : Thrown) : string :=
  match error with
  | ThrownError msg =>
      let m := to_lower msg in
      if includes m "duplicate" || includes m "23505" then CPF_DUPLICATE_MESSAGE
      else findErrorMessage msg
  | ThrownOther => DEFAULT_ERROR_MESSAGE
  end.

(** [logError]: the console lines it writes, given [import.meta.env.DEV]. *)
Definition logError (dev : bool) (context : string) (error : string) : list string :=
  if dev then ["[" ++ context ++ "]: " ++ error] else [].

(** ** The messages shown *)

Definition fixed_messages : list string :=
  CPF_DUPLICATE_MESSAGE :: DEFAULT_ERROR_MESSAGE :: map message ERROR_PATTERNS.

Lemma first_match_in lower ps m : first_match lower ps = Some m -> In m (map message ps).
Proof.
  induction ps as [|p ps IH]; simpl; [discriminate|].
  destruct (includes lower (pattern p)); [intros [= <-]; left; reflexivity|].
  intros H. right. apply IH, H.
Qed.

Lemma findErrorMessage_fixed t : In (findErrorMessage t) fixed_messages.
Proof.
  unfold findErrorMessage. destruct (first_match _ _) as [m|] eqn:E.
  - right. right. apply (first_match_in _ _ _ E).
  - right. left. reflexivity.
Qed.

Lemma handlePatientError_in (e : Thrown) : In (handlePatientError e) fixed_messages.
Proof.
  destruct e as [msg|]; simpl; [|right; left; reflexivity].
  destruct (_ || _); [left; reflexivity|apply findErrorMessage_fixed].
Qed.

(** Whatever was thrown, the toast shows one of the fixed messages of
    [errorHandler.ts], never the error's own text; a message mentioning a
    duplicate or code 23505 always reads "CPF já cadastrado no sistema."
    (also when the duplicate is another column). *)
Theorem handlePatientError_fixed (e : Thrown) :
  In (handlePatientError e) fixed_messages /\
  forall msg, includes (to_lower msg) "duplicate" = true ->
              handlePatientError (ThrownError msg) = CPF_DUPLICATE_MESSAGE.
Proof.
  split; [apply handlePatientError_in|].
  intros msg H. simpl. rewrite H. reflexivity.
Qed.

End ErrorHandler.
