(* ===== verification/Occupancy.v ===== *)
(** * Bed occupancy by department (components/dashboard/BedOccupancy.tsx)

    The dashboard card reads [department, status] of every bed, groups the
    beds by department in a JS [Map] (an association list in insertion
    order), counts the total and the occupied beds of each department, and
    sorts the departments by descending occupancy percentage.  This file
    models the card's pure helpers and its fetch handler, gives the grouping
    an abstract specification ([department_occupancy]) and proves that the
    code refines it, with the counting, ordering and bound properties that
    follow. *)

From Stdlib Require Import List ZArith Lia String Bool Permutation Sorted.
From Stdlib Require Import Morphisms Btauto.
From S2P Require Import Prelude.
Import ListNotations.
Open Scope js_scope.

Module BedOccupancy.

(** ** Data *)

Record DepartmentOccupancy := mkDepartmentOccupancy {
  name : string;
  occupied : Z;
  total : Z
}.

Record Bed := mkBed {
  department : string;
  status : string
}.

Definition OCCUPANCY_THRESHOLDS_HIGH : Z := 80.
Definition OCCUPANCY_THRESHOLDS_CRITICAL : Z := 90.

Definition OCUPADO : string := "Ocupado".

Inductive OccupancyLevel := critical | high | normal.

(** ** Helpers *)

Definition calculateOccupancyPercentage (occupied total : Z) : Z :=
  if (0 <? total)%Z then math_round (occupied * 100) total else 0%Z.

Definition getOccupancyLevel (percentage : Z) : OccupancyLevel :=
  if (OCCUPANCY_THRESHOLDS_CRITICAL <=? percentage)%Z then critical
  else if (OCCUPANCY_THRESHOLDS_HIGH <=? percentage)%Z then high
  else normal.

(** The value type of [departmentMap]: [{ occupied, total }]. *)
Record Counter := mkCounter { c_occupied : Z; c_total : Z }.

Definition DeptMap := list (string * Counter).

(** [Map.prototype.get]. *)
Fixpoint map_get (k : string) (m : DeptMap) : option Counter :=
  match m with
  | [] => None
  | (k', v) :: m' => if k' === k then Some v else map_get k m'
  end.

(** [Map.prototype.set]: an existing key keeps its position, a new key is
    appended. *)
Fixpoint map_set (k : string) (v : Counter) (m : DeptMap) : DeptMap :=
  match m with
  | [] => [(k, v)]
  | (k', v') :: m' => if k' === k then (k', v) :: m' else (k', v') :: map_set k v m'
  end.

(** The body of [beds.forEach]: read the department's counter (or a fresh
    [{ occupied: 0, total: 0 }]), bump it and store it back. *)
Definition count_bed (departmentMap : DeptMap) (bed : Bed) : DeptMap :=
  let existing :=
    match map_get (department bed) departmentMap with
    | Some e => e
    | None => mkCounter 0 0
    end in
  let existing := mkCounter
    (if status bed === OCUPADO then c_occupied existing + 1 else c_occupied existing)%Z
    (c_total existing + 1)%Z in
  map_set (department bed) existing departmentMap.

(** The comparator [(a, b) => percentageB - percentageA]. *)
Definition compare_departments (a b : DepartmentOccupancy) : Z :=
  let percentageA := calculateOccupancyPercentage (occupied a) (total a) in
  let percentageB := calculateOccupancyPercentage (occupied b) (total b) in
  (percentageB - percentageA)%Z.

Definition entry_to_department (e : string * Counter) : DepartmentOccupancy :=
  mkDepartmentOccupancy (fst e) (c_occupied (snd e)) (c_total (snd e)).

Definition groupBedsByDepartment (beds : list Bed) : list DepartmentOccupancy :=
  js_sort compare_departments
    (map entry_to_department (fold_left count_bed beds [])).

Definition getProgressColor (level : OccupancyLevel) : string :=
  match level with
  | critical => "bg-destructive"
  | high => "bg-warning"
  | normal => "bg-success"
  end.

Definition getTextColor (level : OccupancyLevel) : string :=
  match level with
  | critical => "text-destructive font-medium"
  | high => "text-warning font-medium"
  | normal => "text-success font-medium"
  end.

(** What [DepartmentItem] shows for one department. *)
Record DepartmentItemView := mkItemView {
  item_name : string;
  item_occupied : Z;
  item_total : Z;
  item_percentage : Z;
  item_progress_color : string;
  item_text_color : string;
  item_available : Z
}.

Definition DepartmentItem (department : DepartmentOccupancy) : DepartmentItemView :=
  let percentage := calculateOccupancyPercentage (occupied department) (total department) in
  let level := getOccupancyLevel percentage in
  let available := (total department - occupied department)%Z in
  mkItemView (name department) (occupied department) (total department) percentage
             (getProgressColor level) (getTextColor level) available.

(** ** The card's fetch handler and view *)

(** Component state: [departments] and [loading]. *)
Record CardState := mkCardState { departments : list DepartmentOccupancy; loading : bool }.

Definition initial_card : CardState := mkCardState [] true.

(** [fetchBedOccupancy]: on an error the [catch] only logs, so the
    departments keep their value; [finally] clears [loading]. *)
Definition fetchBedOccupancy (st : CardState) (res : Response (list Bed)) : CardState :=
  match error res with
  | Some _ => mkCardState (departments st) false
  | None => mkCardState (groupBedsByDepartment (or_nil (data res))) false
  end.

Inductive CardView :=
  | LoadingSkeleton
  | EmptyState
  | DepartmentList (items : list DepartmentItemView).

Definition render (st : CardState) : CardView :=
  if loading st then LoadingSkeleton
  else match departments st with
       | [] => EmptyState
       | ds => DepartmentList (map DepartmentItem ds)
       end.

(** ** Abstract specification of the grouping *)

Definition in_department (d : string) (b : Bed) : bool := department b === d.
Definition occupied_in (d : string) (b : Bed) : bool :=
  (department b === d) && (status b === OCUPADO).

(** Departments in order of first occurrence. *)
Definition first_seen (beds : list Bed) : list string :=
  fold_left (fun acc b => if existsb (fun d => d === department b) acc then acc
                          else acc ++ [department b]) beds [].

(** What the card promises: one entry per department, in first-seen order
    before sorting, with the number of its beds and of its occupied beds. *)
Definition department_occupancy (beds : list Bed) : list DepartmentOccupancy :=
  map (fun d => mkDepartmentOccupancy d (jlen (filter (occupied_in d) beds))
                                        (jlen (filter (in_department d) beds)))
      (first_seen beds).

Definition percentage_of (d : DepartmentOccupancy) : Z :=
  calculateOccupancyPercentage (occupied d) (total d).

(** The beds of the specification's scenario. *)
Definition spec_scenario_beds : list Bed :=
  [mkBed "UTI" "Ocupado"; mkBed "UTI" "Ocupado";
   mkBed "UTI" "Disponível"; mkBed "Pediatria" "Disponível"].

(** ** The JS [Map] as an association list *)

Section MapLemmas.
Variable f : string -> Counter.

Definition table (ds : list string) : DeptMap := map (fun d => (d, f d)) ds.

Lemma map_get_table k ds :
    map_get k (table ds) = if existsb (fun d => d === k) ds then Some (f k) else None.
  Proof.
    induction ds as [|d ds IH]; simpl; [reflexivity|].
    destruct (String.eqb_spec d k); simpl; [subst; reflexivity|exact IH].
  Qed.

Lemma map_set_table_new k v ds :
    existsb (fun d => d === k) ds = false -> map_set k v (table ds) = table ds ++ [(k, v)].
  Proof.
    induction ds as [|d ds IH]; simpl; [reflexivity|].
    destruct (String.eqb_spec d k); simpl; [discriminate|]. intros H. rewrite IH; auto.
  Qed.

Lemma map_set_table_old k v ds :
    NoDup ds -> existsb (fun d => d === k) ds = true ->
    map_set k v (table ds) = map (fun d => (d, if d === k then v else f d)) ds.
  Proof.
    induction 1 as [|d ds Hnin Hnd IH]; simpl; [discriminate|].
    destruct (String.eqb_spec d k) as [->|Hne]; simpl; intros H.
    - f_equal. apply map_ext_in. intros d Hd.
      destruct (String.eqb_spec d k); [subst; contradiction|reflexivity].
    - f_equal. apply IH, H.
  Qed.
End MapLemmas.

(** ** Facts about the abstract specification *)

Definition counter_of (beds : list Bed) (d : string) : Counter :=
  mkCounter (jlen (filter (occupied_in d) beds)) (jlen (filter (in_department d) beds)).

Definition first_seen_step (acc : list string) (b : Bed) : list string :=
  if existsb (fun d => d === department b) acc then acc else acc ++ [department b].

Lemma first_seen_fold beds : first_seen beds = fold_left first_seen_step beds [].
Proof. reflexivity. Qed.

Lemma first_seen_app pre b :
  first_seen (pre ++ [b]) = first_seen_step (first_seen pre) b.
Proof. rewrite !first_seen_fold, fold_left_app. reflexivity. Qed.

Lemma first_seen_mem_gen beds acc k :
  existsb (fun d => d === k) (fold_left first_seen_step beds acc)
  = existsb (fun d => d === k) acc || existsb (in_department k) beds.
Proof.
  revert acc. induction beds as [|b beds IH]; intros acc; simpl; [now rewrite orb_false_r|].
  rewrite IH. unfold first_seen_step, in_department.
  destruct (existsb (fun d => d === department b) acc) eqn:E.
  - destruct (String.eqb_spec (department b) k) as [<-|]; simpl; [rewrite E|]; btauto.
  - rewrite existsb_app. simpl. btauto.
Qed.

Lemma first_seen_mem beds k :
  existsb (fun d => d === k) (first_seen beds) = existsb (in_department k) beds.
Proof. rewrite first_seen_fold. apply first_seen_mem_gen. Qed.

Lemma first_seen_nodup beds : NoDup (first_seen beds).
Proof.
  rewrite first_seen_fold. generalize (NoDup_nil string).
  generalize (@nil string).
  induction beds as [|b beds IH]; intros acc Hacc; simpl; [exact Hacc|].
  apply IH. unfold first_seen_step. destruct (existsb _ acc) eqn:E; [exact Hacc|].
  apply NoDup_app; [exact Hacc|constructor; [easy|constructor]|].
  intros x Hx [<-|[]]. apply existsb_str_false in E. contradiction.
Qed.

Lemma counter_of_snoc pre b d :
  counter_of (pre ++ [b]) d =
  mkCounter (c_occupied (counter_of pre d) + (if occupied_in d b then 1 else 0))
            (c_total (counter_of pre d) + (if in_department d b then 1 else 0)).
Proof.
  unfold counter_of. simpl. rewrite !filter_app, !jlen_app.
  simpl. destruct (occupied_in d b), (in_department d b); reflexivity.
Qed.

Lemma counter_of_absent pre d :
  existsb (in_department d) pre = false -> counter_of pre d = mkCounter 0 0.
Proof.
  intros H. unfold counter_of.
  rewrite (proj2 (filter_nil_existsb _ _) H).
  rewrite (proj2 (filter_nil_existsb (occupied_in d) pre)); [reflexivity|].
  apply existsb_weaken with (in_department d); [|exact H].
  intros b. unfold occupied_in, in_department. now destruct (department b === d).
Qed.

(** ** The grouping refines its specification *)

Definition spec_map (beds : list Bed) : DeptMap := table (counter_of beds) (first_seen beds).

Lemma count_bed_spec pre b : count_bed (spec_map pre) b = spec_map (pre ++ [b]).
Proof.
  unfold count_bed, spec_map. rewrite map_get_table, first_seen_app. unfold first_seen_step.
  destruct (existsb (fun d => d === department b) (first_seen pre)) eqn:E.
  - rewrite map_set_table_old by auto using first_seen_nodup.
    unfold table. apply map_ext. intros d. f_equal.
    rewrite counter_of_snoc. unfold occupied_in, in_department.
    rewrite (String.eqb_sym (department b) d).
    destruct (String.eqb_spec d (department b)) as [->|]; simpl.
    + destruct (status b === OCUPADO); simpl; f_equal; lia.
    + unfold counter_of. f_equal; lia.
  - rewrite map_set_table_new by exact E. unfold table. rewrite map_app. simpl. f_equal.
    + apply map_ext_in. intros d Hd. f_equal. rewrite counter_of_snoc.
      apply existsb_str_false in E. unfold occupied_in, in_department.
      destruct (String.eqb_spec (department b) d) as [<-|]; [contradiction|].
      unfold counter_of. simpl. f_equal; lia.
    + rewrite counter_of_snoc, counter_of_absent by (rewrite <- first_seen_mem; exact E).
      unfold occupied_in, in_department. rewrite String.eqb_refl. simpl.
      destruct (status b === OCUPADO); reflexivity.
Qed.

Lemma fold_count_bed pre beds :
  fold_left count_bed beds (spec_map pre) = spec_map (pre ++ beds).
Proof.
  revert pre. induction beds as [|b beds IH]; intros pre; simpl.
  - rewrite app_nil_r. reflexivity.
  - rewrite count_bed_spec, IH, <- app_assoc. reflexivity.
Qed.

Lemma groupBedsByDepartment_eq_spec (beds : list Bed) :
  groupBedsByDepartment beds = js_sort (desc_by percentage_of) (department_occupancy beds).
Proof.
  unfold groupBedsByDepartment.
  change (@nil (string * Counter)) with (spec_map []). rewrite fold_count_bed.
  unfold spec_map, table, department_occupancy. rewrite map_map. reflexivity.
Qed.

(** C1: [groupBedsByDepartment] computes, for each department in the order
    of its first bed, the number of its beds and of its occupied beds, and
    sorts these entries by descending percentage: it is the stable sort of
    the specification [department_occupancy]. *)
Theorem groupBedsByDepartment_refines (beds : list Bed) :
  groupBedsByDepartment beds = js_sort (desc_by percentage_of) (department_occupancy beds).
Proof. exact (groupBedsByDepartment_eq_spec beds). Qed.

(** ** Conservation of beds *)

Lemma zsum_map_set (f : Counter -> Z) k v m :
  zsum (fun e => f (snd e)) (map_set k v m) =
  (zsum (fun e => f (snd e)) m + f v
   - match map_get k m with Some o => f o | None => 0 end)%Z.
Proof.
  induction m as [|[k' v'] m IH]; simpl; [lia|].
  destruct (k' === k); simpl; rewrite ?IH; lia.
Qed.

(** Each bed adds [inc b] to the sum of a counter field [f]. *)
Lemma fold_count_bed_sum (f : Counter -> Z) (inc : Bed -> Z) beds m :
  f (mkCounter 0 0) = 0%Z ->
  (forall c b, f (mkCounter (if status b === OCUPADO then c_occupied c + 1 else c_occupied c)
                             (c_total c + 1)) = f c + inc b)%Z ->
  zsum (fun e => f (snd e)) (fold_left count_bed beds m)
  = (zsum (fun e => f (snd e)) m + zsum inc beds)%Z.
Proof.
  intros H0 Hinc. revert m. induction beds as [|b beds IH]; intros m; simpl; [lia|].
  rewrite IH. unfold count_bed. rewrite zsum_map_set, Hinc.
  destruct (map_get (department b) m); rewrite ?H0; lia.
Qed.

Lemma groupBedsByDepartment_sum (f : DepartmentOccupancy -> Z) beds :
  zsum f (groupBedsByDepartment beds)
  = zsum (fun e => f (entry_to_department e)) (fold_left count_bed beds []).
Proof. unfold groupBedsByDepartment. rewrite js_sort_perm, zsum_map. reflexivity. Qed.

Lemma groupBedsByDepartment_total (beds : list Bed) :
  zsum total (groupBedsByDepartment beds) = jlen beds.
Proof.
  rewrite groupBedsByDepartment_sum, <- zsum_one.
  apply (fold_count_bed_sum c_total (fun _ => 1%Z)); reflexivity.
Qed.

(** C2: the departments' totals add up to the number of beds read: the
    grouping neither loses nor duplicates a bed. *)
Theorem groupBedsByDepartment_total_conserved (beds : list Bed) :
  zsum total (groupBedsByDepartment beds) = jlen beds.
Proof.
  rewrite groupBedsByDepartment_sum, <- zsum_one.
  apply (fold_count_bed_sum c_total (fun _ => 1%Z)); reflexivity.
Qed.

(** C3: the departments' occupied counts add up to the number of beds
    whose status is "Ocupado". *)
Theorem groupBedsByDepartment_occupied_conserved (beds : list Bed) :
  zsum occupied (groupBedsByDepartment beds)
  = jlen (filter (fun b => status b === OCUPADO) beds).
Proof.
  rewrite groupBedsByDepartment_sum, <- zsum_indicator.
  rewrite (fold_count_bed_sum c_occupied (fun b => if status b === OCUPADO then 1 else 0)%Z).
  - reflexivity.
  - reflexivity.
  - intros c b. simpl. destruct (status b === OCUPADO); lia.
Qed.

(** ** Order of the departments *)

(** C4: The departments come out by descending occupancy percentage. *)
Theorem groupBedsByDepartment_sorted (beds : list Bed) :
  Sorted (key_ge percentage_of) (groupBedsByDepartment beds).
Proof. rewrite groupBedsByDepartment_eq_spec. apply js_sort_desc_sorted. Qed.

(** Departments with the same percentage keep the order in which
    their first bed was read (the sort is stable, no secondary key). *)
Theorem groupBedsByDepartment_ties_first_seen (beds : list Bed) (p : Z) :
  filter (fun x => percentage_of x =? p)%Z (groupBedsByDepartment beds)
  = filter (fun x => percentage_of x =? p)%Z (department_occupancy beds).
Proof. rewrite groupBedsByDepartment_eq_spec. apply js_sort_desc_stable. Qed.

(** ** Contents of each department entry *)

Lemma in_groupBedsByDepartment beds x :
  In x (groupBedsByDepartment beds) <->
  In (name x) (first_seen beds) /\ x = mkDepartmentOccupancy (name x)
    (jlen (filter (occupied_in (name x)) beds)) (jlen (filter (in_department (name x)) beds)).
Proof.
  rewrite groupBedsByDepartment_eq_spec.
  split; [intros H; apply (Permutation_in _ (js_sort_perm _ _)) in H
         |intros H; apply (Permutation_in _ (Permutation_sym (js_sort_perm _ _)))].
  - unfold department_occupancy in H. apply in_map_iff in H as [d [<- Hd]]. auto.
  - destruct H as [Hd ->]. unfold department_occupancy. apply in_map_iff. eauto.
Qed.

Lemma occupied_in_department d b : occupied_in d b = true -> in_department d b = true.
Proof. unfold occupied_in, in_department. now destruct (department b === d). Qed.

Lemma group_entry (beds : list Bed) (x : DepartmentOccupancy) :
  In x (groupBedsByDepartment beds) ->
  occupied x = jlen (filter (occupied_in (name x)) beds) /\
  total x = jlen (filter (in_department (name x)) beds) /\
  (0 <= occupied x <= total x)%Z /\ (1 <= total x)%Z.
Proof.
  intros H. apply in_groupBedsByDepartment in H as [Hd Hx].
  rewrite Hx. simpl. repeat split; try reflexivity.
  - unfold jlen. lia.
  - apply jlen_filter_mono, occupied_in_department.
  - apply jlen_filter_pos. rewrite <- first_seen_mem. apply existsb_str_true, Hd.
Qed.


(** Every department entry counts exactly the beds of its department
    and the occupied ones among them, so [0 <= occupied <= total] and a
    listed department has at least one bed. *)
Theorem groupBedsByDepartment_entry (beds : list Bed) (x : DepartmentOccupancy) :
  In x (groupBedsByDepartment beds) ->
  occupied x = jlen (filter (occupied_in (name x)) beds) /\
  total x = jlen (filter (in_department (name x)) beds) /\
  (0 <= occupied x <= total x)%Z /\ (1 <= total x)%Z.
Proof. exact (group_entry beds x). Qed.

Lemma groupBedsByDepartment_entry_witness :
  In (mkDepartmentOccupancy "UTI" 2 3) (groupBedsByDepartment spec_scenario_beds) /\
  (occupied (mkDepartmentOccupancy "UTI" 2 3) = jlen (filter (occupied_in "UTI") spec_scenario_beds) /\
   total (mkDepartmentOccupancy "UTI" 2 3) = jlen (filter (in_department "UTI") spec_scenario_beds) /\
   (0 <= occupied (mkDepartmentOccupancy "UTI" 2 3) <= total (mkDepartmentOccupancy "UTI" 2 3))%Z /\
   (1 <= total (mkDepartmentOccupancy "UTI" 2 3))%Z).
Proof.
  assert (H : In (mkDepartmentOccupancy "UTI" 2 3) (groupBedsByDepartment spec_scenario_beds))
    by (vm_compute; left; reflexivity).
  split; [exact H|]. apply (groupBedsByDepartment_entry spec_scenario_beds _ H).
Defined.

(** Each department appears once, and exactly the departments that
    have a bed appear. *)
Theorem groupBedsByDepartment_names (beds : list Bed) :
  NoDup (map name (groupBedsByDepartment beds)) /\
  (forall d, In d (map name (groupBedsByDepartment beds)) <->
             exists b, In b beds /\ department b = d).
Proof.
  assert (Hn : Permutation (map name (groupBedsByDepartment beds)) (first_seen beds)).
  { rewrite groupBedsByDepartment_eq_spec, js_sort_perm. unfold department_occupancy.
    rewrite map_map, map_id. reflexivity. }
  split; [exact (Permutation_NoDup (Permutation_sym Hn) (first_seen_nodup beds))|].
  intros d. rewrite Hn, <- existsb_str_true, first_seen_mem, existsb_exists.
  unfold in_department. split; intros [b [Hb Hd]]; exists b; split; auto.
  - apply String.eqb_eq, Hd.
  - apply String.eqb_eq, Hd.
Qed.

(** Every percentage shown by the card is between 0 and 100. *)
Theorem groupBedsByDepartment_percentage_range (beds : list Bed) (x : DepartmentOccupancy) :
  In x (groupBedsByDepartment beds) -> (0 <= percentage_of x <= 100)%Z.
Proof.
  intros H. apply group_entry in H as (_ & _ & Hle & Ht).
  unfold percentage_of, calculateOccupancyPercentage.
  replace (0 <? total x)%Z with true by lia. apply math_round_range; lia.
Qed.

Lemma groupBedsByDepartment_percentage_range_witness :
  In (mkDepartmentOccupancy "UTI" 2 3) (groupBedsByDepartment spec_scenario_beds) /\
  (0 <= percentage_of (mkDepartmentOccupancy "UTI" 2 3) <= 100)%Z.
Proof.
  assert (H : In (mkDepartmentOccupancy "UTI" 2 3) (groupBedsByDepartment spec_scenario_beds))
    by (vm_compute; left; reflexivity).
  split; [exact H|]. apply (groupBedsByDepartment_percentage_range spec_scenario_beds _ H).
Defined.

(** ** Levels and the card's view *)

(** The level thresholds are fixed: critical from 90%, high from 80%
    up to 89%, normal below 80%. *)
Theorem getOccupancyLevel_thresholds (p : Z) :
  (getOccupancyLevel p = critical <-> (90 <= p)%Z) /\
  (getOccupancyLevel p = high <-> (80 <= p < 90)%Z) /\
  (getOccupancyLevel p = normal <-> (p < 80)%Z).
Proof.
  unfold getOccupancyLevel, OCCUPANCY_THRESHOLDS_CRITICAL, OCCUPANCY_THRESHOLDS_HIGH.
  case_ifs; zbools; repeat split; intros; try discriminate; try reflexivity; lia.
Qed.

Lemma groupBedsByDepartment_nil beds : groupBedsByDepartment beds = [] <-> beds = [].
Proof.
  split; [|intros ->; reflexivity].
  intros H. pose proof (groupBedsByDepartment_total beds) as Ht.
  rewrite H in Ht. destruct beds; [reflexivity|]. unfold jlen in Ht. simpl in Ht. lia.
Qed.

(** After the fetch the skeleton is gone on both paths; a failed
    request leaves the card on its empty state ("Nenhum leito
    cadastrado"), the same view as a hospital without beds. *)
Theorem fetchBedOccupancy_render (res : Response (list Bed)) :
  (error res <> None -> render (fetchBedOccupancy initial_card res) = EmptyState) /\
  (error res = None ->
   (render (fetchBedOccupancy initial_card res) = EmptyState <-> or_nil (data res) = [])).
Proof.
  unfold fetchBedOccupancy, render. destruct (error res) as [e|]; simpl.
  - split; [reflexivity|discriminate].
  - split; [intros []; reflexivity|intros _].
    rewrite <- groupBedsByDepartment_nil.
    destruct (groupBedsByDepartment _); split; congruence.
Qed.

(** The scenario of the specification: UTI 2/3 at 67% before
    Pediatria 0/1 at 0%, both at the normal level. *)
Example groupBedsByDepartment_scenario :
  groupBedsByDepartment spec_scenario_beds =
    [mkDepartmentOccupancy "UTI" 2 3; mkDepartmentOccupancy "Pediatria" 0 1] /\
  map percentage_of (groupBedsByDepartment spec_scenario_beds) = [67%Z; 0%Z] /\
  map (fun x => getOccupancyLevel (percentage_of x)) (groupBedsByDepartment spec_scenario_beds)
    = [normal; normal].
Proof. vm_compute. repeat split. Qed.

End BedOccupancy.
