(* ===== verification/Dashboard.v ===== *)
(** * Dashboard KPI cards (pages/Index.tsx, components/dashboard/StatsCard.tsx)

    [fetchAllStats] issues seven requests with [Promise.all], turns their
    counts into a [DashboardStats] record with [count || 0], and the page
    derives the occupancy percentage and three trend badges from it; the
    [StatsCard] component renders a badge as an arrow, a colour and
    [Math.abs(value)%].  A request is modelled by the response its
    promise resolves with: the query builders of supabase-js resolve
    with an [error] and a null [count] or [data] when the request fails
    (they reject only under [throwOnError], which the page does not
    call), so [Promise.all] never rejects and the [catch] of
    [loadDashboardStats] is never reached by a failed query. *)

From Stdlib Require Import List ZArith Lia String Bool.
From S2P Require Import Prelude.
Import ListNotations.
Open Scope js_scope.

Module Dashboard.

(** ** Data *)

Record DashboardStats := mkStats {
  totalPatients : Z;
  patientsYesterday : Z;
  scheduledAppointments : Z;
  appointmentsLastWeek : Z;
  occupiedBeds : Z;
  totalBeds : Z;
  activeAdmissions : Z;
  admissionsYesterday : Z
}.

(** The page's [Bed] interface: only the status is read. *)
Record Bed := mkBed { status : string }.

Definition INITIAL_STATS : DashboardStats := mkStats 0 0 0 0 0 0 0 0.

Definition MILLISECONDS_PER_DAY : Z := 86400000.

(** [getDateString(daysAgo)]: the UTC calendar day of [Date.now() - daysAgo
    days]; a day is modelled by its number since the epoch, of which the
    ["YYYY-MM-DD"] string is a monotone encoding. *)
Definition getDateString (now daysAgo : Z) : Z :=
  ((now - daysAgo * MILLISECONDS_PER_DAY) / MILLISECONDS_PER_DAY)%Z.

(** ** Helpers *)

Definition calculateTrend (current previous : Z) : Z :=
  if (previous =? 0)%Z then (if (0 <? current)%Z then 100 else 0)%Z
  else math_round ((current - previous) * 100) previous.

Definition calculatePercentage (part total : Z) : Z :=
  if (0 <? total)%Z then math_round (part * 100) total else 0%Z.

Definition OCUPADO : string := "Ocupado".

Definition countOccupiedBeds (beds : list Bed) : Z :=
  jlen (filter (fun bed => status bed === OCUPADO) beds).

(** ** [fetchAllStats] *)

(** The seven results of [Promise.all], in the order of the array. *)
Record RawResults := mkRaw {
  patientsResult : Response unit;
  patientsYesterdayResult : Response unit;
  appointmentsResult : Response unit;
  appointmentsLastWeekResult : Response unit;
  bedsResult : Response (list Bed);
  admissionsResult : Response unit;
  admissionsYesterdayResult : Response unit
}.

Definition count_of {A : Type} (r : Response A) : Z := (count r)||0.

(** The record built from the resolved responses, a failed one counting
    as [0] (and as no bed) through [|| 0] and [|| []]. *)
Definition fetchAllStats (raw : RawResults) : DashboardStats :=
  let beds := or_nil (data (bedsResult raw)) in
  mkStats (count_of (patientsResult raw)) (count_of (patientsYesterdayResult raw))
          (count_of (appointmentsResult raw)) (count_of (appointmentsLastWeekResult raw))
          (countOccupiedBeds beds) (jlen beds)
          (count_of (admissionsResult raw)) (count_of (admissionsYesterdayResult raw)).

(** ** The page *)

Record IndexState := mkIndex { stats : DashboardStats; loading : bool }.

Definition initial_index : IndexState := mkIndex INITIAL_STATS true.

(** [loadDashboardStats]: the awaited stats are set and [finally] clears
    [loading]; the [catch] has nothing to catch, [fetchAllStats] resolving
    whatever the store answers. *)
Definition loadDashboardStats (st : IndexState) (raw : RawResults) : IndexState :=
  mkIndex (fetchAllStats raw) false.

Record Trend := mkTrend { value : Z; label : string }.

Definition occupancyPercentage (s : DashboardStats) : Z :=
  calculatePercentage (occupiedBeds s) (totalBeds s).

Definition patientsTrend (s : DashboardStats) : option Trend :=
  if (0 <? patientsYesterday s)%Z
  then Some (mkTrend (calculateTrend (totalPatients s) (totalPatients s - patientsYesterday s))
                     "novos ontem")
  else None.

Definition appointmentsTrend (s : DashboardStats) : option Trend :=
  if (0 <? appointmentsLastWeek s)%Z
  then Some (mkTrend (calculateTrend (scheduledAppointments s) (appointmentsLastWeek s))
                     "vs semana")
  else None.

Definition admissionsTrend (s : DashboardStats) : option Trend :=
  if (0 <? admissionsYesterday s)%Z
  then Some (mkTrend (admissionsYesterday s) "novas ontem")
  else None.

(** ** [StatsCard] *)

Inductive TrendIcon := TrendingUp | TrendingDown | Minus.

Definition getTrendIcon (trend : option Trend) : option TrendIcon :=
  match trend with
  | None => None
  | Some t => Some (if (0 <? value t)%Z then TrendingUp
                    else if (value t <? 0)%Z then TrendingDown else Minus)
  end.

Definition getTrendColor (trend : option Trend) : string :=
  match trend with
  | None => ""
  | Some t => if (0 <? value t)%Z then "text-success"
              else if (value t <? 0)%Z then "text-destructive" else "text-muted-foreground"
  end.

(** The text of the badge: [{Math.abs(trend.value)}%] then the label. *)
Record TrendBadge := mkBadge { badge_icon : TrendIcon; badge_color : string;
                               badge_percent : Z; badge_label : string }.

Definition trend_badge (trend : option Trend) : option TrendBadge :=
  match trend, getTrendIcon trend with
  | Some t, Some i => Some (mkBadge i (getTrendColor trend) (Z.abs (value t)) (label t))
  | _, _ => None
  end.

Inductive CardVariant := VDefault | VPrimary | VSuccess | VWarning | VInfo.

Definition getIconBg (variant : CardVariant) : string :=
  match variant with
  | VPrimary => "bg-primary-light text-primary"
  | VSuccess => "bg-success-light text-success"
  | VWarning => "bg-warning-light text-warning"
  | VInfo => "bg-info-light text-info"
  | VDefault => "bg-secondary text-secondary-foreground"
  end.

(** The value shown by a card: ["..."] while loading. *)
Inductive CardValue := Ellipsis | Count (n : Z) | Fraction (n d : Z).

Record CardView := mkCard { card_title : string; card_value : CardValue;
                            card_subtitle : option string; card_badge : option TrendBadge;
                            card_icon_bg : string }.

(** The four [StatsCard]s of the page, in order. *)
Definition index_cards (st : IndexState) : list CardView :=
  let s := stats st in
  let shown v := if loading st then Ellipsis else v in
  [ mkCard "Total de Pacientes" (shown (Count (totalPatients s))) None
           (trend_badge (patientsTrend s)) (getIconBg VPrimary);
    mkCard "Consultas Agendadas" (shown (Count (scheduledAppointments s))) None
           (trend_badge (appointmentsTrend s)) (getIconBg VInfo);
    mkCard "Leitos Ocupados" (shown (Fraction (occupiedBeds s) (totalBeds s)))
           (Some (js_string_of_Z (occupancyPercentage s) ++ "% de ocupação")%string) None
           (getIconBg VWarning);
    mkCard "Internações Ativas" (shown (Count (activeAdmissions s))) None
           (trend_badge (admissionsTrend s)) (getIconBg VSuccess) ].

(** ** The trend rule *)

(** C6: [calculateTrend] on every branch: with no previous value it is 100
    when the current value is positive and 0 otherwise (never a division by
    zero); with any other previous value, positive or negative, it is the
    percentage change [100 (c - p) / p] rounded as [Math.round] does, i.e.
    the integer [r] with [r - 1/2 <= 100 (c - p) / p < r + 1/2], written
    here multiplied by [2 p * p > 0]. *)
Theorem calculateTrend_spec (current previous : Z) :
  (previous = 0%Z -> calculateTrend current previous = if (0 <? current)%Z then 100%Z else 0%Z) /\
  (previous <> 0 -> forall r, calculateTrend current previous = r <->
     (2 * r - 1) * (previous * previous) <= 200 * (current - previous) * previous <
     (2 * r + 1) * (previous * previous))%Z.
Proof.
  unfold calculateTrend. split.
  - intros ->. reflexivity.
  - intros Hp r. replace (previous =? 0)%Z with false by lia.
    destruct (proj1 (Z.lt_gt_cases previous 0) Hp) as [Hn|Hn].
    + rewrite math_round_spec_neg by exact Hn. split; intros H; [nia|].
      destruct H as [H1 H2]. split; nia.
    + rewrite math_round_spec by lia. split; intros H; [nia|].
      destruct H as [H1 H2]. split; nia.
Qed.

(** The values of the specification's examples. *)
Example calculateTrend_examples :
  calculateTrend 0 0 = 0%Z /\ calculateTrend 5 0 = 100%Z /\ calculateTrend 10 5 = 100%Z /\
  calculateTrend 5 10 = (-50)%Z /\ calculateTrend 100 90 = 11%Z.
Proof. vm_compute. repeat split. Qed.

Lemma calculateTrend_mono (c1 c2 p : Z) :
  (0 < p -> c1 <= c2 -> calculateTrend c1 p <= calculateTrend c2 p)%Z.
Proof.
  intros Hp Hc. unfold calculateTrend. replace (p =? 0)%Z with false by lia.
  apply math_round_mono; lia.
Qed.

Lemma calculateTrend_same (p : Z) : calculateTrend p p = 0%Z.
Proof.
  unfold calculateTrend. destruct (Z.eqb_spec p 0) as [->|Hp]; [reflexivity|].
  rewrite Z.sub_diag. unfold math_round. rewrite Z.mul_0_l, Z.add_0_l.
  apply Z.div_small_iff; lia.
Qed.

(** Against a positive baseline the trend never points the wrong way:
    it is non-negative when the value grew and non-positive when it fell,
    and it grows with the current value. *)
Theorem calculateTrend_sign (c p : Z) :
  (0 < p)%Z ->
  ((p <= c -> 0 <= calculateTrend c p) /\ (c <= p -> calculateTrend c p <= 0) /\
   (forall c', c <= c' -> calculateTrend c p <= calculateTrend c' p))%Z.
Proof.
  intros Hp. pose proof (calculateTrend_same p) as H0.
  repeat split; intros; rewrite <- ?H0; apply calculateTrend_mono; lia.
Qed.

Lemma calculateTrend_sign_witness :
  (0 < 10)%Z /\ ((10 <= 5 -> 0 <= calculateTrend 5 10) /\ (5 <= 10 -> calculateTrend 5 10 <= 0) /\
   (forall c', 5 <= c' -> calculateTrend 5 10 <= calculateTrend c' 10))%Z.
Proof. split; [lia|]. apply (calculateTrend_sign 5 10). lia. Defined.

(** ** Failure isolation *)

Inductive Slot := SPatients | SPatientsYesterday | SAppointments | SAppointmentsLastWeek
                | SBeds | SAdmissions | SAdmissionsYesterday.

(** A request whose promise resolves with an [error] and no data. *)
Definition failed {A : Type} (e : string) : Response A := mkResponse None None (Some e).

Definition set_slot (k : Slot) (e : string) (raw : RawResults) : RawResults :=
  let 'mkRaw p py a alw b ad ady := raw in
  match k with
  | SPatients => mkRaw (failed e) py a alw b ad ady
  | SPatientsYesterday => mkRaw p (failed e) a alw b ad ady
  | SAppointments => mkRaw p py (failed e) alw b ad ady
  | SAppointmentsLastWeek => mkRaw p py a (failed e) b ad ady
  | SBeds => mkRaw p py a alw (failed e) ad ady
  | SAdmissions => mkRaw p py a alw b (failed e) ady
  | SAdmissionsYesterday => mkRaw p py a alw b ad (failed e)
  end.

(** The figures a request feeds, set to their fallback [0]. *)
Definition zero_slot (k : Slot) (s : DashboardStats) : DashboardStats :=
  let 'mkStats tp py sa alw ob tb aa ay := s in
  match k with
  | SPatients => mkStats 0 py sa alw ob tb aa ay
  | SPatientsYesterday => mkStats tp 0 sa alw ob tb aa ay
  | SAppointments => mkStats tp py 0 alw ob tb aa ay
  | SAppointmentsLastWeek => mkStats tp py sa 0 ob tb aa ay
  | SBeds => mkStats tp py sa alw 0 0 aa ay
  | SAdmissions => mkStats tp py sa alw ob tb 0 ay
  | SAdmissionsYesterday => mkStats tp py sa alw ob tb aa 0
  end.

(** C17: A request that fails zeroes only the figures it feeds: the page
    loads, stops its spinner and shows the other cards with the values
    their requests returned, and the failed figure as [0], the same as an
    empty table, with no message. *)
Theorem loadDashboardStats_error_isolated (st : IndexState) (k : Slot) (e : string) (raw : RawResults) :
  loadDashboardStats st (set_slot k e raw) = mkIndex (zero_slot k (fetchAllStats raw)) false.
Proof. destruct raw. destruct k; reflexivity. Qed.

Definition ok_count (n : Z) : Response unit := mkResponse (Some tt) (Some n) None.

Definition sample_raw : RawResults :=
  mkRaw (ok_count 100) (ok_count 10) (ok_count 7) (ok_count 5)
        (mkResponse (Some [mkBed "Ocupado"; mkBed "Disponível"]) None None)
        (ok_count 1) (ok_count 1).

(** The total count failing while ten patients were created yesterday:
    the patients card shows 0 and a badge of -100%, the trend of 0 over
    a baseline of -10. *)
Example total_failure_badge :
  let st := loadDashboardStats initial_index (set_slot SPatients "timeout" sample_raw) in
  index_cards st = index_cards (mkIndex (mkStats 0 10 7 5 1 2 1 1) false) /\
  trend_badge (patientsTrend (stats st)) = Some (mkBadge TrendingDown "text-destructive" 100 "novos ontem").
Proof. vm_compute. split; reflexivity. Qed.

(** ** The badges *)

(** C7: When some patients were created yesterday, the "novos ontem" badge
    shows the rounded growth of the total over the total without them (not
    the count of new patients): with [Y] new among [T], [Y < T], it is the
    integer nearest to [100 Y / (T - Y)]; when every patient is new it
    shows +100%. *)
Theorem patientsTrend_growth (s : DashboardStats) :
  (0 < patientsYesterday s)%Z ->
  ((patientsYesterday s < totalPatients s)%Z ->
   exists t, patientsTrend s = Some t /\ label t = "novos ontem"%string /\
     (2 * (totalPatients s - patientsYesterday s) * value t - (totalPatients s - patientsYesterday s)
      <= 200 * patientsYesterday s <
      2 * (totalPatients s - patientsYesterday s) * value t + (totalPatients s - patientsYesterday s))%Z) /\
  (patientsYesterday s = totalPatients s ->
   trend_badge (patientsTrend s) = Some (mkBadge TrendingUp "text-success" 100 "novos ontem")).
Proof.
  intros Hy. unfold patientsTrend. replace (0 <? patientsYesterday s)%Z with true by lia. split.
  - intros Hlt. eexists. split; [reflexivity|]. split; [reflexivity|].
    cbn [value]. unfold calculateTrend. replace (totalPatients s - patientsYesterday s =? 0)%Z with false by lia.
    pose proof (proj1 (math_round_spec ((totalPatients s - (totalPatients s - patientsYesterday s)) * 100)
      (totalPatients s - patientsYesterday s) _ ltac:(lia)) eq_refl) as H.
    replace (totalPatients s - (totalPatients s - patientsYesterday s))%Z
      with (patientsYesterday s) in * by ring. lia.
  - intros Heq. rewrite Heq, Z.sub_diag. unfold calculateTrend. simpl.
    replace (0 <? totalPatients s)%Z with true by lia. reflexivity.
Qed.

Lemma patientsTrend_growth_witness :
  (0 < patientsYesterday (mkStats 100 10 0 0 0 0 0 0))%Z /\
  ((patientsYesterday (mkStats 100 10 0 0 0 0 0 0) < totalPatients (mkStats 100 10 0 0 0 0 0 0))%Z ->
   exists t, patientsTrend (mkStats 100 10 0 0 0 0 0 0) = Some t /\ label t = "novos ontem"%string /\
     (2 * (100 - 10) * value t - (100 - 10) <= 200 * 10 < 2 * (100 - 10) * value t + (100 - 10))%Z).
Proof.
  split; [simpl; lia|]. intros H. apply (patientsTrend_growth (mkStats 100 10 0 0 0 0 0 0)); simpl; lia.
Defined.

(** The "novas ontem" badge of the admissions card prints the number
    of admissions of yesterday followed by a percent sign: three new
    admissions read as "3%". *)
Theorem admissionsTrend_count_as_percent (s : DashboardStats) :
  (0 < admissionsYesterday s)%Z ->
  trend_badge (admissionsTrend s)
  = Some (mkBadge TrendingUp "text-success" (admissionsYesterday s) "novas ontem").
Proof.
  intros H. unfold admissionsTrend, trend_badge, getTrendIcon, getTrendColor.
  replace (0 <? admissionsYesterday s)%Z with true by lia. simpl.
  replace (0 <? admissionsYesterday s)%Z with true by lia.
  rewrite Z.abs_eq by lia. reflexivity.
Qed.

Lemma admissionsTrend_count_as_percent_witness :
  trend_badge (admissionsTrend (mkStats 0 0 0 0 0 0 5 3))
  = Some (mkBadge TrendingUp "text-success" 3 "novas ontem").
Proof. apply admissionsTrend_count_as_percent. simpl. lia. Defined.

(** The occupancy subtitle of a loaded page is between 0% and 100%,
    and 0% when no bed was returned. *)
Theorem occupancyPercentage_range (raw : RawResults) :
  let s := fetchAllStats raw in
  (0 <= occupancyPercentage s <= 100)%Z /\ (totalBeds s = 0%Z -> occupancyPercentage s = 0%Z).
Proof.
  intros s. unfold s, occupancyPercentage, calculatePercentage, fetchAllStats, countOccupiedBeds. cbn [occupiedBeds totalBeds].
  set (beds := or_nil (data (bedsResult raw))).
  pose proof (jlen_filter_le (fun bed => status bed === OCUPADO) beds).
  split; [|intros ->; reflexivity].
  destruct (Z.ltb_spec 0 (jlen beds)); [|lia].
  apply math_round_range; [lia|]. split; [|lia]. unfold jlen in *. lia.
Qed.

End Dashboard.
