(* ===== verification/Header.v ===== *)
(** * The header: notification feed and global search (components/layout/Header.tsx)

    [fetchNotifications] runs three queries against the record store
    (today's scheduled appointments, the admissions and the patients of the
    last 24 hours), turns the rows into notifications, sorts them by time,
    most recent first, and keeps ten.  The store's side of each query
    (filter, [ORDER BY], [LIMIT]) is modelled, since what the feed shows
    depends on it.  Times are milliseconds since the epoch; the browser's
    time zone is the offset [off] (local = UTC + off). *)

From Stdlib Require Import List ZArith Lia String Ascii Bool Permutation Sorted.
From S2P Require Import Prelude.
Import ListNotations.
Open Scope js_scope.

Module Notifications.

(** ** Clock *)

Definition MINUTE : Z := 60000.
Definition HOUR : Z := 3600000.
Definition DAY : Z := 86400000.

(** date-fns [differenceInMinutes(a, b)] and [differenceInHours(a, b)]:
    the difference truncated toward zero. *)
Definition differenceInMinutes (a b : Z) : Z := Z.quot (a - b) MINUTE.
Definition differenceInHours (a b : Z) : Z := Z.quot (a - b) HOUR.

(** [format(new Date(), "yyyy-MM-dd")]: the local calendar day, by number. *)
Definition local_day (now off : Z) : Z := ((now + off) / DAY)%Z.

(** [aptTime = new Date(); aptTime.setHours(h, m, 0, 0)]: today at [h:m]
    local time. *)
Definition setHours_today (now off h m : Z) : Z :=
  (now - (now + off) mod DAY + h * HOUR + m * MINUTE)%Z.

(** ** Rows of the record store *)

(** An [appointments] row; [appointment_time] is a [time] column
    ["HH:MM:SS"], kept as its three fields. *)
Record AppointmentRow := mkApt {
  apt_id : string;
  appointment_date : Z;
  appointment_time : Z * Z * Z;
  apt_type : string;
  is_video : bool;
  apt_status : string;
  apt_patient : option string
}.

Record AdmissionRow := mkAdm {
  adm_id : string;
  adm_created_at : Z;
  condition : string;
  adm_status : string;
  adm_patient : option string;
  adm_bed : option (string * string)   (* bed_number, department *)
}.

Record PatientRow := mkPat { pat_id : string; pat_name : string; pat_created_at : Z }.

Record Store := mkStore {
  appointments : list AppointmentRow;
  admissions : list AdmissionRow;
  patients : list PatientRow
}.

Definition AGENDADO : string := "Agendado".
Definition ATIVA : string := "Ativa".
Definition CRITICO : string := "Crítico".

Definition seconds_of_day (t : Z * Z * Z) : Z :=
  let '(h, m, s) := t in (h * 3600 + m * 60 + s)%Z.

(** [.eq("appointment_date", today).eq("status", "Agendado")
     .order("appointment_time", { ascending: true }).limit(5)] *)
Definition query_appointments (db : Store) (today : Z) : list AppointmentRow :=
  firstn 5 (js_sort (asc_by (fun r => seconds_of_day (appointment_time r)))
              (filter (fun r => (appointment_date r =? today)%Z && (apt_status r === AGENDADO))
                      (appointments db))).

(** [.gte("created_at", yesterday).eq("status", "Ativa")
     .order("created_at", { ascending: false }).limit(3)] *)
Definition query_admissions (db : Store) (since : Z) : list AdmissionRow :=
  firstn 3 (js_sort (desc_by adm_created_at)
              (filter (fun r => (since <=? adm_created_at r)%Z && (adm_status r === ATIVA))
                      (admissions db))).

(** [.gte("created_at", yesterday).order("created_at", { ascending: false }).limit(3)] *)
Definition query_patients (db : Store) (since : Z) : list PatientRow :=
  firstn 3 (js_sort (desc_by pat_created_at)
              (filter (fun r => (since <=? pat_created_at r)%Z) (patients db))).

(** ** Notifications *)

Inductive NotifType := NAppointment | NAdmission | NPatient.

Record Notification := mkNotif {
  notif_id : string;
  notif_type : NotifType;
  title : string;
  message : string;
  time : Z;
  variant : string
}.

(** A template literal [`${x}`] of a value that may be [undefined]. *)
Definition tmpl (o : option string) : string :=
  match o with Some s => s | None => "undefined" end.

(** The body of [appointments?.forEach]: push when [0 < minDiff <= 60]. *)
Definition push_appointment (now off : Z) (notifs : list Notification) (apt : AppointmentRow)
  : list Notification :=
  let '(hours, minutes, _) := appointment_time apt in
  let aptTime := setHours_today now off hours minutes in
  let minDiff := differenceInMinutes aptTime now in
  if (0 <? minDiff)%Z && (minDiff <=? 60)%Z then
    notifs ++ [mkNotif ("apt-" ++ apt_id apt) NAppointment
                 (if is_video apt then "Teleconsulta" else apt_type apt)
                 (tmpl (apt_patient apt) ++ " em " ++ js_string_of_Z minDiff ++ " minutos")
                 aptTime
                 (if is_video apt then "info-light" else "primary-light")]
  else notifs.

Definition push_admission (notifs : list Notification) (adm : AdmissionRow) : list Notification :=
  notifs ++ [mkNotif ("adm-" ++ adm_id adm) NAdmission
               (if condition adm === CRITICO then "Internação Urgente" else "Nova Internação")
               (tmpl (adm_patient adm) ++ " - " ++ tmpl (option_map snd (adm_bed adm)) ++
                " (Leito " ++ tmpl (option_map fst (adm_bed adm)) ++ ")")
               (adm_created_at adm)
               (if condition adm === CRITICO then "warning-light" else "success-light")].

Definition push_patient (notifs : list Notification) (p : PatientRow) : list Notification :=
  notifs ++ [mkNotif ("patient-" ++ pat_id p) NPatient "Novo Paciente"
               (pat_name p ++ " foi cadastrado") (pat_created_at p) "success-light"].

(** Which of the three requests fail: a failed request has [data: null] and
    its [?.forEach] does nothing. *)
Record Faults := mkFaults { fail_appointments : bool; fail_admissions : bool; fail_patients : bool }.

Definition no_faults : Faults := mkFaults false false false.

Definition rows_or_nil {A : Type} (failed : bool) (rows : list A) : list A :=
  if failed then [] else rows.

(** The three [forEach] loops of [fetchNotifications], in order. *)
Definition collectNotifications (db : Store) (faults : Faults) (now off : Z) : list Notification :=
  let today := local_day now off in
  let notifs := fold_left (push_appointment now off)
                  (rows_or_nil (fail_appointments faults) (query_appointments db today)) [] in
  let yesterday := (now - 24 * 60 * 60 * 1000)%Z in
  let notifs := fold_left push_admission
                  (rows_or_nil (fail_admissions faults) (query_admissions db yesterday)) notifs in
  fold_left push_patient (rows_or_nil (fail_patients faults) (query_patients db yesterday)) notifs.

(** [notifs.sort((a, b) => b.time - a.time)] then [slice(0, 10)]. *)
Definition buildNotifications (db : Store) (faults : Faults) (now off : Z) : list Notification :=
  firstn 10 (js_sort (desc_by time) (collectNotifications db faults now off)).

(** ** The feed's state and view *)

Record FeedState := mkFeed { notifications : list Notification; loadingNotifications : bool }.

(** [fetchNotifications]: [setLoadingNotifications(true)], the queries, then
    [setNotifications] and, in [finally], [setLoadingNotifications(false)]. *)
Definition fetchNotifications (st : FeedState) (db : Store) (faults : Faults) (now off : Z)
  : FeedState :=
  mkFeed (buildNotifications db faults now off) false.

(** The bell's counter: hidden at 0, ["9+"] above 9. *)
Definition bell_badge (st : FeedState) : option string :=
  let n := List.length (notifications st) in
  if (0 <? n)%nat then Some (if (9 <? n)%nat then "9+"%string else js_string_of_Z (Z.of_nat n))
  else None.

(** [formatNotificationTime], evaluated at render time [now]; the last
    branch is [format(time, "dd/MM")] in local time. *)
Definition formatNotificationTime (now off time : Z) : string :=
  let minDiff := differenceInMinutes now time in
  let hoursDiff := differenceInHours now time in
  if (minDiff <? 1)%Z then "Agora"%string
  else if (minDiff <? 60)%Z then (js_string_of_Z minDiff ++ " min")%string
  else if (hoursDiff <? 24)%Z then (js_string_of_Z hoursDiff ++ "h")%string
  else format_ddMM (time + off).

(** Where a click on a notification leads. *)
Definition notification_route (n : Notification) : string :=
  match notif_type n with
  | NAppointment => "/agendamentos"
  | NAdmission => "/leitos"
  | NPatient => "/pacientes"
  end.

(** ** The feed, pushed row by row *)

Definition apt_time (now off : Z) (apt : AppointmentRow) : Z :=
  let '(h, m, _) := appointment_time apt in setHours_today now off h m.

Definition in_window (now off : Z) (apt : AppointmentRow) : bool :=
  let minDiff := differenceInMinutes (apt_time now off apt) now in
  (0 <? minDiff)%Z && (minDiff <=? 60)%Z.

Definition apt_notif (now off : Z) (apt : AppointmentRow) : Notification :=
  let minDiff := differenceInMinutes (apt_time now off apt) now in
  mkNotif ("apt-" ++ apt_id apt) NAppointment
    (if is_video apt then "Teleconsulta" else apt_type apt)
    (tmpl (apt_patient apt) ++ " em " ++ js_string_of_Z minDiff ++ " minutos")
    (apt_time now off apt)
    (if is_video apt then "info-light" else "primary-light").

Definition is_appointment (n : Notification) : bool :=
  match notif_type n with NAppointment => true | _ => false end.

Lemma push_appointment_eq now off acc apt :
  push_appointment now off acc apt =
  if in_window now off apt then acc ++ [apt_notif now off apt] else acc.
Proof.
  unfold push_appointment, in_window, apt_notif, apt_time.
  destruct (appointment_time apt) as [[h m] sec]. reflexivity.
Qed.

Definition adm_notif (adm : AdmissionRow) : Notification :=
  mkNotif ("adm-" ++ adm_id adm) NAdmission
    (if condition adm === CRITICO then "Internação Urgente" else "Nova Internação")
    (tmpl (adm_patient adm) ++ " - " ++ tmpl (option_map snd (adm_bed adm)) ++
     " (Leito " ++ tmpl (option_map fst (adm_bed adm)) ++ ")")
    (adm_created_at adm)
    (if condition adm === CRITICO then "warning-light" else "success-light").

Definition pat_notif (p : PatientRow) : Notification :=
  mkNotif ("patient-" ++ pat_id p) NPatient "Novo Paciente"
    (pat_name p ++ " foi cadastrado") (pat_created_at p) "success-light".

(** A loop whose body appends [f x] to the accumulator maps [f]. *)
Lemma fold_left_push {A : Type} (step : list Notification -> A -> list Notification)
  (f : A -> Notification) (rows : list A) acc :
  (forall acc r, step acc r = acc ++ [f r]) -> fold_left step rows acc = acc ++ map f rows.
Proof.
  intros Hs. revert acc. induction rows as [|r rows IH]; intros acc; simpl.
  - rewrite app_nil_r. reflexivity.
  - rewrite IH, Hs, <- app_assoc. reflexivity.
Qed.

Lemma fold_push_appointment now off rows acc :
  fold_left (push_appointment now off) rows acc
  = acc ++ map (apt_notif now off) (filter (in_window now off) rows).
Proof.
  revert acc. induction rows as [|r rows IH]; intros acc; simpl; [now rewrite app_nil_r|].
  rewrite IH, push_appointment_eq. destruct (in_window now off r); simpl;
    rewrite <- ?app_assoc; reflexivity.
Qed.

Lemma collectNotifications_eq db faults now off :
  collectNotifications db faults now off =
  map (apt_notif now off)
      (filter (in_window now off)
              (rows_or_nil (fail_appointments faults) (query_appointments db (local_day now off))))
  ++ map adm_notif (rows_or_nil (fail_admissions faults) (query_admissions db (now - DAY)))
  ++ map pat_notif (rows_or_nil (fail_patients faults) (query_patients db (now - DAY))).
Proof.
  unfold collectNotifications. cbv zeta. rewrite fold_push_appointment, app_nil_l.
  rewrite (fold_left_push push_admission adm_notif) by (intros; reflexivity).
  rewrite (fold_left_push push_patient pat_notif) by (intros; reflexivity).
  rewrite <- !app_assoc. reflexivity.
Qed.

Lemma appointment_part db faults now off :
  filter is_appointment (collectNotifications db faults now off) =
  map (apt_notif now off)
      (filter (in_window now off)
              (rows_or_nil (fail_appointments faults) (query_appointments db (local_day now off)))).
Proof.
  rewrite collectNotifications_eq, !filter_app.
  rewrite (proj2 (filter_nil_existsb _ (map adm_notif _))), (proj2 (filter_nil_existsb _ (map pat_notif _)))
    by (apply existsb_map_false; reflexivity).
  rewrite !app_nil_r. remember (filter (in_window now off) _) as L eqn:E. clear E.
  induction L as [|r rs IH]; simpl; [reflexivity|]. rewrite IH. reflexivity.
Qed.

(** C13: the appointment notifications of the feed, before sorting, are
    exactly the rows of the appointments query (today, "Agendado", first
    five by time) whose start is in the window, in query order; a failed
    appointments request contributes none and does not affect the others. *)
Theorem collectNotifications_appointments (db : Store) (faults : Faults) (now off : Z) :
  filter is_appointment (collectNotifications db faults now off) =
  if fail_appointments faults then []
  else map (apt_notif now off) (filter (in_window now off) (query_appointments db (local_day now off))).
Proof.
  rewrite appointment_part. unfold rows_or_nil. destruct (fail_appointments faults); reflexivity.
Qed.

Lemma in_window_iff now off apt :
  in_window now off apt = true <-> (MINUTE <= apt_time now off apt - now < 61 * MINUTE)%Z.
Proof.
  unfold in_window, differenceInMinutes. rewrite andb_true_iff, Z.ltb_lt, Z.leb_le.
  rewrite <- (quot_range_iff _ MINUTE 1 60) by (unfold MINUTE; lia). lia.
Qed.

(** C36: the appointment window: [0 < differenceInMinutes(aptTime, now) <= 60]
    holds exactly when the start is at least one minute and less than
    sixty-one minutes ahead (the minute count is truncated). *)
Theorem in_window_bounds (now off : Z) (apt : AppointmentRow) :
  in_window now off apt = true <-> (MINUTE <= apt_time now off apt - now < 61 * MINUTE)%Z.
Proof. exact (in_window_iff now off apt). Qed.

Definition at_time (h m : Z) : AppointmentRow :=
  mkApt "x" 20000 (h, m, 0%Z) "Consulta" false AGENDADO (Some "Ana"%string).

(** The specification's cases, at 10:00 sharp: an appointment 60
    minutes ahead is notified, one 61 minutes ahead is not, one in the past
    or starting now is not. *)
Example in_window_examples :
  let now := (20000 * DAY + 10 * HOUR)%Z in
  in_window now 0 (at_time 11 0) = true /\ in_window now 0 (at_time 11 1) = false /\
  in_window now 0 (at_time 9 59) = false /\ in_window now 0 (at_time 10 0) = false.
Proof. vm_compute. repeat split. Qed.

(** ** The feed after sorting and truncation *)

Lemma in_buildNotifications db faults now off n :
  In n (buildNotifications db faults now off) -> In n (collectNotifications db faults now off).
Proof.
  unfold buildNotifications. intros H. apply in_firstn in H.
  apply (Permutation_in _ (js_sort_perm _ _) H).
Qed.

Lemma in_collect_appointment db faults now off n :
  In n (collectNotifications db faults now off) -> notif_type n = NAppointment ->
  exists apt, in_window now off apt = true /\ n = apt_notif now off apt.
Proof.
  rewrite collectNotifications_eq. intros H Ht. apply in_app_or in H as [H|H].
  - apply in_map_iff in H as (apt & <- & Ha). apply filter_In in Ha as [_ Hw]. eauto.
  - apply in_app_or in H as [H|H]; apply in_map_iff in H as (r & <- & _); discriminate.
Qed.

(** C12: the bell shows ten notifications, or all of them when fewer
    were collected, most recent first, and they are the latest of all
    that were collected: the feed and the notifications it dropped make
    up the collected ones, and none dropped is later than one shown. *)
Theorem buildNotifications_top10 (db : Store) (faults : Faults) (now off : Z) :
  let fs := buildNotifications db faults now off in
  List.length fs = Nat.min 10 (List.length (collectNotifications db faults now off)) /\ Sorted (key_ge time) fs /\
  exists dropped, Permutation (fs ++ dropped) (collectNotifications db faults now off) /\
    forall x y, In x fs -> In y dropped -> (time y <= time x)%Z.
Proof.
  unfold buildNotifications. set (l := js_sort (desc_by time) _).
  assert (Hs : Sorted (key_ge time) l) by apply js_sort_desc_sorted.
  split; [rewrite length_firstn; unfold l; rewrite (Permutation_length (js_sort_perm _ _)); reflexivity|].
  split; [apply sorted_firstn, Hs|].
  exists (skipn 10 l). split; [rewrite firstn_skipn; apply js_sort_perm|].
  apply sorted_firstn_top, Hs.
Qed.

(** An appointment notification is always labelled "Agora": its time
    is the appointment's start, at least a minute ahead of [now], so
    [differenceInMinutes(now, time)] is not positive and the first branch
    of [formatNotificationTime] is taken. *)
Theorem appointment_label_agora (db : Store) (faults : Faults) (now off : Z) (n : Notification) :
  In n (buildNotifications db faults now off) -> notif_type n = NAppointment ->
  formatNotificationTime now off (time n) = "Agora"%string.
Proof.
  intros H Ht. apply in_buildNotifications in H.
  destruct (in_collect_appointment _ _ _ _ _ H Ht) as (apt & Hw & ->).
  apply in_window_iff in Hw. unfold formatNotificationTime, differenceInMinutes. simpl.
  pose proof (quot_nonpos (now - apt_time now off apt) MINUTE ltac:(lia) ltac:(unfold MINUTE; lia)).
  replace (_ <? 1)%Z with true by lia. reflexivity.
Qed.

Definition sample_now : Z := (20000 * DAY + 10 * HOUR)%Z.

Definition sample_store : Store :=
  mkStore [at_time 10 30] [] [].

Lemma appointment_label_agora_witness :
  In (apt_notif sample_now 0 (at_time 10 30)) (buildNotifications sample_store no_faults sample_now 0) /\
  formatNotificationTime sample_now 0 (time (apt_notif sample_now 0 (at_time 10 30))) = "Agora"%string.
Proof.
  assert (H : In (apt_notif sample_now 0 (at_time 10 30))
                 (buildNotifications sample_store no_faults sample_now 0))
    by (vm_compute; left; reflexivity).
  split; [exact H|]. apply (appointment_label_agora _ _ _ _ _ H). reflexivity.
Defined.

Definition row_at (i : string) (h m : Z) : AppointmentRow :=
  mkApt i 20000 (h, m, 0%Z) "Consulta" false AGENDADO (Some "Ana"%string).

Definition busy_store : Store :=
  mkStore [row_at "1" 8 0; row_at "2" 8 15; row_at "3" 8 30; row_at "4" 8 45;
           row_at "5" 9 0; row_at "6" 10 30] [] [].

(** The appointments query is limited to five rows before the window
    test: with five earlier appointments today, an appointment thirty
    minutes ahead is in the window yet never notified. *)
Example limit_hides_upcoming :
  in_window sample_now 0 (row_at "6" 10 30) = true /\
  filter is_appointment (buildNotifications busy_store no_faults sample_now 0) = [].
Proof. vm_compute. split; reflexivity. Qed.

End Notifications.

Module GlobalSearch.

(** ** Rows read by the search *)

Record PatientRow := mkPatient { p_id : string; p_name : string; p_cpf : string }.
Record ProfessionalRow := mkProfessional { pr_id : string; pr_name : string; pr_specialty : string }.
Record RecordRow := mkRecord { r_id : string; record_number : string; r_patient : option string }.

Record Store := mkStore {
  patients : list PatientRow;
  professionals : list ProfessionalRow;
  medical_records : list RecordRow
}.

Inductive ResultType := Patient | Professional | MedicalRecord.

Record SearchResult := mkResult {
  res_id : string;
  res_name : string;
  res_type : ResultType;
  res_subtitle : option string
}.

(** ** [ILIKE] *)

(** PostgreSQL [s ILIKE p]: [%] matches any sequence, [_] any character,
    other characters match up to case. *)
Fixpoint ilike (s p : string) : bool :=
  match p with
  | EmptyString => match s with EmptyString => true | String _ _ => false end
  | String c p' =>
      if Ascii.eqb c "%"%char then
        (fix any (t : string) : bool :=
           ilike t p' || match t with EmptyString => false | String _ t' => any t' end) s
      else match s with
           | EmptyString => false
           | String d s' =>
               (Ascii.eqb c "_"%char || Ascii.eqb (lower_ascii c) (lower_ascii d)) && ilike s' p'
           end
  end.

(** The pattern [`%${query}%`]. *)
Definition contains_pattern (query : string) : string := ("%" ++ query ++ "%")%string.

(** ** [performSearch] *)

(** [.or(`name.ilike.%q%,cpf.ilike.%q%`).limit(5)] and the two other
    queries; the store returns rows in its own order. *)
Definition search_patients (db : Store) (query : string) : list PatientRow :=
  firstn 5 (filter (fun p => ilike (p_name p) (contains_pattern query)
                             || ilike (p_cpf p) (contains_pattern query)) (patients db)).

Definition search_professionals (db : Store) (query : string) : list ProfessionalRow :=
  firstn 5 (filter (fun p => ilike (pr_name p) (contains_pattern query)
                             || ilike (pr_specialty p) (contains_pattern query)) (professionals db)).

Definition search_records (db : Store) (query : string) : list RecordRow :=
  firstn 5 (filter (fun r => ilike (record_number r) (contains_pattern query)) (medical_records db)).

(** The three [forEach(push)] loops, patients first. *)
Definition performSearch (db : Store) (query : string) : list SearchResult :=
  map (fun p => mkResult (p_id p) (p_name p) Patient (Some (p_cpf p))) (search_patients db query)
  ++ map (fun p => mkResult (pr_id p) (pr_name p) Professional (Some (pr_specialty p)))
         (search_professionals db query)
  ++ map (fun r => mkResult (r_id r) (record_number r) MedicalRecord (r_patient r))
         (search_records db query).

Definition getTypeLabel (t : ResultType) : string :=
  match t with
  | Patient => "Paciente"
  | Professional => "Profissional"
  | MedicalRecord => "Prontuário"
  end.

Definition getTypeVariant (t : ResultType) : string :=
  match t with
  | Patient => "primary-light"
  | Professional => "info-light"
  | MedicalRecord => "success-light"
  end.

Definition result_route (t : ResultType) : string :=
  match t with
  | Patient => "/pacientes"
  | Professional => "/profissionais"
  | MedicalRecord => "/prontuarios"
  end.

(** ** The search box *)

Record SearchState := mkSearch {
  searchOpen : bool;
  searchQuery : string;
  searchResults : list SearchResult;
  searching : bool
}.

Definition initial_search : SearchState := mkSearch false "" [] false.

(** The events the header's JSX wires to the search box. *)
Inductive SearchEvent :=
  | InputChange (v : string)
  | InputFocus
  | ClearClick
  | ResultClick (r : SearchResult)
  | PopoverOpenChange (b : bool).

(** The handlers; [handleResultClick] also navigates to [result_route]. *)
Definition search_step (st : SearchState) (e : SearchEvent) : SearchState :=
  match e with
  | InputChange v =>
      mkSearch (if (1 <=? String.length v)%nat then true else searchOpen st) v
               (searchResults st) (searching st)
  | InputFocus =>
      mkSearch (if (1 <=? String.length (searchQuery st))%nat then true else searchOpen st)
               (searchQuery st) (searchResults st) (searching st)
  | ClearClick => mkSearch (searchOpen st) "" [] (searching st)
  | ResultClick _ => mkSearch false "" (searchResults st) (searching st)
  | PopoverOpenChange b => mkSearch b (searchQuery st) (searchResults st) (searching st)
  end.

Inductive PopoverView := PopoverSpinner | PopoverEmpty | PopoverResults (rs : list SearchResult).

Definition popover_view (st : SearchState) : PopoverView :=
  if searching st then PopoverSpinner
  else match searchResults st with
       | [] => PopoverEmpty
       | rs => PopoverResults rs
       end.

(** ** The search box never shows a result *)

Lemma search_step_results st e :
  searchResults st = [] -> searching st = false ->
  searchResults (search_step st e) = [] /\ searching (search_step st e) = false.
Proof. intros Hr Hs. destruct e; simpl; auto. Qed.

(** C14: no handler of the header calls [performSearch]: whatever the user
    types, focuses or clicks, the results stay empty and the open popover
    always reads "Nenhum resultado encontrado.". *)
Theorem search_popover_always_empty (evs : list SearchEvent) :
  searchResults (fold_left search_step evs initial_search) = [] /\
  popover_view (fold_left search_step evs initial_search) = PopoverEmpty.
Proof.
  assert (H : forall st, searchResults st = [] -> searching st = false ->
            searchResults (fold_left search_step evs st) = [] /\
            searching (fold_left search_step evs st) = false).
  { induction evs as [|e evs IH]; intros st Hr Hs; simpl; [auto|].
    destruct (search_step_results st e Hr Hs). apply IH; assumption. }
  destruct (H initial_search eq_refl eq_refl) as [Hr Hs].
  split; [exact Hr|]. unfold popover_view. rewrite Hs, Hr. reflexivity.
Qed.

(** ** [ILIKE '%q%'] is a case-insensitive substring test *)

Fixpoint any_suffix (f : string -> bool) (s : string) : bool :=
  f s || match s with EmptyString => false | String _ s' => any_suffix f s' end.

Lemma ilike_percent_cons s p :
  ilike s (String "%"%char p) = any_suffix (fun t => ilike t p) s.
Proof. simpl. induction s as [|c s IH]; simpl; [reflexivity|]. rewrite IH. reflexivity. Qed.

Fixpoint wildcard_free (q : string) : bool :=
  match q with
  | EmptyString => true
  | String c q' => negb (Ascii.eqb c "%"%char) && negb (Ascii.eqb c "_"%char) && wildcard_free q'
  end.

Lemma ilike_percent s : ilike s "%" = true.
Proof.
  rewrite ilike_percent_cons. destruct s as [|c s]; simpl; [reflexivity|].
  induction s as [|d s IH]; simpl; [reflexivity|]. exact IH.
Qed.

Lemma ascii_dec_eqb (a b : ascii) :
  (if ascii_dec a b then true else false) = Ascii.eqb a b.
Proof. destruct (ascii_dec a b), (Ascii.eqb_spec a b); congruence. Qed.

Lemma ilike_prefix q t :
  wildcard_free q = true ->
  ilike t (q ++ "%") = String.prefix (to_lower q) (to_lower t).
Proof.
  revert t. induction q as [|c q IH]; intros t Hq.
  - change ("" ++ "%")%string with "%"%string. rewrite ilike_percent. destruct t; reflexivity.
  - simpl. simpl in Hq. apply andb_prop in Hq as [Hc Hq]. apply andb_prop in Hc as [H1 H2].
    apply negb_true_iff in H1, H2. rewrite H1.
    destruct t as [|d t]; simpl; [reflexivity|]. rewrite H2, IH by exact Hq.
    rewrite <- ascii_dec_eqb. destruct (ascii_dec (lower_ascii c) (lower_ascii d)); reflexivity.
Qed.

Lemma includes_to_lower s q :
  includes (to_lower s) (to_lower q) = any_suffix (fun t => String.prefix (to_lower q) (to_lower t)) s.
Proof. induction s as [|c s IH]; simpl; [reflexivity|]. rewrite IH. reflexivity. Qed.

(** For a query without [%] or [_], the row test [ILIKE '%query%']
    is [toLowerCase().includes(query.toLowerCase())]. *)
Theorem ilike_contains (s query : string) :
  wildcard_free query = true ->
  ilike s (contains_pattern query) = includes (to_lower s) (to_lower query).
Proof.
  intros Hq. unfold contains_pattern. simpl (("%" ++ _)%string). rewrite ilike_percent_cons, includes_to_lower.
  induction s as [|c s IH]; simpl; rewrite ilike_prefix by exact Hq; [reflexivity|]. rewrite IH. reflexivity.
Qed.

Lemma ilike_contains_witness :
  wildcard_free "ana" = true /\
  ilike "Mariana" (contains_pattern "ana") = includes (to_lower "Mariana") (to_lower "ana").
Proof. split; [reflexivity|]. apply ilike_contains. reflexivity. Defined.

(** The user's text is not escaped: an underscore in the query matches
    any character, so "1_3" finds the CPF "123.456.789-00". *)
Example ilike_query_wildcard :
  ilike "123.456.789-00" (contains_pattern "1_3") = true /\
  includes "123.456.789-00" "1_3" = false.
Proof. vm_compute. split; reflexivity. Qed.

(** The results are at most five patients, then at most five
    professionals, then at most five medical records, in that order; an
    empty query is not short-circuited and returns the first five rows of
    each table. *)
Theorem performSearch_shape (db : Store) (query : string) :
  (exists a b c, (a <= 5)%nat /\ (b <= 5)%nat /\ (c <= 5)%nat /\
     map res_type (performSearch db query) = repeat Patient a ++ repeat Professional b ++ repeat MedicalRecord c) /\
  (query = EmptyString ->
   performSearch db query =
     map (fun p => mkResult (p_id p) (p_name p) Patient (Some (p_cpf p))) (firstn 5 (patients db))
     ++ map (fun p => mkResult (pr_id p) (pr_name p) Professional (Some (pr_specialty p)))
            (firstn 5 (professionals db))
     ++ map (fun r => mkResult (r_id r) (record_number r) MedicalRecord (r_patient r))
            (firstn 5 (medical_records db))).
Proof.
  split.
  - exists (List.length (search_patients db query)), (List.length (search_professionals db query)),
      (List.length (search_records db query)).
    repeat split.
    + unfold search_patients. rewrite length_firstn. lia.
    + unfold search_professionals. rewrite length_firstn. lia.
    + unfold search_records. rewrite length_firstn. lia.
    + unfold performSearch. rewrite !map_app, !map_map. cbn [res_type].
      rewrite !map_const. reflexivity.
  - intros ->. unfold performSearch, search_patients, search_professionals, search_records.
    assert (Hall : forall t, ilike t (contains_pattern "") = true).
    { intros t. unfold contains_pattern.
      change (("%" ++ "" ++ "%")%string) with (String "%"%char "%"%string).
      rewrite ilike_percent_cons. destruct t; cbn [any_suffix]; rewrite ilike_percent; reflexivity. }
    rewrite !filter_all_true by (intros; rewrite ?Hall; reflexivity). reflexivity.
Qed.

End GlobalSearch.
