(* ===== verification/Toast.v ===== *)
(** * The toast store (hooks/use-toast.ts)

    The module keeps four pieces of global mutable state: [idCounter],
    [memoryState] (the toasts on screen), [toastTimeouts] (one pending
    removal timer per dismissed toast) and [listeners] (the [setState] of
    every mounted [useToast]).  [dispatch] runs the [reducer] and notifies
    the listeners; dismissing a toast schedules its removal, and the timer
    later dispatches [REMOVE_TOAST].  The whole store is the record
    [Global]; user calls and timer expiries are the events of the step
    relation [step], and the invariants are proved over every state it
    reaches from the initial one. *)

From Stdlib Require Import List ZArith Lia String Bool Wf_nat.
From S2P Require Import Prelude.
Import ListNotations.
Open Scope js_scope.

Module ToastStore.

(** ** Data *)

Definition TOAST_LIMIT : nat := 1.
Definition TOAST_REMOVE_DELAY : Z := 1000000.
Definition MAX_SAFE_INTEGER : Z := 9007199254740991.

(** A [ToasterToast]: its id, its content and whether it is open. *)
Record ToasterToast := mkToast {
  id : string;
  title : option string;
  description : option string;
  open : bool
}.

(** A [Partial<ToasterToast>]: [None] is an absent property, [Some v] a
    present one (spreading it overwrites the field). *)
Record PartialToast := mkPartial {
  p_id : option string;
  p_title : option (option string);
  p_description : option (option string);
  p_open : option bool
}.

Inductive Action :=
  | ADD_TOAST (toast : ToasterToast)
  | UPDATE_TOAST (toast : PartialToast)
  | DISMISS_TOAST (toastId : option string)
  | REMOVE_TOAST (toastId : option string).

Record State := mkState { toasts : list ToasterToast }.

Record Global := mkGlobal {
  idCounter : Z;
  memoryState : State;
  toastTimeouts : list string;   (* the keys of the [Map], in insertion order *)
  listeners : list nat           (* the subscribed [setState] functions *)
}.

Definition initial : Global := mkGlobal 0 (mkState []) [] [].

(** ** Operations *)

(** [generateId]: the counter wraps at [Number.MAX_SAFE_INTEGER]. *)
Definition generateId (g : Global) : Global * string :=
  let c := ((idCounter g + 1) mod MAX_SAFE_INTEGER)%Z in
  (mkGlobal c (memoryState g) (toastTimeouts g) (listeners g), js_string_of_Z c).

(** [scheduleToastRemoval]: at most one timer per id. *)
Definition scheduleToastRemoval (timeouts : list string) (toastId : string) : list string :=
  if existsb (fun k => k === toastId) timeouts then timeouts else timeouts ++ [toastId].

Definition handleAddToast (state : State) (toast : ToasterToast) : State :=
  mkState (firstn TOAST_LIMIT (toast :: toasts state)).

(** [{ ...t, ...toast }]. *)
Definition merge (t : ToasterToast) (u : PartialToast) : ToasterToast :=
  mkToast (match p_id u with Some v => v | None => id t end)
          (match p_title u with Some v => v | None => title t end)
          (match p_description u with Some v => v | None => description t end)
          (match p_open u with Some v => v | None => open t end).

(** [t.id === toast.id]: an absent id is [undefined], equal to no string. *)
Definition same_id (t : ToasterToast) (oid : option string) : bool :=
  match oid with Some v => id t === v | None => false end.

Definition handleUpdateToast (state : State) (toast : PartialToast) : State :=
  mkState (map (fun t => if same_id t (p_id toast) then merge t toast else t) (toasts state)).

(** [handleDismissToast] schedules the removals, then closes the toasts.
    [if (toastId)] is JavaScript truthiness: the empty string takes the
    branch of an absent id. *)
Definition handleDismissToast (timeouts : list string) (state : State) (toastId : option string)
  : list string * State :=
  let timeouts :=
    match toastId with
    | Some i => if negb (i === "") then scheduleToastRemoval timeouts i
               else fold_left (fun ts t => scheduleToastRemoval ts (id t)) (toasts state) timeouts
    | None => fold_left (fun ts t => scheduleToastRemoval ts (id t)) (toasts state) timeouts
    end in
  (timeouts,
   mkState (map (fun t => if same_id t toastId || match toastId with None => true | Some _ => false end
                          then mkToast (id t) (title t) (description t) false else t)
                (toasts state))).

Definition handleRemoveToast (state : State) (toastId : option string) : State :=
  match toastId with
  | None => mkState []
  | Some i => mkState (filter (fun t => negb (id t === i)) (toasts state))
  end.

(** [reducer], with the timers it schedules as a side effect. *)
Definition reducer (timeouts : list string) (state : State) (action : Action) : list string * State :=
  match action with
  | ADD_TOAST t => (timeouts, handleAddToast state t)
  | UPDATE_TOAST t => (timeouts, handleUpdateToast state t)
  | DISMISS_TOAST i => handleDismissToast timeouts state i
  | REMOVE_TOAST i => (timeouts, handleRemoveToast state i)
  end.

(** [dispatch]: the listeners are then called with the new state. *)
Definition dispatch (g : Global) (action : Action) : Global :=
  let '(ts, st) := reducer (toastTimeouts g) (memoryState g) action in
  mkGlobal (idCounter g) st ts (listeners g).

(** [toast(props)]: a fresh id, then [ADD_TOAST] of an open toast. *)
Definition toast (g : Global) (t : option string) (d : option string) : Global * string :=
  let '(g, i) := generateId g in
  (dispatch g (ADD_TOAST (mkToast i t d true)), i).

(** The timer set by [scheduleToastRemoval] fires: the id leaves the map
    and [REMOVE_TOAST] is dispatched. *)
Definition fire_timeout (g : Global) (toastId : string) : Global :=
  dispatch (mkGlobal (idCounter g) (memoryState g)
                     (filter (fun k => negb (k === toastId)) (toastTimeouts g)) (listeners g))
           (REMOVE_TOAST (Some toastId)).

(** [useToast]'s effect: [listeners.push(setState)] and its cleanup
    [listeners.splice(listeners.indexOf(setState), 1)]. *)
Fixpoint remove_first (l : nat) (ls : list nat) : list nat :=
  match ls with
  | [] => []
  | x :: xs => if Nat.eqb x l then xs else x :: remove_first l xs
  end.

Definition subscribe (g : Global) (l : nat) : Global :=
  mkGlobal (idCounter g) (memoryState g) (toastTimeouts g) (listeners g ++ [l]).

Definition unsubscribe (g : Global) (l : nat) : Global :=
  mkGlobal (idCounter g) (memoryState g) (toastTimeouts g) (remove_first l (listeners g)).

(** ** Events *)

Inductive Event :=
  | Toast (t d : option string)               (* toast({ title, description }) *)
  | Update (i : string) (props : PartialToast) (* the [update] closure of toast [i] *)
  | Dismiss (i : option string)               (* [dismiss()] of a toast or of useToast *)
  | Timeout (i : string)                      (* a removal timer fires *)
  | Subscribe (l : nat)
  | Unsubscribe (l : nat).

(** The [update] closure sets the id of the toast it belongs to. *)
Definition with_id (props : PartialToast) (i : string) : PartialToast :=
  mkPartial (Some i) (p_title props) (p_description props) (p_open props).

Definition run (g : Global) (e : Event) : Global :=
  match e with
  | Toast t d => fst (toast g t d)
  | Update i props => dispatch g (UPDATE_TOAST (with_id props i))
  | Dismiss i => dispatch g (DISMISS_TOAST i)
  | Timeout i => fire_timeout g i
  | Subscribe l => subscribe g l
  | Unsubscribe l => unsubscribe g l
  end.

(** A timer can only fire when it is pending. *)
Definition enabled (g : Global) (e : Event) : Prop :=
  match e with
  | Timeout i => In i (toastTimeouts g)
  | _ => True
  end.

Inductive step : Global -> Global -> Prop :=
  | step_run g e : enabled g e -> step g (run g e).

Inductive reachable : Global -> Prop :=
  | reach_init : reachable initial
  | reach_step g g' : reachable g -> step g g' -> reachable g'.

End ToastStore.

Module ToastProofs.
Import ToastStore.

(** ** The store invariant *)

(** At most [TOAST_LIMIT] toasts, one timer per id, the counter in range. *)
Definition inv (g : Global) : Prop :=
  (List.length (toasts (memoryState g)) <= TOAST_LIMIT)%nat /\
  NoDup (toastTimeouts g) /\
  (0 <= idCounter g < MAX_SAFE_INTEGER)%Z.

Lemma schedule_nodup ts i : NoDup ts -> NoDup (scheduleToastRemoval ts i).
Proof.
  unfold scheduleToastRemoval. destruct (existsb _ ts) eqn:E; intros Hnd; [exact Hnd|].
  apply existsb_str_false in E. apply NoDup_app; [exact Hnd|repeat constructor; easy|].
  intros x Hx [<-|[]]. contradiction.
Qed.

Lemma schedule_all_nodup ts l :
  NoDup ts -> NoDup (fold_left (fun ts t => scheduleToastRemoval ts (id t)) l ts).
Proof.
  revert ts. induction l as [|t l IH]; intros ts Hnd; simpl; [exact Hnd|].
  apply IH, schedule_nodup, Hnd.
Qed.

Lemma dismiss_nodup ts st i :
  NoDup ts -> NoDup (fst (handleDismissToast ts st i)).
Proof.
  intros Hnd. destruct i as [i|]; simpl; [|apply schedule_all_nodup, Hnd].
  destruct (negb _); [apply schedule_nodup, Hnd|apply schedule_all_nodup, Hnd].
Qed.

Lemma length_filter_le {A : Type} (f : A -> bool) (l : list A) :
  (List.length (filter f l) <= List.length l)%nat.
Proof. induction l as [|x xs IH]; simpl; [lia|]. destruct (f x); simpl; lia. Qed.

Lemma dispatch_dismiss g i :
  dispatch g (DISMISS_TOAST i) =
  let r := handleDismissToast (toastTimeouts g) (memoryState g) i in
  mkGlobal (idCounter g) (snd r) (fst r) (listeners g).
Proof. unfold dispatch, reducer. destruct (handleDismissToast (toastTimeouts g) (memoryState g) i); reflexivity. Qed.

Lemma dispatch_inv g a : inv g -> inv (dispatch g a).
Proof.
  intros (Hl & Hnd & Hc). destruct a as [t|u|i|i].
  - unfold inv; simpl. unfold TOAST_LIMIT; simpl. repeat split; try assumption; lia.
  - unfold inv; simpl. rewrite length_map. repeat split; try assumption; lia.
  - rewrite dispatch_dismiss. unfold inv; simpl.
    rewrite length_map; repeat split; try assumption; try lia. apply dismiss_nodup, Hnd.
  - unfold inv; simpl. repeat split; try assumption; try lia. destruct i as [s|]; simpl; [|lia].
    pose proof (length_filter_le (fun t => negb (id t === s)) (toasts (memoryState g))). lia.
Qed.

Lemma run_inv g e : inv g -> inv (run g e).
Proof.
  intros Hg. destruct e; simpl.
  - apply dispatch_inv. destruct Hg as (Hl & Hnd & Hc). repeat split; simpl; try assumption.
    + apply Z.mod_pos_bound. unfold MAX_SAFE_INTEGER. lia.
    + apply Z.mod_pos_bound. unfold MAX_SAFE_INTEGER. lia.
  - apply dispatch_inv, Hg.
  - apply dispatch_inv, Hg.
  - apply dispatch_inv. destruct Hg as (Hl & Hnd & Hc). repeat split; simpl; try assumption.
    + apply NoDup_filter, Hnd.
    + lia.
    + lia.
  - exact Hg.
  - exact Hg.
Qed.

(** C10: in every reachable state of the store at most one toast is on
    screen ([TOAST_LIMIT]), no id has two removal timers, and the id
    counter stays in [0, Number.MAX_SAFE_INTEGER). *)
Theorem reachable_inv (g : Global) : reachable g -> inv g.
Proof.
  induction 1 as [|g g' _ IH Hs].
  - unfold inv, initial. simpl. repeat split; try lia. constructor.
  - inversion Hs; subst. apply run_inv, IH.
Qed.

Lemma reachable_inv_witness :
  reachable (run initial (Toast (Some "Salvo"%string) None)) /\
  inv (run initial (Toast (Some "Salvo"%string) None)).
Proof.
  assert (H : reachable (run initial (Toast (Some "Salvo"%string) None)))
    by (eapply reach_step; [apply reach_init|constructor; exact I]).
  split; [exact H|]. apply (reachable_inv _ H).
Defined.

(** ** Dismissal and removal *)

Lemma schedule_in ts i : In i (scheduleToastRemoval ts i).
Proof.
  unfold scheduleToastRemoval. destruct (existsb _ ts) eqn:E.
  - apply existsb_str_true, E.
  - apply in_or_app. right. left. reflexivity.
Qed.

Lemma schedule_incl ts i x : In x ts -> In x (scheduleToastRemoval ts i).
Proof. unfold scheduleToastRemoval. destruct (existsb _ ts); [auto|intros; apply in_or_app; auto]. Qed.

Lemma schedule_all_incl ts l x :
  In x ts -> In x (fold_left (fun ts t => scheduleToastRemoval ts (id t)) l ts).
Proof. revert ts. induction l as [|t l IH]; intros ts H; simpl; [exact H|]. apply IH, schedule_incl, H. Qed.

Lemma schedule_all_in ts l t :
  In t l -> In (id t) (fold_left (fun ts t => scheduleToastRemoval ts (id t)) l ts).
Proof.
  revert ts. induction l as [|u l IH]; intros ts Ht; simpl; [destruct Ht|].
  destruct Ht as [<-|H]; [apply schedule_all_incl, schedule_in|apply IH, H].
Qed.

Lemma nonempty_truthy (i : string) : i <> ""%string -> negb (i === "") = true.
Proof. intros H. apply String.eqb_neq in H. rewrite H. reflexivity. Qed.

(** C11: dismissing a toast by its (non-empty) id closes it and arms its
    removal timer; when that timer fires the toast leaves the store, its
    timer leaves [toastTimeouts], and every other toast is kept. *)
Theorem dismiss_then_timeout (g : Global) (i : string) :
  i <> ""%string ->
  let g1 := run g (Dismiss (Some i)) in
  let g2 := run g1 (Timeout i) in
  (forall t, In t (toasts (memoryState g1)) -> id t = i -> open t = false) /\
  enabled g1 (Timeout i) /\
  ~ In i (toastTimeouts g2) /\
  toasts (memoryState g2) = filter (fun t => negb (id t === i)) (toasts (memoryState g1)).
Proof.
  intros Hi g1 g2. subst g1 g2. cbn [run]. rewrite dispatch_dismiss.
  cbn zeta. unfold handleDismissToast. rewrite (nonempty_truthy _ Hi). simpl. split; [|split; [apply schedule_in|split]].
  - intros t Ht Hid. apply in_map_iff in Ht as (u & <- & Hu).
    destruct (id u === i) eqn:E; simpl in *; [reflexivity|].
    apply String.eqb_neq in E. contradiction.
  - rewrite filter_In. intros [_ H]. rewrite String.eqb_refl in H. discriminate.
  - reflexivity.
Qed.

Lemma dismiss_then_timeout_witness :
  ("1"%string <> ""%string) /\
  ~ In "1"%string (toastTimeouts (run (run (run initial (Toast None None)) (Dismiss (Some "1"%string))) (Timeout "1"%string))).
Proof.
  assert (H : "1"%string <> ""%string) by discriminate. split; [exact H|].
  apply (dismiss_then_timeout (run initial (Toast None None)) "1"%string H).
Defined.

(** [dismiss()] with no id arms a removal timer for every toast on
    screen and closes all of them. *)
Theorem dismiss_all (g : Global) :
  let g1 := run g (Dismiss None) in
  (forall t, In t (toasts (memoryState g)) -> In (id t) (toastTimeouts g1)) /\
  (forall t, In t (toasts (memoryState g1)) -> open t = false) /\
  List.length (toasts (memoryState g1)) = List.length (toasts (memoryState g)).
Proof.
  cbn [run]. rewrite dispatch_dismiss. simpl. split; [|split].
  - intros t Ht. apply schedule_all_in, Ht.
  - intros t Ht. apply in_map_iff in Ht as (u & <- & _). reflexivity.
  - apply length_map.
Qed.

(** An [update] closure may close its toast without arming a timer. *)
Definition closing_update (e : Event) : bool :=
  match e with Update _ p => match p_open p with Some false => true | _ => false end | _ => false end.

(** [update({ open: false })] closes the toast but schedules no
    removal: from the initial store, after one toast and that update, the
    closed toast is still in memory and no timer is pending, so no step
    removes it until the next toast evicts it. *)
Example update_close_lingers :
  let g := run (run initial (Toast (Some "Erro"%string) None))
               (Update "1"%string (mkPartial None None None (Some false))) in
  toasts (memoryState g) = [mkToast "1" (Some "Erro"%string) None false] /\
  toastTimeouts g = [] /\
  (forall i, ~ enabled g (Timeout i)).
Proof. vm_compute. split; [reflexivity|split; [reflexivity|intros i []]]. Qed.

(** ** Identifiers *)

(** The ids handed out by [n] successive [toast()] calls. *)
Fixpoint toast_ids (g : Global) (n : nat) : list string :=
  match n with
  | O => []
  | S n => let '(g', i) := toast g None None in i :: toast_ids g' n
  end.

Lemma toast_counter g t d : idCounter (fst (toast g t d)) = ((idCounter g + 1) mod MAX_SAFE_INTEGER)%Z.
Proof. reflexivity. Qed.

Lemma toast_ids_eq g n :
  toast_ids g n =
  map (fun k => js_string_of_Z ((idCounter g + Z.of_nat k) mod MAX_SAFE_INTEGER)) (seq 1 n).
Proof.
  revert g. induction n as [|n IH]; intros g; [reflexivity|].
  cbn [toast_ids]. destruct (toast g None None) as [g' i] eqn:E.
  assert (Hc : idCounter g' = ((idCounter g + 1) mod MAX_SAFE_INTEGER)%Z)
    by (rewrite <- (toast_counter g None None), E; reflexivity).
  assert (Hi : i = js_string_of_Z ((idCounter g + 1) mod MAX_SAFE_INTEGER)%Z)
    by (unfold toast in E; simpl in E; congruence).
  rewrite IH, Hc, Hi. cbn [seq map]. rewrite <- (seq_shift n 1), map_map. f_equal. apply map_ext. intros k.
  f_equal. rewrite Zplus_mod_idemp_l. f_equal. lia.
Qed.

(** The ids of successive [toast()] calls are pairwise distinct as
    long as fewer than [Number.MAX_SAFE_INTEGER] of them are generated;
    the counter wraps only after that many. *)
Theorem toast_ids_distinct (g : Global) (n : nat) :
  (Z.of_nat n <= MAX_SAFE_INTEGER)%Z -> NoDup (toast_ids g n).
Proof.
  intros Hn. rewrite toast_ids_eq. apply NoDup_map_on; [|apply seq_NoDup].
  intros a b Ha Hb E. apply in_seq in Ha, Hb. apply js_string_of_Z_inj in E.
  replace (idCounter g + Z.of_nat a)%Z with (idCounter g + 1 + (Z.of_nat a - 1))%Z in E by lia.
  replace (idCounter g + Z.of_nat b)%Z with (idCounter g + 1 + (Z.of_nat b - 1))%Z in E by lia.
  apply mod_add_inj in E; unfold MAX_SAFE_INTEGER in *; lia.
Qed.

Lemma toast_ids_distinct_witness :
  (Z.of_nat 3 <= MAX_SAFE_INTEGER)%Z /\ NoDup (toast_ids initial 3).
Proof.
  assert (H : (Z.of_nat 3 <= MAX_SAFE_INTEGER)%Z) by (unfold MAX_SAFE_INTEGER; lia).
  split; [exact H|]. apply (toast_ids_distinct initial 3 H).
Defined.

(** ** Listeners *)

Lemma remove_first_app_notin (l : nat) (ls : list nat) :
  ~ In l ls -> remove_first l (ls ++ [l]) = ls.
Proof.
  induction ls as [|x xs IH]; intros Hn; simpl; [rewrite Nat.eqb_refl; reflexivity|].
  destruct (Nat.eqb_spec x l) as [->|Hx]; [destruct Hn; left; reflexivity|].
  rewrite IH; [reflexivity|]. intros H. apply Hn. right. exact H.
Qed.

(** The cleanup of [useToast]'s effect undoes its subscription: a
    listener not yet registered, pushed and then spliced out, leaves the
    store exactly as it was. *)
Theorem subscribe_unsubscribe (g : Global) (l : nat) :
  ~ In l (listeners g) -> unsubscribe (subscribe g l) l = g.
Proof.
  intros Hn. unfold unsubscribe, subscribe. simpl. rewrite remove_first_app_notin by exact Hn.
  destruct g; reflexivity.
Qed.

Lemma subscribe_unsubscribe_witness :
  ~ In 7 (listeners (subscribe initial 3)) /\
  unsubscribe (subscribe (subscribe initial 3) 7) 7 = subscribe initial 3.
Proof.
  assert (H : ~ In 7 (listeners (subscribe initial 3))) by (simpl; lia).
  split; [exact H|]. apply (subscribe_unsubscribe _ 7 H).
Defined.

(** ** The timers run out *)

(** A pending removal timer fires, with no other event in between. *)
Definition timer_step (g' g : Global) : Prop :=
  exists i, In i (toastTimeouts g) /\ g' = fire_timeout g i.

Lemma fire_timeout_timeouts (g : Global) (i : string) :
  toastTimeouts (fire_timeout g i) = filter (fun k => negb (k === i)) (toastTimeouts g).
Proof. reflexivity. Qed.

(** C38: Left alone, the store's timers stop: every chain of removal timers
    firing one after the other is finite, since each one deletes its key
    from [toastTimeouts] and no timer is armed without a [dismiss]. *)
Theorem timers_terminate : well_founded timer_step.
Proof.
  apply (well_founded_lt_compat _ (fun g => List.length (toastTimeouts g))).
  intros g' g (i & Hi & ->). rewrite fire_timeout_timeouts. apply filter_remove_length, Hi.
Qed.

End ToastProofs.
