(* ===== verification/Leitos.v ===== *)
(** * The beds page (pages/Leitos.tsx)

    The page reads the beds and the active admissions, joins them (each bed
    with the first active admission on it), filters the list by department
    and status, counts the figures of the four cards and the per-department
    panel, and writes the record store in two places: an admission is an
    insert into [admissions] followed by an update of the bed to
    ["Ocupado"], a discharge an update of the admission to ["Alta"]
    followed by an update of the bed to ["Disponível"].  The two writes of
    each are separate requests, so either may fail after the other
    succeeded.  The store is the record [DB]; each mutation takes the
    outcome of its two requests as a [Faults] argument.  A mutation's
    [onSuccess] invalidates the two queries; their refetches answer later,
    each as an event of its own, and a failed one leaves the cached list
    as it was, so the lists on screen can lag behind the store. *)

From Stdlib Require Import List ZArith Lia String Bool Permutation.
From S2P Require Import Prelude Schema.
Import ListNotations.
Open Scope js_scope.
Open Scope string_scope.

Module Leitos.

(** ** Data *)

Definition conditions : list string := ["Crítico"; "Estável"; "Recuperação"].
Definition departments : list string :=
  ["UTI"; "Enfermaria A"; "Enfermaria B"; "Pediatria"; "Maternidade"; "Centro Cirúrgico"].

Definition OCUPADO : string := "Ocupado".
Definition DISPONIVEL : string := "Disponível".
Definition MANUTENCAO : string := "Manutenção".
Definition CRITICO : string := "Crítico".
Definition ATIVA : string := "Ativa".
Definition ALTA : string := "Alta".

Record Bed := mkBed { bed_id : string; bed_number : string; department : string; status : string }.

(** An [admissions] row with the names of its patient and professional. *)
Record Admission := mkAdmission {
  adm_id : string;
  patient_id : string;
  adm_bed_id : string;
  professional_id : option string;
  admission_date : string;
  discharge_date : option string;
  condition : string;
  diagnosis : option string;
  notes : option string;
  adm_status : string;
  patient : option string;
  professional : option string
}.

Record BedWithAdmission := mkBWA { bwa_bed : Bed; admission : option Admission }.

Definition getConditionVariant (c : option string) : string :=
  match c with
  | Some "Crítico" => "destructive-light"
  | Some "Estável" => "success-light"
  | Some "Recuperação" => "info-light"
  | _ => "secondary"
  end.

Definition getBedStatusVariant (s : string) : string :=
  match s with
  | "Ocupado" => "primary-light"
  | "Disponível" => "success-light"
  | "Manutenção" => "warning-light"
  | _ => "secondary"
  end.

(** ** The record store and its requests *)

Record DB := mkDB { db_beds : list Bed; db_admissions : list Admission }.

(** [.from("beds").select("*").order("bed_number")] *)
Definition query_beds (db : DB) : list Bed :=
  js_sort (fun a b => if String.ltb (bed_number a) (bed_number b) then (-1)%Z
                      else if bed_number a === bed_number b then 0%Z else 1%Z) (db_beds db).

(** [.from("admissions").select(...).eq("status", "Ativa")] *)
Definition query_active_admissions (db : DB) : list Admission :=
  filter (fun a => adm_status a === ATIVA) (db_admissions db).

(** [.from("beds").update({ status }).eq("id", id)] *)
Definition update_bed_status (db : DB) (id s : string) : DB :=
  mkDB (map (fun b => if bed_id b === id then mkBed (bed_id b) (bed_number b) (department b) s else b)
            (db_beds db))
       (db_admissions db).

(** [.from("admissions").update({ status: "Alta", discharge_date }).eq("id", id)] *)
Definition discharge_admission (db : DB) (id today : string) : DB :=
  mkDB (db_beds db)
       (map (fun a => if adm_id a === id then
                        mkAdmission (adm_id a) (patient_id a) (adm_bed_id a) (professional_id a)
                          (admission_date a) (Some today) (condition a) (diagnosis a) (notes a)
                          ALTA (patient a) (professional a)
                      else a) (db_admissions db)).

(** ** The admission form *)

Record FormData := mkForm {
  f_patient_id : string;
  f_bed_id : string;
  f_professional_id : string;
  f_condition : string;
  f_diagnosis : string;
  f_notes : string
}.

Definition empty_form : FormData := mkForm "" "" "" "Estável" "" "".

(** [s || null]: the empty string is falsy. *)
Definition or_null (s : string) : option string := if s === "" then None else Some s.

(** The object passed to [.from("admissions").insert(...)]. *)
Definition admission_insert (data : FormData) : Schema.Row :=
  let v o := match o with Some s => Schema.VString s | None => Schema.VNull end in
  [("patient_id", Schema.VString (f_patient_id data)); ("bed_id", Schema.VString (f_bed_id data));
   ("professional_id", v (or_null (f_professional_id data)));
   ("condition", Schema.VString (f_condition data));
   ("diagnosis", v (or_null (f_diagnosis data))); ("notes", v (or_null (f_notes data)))].

(** The row the store adds for that insert: a fresh id, today's date and
    the column default ["Ativa"] of [status]. *)
Definition insert_admission (db : DB) (new_id today : string) (data : FormData) (names : option string * option string)
  : DB :=
  mkDB (db_beds db)
       (db_admissions db ++
        [mkAdmission new_id (f_patient_id data) (f_bed_id data) (or_null (f_professional_id data))
           today None (f_condition data) (or_null (f_diagnosis data)) (or_null (f_notes data))
           ATIVA (fst names) (snd names)]).

(** Which of the two requests of a mutation fail. *)
Record Faults := mkFaults { fail_first : bool; fail_second : bool; error_message : string }.

Definition no_faults : Faults := mkFaults false false "".

Inductive Outcome := Success | Failure (message : string).

(** [createAdmission.mutationFn]: the insert, then the bed update; an
    error of either throws, and the first write is not undone. *)
Definition createAdmission (db : DB) (f : Faults) (new_id today : string)
  (names : option string * option string) (data : FormData) : DB * Outcome :=
  if fail_first f then (db, Failure (error_message f))
  else let db1 := insert_admission db new_id today data names in
       if fail_second f then (db1, Failure (error_message f))
       else (update_bed_status db1 (f_bed_id data) OCUPADO, Success).

(** [dischargePatient.mutationFn]. *)
Definition dischargePatient (db : DB) (f : Faults) (today admissionId bedId : string) : DB * Outcome :=
  if fail_first f then (db, Failure (error_message f))
  else let db1 := discharge_admission db admissionId today in
       if fail_second f then (db1, Failure (error_message f))
       else (update_bed_status db1 bedId DISPONIVEL, Success).

(** [handleSubmit]: both required fields, else an error toast. *)
Definition handleSubmit (data : FormData) : bool :=
  negb (f_patient_id data === "") && negb (f_bed_id data === "").

(** ** The page *)

(** The page's state: the dialogs, the filters, the form, and the query
    cache ([beds] and [admissions] as last fetched). *)
Record Page := mkPage {
  isDialogOpen : bool;
  isDetailsOpen : bool;
  selectedBed : option BedWithAdmission;
  departmentFilter : string;
  statusFilter : string;
  formData : FormData;
  cache_beds : list Bed;
  cache_admissions : list Admission;
  toasts : list string
}.

(** The answer of a refetch of the [["beds"]] query, started by
    [invalidateQueries] or by React Query's refetch on window focus: the
    store's beds as the request finds them, or, when it fails, the data
    already cached, which React Query keeps. *)
Definition refetch_beds (p : Page) (db : DB) (ok : bool) : Page :=
  if ok then mkPage (isDialogOpen p) (isDetailsOpen p) (selectedBed p) (departmentFilter p) (statusFilter p)
                    (formData p) (query_beds db) (cache_admissions p) (toasts p)
  else p.

(** The same for the [["admissions", "active"]] query. *)
Definition refetch_admissions (p : Page) (db : DB) (ok : bool) : Page :=
  if ok then mkPage (isDialogOpen p) (isDetailsOpen p) (selectedBed p) (departmentFilter p) (statusFilter p)
                    (formData p) (cache_beds p) (query_active_admissions db) (toasts p)
  else p.

Definition initial_page (db : DB) : Page :=
  mkPage false false None "all" "all" empty_form (query_beds db) (query_active_admissions db) [].

Definition clearFilters (p : Page) : Page :=
  mkPage (isDialogOpen p) (isDetailsOpen p) (selectedBed p) "all" "all" (formData p)
         (cache_beds p) (cache_admissions p) (toasts p).

Definition hasActiveFilters (p : Page) : bool :=
  negb (departmentFilter p === "all") || negb (statusFilter p === "all").

(** The number on the filter button. *)
Definition active_filter_count (p : Page) : Z :=
  jlen (filter (fun v => negb (v === "all")) [departmentFilter p; statusFilter p]).

(** [beds.map(bed => ({ ...bed, admission: admissions.find(a => a.bed_id === bed.id) }))] *)
Definition bedsWithAdmissions (beds : list Bed) (admissions : list Admission) : list BedWithAdmission :=
  map (fun b => mkBWA b (find (fun a => adm_bed_id a === bed_id b) admissions)) beds.

Definition filteredBeds (p : Page) : list BedWithAdmission :=
  filter (fun bw => negb (negb (departmentFilter p === "all") && negb (department (bwa_bed bw) === departmentFilter p))
                    && negb (negb (statusFilter p === "all") && negb (status (bwa_bed bw) === statusFilter p)))
         (bedsWithAdmissions (cache_beds p) (cache_admissions p)).

(** The beds the admission form offers. *)
Definition availableBeds (beds : list Bed) : list Bed :=
  filter (fun b => status b === DISPONIVEL) beds.

Record Stats := mkStats { totalBeds : Z; occupiedBeds : Z; availableBedCount : Z; criticalPatients : Z }.

Definition stats (beds : list Bed) (admissions : list Admission) : Stats :=
  mkStats (jlen beds) (jlen (filter (fun b => status b === OCUPADO) beds))
          (jlen (filter (fun b => status b === DISPONIVEL) beds))
          (jlen (filter (fun a => condition a === CRITICO) admissions)).

Record DeptStat := mkDeptStat {
  ds_name : string; ds_total : Z; ds_occupied : Z; ds_available : Z; ds_critical : Z;
  ds_status : string; ds_percentage : Z
}.

(** [total > 0 ? Math.round((occupied / total) * 100) : 0] *)
Definition dept_percentage (occupied total : Z) : Z :=
  if (0 <? total)%Z then math_round (occupied * 100) total else 0%Z.

Definition dept_status (percentage : Z) : string :=
  if (90 <=? percentage)%Z then "Alerta" else if (70 <=? percentage)%Z then "Atenção" else "Normal".

Definition dept_stat (bws : list BedWithAdmission) (dept : string) : DeptStat :=
  let deptBeds := filter (fun b => department (bwa_bed b) === dept) bws in
  let total := jlen deptBeds in
  let occupied := jlen (filter (fun b => status (bwa_bed b) === OCUPADO) deptBeds) in
  let available := jlen (filter (fun b => status (bwa_bed b) === DISPONIVEL) deptBeds) in
  let critical := jlen (filter (fun b => match admission b with
                                         | Some a => condition a === CRITICO
                                         | None => false end) deptBeds) in
  let percentage := dept_percentage occupied total in
  mkDeptStat dept total occupied available critical (dept_status percentage) percentage.

(** [departments.map(...).filter(d => d.total > 0)] *)
Definition departmentStats (bws : list BedWithAdmission) : list DeptStat :=
  filter (fun d => (0 <? ds_total d)%Z) (map (dept_stat bws) departments).

Definition getStatusColor (s : string) : string :=
  match s with "Alerta" => "destructive" | "Atenção" => "warning" | _ => "success" end.

(** The body of a bed's card. *)
Inductive BedCardBody :=
  | AdmissionBody (patient : option string) (condition : string) (days : Z)
  | EmptyBody (text : string) (internar_button : bool).

(** [differenceInDays(new Date(), new Date(admission_date))], both as
    milliseconds. *)
Definition differenceInDays (now t : Z) : Z := Z.quot (now - t) MS_PER_DAY.

Definition bed_card_body (now : Z) (date_ms : string -> Z) (bw : BedWithAdmission) : BedCardBody :=
  match admission bw with
  | Some a => AdmissionBody (patient a) (condition a) (differenceInDays now (date_ms (admission_date a)))
  | None => EmptyBody (if status (bwa_bed bw) === MANUTENCAO then "Em manutenção" else "Leito disponível")
                      (status (bwa_bed bw) === DISPONIVEL)
  end.

(** ** The dialogs *)

(** The options of the admission form's four selects: active patients,
    available beds (["bed_number - department"]), professionals and the
    fixed conditions. *)
Record FormView := mkFormView {
  patient_options : list (string * string);
  bed_options : list (string * string);
  professional_options : list (string * string);
  condition_options : list string;
  submit_disabled : bool
}.

Definition form_view (patients professionals : list (string * string)) (beds : list Bed) (isPending : bool)
  : FormView :=
  mkFormView patients
             (map (fun b => (bed_id b, bed_number b ++ " - " ++ department b)) (availableBeds beds))
             professionals conditions isPending.

(** [format(new Date(date + "T12:00:00"), "dd/MM/yyyy")] of a
    ["yyyy-MM-dd"] date: noon local time is the same calendar day. *)
Definition format_admission_date (d : string) : string :=
  substring 8 2 d ++ "/" ++ substring 5 2 d ++ "/" ++ substring 0 4 d.

(** The details dialog, shown when the selected bed has an admission. *)
Record DetailsView := mkDetails {
  dv_patient : option string;
  dv_bed_number : string;
  dv_department : string;
  dv_date : string;
  dv_days : Z;
  dv_professional : string;
  dv_condition : string;
  dv_condition_variant : string;
  dv_diagnosis : option string;
  dv_notes : option string
}.

Definition truthy (o : option string) : option string :=
  match o with Some s => if s === "" then None else Some s | None => None end.

Definition details_view (now : Z) (date_ms : string -> Z) (p : Page) : option DetailsView :=
  match selectedBed p with
  | Some bw =>
      match admission bw with
      | Some a =>
          Some (mkDetails (patient a) (bed_number (bwa_bed bw)) (department (bwa_bed bw))
                  (format_admission_date (admission_date a))
                  (differenceInDays now (date_ms (admission_date a)))
                  (match truthy (professional a) with Some n => n | None => "Não definido" end)
                  (condition a) (getConditionVariant (Some (condition a)))
                  (truthy (diagnosis a)) (truthy (notes a)))
      | None => None
      end
  | None => None
  end.

(** ** Handlers *)

Definition with_toast (p : Page) (msg : string) : Page :=
  mkPage (isDialogOpen p) (isDetailsOpen p) (selectedBed p) (departmentFilter p) (statusFilter p)
         (formData p) (cache_beds p) (cache_admissions p) (toasts p ++ [msg]).

(** [onSuccess] of [createAdmission]: toast, both queries invalidated
    (their refetches answer later, as [BedsRefetch] and
    [AdmissionsRefetch] events), dialog closed, form reset. *)
Definition admission_succeeded (p : Page) : Page :=
  let p := with_toast p "Internação realizada com sucesso!" in
  mkPage false (isDetailsOpen p) (selectedBed p) (departmentFilter p) (statusFilter p)
         empty_form (cache_beds p) (cache_admissions p) (toasts p).

(** The form's submit: [handleSubmit], then [createAdmission.mutate]. *)
Definition submit (p : Page) (db : DB) (f : Faults) (new_id today : string)
  (names : option string * option string) : Page * DB :=
  if negb (handleSubmit (formData p)) then (with_toast p "Preencha todos os campos obrigatórios", db)
  else match createAdmission db f new_id today names (formData p) with
       | (db', Success) => (admission_succeeded p, db')
       | (db', Failure m) => (with_toast p ("Erro ao realizar internação: " ++ m), db')
       end.

(** "Internar Paciente" on an available bed's card. *)
Definition admit_from_card (p : Page) (b : Bed) : Page :=
  let fd := formData p in
  mkPage true (isDetailsOpen p) (selectedBed p) (departmentFilter p) (statusFilter p)
         (mkForm (f_patient_id fd) (bed_id b) (f_professional_id fd) (f_condition fd)
                 (f_diagnosis fd) (f_notes fd))
         (cache_beds p) (cache_admissions p) (toasts p).

(** "Ver detalhes" on an occupied bed's card. *)
Definition open_details (p : Page) (bw : BedWithAdmission) : Page :=
  mkPage (isDialogOpen p) true (Some bw) (departmentFilter p) (statusFilter p) (formData p)
         (cache_beds p) (cache_admissions p) (toasts p).

(** "Dar Alta" in the details dialog. *)
Definition discharge (p : Page) (db : DB) (f : Faults) (today : string) : Page * DB :=
  match selectedBed p with
  | Some bw =>
      match admission bw with
      | Some a =>
          match dischargePatient db f today (adm_id a) (bed_id (bwa_bed bw)) with
          | (db', Success) =>
              let p := with_toast p "Alta realizada com sucesso!" in
              (mkPage (isDialogOpen p) false None (departmentFilter p) (statusFilter p) (formData p)
                      (cache_beds p) (cache_admissions p) (toasts p), db')
          | (db', Failure m) => (with_toast p ("Erro ao dar alta: " ++ m), db')
          end
      | None => (p, db)
      end
  | None => (p, db)
  end.

(** ** The page's events *)

Definition set_form (p : Page) (fd : FormData) : Page :=
  mkPage (isDialogOpen p) (isDetailsOpen p) (selectedBed p) (departmentFilter p) (statusFilter p) fd
         (cache_beds p) (cache_admissions p) (toasts p).

Definition set_dialogs (p : Page) (dialog details : bool) : Page :=
  mkPage dialog details (selectedBed p) (departmentFilter p) (statusFilter p) (formData p)
         (cache_beds p) (cache_admissions p) (toasts p).

Definition set_filters (p : Page) (dept st : string) : Page :=
  mkPage (isDialogOpen p) (isDetailsOpen p) (selectedBed p) dept st (formData p)
         (cache_beds p) (cache_admissions p) (toasts p).

(** What the user does on the page; the store's answers to the two
    mutations ride on their events. *)
Inductive Event :=
  | InternarClick                                    (* the header's "Internar" *)
  | DialogOpenChange (b : bool)
  | CancelClick                                      (* "Cancelar": close and [resetForm] *)
  | DepartmentFilterChange (v : string)
  | StatusFilterChange (v : string)
  | ClearFiltersClick
  | PatientSelect (v : string) | BedSelect (v : string) | ProfessionalSelect (v : string)
  | ConditionSelect (v : string) | DiagnosisInput (v : string) | NotesInput (v : string)
  | SubmitClick (f : Faults) (new_id today : string) (names : option string * option string)
  | AdmitFromCard (b : Bed)
  | OpenDetails (bw : BedWithAdmission)
  | DetailsOpenChange (b : bool)                     (* "Fechar" and the overlay *)
  | DischargeClick (f : Faults) (today : string)
  | BedsRefetch (ok : bool)                          (* a refetch of the beds answers *)
  | AdmissionsRefetch (ok : bool).                   (* a refetch of the admissions answers *)

Definition step (s : Page * DB) (e : Event) : Page * DB :=
  let '(p, db) := s in
  let fd := formData p in
  match e with
  | InternarClick => (set_dialogs p true (isDetailsOpen p), db)
  | DialogOpenChange b => (set_dialogs p b (isDetailsOpen p), db)
  | CancelClick => (set_form (set_dialogs p false (isDetailsOpen p)) empty_form, db)
  | DepartmentFilterChange v => (set_filters p v (statusFilter p), db)
  | StatusFilterChange v => (set_filters p (departmentFilter p) v, db)
  | ClearFiltersClick => (clearFilters p, db)
  | PatientSelect v => (set_form p (mkForm v (f_bed_id fd) (f_professional_id fd) (f_condition fd) (f_diagnosis fd) (f_notes fd)), db)
  | BedSelect v => (set_form p (mkForm (f_patient_id fd) v (f_professional_id fd) (f_condition fd) (f_diagnosis fd) (f_notes fd)), db)
  | ProfessionalSelect v => (set_form p (mkForm (f_patient_id fd) (f_bed_id fd) v (f_condition fd) (f_diagnosis fd) (f_notes fd)), db)
  | ConditionSelect v => (set_form p (mkForm (f_patient_id fd) (f_bed_id fd) (f_professional_id fd) v (f_diagnosis fd) (f_notes fd)), db)
  | DiagnosisInput v => (set_form p (mkForm (f_patient_id fd) (f_bed_id fd) (f_professional_id fd) (f_condition fd) v (f_notes fd)), db)
  | NotesInput v => (set_form p (mkForm (f_patient_id fd) (f_bed_id fd) (f_professional_id fd) (f_condition fd) (f_diagnosis fd) v), db)
  | SubmitClick f new_id today names => submit p db f new_id today names
  | AdmitFromCard b => (admit_from_card p b, db)
  | OpenDetails bw => (open_details p bw, db)
  | DetailsOpenChange b => (set_dialogs p (isDialogOpen p) b, db)
  | DischargeClick f today => discharge p db f today
  | BedsRefetch ok => (refetch_beds p db ok, db)
  | AdmissionsRefetch ok => (refetch_admissions p db ok, db)
  end.

Definition run (s : Page * DB) (es : list Event) : Page * DB := fold_left step es s.

(** "Por Departamento": one row per listed department. *)
Record DeptView := mkDeptView {
  dv_name : string; dv_badge : string * string; dv_count : string; dv_progress : Z;
  dv_indicator : string; dv_available : string; dv_critical : option string
}.

Definition dept_view (d : DeptStat) : DeptView :=
  mkDeptView (ds_name d) (ds_status d, getStatusColor (ds_status d))
    (js_string_of_Z (ds_occupied d) ++ "/" ++ js_string_of_Z (ds_total d)) (ds_percentage d)
    (if (90 <=? ds_percentage d)%Z then "bg-destructive"
     else if (70 <=? ds_percentage d)%Z then "bg-warning" else "bg-success")
    (js_string_of_Z (ds_available d) ++ " disponíveis")
    (if (0 <? ds_critical d)%Z then Some (js_string_of_Z (ds_critical d) ++ " crítico(s)") else None).

(** ** Beds and admissions agree *)

(** The active admissions on a bed. *)
Definition active_on (db : DB) (id : string) : list Admission :=
  filter (fun a => (adm_status a === ATIVA) && (adm_bed_id a === id)) (db_admissions db).

(** A bed is "Ocupado" exactly when an admission is active on it, and at
    most one is. *)
Definition consistent (db : DB) : bool :=
  forallb (fun b => Bool.eqb (status b === OCUPADO)
                             (match active_on db (bed_id b) with [] => false | _ => true end)
                    && (List.length (active_on db (bed_id b)) <=? 1)%nat) (db_beds db).

Definition bed_ok (db : DB) (b : Bed) : Prop :=
  (status b = OCUPADO <-> active_on db (bed_id b) <> []) /\ (List.length (active_on db (bed_id b)) <= 1)%nat.

Lemma consistent_iff db : consistent db = true <-> forall b, In b (db_beds db) -> bed_ok db b.
Proof.
  unfold consistent, bed_ok. rewrite forallb_forall.
  split; intros H b Hin; specialize (H b Hin); revert H.
  - rewrite andb_true_iff, Nat.leb_le. intros [E Hl]. split; [|exact Hl].
    apply eqb_prop in E. destruct (String.eqb_spec (status b) OCUPADO);
      destruct (active_on db (bed_id b)); split; congruence.
  - intros [E Hl]. rewrite andb_true_iff, Nat.leb_le. split; [|exact Hl]. apply eqb_true_iff.
    destruct (String.eqb_spec (status b) OCUPADO);
      destruct (active_on db (bed_id b)); try reflexivity; exfalso;
      first [apply E in e; congruence | apply n, E; discriminate].
Qed.

Lemma active_on_update_bed db id s x : active_on (update_bed_status db id s) x = active_on db x.
Proof. reflexivity. Qed.

Lemma active_on_insert db n t data names x :
  active_on (insert_admission db n t data names) x =
  (active_on db x ++ (if f_bed_id data === x
                      then [mkAdmission n (f_patient_id data) (f_bed_id data) (or_null (f_professional_id data))
                              t None (f_condition data) (or_null (f_diagnosis data)) (or_null (f_notes data))
                              ATIVA (fst names) (snd names)] else []))%list.
Proof.
  unfold active_on. simpl. rewrite filter_app. simpl.
  destruct (f_bed_id data === x); reflexivity.
Qed.

Lemma active_on_discharge db id t x :
  active_on (discharge_admission db id t) x = filter (fun a => negb (adm_id a === id)) (active_on db x).
Proof.
  unfold active_on, discharge_admission. simpl. induction (db_admissions db) as [|a l IH]; [reflexivity|].
  simpl. destruct (adm_id a === id) eqn:E; simpl.
  - rewrite IH. destruct ((adm_status a === ATIVA) && (adm_bed_id a === x)); simpl; [rewrite E|]; reflexivity.
  - destruct ((adm_status a === ATIVA) && (adm_bed_id a === x)); simpl; [rewrite E|]; rewrite IH; reflexivity.
Qed.

Lemma in_update_bed db id s b :
  In b (db_beds (update_bed_status db id s)) ->
  exists b0, In b0 (db_beds db) /\ bed_id b = bed_id b0 /\
             (if bed_id b0 === id then status b = s else b = b0).
Proof.
  simpl. intros H. apply in_map_iff in H as (b0 & <- & Hb0). exists b0. split; [exact Hb0|].
  destruct (bed_id b0 === id); split; reflexivity.
Qed.

(** A successful admission keeps beds and admissions in agreement:
    from a store where every bed is "Ocupado" exactly when one admission
    is active on it, admitting a patient to a bed that is not occupied
    gives such a store again. *)
Theorem createAdmission_consistent (db : DB) (new_id today : string)
  (names : option string * option string) (data : FormData) :
  consistent db = true ->
  (forall b, In b (db_beds db) -> bed_id b = f_bed_id data -> status b <> OCUPADO) ->
  consistent (fst (createAdmission db no_faults new_id today names data)) = true.
Proof.
  rewrite !consistent_iff. intros Hc Hfree b Hb. simpl in Hb.
  destruct (in_update_bed _ _ _ _ Hb) as (b0 & Hb0 & Hid & Hs). simpl in Hb0.
  unfold bed_ok. simpl. rewrite active_on_update_bed, active_on_insert, Hid.
  destruct (Hc b0 Hb0) as [Hiff Hl].
  destruct (String.eqb_spec (bed_id b0) (f_bed_id data)) as [E|Hne].
  - rewrite E, String.eqb_refl in *. rewrite Hs.
    assert (active_on db (f_bed_id data) = []) as ->.
    { rewrite <- E. destruct (active_on db (bed_id b0)) eqn:A; [reflexivity|].
      exfalso. apply (Hfree b0 Hb0 E). apply Hiff. congruence. }
    simpl. split; [split; [discriminate|reflexivity]|lia].
  - replace (f_bed_id data === bed_id b0) with false by (symmetry; apply String.eqb_neq; congruence).
    rewrite app_nil_r. subst b. exact (conj Hiff Hl).
Qed.

Definition bed101 : Bed := mkBed "b1" "101" "UTI" DISPONIVEL.
Definition bed102 : Bed := mkBed "b2" "102" "Emergência" DISPONIVEL.
Definition sample_db : DB := mkDB [bed101; bed102] [].
Definition sample_form : FormData := mkForm "p1" "b1" "" "Estável" "" "".

Lemma createAdmission_consistent_witness :
  consistent sample_db = true /\
  (forall b, In b (db_beds sample_db) -> bed_id b = f_bed_id sample_form -> status b <> OCUPADO) /\
  consistent (fst (createAdmission sample_db no_faults "a1" "2025-01-01" (Some "Ana", None) sample_form)) = true.
Proof.
  assert (H1 : consistent sample_db = true) by reflexivity.
  assert (H2 : forall b, In b (db_beds sample_db) -> bed_id b = f_bed_id sample_form -> status b <> OCUPADO)
    by (intros b [<-|[<-|[]]]; simpl; discriminate).
  split; [exact H1|split; [exact H2|]]. apply (createAdmission_consistent _ _ _ _ _ H1 H2).
Defined.

(** A successful discharge keeps beds and admissions in agreement:
    discharging an active admission (admission ids being distinct) frees
    its bed and leaves every other bed as it was. *)
Theorem dischargePatient_consistent (db : DB) (today : string) (a : Admission) :
  consistent db = true -> NoDup (map adm_id (db_admissions db)) ->
  In a (db_admissions db) -> adm_status a = ATIVA ->
  consistent (fst (dischargePatient db no_faults today (adm_id a) (adm_bed_id a))) = true.
Proof.
  rewrite !consistent_iff. intros Hc Hn Ha Hact b Hb. simpl in Hb.
  destruct (in_update_bed _ _ _ _ Hb) as (b0 & Hb0 & Hid & Hs). simpl in Hb0.
  unfold bed_ok. simpl. rewrite active_on_update_bed, active_on_discharge, Hid.
  destruct (Hc b0 Hb0) as [Hiff Hl].
  assert (Hin : forall a', In a' (active_on db (bed_id b0)) -> adm_bed_id a' = bed_id b0 /\ In a' (db_admissions db))
    by (intros a' H; unfold active_on in H; apply filter_In in H as [H E];
        apply andb_true_iff in E as [_ E]; apply String.eqb_eq in E; auto).
  destruct (String.eqb_spec (bed_id b0) (adm_bed_id a)) as [E|Hne].
  - rewrite Hs. assert (Hina : In a (active_on db (bed_id b0))).
    { unfold active_on. apply filter_In. rewrite Hact, E, !String.eqb_refl. auto. }
    destruct (active_on db (bed_id b0)) as [|a1 [|a2 l]] eqn:A; [destruct Hina| |simpl in Hl; lia].
    destruct Hina as [<-|[]]. simpl. rewrite String.eqb_refl. simpl.
    split; [split; [discriminate|tauto]|lia].
  - subst b. rewrite filter_all_true_on.
    + exact (conj Hiff Hl).
    + intros a' Ha'. destruct (Hin a' Ha') as [Hb' Hin']. apply negb_true_iff, String.eqb_neq.
      intros Eid. apply Hne. rewrite <- Hb'. f_equal. symmetry.
      apply (NoDup_map_eq adm_id _ _ _ Hn Ha Hin'). symmetry. exact Eid.
Qed.

Definition admitted_db : DB :=
  fst (createAdmission sample_db no_faults "a1" "2025-01-01" (Some "Ana", None) sample_form).

Definition admitted_a1 : Admission :=
  mkAdmission "a1" "p1" "b1" None "2025-01-01" None "Estável" None None ATIVA (Some "Ana") None.

Lemma dischargePatient_consistent_witness :
  consistent admitted_db = true /\ NoDup (map adm_id (db_admissions admitted_db)) /\
  In admitted_a1 (db_admissions admitted_db) /\ adm_status admitted_a1 = ATIVA /\
  consistent (fst (dischargePatient admitted_db no_faults "2025-01-05" "a1" "b1")) = true.
Proof.
  assert (H1 : consistent admitted_db = true) by reflexivity.
  assert (H2 : NoDup (map adm_id (db_admissions admitted_db))) by (simpl; repeat constructor; simpl; tauto).
  assert (H3 : In admitted_a1 (db_admissions admitted_db)) by (left; reflexivity).
  assert (H4 : adm_status admitted_a1 = ATIVA) by reflexivity.
  split; [exact H1|split; [exact H2|split; [exact H3|split; [exact H4|]]]].
  apply (dischargePatient_consistent _ _ _ H1 H2 H3 H4).
Defined.

(** The page with the form filled in for bed 101 and the dialog open. *)
Definition filled_page : Page :=
  mkPage true false None "all" "all" sample_form (query_beds sample_db) (query_active_admissions sample_db) [].


(** ** The per-department panel *)

Lemma departments_nodup : NoDup departments.
Proof. unfold departments. repeat constructor; simpl; intuition discriminate. Qed.

Lemma ds_total_nonneg bws d : (0 <= ds_total (dept_stat bws d))%Z.
Proof. unfold dept_stat, jlen. simpl. lia. Qed.

Lemma zsum_filter_pos {A : Type} (f : A -> Z) (l : list A) :
  (forall x, In x l -> 0 <= f x)%Z -> zsum f (filter (fun x => (0 <? f x)%Z) l) = zsum f l.
Proof.
  induction l as [|x xs IH]; intros H; simpl; [reflexivity|].
  rewrite <- IH by (intros y Hy; apply H; right; exact Hy).
  destruct (Z.ltb_spec 0 (f x)); simpl; [reflexivity|].
  assert (f x = 0)%Z by (specialize (H x (or_introl eq_refl)); lia). lia.
Qed.

(** The per-department panel counts only the six departments of its
    fixed list: its totals add up to the number of beds whose department
    is one of them, so a bed of any other department is in the page's
    total but in no department. *)
Theorem departmentStats_total (bws : list BedWithAdmission) :
  zsum ds_total (departmentStats bws) =
  jlen (filter (fun bw => existsb (fun d => d === department (bwa_bed bw)) departments) bws).
Proof.
  unfold departmentStats. rewrite zsum_filter_pos.
  - rewrite zsum_map. apply (zsum_count_classes (fun bw => department (bwa_bed bw))), departments_nodup.
  - intros d Hd. apply in_map_iff in Hd as (n & <- & _). apply ds_total_nonneg.
Qed.

(** ** The page keeps the store consistent *)

(** The lists on screen are those of the store: every refetch since the
    last write has answered. *)
Definition beds_fresh (p : Page) (db : DB) : Prop := cache_beds p = query_beds db.
Definition admissions_fresh (p : Page) (db : DB) : Prop := cache_admissions p = query_active_admissions db.

(** The choices the page offers, made while the list they come from is
    fresh: a bed of the form is one of the available beds of the list, a
    card's bed and a detail come from the lists; the store answers both
    mutations without error, with a fresh id for the new admission. *)
Definition enabled (s : Page * DB) (e : Event) : Prop :=
  let '(p, db) := s in
  match e with
  | BedSelect v => beds_fresh p db /\ In v (map bed_id (availableBeds (cache_beds p)))
  | AdmitFromCard b => beds_fresh p db /\ In b (cache_beds p) /\ status b = DISPONIVEL
  | OpenDetails bw => admissions_fresh p db /\ In bw (bedsWithAdmissions (cache_beds p) (cache_admissions p))
  | SubmitClick f new_id _ _ => f = no_faults /\ ~ In new_id (map adm_id (db_admissions db))
  | DischargeClick f _ => f = no_faults
  | _ => True
  end.

Fixpoint enabled_run (s : Page * DB) (es : list Event) : Prop :=
  match es with
  | [] => True
  | e :: es' => enabled s e /\ enabled_run (step s e) es'
  end.

Definition form_bed_free (p : Page) (db : DB) : Prop :=
  f_bed_id (formData p) = "" \/
  exists b, In b (db_beds db) /\ bed_id b = f_bed_id (formData p) /\ status b <> OCUPADO.

Definition selected_active (p : Page) (db : DB) : Prop :=
  forall bw a, selectedBed p = Some bw -> admission bw = Some a ->
    In a (db_admissions db) /\ adm_status a = ATIVA /\ adm_bed_id a = bed_id (bwa_bed bw).

(** The store is consistent with unique ids, the form's bed is free and
    the selected bed's admission is active; the lists on screen may be
    stale. *)
Definition page_inv (s : Page * DB) : Prop :=
  let '(p, db) := s in
  consistent db = true /\ NoDup (map bed_id (db_beds db)) /\ NoDup (map adm_id (db_admissions db)) /\
  form_bed_free p db /\ selected_active p db.

Lemma in_query_beds (db : DB) (b : Bed) : In b (query_beds db) <-> In b (db_beds db).
Proof.
  unfold query_beds. split; apply Permutation_in; [apply js_sort_perm|apply Permutation_sym, js_sort_perm].
Qed.

Lemma bed_ids_update (db : DB) (id s : string) :
  map bed_id (db_beds (update_bed_status db id s)) = map bed_id (db_beds db).
Proof. simpl. rewrite map_map. apply map_ext. intros b. destruct (bed_id b === id); reflexivity. Qed.

Lemma adm_ids_discharge (db : DB) (id t : string) :
  map adm_id (db_admissions (discharge_admission db id t)) = map adm_id (db_admissions db).
Proof. simpl. rewrite map_map. apply map_ext. intros a. destruct (adm_id a === id); reflexivity. Qed.

Lemma free_after_update (db : DB) (id s : string) (b0 : Bed) :
  In b0 (db_beds db) -> status b0 <> OCUPADO -> s <> OCUPADO ->
  exists b, In b (db_beds (update_bed_status db id s)) /\ bed_id b = bed_id b0 /\ status b <> OCUPADO.
Proof.
  intros Hb Hs Hs'. exists (if bed_id b0 === id then mkBed (bed_id b0) (bed_number b0) (department b0) s else b0).
  split; [apply in_map_iff; exists b0; split; [reflexivity|exact Hb]|].
  destruct (bed_id b0 === id); simpl; split; auto.
Qed.

(** A step that changes neither the store, the form's bed nor the
    selection keeps the invariant. *)
Lemma inv_page (p p' : Page) (db : DB) :
  (form_bed_free p db -> form_bed_free p' db) -> (selected_active p db -> selected_active p' db) ->
  page_inv (p, db) -> page_inv (p', db).
Proof. unfold page_inv. intros F S (Hc & Hb & Ha & Hf & Hs). auto 10. Qed.

Lemma inv_page_only (p p' : Page) (db : DB) :
  f_bed_id (formData p') = f_bed_id (formData p) -> selectedBed p' = selectedBed p ->
  page_inv (p, db) -> page_inv (p', db).
Proof.
  intros E3 E4. apply inv_page; unfold form_bed_free, selected_active; rewrite E3 || rewrite E4; auto.
Qed.

Lemma form_bed_free_all (p : Page) (db : DB) :
  NoDup (map bed_id (db_beds db)) -> form_bed_free p db -> handleSubmit (formData p) = true ->
  forall b, In b (db_beds db) -> bed_id b = f_bed_id (formData p) -> status b <> OCUPADO.
Proof.
  intros Hn [E|(b0 & Hb0 & Hid & Hs)] Hsub b Hb Hbid.
  - unfold handleSubmit in Hsub. rewrite E, andb_false_r in Hsub. discriminate Hsub.
  - assert (E : b = b0) by (apply (NoDup_map_eq bed_id (db_beds db)); auto; congruence).
    rewrite E. exact Hs.
Qed.

Lemma submit_inv (p : Page) (db : DB) (new_id today : string) (names : option string * option string) :
  page_inv (p, db) -> ~ In new_id (map adm_id (db_admissions db)) ->
  page_inv (submit p db no_faults new_id today names).
Proof.
  intros H Hfresh. unfold submit. destruct (handleSubmit (formData p)) eqn:Hsub; cbn [negb].
  - pose proof H as (Hc & Hb & Ha & Hf & Hsel).
    pose proof (createAdmission_consistent db new_id today names (formData p) Hc
                  (form_bed_free_all p db Hb Hf Hsub)) as Hc'.
    cbn [createAdmission no_faults fail_first fail_second fst] in Hc' |- *.
    unfold page_inv, admission_succeeded, with_toast, form_bed_free, selected_active.
    cbn [formData selectedBed f_bed_id empty_form].
    split; [exact Hc'|]. split; [rewrite bed_ids_update; exact Hb|]. split.
    + cbn [db_admissions update_bed_status insert_admission]. rewrite map_app. cbn [map adm_id].
      apply NoDup_app; [exact Ha|repeat constructor; intros []|]. intros x Hx [<-|[]]. contradiction.
    + split; [left; reflexivity|].
      intros bw a Hbw Ha'. destruct (Hsel bw a Hbw Ha') as (Hin & Hact & Hbid).
      cbn [db_admissions update_bed_status insert_admission]. split; [apply in_or_app; left; exact Hin|auto].
  - apply (inv_page_only p); reflexivity || exact H.
Qed.

Lemma discharge_inv (p : Page) (db : DB) (today : string) :
  page_inv (p, db) -> page_inv (discharge p db no_faults today).
Proof.
  intros H. unfold discharge. destruct (selectedBed p) as [bw|] eqn:Es; [|exact H].
  destruct (admission bw) as [a|] eqn:Ea; [|exact H].
  pose proof H as (Hc & Hb & Ha & Hf & Hsel).
  destruct (Hsel bw a Es Ea) as (Hin & Hact & Hbid).
  pose proof (dischargePatient_consistent db today a Hc Ha Hin Hact) as Hc'. rewrite Hbid in Hc'.
  cbn [dischargePatient no_faults fail_first fail_second fst] in Hc' |- *.
  unfold page_inv, with_toast, form_bed_free, selected_active.
  cbn [formData selectedBed].
  split; [exact Hc'|]. split; [rewrite bed_ids_update; exact Hb|].
  split; [change (NoDup (map adm_id (db_admissions (discharge_admission db (adm_id a) today))));
          rewrite adm_ids_discharge; exact Ha|].
  split; [|intros bw' a' E; discriminate E].
  destruct Hf as [E|(b0 & Hb0 & Hid & Hs)]; [left; exact E|right].
  destruct (free_after_update (discharge_admission db (adm_id a) today) (bed_id (bwa_bed bw)) DISPONIVEL b0 Hb0 Hs
              ltac:(discriminate)) as (b & Hb' & Hid' & Hs').
  exists b. split; [exact Hb'|]. split; [congruence|exact Hs'].
Qed.

Lemma disponivel_free (b : Bed) : status b = DISPONIVEL -> status b <> OCUPADO.
Proof. intros -> E. discriminate E. Qed.

Lemma listed_bed_free (p : Page) (db : DB) (b : Bed) :
  cache_beds p = query_beds db -> In b (cache_beds p) -> status b = DISPONIVEL ->
  exists b', In b' (db_beds db) /\ bed_id b' = bed_id b /\ status b' <> OCUPADO.
Proof.
  intros Hcb Hb Hs. rewrite Hcb, in_query_beds in Hb. exists b. split; [exact Hb|]. split; [reflexivity|].
  apply disponivel_free, Hs.
Qed.

Lemma listed_selection (p : Page) (db : DB) (bw : BedWithAdmission) :
  cache_admissions p = query_active_admissions db ->
  In bw (bedsWithAdmissions (cache_beds p) (cache_admissions p)) ->
  forall a, admission bw = Some a -> In a (db_admissions db) /\ adm_status a = ATIVA /\ adm_bed_id a = bed_id (bwa_bed bw).
Proof.
  intros Hca Hbw a Ha. unfold bedsWithAdmissions in Hbw. apply in_map_iff in Hbw as (b & <- & _).
  cbn [admission bwa_bed] in *. apply find_some in Ha as [Hin Hid]. rewrite Hca in Hin.
  unfold query_active_admissions in Hin. apply filter_In in Hin as [Hin Hact].
  apply String.eqb_eq in Hact, Hid. auto.
Qed.

Ltac page_only p H := apply (inv_page p); [exact (fun h => h)|exact (fun h => h)|exact H].

Lemma step_inv (s : Page * DB) (e : Event) : page_inv s -> enabled s e -> page_inv (step s e).
Proof.
  destruct s as [p db]. intros H He. pose proof H as (Hc & Hb & Ha & Hf & Hs).
  destruct e; cbn [step enabled] in *; try (page_only p H); try (destruct ok; page_only p H).
  - apply (inv_page p); [intros _; left; reflexivity|exact (fun h => h)|exact H].
  - destruct He as [Hcb He]. apply (inv_page p); [|exact (fun h => h)|exact H]. intros _. right.
    apply in_map_iff in He as (b & <- & Hb'). unfold availableBeds in Hb'. apply filter_In in Hb' as [Hb' Hd].
    apply String.eqb_eq in Hd. exact (listed_bed_free p db b Hcb Hb' Hd).
  - destruct He as [-> Hfresh]. apply submit_inv; assumption.
  - destruct He as (Hcb & Hb' & Hd). apply (inv_page p); [|exact (fun h => h)|exact H].
    intros _. right. exact (listed_bed_free p db b Hcb Hb' Hd).
  - destruct He as [Hca He]. apply (inv_page p); [exact (fun h => h)| |exact H].
    intros _ bw' a E. cbn [selectedBed open_details] in E. injection E as <-. exact (listed_selection p db bw Hca He a).
  - subst f. apply discharge_inv, H.
Qed.

(** C8: When the user picks beds and details only from lists that the
    refetches have brought up to date, the beds page keeps the store
    consistent: from a store where every bed is "Ocupado" exactly when
    one admission is active on it (with unique ids), every sequence of
    clicks, selections, inputs and refetch answers (failed ones
    included), in which the form's bed, a card's bed and a detail are
    chosen while the list they come from is the store's and both
    mutations are answered without error, leaves a store where the same
    holds.  [stale_list_double_booking] shows that the freshness of the
    list is needed. *)
Theorem page_keeps_consistent (db : DB) (es : list Event) :
  consistent db = true -> NoDup (map bed_id (db_beds db)) -> NoDup (map adm_id (db_admissions db)) ->
  enabled_run (initial_page db, db) es ->
  consistent (snd (run (initial_page db, db) es)) = true.
Proof.
  intros Hc Hb Ha. unfold run.
  assert (G : forall s, page_inv s -> enabled_run s es -> page_inv (fold_left step es s)).
  { induction es as [|e es IH]; intros s Hs Hr; [exact Hs|]. destruct Hr as [He Hr].
    apply IH; [apply step_inv|]; assumption. }
  intros Hr. assert (Hi : page_inv (initial_page db, db)).
  { unfold page_inv, form_bed_free, selected_active. cbn [cache_beds cache_admissions initial_page formData selectedBed].
    split; [exact Hc|]. split; [exact Hb|]. split; [exact Ha|].
    split; [left; reflexivity|]. intros bw0 a E; discriminate E. }
  destruct (fold_left step es (initial_page db, db)) as [p' db'] eqn:E.
  pose proof (G _ Hi Hr) as Hf. rewrite E in Hf. exact (proj1 Hf).
Qed.

(** ** A stale list books a bed twice *)

Lemma consistent_two_active (db : DB) (id : string) :
  In id (map bed_id (db_beds db)) -> (2 <= List.length (active_on db id))%nat -> consistent db = false.
Proof.
  intros Hin Hl. apply in_map_iff in Hin as (b & <- & Hb).
  destruct (consistent db) eqn:E; [|reflexivity]. exfalso.
  destruct (proj1 (consistent_iff db) E b Hb) as [_ H]. lia.
Qed.

Lemma free_no_active (db : DB) (b : Bed) :
  consistent db = true -> In b (db_beds db) -> status b = DISPONIVEL -> active_on db (bed_id b) = [].
Proof.
  intros Hc Hb Hs. destruct (proj1 (consistent_iff db) Hc b Hb) as [[_ H] _].
  destruct (active_on db (bed_id b)); [reflexivity|]. exfalso.
  assert (E : status b = OCUPADO) by (apply H; discriminate). rewrite Hs in E. discriminate E.
Qed.

(** Through the header's "Internar": the bed and the patient picked in
    the form, then a submission the store accepts. *)
Definition admit_via_form (bid pid new_id today : string) (names : option string * option string) : list Event :=
  [InternarClick; BedSelect bid; PatientSelect pid; SubmitClick no_faults new_id today names].

Lemma admit_via_form_run (p : Page) (db : DB) (bid pid new_id today : string) names :
  bid <> "" -> pid <> "" ->
  let s := run (p, db) (admit_via_form bid pid new_id today names) in
  cache_beds (fst s) = cache_beds p /\
  exists data, f_bed_id data = bid /\ snd s = update_bed_status (insert_admission db new_id today data names) bid OCUPADO.
Proof.
  intros Hb Hp. cbn -[submit]. unfold submit, handleSubmit. cbn [formData set_form set_dialogs f_bed_id f_patient_id].
  rewrite (proj2 (String.eqb_neq _ _) Hp), (proj2 (String.eqb_neq _ _) Hb). cbn.
  split; [reflexivity|]. eexists. split; [|reflexivity]. reflexivity.
Qed.

(** Answers that leave the beds as cached: a failed refetch of the beds
    and any answer of the admissions' refetch. *)
Definition beds_not_refetched (e : Event) : Prop := e = BedsRefetch false \/ exists ok, e = AdmissionsRefetch ok.

Lemma run_not_refetched (s : Page * DB) (es : list Event) :
  Forall beds_not_refetched es -> cache_beds (fst (run s es)) = cache_beds (fst s) /\ snd (run s es) = snd s.
Proof.
  unfold run. revert s. induction es as [|e es IH]; intros [p db] H; [split; reflexivity|].
  inversion H as [|? ? He Hs]; subst. cbn [fold_left]. rewrite (proj1 (IH _ Hs)), (proj2 (IH _ Hs)).
  destruct He as [->|[[|] ->]]; split; reflexivity.
Qed.

(** C9: The list on screen can be stale: after an admission that the
    store accepts, as long as the beds' refetch has not answered or has
    failed, the form still offers the bed as available, and admitting a
    second patient to it books it twice: two admissions are active on
    the bed and the store is no longer consistent. *)
Theorem stale_list_double_booking (db : DB) (b : Bed) (pid1 pid2 id1 id2 today : string)
  (names1 names2 : option string * option string) (between : list Event) :
  consistent db = true -> In b (db_beds db) -> status b = DISPONIVEL -> bed_id b <> "" ->
  pid1 <> "" -> pid2 <> "" -> Forall beds_not_refetched between ->
  let s1 := run (run (initial_page db, db) (admit_via_form (bed_id b) pid1 id1 today names1)) between in
  In (bed_id b) (map bed_id (availableBeds (cache_beds (fst s1)))) /\
  let s2 := run s1 (admit_via_form (bed_id b) pid2 id2 today names2) in
  List.length (active_on (snd s2) (bed_id b)) = 2%nat /\ consistent (snd s2) = false.
Proof.
  intros Hc Hb Hs Hid Hp1 Hp2 Hbetween s1.
  destruct (admit_via_form_run (initial_page db) db (bed_id b) pid1 id1 today names1 Hid Hp1) as [C1 (d1 & B1 & D1)].
  destruct (run_not_refetched (run (initial_page db, db) (admit_via_form (bed_id b) pid1 id1 today names1)) between Hbetween)
    as [C2 D2].
  fold s1 in C2, D2. split.
  - rewrite C2, C1. cbn [cache_beds initial_page]. apply in_map. unfold availableBeds. apply filter_In.
    split; [apply in_query_beds, Hb|rewrite Hs; apply String.eqb_refl].
  - intros s2. destruct s1 as [p1 db1]. cbn [fst snd] in *.
    destruct (admit_via_form_run p1 db1 (bed_id b) pid2 id2 today names2 Hid Hp2) as [_ (d2 & B2 & D3)].
    fold s2 in D3. rewrite D3, D2, D1.
    match goal with |- List.length (active_on ?d ?i) = _ /\ _ =>
      assert (L : List.length (active_on d i) = 2%nat)
        by (repeat (rewrite active_on_update_bed || rewrite active_on_insert);
            rewrite B1, B2, String.eqb_refl, (free_no_active db b Hc Hb Hs); reflexivity) end.
    split; [exact L|]. apply (consistent_two_active _ (bed_id b)); [|lia].
    rewrite bed_ids_update. cbn [insert_admission db_beds]. rewrite bed_ids_update.
    cbn [insert_admission db_beds]. apply in_map, Hb.
Qed.

Lemma stale_list_double_booking_witness :
  consistent sample_db = true /\ In bed101 (db_beds sample_db) /\ status bed101 = DISPONIVEL /\
  Forall beds_not_refetched [BedsRefetch false; AdmissionsRefetch true] /\
  let s1 := run (run (initial_page sample_db, sample_db) (admit_via_form "b1" "p1" "a1" "2025-01-01" (Some "Ana", None)))
                [BedsRefetch false; AdmissionsRefetch true] in
  In "b1" (map bed_id (availableBeds (cache_beds (fst s1)))) /\
  let s2 := run s1 (admit_via_form "b1" "p2" "a2" "2025-01-01" (Some "Bia", None)) in
  List.length (active_on (snd s2) "b1") = 2%nat /\ consistent (snd s2) = false.
Proof.
  assert (H1 : consistent sample_db = true) by reflexivity.
  assert (H2 : In bed101 (db_beds sample_db)) by (left; reflexivity).
  assert (H3 : status bed101 = DISPONIVEL) by reflexivity.
  assert (H4 : Forall beds_not_refetched [BedsRefetch false; AdmissionsRefetch true])
    by (constructor; [left; reflexivity|constructor; [right; exists true; reflexivity|constructor]]).
  split; [exact H1|]. split; [exact H2|]. split; [exact H3|]. split; [exact H4|].
  exact (stale_list_double_booking sample_db bed101 "p1" "p2" "a1" "a2" "2025-01-01" (Some "Ana", None) (Some "Bia", None)
           _ H1 H2 H3 ltac:(discriminate) ltac:(discriminate) ltac:(discriminate) H4).
Defined.

Definition sample_run : list Event :=
  [AdmitFromCard bed101; PatientSelect "p1"; SubmitClick no_faults "a1" "2025-01-01" (Some "Ana", None);
   BedsRefetch true; AdmissionsRefetch true; InternarClick; BedSelect "b2"; PatientSelect "p2"; SubmitClick no_faults "a2" "2025-01-01" (Some "Bia", None)].

Lemma page_keeps_consistent_witness :
  consistent sample_db = true /\ NoDup (map bed_id (db_beds sample_db)) /\
  NoDup (map adm_id (db_admissions sample_db)) /\ enabled_run (initial_page sample_db, sample_db) sample_run /\
  consistent (snd (run (initial_page sample_db, sample_db) sample_run)) = true.
Proof.
  assert (H1 : consistent sample_db = true) by reflexivity.
  assert (H2 : NoDup (map bed_id (db_beds sample_db))) by (repeat constructor; simpl; intuition discriminate).
  assert (H3 : NoDup (map adm_id (db_admissions sample_db))) by constructor.
  assert (H4 : enabled_run (initial_page sample_db, sample_db) sample_run).
  { vm_compute. repeat split; try reflexivity; try (left; reflexivity); try (right; left; reflexivity);
      try (intros [H|H]; discriminate H || contradiction); try (intros []); try (intros H; destruct H). }
  split; [exact H1|]. split; [exact H2|]. split; [exact H3|]. split; [exact H4|].
  exact (page_keeps_consistent sample_db sample_run H1 H2 H3 H4).
Defined.

End Leitos.
