(* ===== verification/BedViews.v ===== *)
(** * The two views of the beds table

    The dashboard's occupancy card (components/dashboard/BedOccupancy.tsx,
    modelled in [Occupancy]) and the beds page's "Por Departamento" panel
    (pages/Leitos.tsx, modelled in [Leitos]) read the same [beds] rows:
    the card selects [department, status], the page whole rows joined
    with their active admissions.  This file composes the two models
    over one store: for every department of the panel the card shows the
    same occupied and total counts and the same percentage, while the two
    label the departments between 70 and 80 percent differently. *)

From Stdlib Require Import List ZArith Lia String Bool.
From S2P Require Import Prelude Occupancy Leitos.
Import ListNotations.
Open Scope js_scope.
Open Scope string_scope.

Module BedViews.

(** The rows the card's query [select("department, status")] returns
    for the page's beds. *)
Definition card_beds (beds : list Leitos.Bed) : list BedOccupancy.Bed :=
  map (fun b => BedOccupancy.mkBed (Leitos.department b) (Leitos.status b)) beds.

(** ** Counting through a map and a nested filter *)

Lemma jlen_filter_map {A B : Type} (f : B -> bool) (g : A -> B) (l : list A) :
  jlen (filter f (map g l)) = jlen (filter (fun x => f (g x)) l).
Proof. unfold jlen. induction l as [|x l IH]; simpl; [reflexivity|]. destruct (f (g x)); simpl; lia. Qed.

Lemma filter_filter_and {A : Type} (p q : A -> bool) (l : list A) :
  filter p (filter q l) = filter (fun x => q x && p x) l.
Proof. induction l as [|x l IH]; simpl; [reflexivity|]. destruct (q x); simpl; [destruct (p x); simpl|]; congruence. Qed.

Lemma bwa_beds (beds : list Leitos.Bed) (adms : list Leitos.Admission) :
  map Leitos.bwa_bed (Leitos.bedsWithAdmissions beds adms) = beds.
Proof. unfold Leitos.bedsWithAdmissions. rewrite map_map. apply map_id. Qed.

Lemma panel_total (beds : list Leitos.Bed) (adms : list Leitos.Admission) (d : string) :
  Leitos.ds_total (Leitos.dept_stat (Leitos.bedsWithAdmissions beds adms) d) =
  jlen (filter (BedOccupancy.in_department d) (card_beds beds)).
Proof.
  cbn [Leitos.dept_stat Leitos.ds_total]. unfold card_beds. rewrite !jlen_filter_map.
  unfold Leitos.bedsWithAdmissions. rewrite jlen_filter_map. reflexivity.
Qed.

Lemma panel_occupied (beds : list Leitos.Bed) (adms : list Leitos.Admission) (d : string) :
  Leitos.ds_occupied (Leitos.dept_stat (Leitos.bedsWithAdmissions beds adms) d) =
  jlen (filter (BedOccupancy.occupied_in d) (card_beds beds)).
Proof.
  cbn [Leitos.dept_stat Leitos.ds_occupied]. rewrite filter_filter_and. unfold card_beds.
  rewrite jlen_filter_map. unfold Leitos.bedsWithAdmissions. rewrite jlen_filter_map. reflexivity.
Qed.

Lemma panel_percentage (beds : list Leitos.Bed) (adms : list Leitos.Admission) (d : string) :
  Leitos.ds_percentage (Leitos.dept_stat (Leitos.bedsWithAdmissions beds adms) d) =
  BedOccupancy.calculateOccupancyPercentage (jlen (filter (BedOccupancy.occupied_in d) (card_beds beds)))
                                            (jlen (filter (BedOccupancy.in_department d) (card_beds beds))).
Proof.
  rewrite <- panel_occupied with (adms := adms), <- panel_total with (adms := adms). reflexivity.
Qed.

Lemma level_labels (pct : Z) :
  (Leitos.dept_status pct = "Alerta" <-> BedOccupancy.getOccupancyLevel pct = BedOccupancy.critical) /\
  (Leitos.dept_status pct = "Atenção" /\ BedOccupancy.getOccupancyLevel pct = BedOccupancy.normal <->
     (70 <= pct < 80)%Z).
Proof.
  unfold Leitos.dept_status, BedOccupancy.getOccupancyLevel, BedOccupancy.OCCUPANCY_THRESHOLDS_CRITICAL,
    BedOccupancy.OCCUPANCY_THRESHOLDS_HIGH.
  destruct (90 <=? pct)%Z eqn:E1; [|destruct (70 <=? pct)%Z eqn:E2]; destruct (80 <=? pct)%Z eqn:E3;
    zbools; split; split; intros H; try discriminate; try lia; try reflexivity;
    try (destruct H as [H1 H2]; discriminate); try (split; reflexivity).
Qed.

(** ** The card and the panel agree on the numbers *)

(** C5: For one store of beds and admissions, every department the beds
    page lists in "Por Departamento" is on the dashboard's occupancy
    card with the same occupied and total counts and the same
    percentage; the card calls it critical exactly when the page says
    "Alerta", but a department from 70 to 79 percent is "Atenção" on the
    page and normal on the card. *)
Theorem occupancy_views_agree (beds : list Leitos.Bed) (adms : list Leitos.Admission) (s : Leitos.DeptStat) :
  In s (Leitos.departmentStats (Leitos.bedsWithAdmissions beds adms)) ->
  exists x, In x (BedOccupancy.groupBedsByDepartment (card_beds beds)) /\
    BedOccupancy.name x = Leitos.ds_name s /\ BedOccupancy.occupied x = Leitos.ds_occupied s /\
    BedOccupancy.total x = Leitos.ds_total s /\
    BedOccupancy.calculateOccupancyPercentage (BedOccupancy.occupied x) (BedOccupancy.total x) = Leitos.ds_percentage s /\
    (Leitos.ds_status s = "Alerta" <-> BedOccupancy.getOccupancyLevel (Leitos.ds_percentage s) = BedOccupancy.critical) /\
    (Leitos.ds_status s = "Atenção" /\ BedOccupancy.getOccupancyLevel (Leitos.ds_percentage s) = BedOccupancy.normal <->
       (70 <= Leitos.ds_percentage s < 80)%Z).
Proof.
  unfold Leitos.departmentStats. intros Hs. apply filter_In in Hs as [Hs Ht]. apply in_map_iff in Hs as (d & <- & _).
  apply Z.ltb_lt in Ht. rewrite panel_total in Ht.
  set (x := BedOccupancy.mkDepartmentOccupancy d (jlen (filter (BedOccupancy.occupied_in d) (card_beds beds)))
                                              (jlen (filter (BedOccupancy.in_department d) (card_beds beds)))).
  exists x. split.
  - apply BedOccupancy.in_groupBedsByDepartment. split; [|reflexivity].
    unfold x. cbn [BedOccupancy.name]. apply existsb_str_true. rewrite BedOccupancy.first_seen_mem.
    destruct (existsb _ _) eqn:E; [reflexivity|]. apply filter_nil_existsb in E. rewrite E in Ht. discriminate.
  - unfold x. cbn [BedOccupancy.name BedOccupancy.occupied BedOccupancy.total].
    rewrite <- panel_percentage with (adms := adms), <- panel_occupied with (adms := adms),
      <- panel_total with (adms := adms).
    change (Leitos.ds_status (Leitos.dept_stat ?b d))
      with (Leitos.dept_status (Leitos.ds_percentage (Leitos.dept_stat b d))).
    do 4 (split; [reflexivity|]). apply level_labels.
Qed.

(** Four beds of the UTI, three occupied: 75 percent on both screens,
    "Atenção" on the beds page and a normal level on the dashboard. *)
Definition sample_beds : list Leitos.Bed :=
  [Leitos.mkBed "1" "101" "UTI" "Ocupado"; Leitos.mkBed "2" "102" "UTI" "Ocupado";
   Leitos.mkBed "3" "103" "UTI" "Disponível"; Leitos.mkBed "4" "104" "UTI" "Ocupado"].

Lemma occupancy_views_agree_witness :
  let s := Leitos.dept_stat (Leitos.bedsWithAdmissions sample_beds []) "UTI" in
  In s (Leitos.departmentStats (Leitos.bedsWithAdmissions sample_beds [])) /\
  exists x, In x (BedOccupancy.groupBedsByDepartment (card_beds sample_beds)) /\
    BedOccupancy.name x = Leitos.ds_name s /\ BedOccupancy.occupied x = Leitos.ds_occupied s /\
    BedOccupancy.total x = Leitos.ds_total s /\
    BedOccupancy.calculateOccupancyPercentage (BedOccupancy.occupied x) (BedOccupancy.total x) = Leitos.ds_percentage s /\
    (Leitos.ds_status s = "Alerta" <-> BedOccupancy.getOccupancyLevel (Leitos.ds_percentage s) = BedOccupancy.critical) /\
    (Leitos.ds_status s = "Atenção" /\ BedOccupancy.getOccupancyLevel (Leitos.ds_percentage s) = BedOccupancy.normal <->
       (70 <= Leitos.ds_percentage s < 80)%Z).
Proof.
  intros s. assert (H : In s (Leitos.departmentStats (Leitos.bedsWithAdmissions sample_beds [])))
    by (vm_compute; left; reflexivity).
  split; [exact H|]. exact (occupancy_views_agree _ _ _ H).
Defined.

Example sample_labels :
  let s := Leitos.dept_stat (Leitos.bedsWithAdmissions sample_beds []) "UTI" in
  Leitos.ds_percentage s = 75%Z /\ Leitos.ds_status s = "Atenção" /\
  BedOccupancy.getOccupancyLevel (Leitos.ds_percentage s) = BedOccupancy.normal.
Proof. vm_compute. repeat split. Qed.

End BedViews.
