(* ===== verification/QuickActions.v ===== *)
(** * The quick actions card (components/dashboard/QuickActions.tsx)

    Three dialogs create a patient, an appointment and a medical record.
    The first two are a guard on the required fields and one insert; the
    third reads the record store twice before inserting: whether the
    patient already has a record ([maybeSingle]), and the most recent
    record, whose number [PRO-n] gives the next one, [PRO-(n+1)] padded to
    four digits.  The record creation is modelled as a process of three
    steps (two reads and the insert) so that two creations can be
    interleaved: the theorems show that numbers follow each other when
    creations run one after the other, and that two interleaved creations
    get the same number. *)

From Stdlib Require Import List ZArith Lia String Ascii Bool Permutation Sorted Decimal DecimalString DecimalZ.
From S2P Require Import Prelude Schema Format.
Import ListNotations.
Open Scope js_scope.
Open Scope string_scope.

Module QuickActions.
Import Format.

(** ** Forms *)

Record PatientData := mkPatientData { pd_name : string; pd_cpf : string; pd_birth_date : string;
                                      pd_phone : string; pd_email : string }.
Record AppointmentData := mkAppointmentData {
  ad_patient_id : string; ad_professional_id : string; ad_appointment_date : string;
  ad_appointment_time : string; ad_type : string; ad_is_video : bool }.
Record RecordData := mkRecordData { rd_patient_id : string; rd_primary_diagnosis : string; rd_notes : string }.

Definition empty_patient : PatientData := mkPatientData "" "" "" "" "".
Definition empty_appointment : AppointmentData := mkAppointmentData "" "" "" "" "Consulta" false.
Definition empty_record : RecordData := mkRecordData "" "" "".

Definition nonempty (s : string) : bool := negb (s === "").

(** [s || null] as a column value. *)
Definition or_null (s : string) : Schema.Value := if s === "" then Schema.VNull else Schema.VString s.

(** The objects passed to [insert([...])]. *)
Definition patient_insert (pd : PatientData) : Schema.Row :=
  [("name", Schema.VString (pd_name pd)); ("cpf", Schema.VString (pd_cpf pd));
   ("birth_date", Schema.VString (pd_birth_date pd)); ("phone", or_null (pd_phone pd));
   ("email", or_null (pd_email pd)); ("status", Schema.VString "Ativo")].

Definition appointment_insert (ad : AppointmentData) : Schema.Row :=
  [("patient_id", Schema.VString (ad_patient_id ad)); ("professional_id", Schema.VString (ad_professional_id ad));
   ("appointment_date", Schema.VString (ad_appointment_date ad));
   ("appointment_time", Schema.VString (ad_appointment_time ad)); ("type", Schema.VString (ad_type ad));
   ("is_video", Schema.VBool (ad_is_video ad)); ("status", Schema.VString "Agendado")].

Definition record_insert (rd : RecordData) (recordNumber : string) : Schema.Row :=
  [("patient_id", Schema.VString (rd_patient_id rd)); ("record_number", Schema.VString recordNumber);
   ("primary_diagnosis", or_null (rd_primary_diagnosis rd)); ("notes", or_null (rd_notes rd));
   ("status", Schema.VString "ativo")].

(** ** Record numbers *)

(** [parseInt(digits, 10)]. *)
Definition parseInt_digits (s : string) : option Z :=
  option_map Z.of_uint (NilEmpty.uint_of_string s).

Fixpoint take_digits (s : list ascii) : list ascii :=
  match s with
  | c :: s' => if is_digit c then c :: take_digits s' else []
  | [] => []
  end.

(** [record_number.match(/PRO-(\d+)/)]: the digits after the leftmost
    ["PRO-"] that is followed by one. *)
Fixpoint match_pro (s : list ascii) : option (list ascii) :=
  match s with
  | "P"%char :: ("R"%char :: "O"%char :: "-"%char :: r as s') =>
      match take_digits r with
      | [] => match_pro s'
      | ds => Some ds
      end
  | _ :: s' => match_pro s'
  | [] => None
  end.

(** [str.padStart(n, "0")]. *)
Definition padStart (n : nat) (s : string) : string :=
  string_of_list_ascii (repeat "0"%char (n - String.length s)) ++ s.

Definition format_record_number (n : Z) : string := "PRO-" ++ padStart 4 (js_string_of_Z n).

(** [nextNum] from [lastRecord?.record_number], then the new number. *)
Definition next_record_number (last : option string) : string :=
  let nextNum :=
    match last with
    | Some rn =>
        if rn === "" then 1%Z
        else match match_pro (list_ascii_of_string rn) with
             | Some ds => match parseInt_digits (string_of_list_ascii ds) with
                          | Some n => (n + 1)%Z
                          | None => 1%Z
                          end
             | None => 1%Z
             end
    | None => 1%Z
    end in
  format_record_number nextNum.

(** ** The record store *)

Record MedicalRecordRow := mkMR { mr_patient_id : string; record_number : string; mr_created_at : Z }.

Record Store := mkStore {
  patients : list Schema.Row;
  appointments : list Schema.Row;
  medical_records : list MedicalRecordRow;
  clock : Z
}.

(** [.maybeSingle()]: one row is the data; none is [null]; more than one is
    an error, whose [data] is [null] as well. *)
Definition maybeSingle {A : Type} (rows : list A) : option A :=
  match rows with [r] => Some r | _ => None end.

(** [.select("id").eq("patient_id", p).maybeSingle()] *)
Definition read_existing (db : Store) (p : string) : option MedicalRecordRow :=
  maybeSingle (filter (fun r => mr_patient_id r === p) (medical_records db)).

(** [.select("record_number").order("created_at", { ascending: false }).limit(1).maybeSingle()] *)
Definition read_last (db : Store) : option MedicalRecordRow :=
  maybeSingle (firstn 1 (js_sort (desc_by mr_created_at) (medical_records db))).

(** The insert; [created_at] is the store's clock. *)
Definition insert_record (db : Store) (p rn : string) : Store :=
  mkStore (patients db) (appointments db) (medical_records db ++ [mkMR p rn (clock db)]) (clock db + 1).

(** ** [handleCreateMedicalRecord] as a process *)

Inductive RecPhase :=
  | CheckExisting
  | ReadLast
  | Insert (last : option string)
  | Done (toast : string).

(** A creation in progress; [insert_fails] is the store's answer to its
    insert. *)
Record Proc := mkProc { proc_data : RecordData; insert_fails : bool; phase : RecPhase }.

Definition start (rd : RecordData) (fails : bool) : Proc :=
  mkProc rd fails (if nonempty (rd_patient_id rd) then CheckExisting else Done "Selecione um paciente.").

(** One request of the handler, with the store's answer. *)
Definition proc_step (db : Store) (pr : Proc) : Store * Proc :=
  let rd := proc_data pr in
  let f := insert_fails pr in
  match phase pr with
  | CheckExisting =>
      match read_existing db (rd_patient_id rd) with
      | Some _ => (db, mkProc rd f (Done "Este paciente já possui um prontuário."))
      | None => (db, mkProc rd f ReadLast)
      end
  | ReadLast => (db, mkProc rd f (Insert (option_map record_number (read_last db))))
  | Insert last =>
      if f then (db, mkProc rd f (Done "Erro ao criar prontuário."))
      else (insert_record db (rd_patient_id rd) (next_record_number last),
            mkProc rd f (Done "Prontuário criado com sucesso!"))
  | Done t => (db, pr)
  end.

(** Running processes by a schedule: each entry names the process that
    makes its next request. *)
Fixpoint run_schedule (db : Store) (ps : list Proc) (sched : list nat) : Store * list Proc :=
  match sched with
  | [] => (db, ps)
  | i :: sched' =>
      match nth_error ps i with
      | Some pr => let '(db', pr') := proc_step db pr in
                   run_schedule db' (firstn i ps ++ pr' :: skipn (S i) ps) sched'
      | None => run_schedule db ps sched'
      end
  end.

(** The handler run alone: its three requests in a row. *)
Definition handleCreateMedicalRecord (db : Store) (rd : RecordData) (fails : bool) : Store * string :=
  let '(db', ps) := run_schedule db [start rd fails] [0; 0; 0]%nat in
  match ps with
  | [mkProc _ _ (Done t)] => (db', t)
  | _ => (db', "")
  end.

(** ** Record numbers follow each other *)

Lemma list_ascii_app (a b : string) :
  list_ascii_of_string (a ++ b) = (list_ascii_of_string a ++ list_ascii_of_string b)%list.
Proof. induction a as [|c a IH]; simpl; [reflexivity|]. rewrite IH. reflexivity. Qed.

Lemma string_of_uint_digits (u : uint) : all_digits (list_ascii_of_string (NilEmpty.string_of_uint u)) = true.
Proof. induction u; simpl; try exact IHu; reflexivity. Qed.

Lemma take_digits_all (l : list ascii) : all_digits l = true -> take_digits l = l.
Proof.
  induction l as [|c l IH]; simpl; [reflexivity|]. rewrite andb_true_iff. intros [-> H].
  rewrite IH by exact H. reflexivity.
Qed.

Lemma uint_of_string_zeros (k : nat) (s : string) :
  NilEmpty.uint_of_string (string_of_list_ascii (repeat "0"%char k) ++ s) =
  option_map (Nat.iter k D0) (NilEmpty.uint_of_string s).
Proof.
  induction k as [|k IH]; simpl; [destruct (NilEmpty.uint_of_string s); reflexivity|].
  rewrite IH. destruct (NilEmpty.uint_of_string s); reflexivity.
Qed.

Lemma of_uint_zeros (k : nat) (u : uint) : Z.of_uint (Nat.iter k D0 u) = Z.of_uint u.
Proof. induction k as [|k IH]; simpl; [reflexivity|]. exact IH. Qed.

(** The number printed by [toString] reads back as itself. *)
Lemma js_string_of_Z_nonneg (n : Z) :
  (0 <= n)%Z -> exists u, js_string_of_Z n = NilEmpty.string_of_uint u /\ Z.of_uint u = n /\ u <> Nil.
Proof.
  intros Hn. unfold js_string_of_Z. pose proof (DecimalZ.of_to n) as E.
  destruct n as [|p|p]; [|simpl in *|lia].
  - exists (D0 Nil). repeat split; discriminate.
  - exists (Pos.to_uint p). simpl in E. destruct (Pos.to_uint p) eqn:U; repeat split; try exact E;
      try discriminate.
Qed.

Lemma format_record_number_chars (n : Z) :
  (0 <= n)%Z ->
  exists ds, list_ascii_of_string (format_record_number n) = ("P" :: "R" :: "O" :: "-" :: ds)%char /\
             all_digits ds = true /\ ds <> [] /\ parseInt_digits (string_of_list_ascii ds) = Some n.
Proof.
  intros Hn. destruct (js_string_of_Z_nonneg n Hn) as (u & Es & Eu & Hu).
  unfold format_record_number, padStart. rewrite Es.
  set (k := 4 - String.length (NilEmpty.string_of_uint u)).
  exists (repeat "0"%char k ++ list_ascii_of_string (NilEmpty.string_of_uint u))%list.
  split; [simpl; rewrite list_ascii_app, list_ascii_of_string_of_list_ascii; reflexivity|].
  split; [|split].
  - pose proof (string_of_uint_digits u) as D. unfold all_digits in *.
    rewrite forallb_app, D, andb_true_r.
    apply forallb_forall. intros x Hx. apply repeat_spec in Hx. subst. reflexivity.
  - destruct u; try contradiction; destruct k; discriminate.
  - unfold parseInt_digits.
    replace (string_of_list_ascii (repeat "0"%char k ++ list_ascii_of_string (NilEmpty.string_of_uint u)))
      with (string_of_list_ascii (repeat "0"%char k) ++ NilEmpty.string_of_uint u).
    + rewrite uint_of_string_zeros, NilEmpty.usu. simpl. rewrite of_uint_zeros, Eu. reflexivity.
    + apply (f_equal list_ascii_of_string) in Es.
      rewrite <- (string_of_list_ascii_of_string (string_of_list_ascii _ ++ _)), list_ascii_app,
        !list_ascii_of_string_of_list_ascii. reflexivity.
Qed.

(** The number after [PRO-n] is [PRO-(n+1)]: the number the handler
    writes, read back by the next creation through [/PRO-(\d+)/] and
    [parseInt], gives the following one, with or without the padding to
    four digits. *)
Theorem next_record_number_succ (n : Z) :
  (0 <= n)%Z -> next_record_number (Some (format_record_number n)) = format_record_number (n + 1).
Proof.
  intros Hn. destruct (format_record_number_chars n Hn) as (ds & E & Hd & Hne & Hp).
  unfold next_record_number. rewrite E.
  replace (format_record_number n === "") with false.
  - cbn [match_pro]. rewrite take_digits_all by exact Hd.
    destruct ds as [|c ds]; [contradiction|]. rewrite Hp. reflexivity.
  - symmetry. apply String.eqb_neq. intros H. rewrite H in E. discriminate.
Qed.

Lemma next_record_number_succ_witness :
  (0 <= 41)%Z /\ next_record_number (Some (format_record_number 41)) = "PRO-0042".
Proof.
  assert (H : (0 <= 41)%Z) by lia. split; [exact H|].
  rewrite (next_record_number_succ 41 H). reflexivity.
Defined.

(** ** Creations one after the other *)

(** Every record was created before the store's clock. *)
Definition clock_ok (db : Store) : Prop :=
  forall r, In r (medical_records db) -> (mr_created_at r < clock db)%Z.

Lemma sorted_head_max {A : Type} (key : A -> Z) (l : list A) (x y : A) :
  Sorted (key_ge key) (x :: l) -> In y l -> (key y <= key x)%Z.
Proof.
  intros Hs. apply Sorted_StronglySorted in Hs; [|intros a b c; unfold key_ge; lia].
  inversion Hs as [|? ? _ Hall]; subst. rewrite Forall_forall in Hall. intros Hy. apply (Hall y Hy).
Qed.

(** A row later than all the others is the one [read_last] returns. *)
Lemma read_last_newest (db : Store) (p rn : string) :
  clock_ok db -> read_last (insert_record db p rn) = Some (mkMR p rn (clock db)).
Proof.
  intros Hc. unfold read_last, insert_record. simpl.
  set (l := (medical_records db ++ [mkMR p rn (clock db)])%list).
  assert (Hp : Permutation (js_sort (desc_by mr_created_at) l) l) by apply js_sort_perm.
  assert (Hs : Sorted (key_ge mr_created_at) (js_sort (desc_by mr_created_at) l)) by apply js_sort_desc_sorted.
  assert (Hin : In (mkMR p rn (clock db)) (js_sort (desc_by mr_created_at) l))
    by (apply (Permutation_in _ (Permutation_sym Hp)), in_or_app; right; left; reflexivity).
  destruct (js_sort (desc_by mr_created_at) l) as [|x xs] eqn:E; [destruct Hin|]. simpl.
  destruct Hin as [<-|Hin]; [reflexivity|].
  pose proof (sorted_head_max _ _ _ _ Hs Hin) as Hge. simpl in Hge.
  assert (Hx : In x l) by (apply (Permutation_in _ Hp); left; reflexivity).
  apply in_app_or in Hx as [Hx|[<-|[]]]; [specialize (Hc x Hx); lia|reflexivity].
Qed.

(** Run one after the other, creations number the records in
    sequence: when the latest record is [PRO-n] and the patient has no
    record yet, the handler inserts [PRO-(n+1)], which becomes the latest
    record, and the store's clock stays ahead of every record. *)
Theorem handleCreateMedicalRecord_sequential (db : Store) (rd : RecordData) (r : MedicalRecordRow) (n : Z) :
  clock_ok db -> read_last db = Some r -> record_number r = format_record_number n -> (0 <= n)%Z ->
  nonempty (rd_patient_id rd) = true -> read_existing db (rd_patient_id rd) = None ->
  let db' := fst (handleCreateMedicalRecord db rd false) in
  read_last db' = Some (mkMR (rd_patient_id rd) (format_record_number (n + 1)) (clock db)) /\ clock_ok db'.
Proof.
  intros Hc Hl Hr Hn Hp He db'.
  assert (E : db' = insert_record db (rd_patient_id rd) (format_record_number (n + 1))).
  { subst db'. unfold handleCreateMedicalRecord, start. rewrite Hp.
    cbn -[read_existing read_last next_record_number insert_record]. rewrite He.
    cbn -[read_existing read_last next_record_number insert_record]. rewrite Hl.
    cbn -[read_existing read_last next_record_number insert_record].
    rewrite Hr, next_record_number_succ by exact Hn. reflexivity. }
  rewrite E. split; [apply read_last_newest, Hc|].
  intros x Hx. simpl in Hx |- *. apply in_app_or in Hx as [Hx|[<-|[]]]; [specialize (Hc x Hx)|simpl]; lia.
Qed.

Definition one_record_db : Store := mkStore [] [] [mkMR "p0" "PRO-0001" 0] 1.

Lemma handleCreateMedicalRecord_sequential_witness :
  clock_ok one_record_db /\
  read_last (fst (handleCreateMedicalRecord one_record_db (mkRecordData "p1" "" "") false))
    = Some (mkMR "p1" (format_record_number 2) 1).
Proof.
  assert (Hc : clock_ok one_record_db) by (intros r [<-|[]]; simpl; lia).
  split; [exact Hc|].
  refine (proj1 (handleCreateMedicalRecord_sequential one_record_db (mkRecordData "p1" "" "")
                   (mkMR "p0" "PRO-0001" 0) 1 Hc eq_refl eq_refl ltac:(lia) eq_refl eq_refl)).
Defined.

(** ** Creations interleaved *)





(** ** The card and its dialogs *)

Record QA := mkQA {
  isPatientDialogOpen : bool;
  isAppointmentDialogOpen : bool;
  isMedicalRecordDialogOpen : bool;
  saving : bool;
  patientData : PatientData;
  appointmentData : AppointmentData;
  recordData : RecordData;
  toasts : list string;
  route : option string
}.

Definition initial_qa : QA := mkQA false false false false empty_patient empty_appointment empty_record [] None.

Definition toast_qa (st : QA) (msg : string) : QA :=
  mkQA (isPatientDialogOpen st) (isAppointmentDialogOpen st) (isMedicalRecordDialogOpen st) (saving st)
       (patientData st) (appointmentData st) (recordData st) (toasts st ++ [msg]) (route st).

(** The four buttons of the card. *)
Inductive Action := OpenPatient | OpenAppointment | OpenRecord | GoTelemedicine.

Definition actions : list (string * Action) :=
  [("Novo Paciente", OpenPatient); ("Agendar Consulta", OpenAppointment);
   ("Novo Prontuário", OpenRecord); ("Teleconsulta", GoTelemedicine)].

Definition click_action (st : QA) (a : Action) : QA :=
  match a with
  | OpenPatient => mkQA true (isAppointmentDialogOpen st) (isMedicalRecordDialogOpen st) (saving st)
                        (patientData st) (appointmentData st) (recordData st) (toasts st) (route st)
  | OpenAppointment => mkQA (isPatientDialogOpen st) true (isMedicalRecordDialogOpen st) (saving st)
                            (patientData st) (appointmentData st) (recordData st) (toasts st) (route st)
  | OpenRecord => mkQA (isPatientDialogOpen st) (isAppointmentDialogOpen st) true (saving st)
                       (patientData st) (appointmentData st) (recordData st) (toasts st) (route st)
  | GoTelemedicine => mkQA (isPatientDialogOpen st) (isAppointmentDialogOpen st) (isMedicalRecordDialogOpen st)
                           (saving st) (patientData st) (appointmentData st) (recordData st) (toasts st)
                           (Some "/telemedicina")
  end.

(** The CPF and phone inputs mask what is typed. *)
Definition set_cpf (st : QA) (v : string) : QA :=
  let pd := patientData st in
  mkQA (isPatientDialogOpen st) (isAppointmentDialogOpen st) (isMedicalRecordDialogOpen st) (saving st)
       (mkPatientData (pd_name pd) (formatCPF v) (pd_birth_date pd) (pd_phone pd) (pd_email pd))
       (appointmentData st) (recordData st) (toasts st) (route st).

Definition set_phone (st : QA) (v : string) : QA :=
  let pd := patientData st in
  mkQA (isPatientDialogOpen st) (isAppointmentDialogOpen st) (isMedicalRecordDialogOpen st) (saving st)
       (mkPatientData (pd_name pd) (pd_cpf pd) (pd_birth_date pd) (formatPhone v) (pd_email pd))
       (appointmentData st) (recordData st) (toasts st) (route st).

Definition add_patient (db : Store) (r : Schema.Row) : Store :=
  mkStore (patients db ++ [r]) (appointments db) (medical_records db) (clock db).

Definition add_appointment (db : Store) (r : Schema.Row) : Store :=
  mkStore (patients db) (appointments db ++ [r]) (medical_records db) (clock db).

(** [handleCreatePatient]; [err] is the error the insert returns. *)
Definition handleCreatePatient (st : QA) (db : Store) (err : option string) : QA * Store :=
  let pd := patientData st in
  if negb (nonempty (pd_name pd) && nonempty (pd_cpf pd) && nonempty (pd_birth_date pd)) then
    (toast_qa st "Preencha todos os campos obrigatórios.", db)
  else match err with
       | None =>
           let st := toast_qa st "Paciente cadastrado com sucesso!" in
           (mkQA false (isAppointmentDialogOpen st) (isMedicalRecordDialogOpen st) false empty_patient
                 (appointmentData st) (recordData st) (toasts st) (route st),
            add_patient db (patient_insert pd))
       | Some msg =>
           (toast_qa st (if includes msg "duplicate" then "CPF já cadastrado no sistema."
                         else "Erro ao cadastrar paciente."), db)
       end.

(** [handleCreateAppointment]. *)
Definition handleCreateAppointment (st : QA) (db : Store) (err : option string) : QA * Store :=
  let ad := appointmentData st in
  if negb (nonempty (ad_patient_id ad) && nonempty (ad_professional_id ad)
           && nonempty (ad_appointment_date ad) && nonempty (ad_appointment_time ad)) then
    (toast_qa st "Preencha todos os campos obrigatórios.", db)
  else match err with
       | None =>
           let st := toast_qa st "Consulta agendada com sucesso!" in
           (mkQA (isPatientDialogOpen st) false (isMedicalRecordDialogOpen st) false (patientData st)
                 empty_appointment (recordData st) (toasts st) (route st),
            add_appointment db (appointment_insert ad))
       | Some _ => (toast_qa st "Erro ao agendar consulta.", db)
       end.

(** The record dialog's submit, the handler run alone. *)
Definition submit_record (st : QA) (db : Store) (fails : bool) : QA * Store :=
  let '(db', msg) := handleCreateMedicalRecord db (recordData st) fails in
  let st' := toast_qa st msg in
  if msg === "Prontuário criado com sucesso!" then
    (mkQA (isPatientDialogOpen st') (isAppointmentDialogOpen st') false false (patientData st')
          (appointmentData st') empty_record (toasts st') (route st'), db')
  else (st', db').

(** The submit buttons' labels. *)
Definition patient_submit_label (st : QA) : string :=
  if saving st then "Salvando..." else "Cadastrar Paciente".
Definition appointment_submit_label (st : QA) : string :=
  if saving st then "Agendando..." else "Agendar Consulta".
Definition record_submit_label (st : QA) : string :=
  if saving st then "Criando..." else "Criar Prontuário".

(** The appointment dialog: the selects' options and the modality's value. *)
Record AppointmentFormView := mkAppointmentFormView {
  af_patients : list (string * string);
  af_professionals : list (string * string);
  af_types : list string;
  af_modality : string;
  af_submit : string
}.

(** [professionals] is the query of available professionals. *)
Definition appointment_form_view (st : QA) (patients : list (string * string))
  (professionals : list (string * string * string)) : AppointmentFormView :=
  mkAppointmentFormView patients
    (map (fun '(id, name, specialty) => (id, name ++ " - " ++ specialty)) professionals)
    ["Consulta"; "Retorno"; "Exame"]
    (if ad_is_video (appointmentData st) then "video" else "presencial")
    (appointment_submit_label st).

(** [onValueChange] of the modality: [is_video: value === "video"]. *)
Definition set_modality (st : QA) (v : string) : QA :=
  let ad := appointmentData st in
  mkQA (isPatientDialogOpen st) (isAppointmentDialogOpen st) (isMedicalRecordDialogOpen st) (saving st)
       (patientData st)
       (mkAppointmentData (ad_patient_id ad) (ad_professional_id ad) (ad_appointment_date ad)
                          (ad_appointment_time ad) (ad_type ad) (v === "video"))
       (recordData st) (toasts st) (route st).

(** The patient dialog: the fields as shown, the input limits and the
    submit label. *)
Record PatientFormView := mkPatientFormView {
  pf_data : PatientData; pf_cpf_maxLength : nat; pf_phone_maxLength : nat; pf_submit : string }.

Definition patient_form_view (st : QA) : PatientFormView :=
  mkPatientFormView (patientData st) 14 15 (patient_submit_label st).

(** The record dialog: the patients to choose from and the submit label. *)
Definition record_form_view (st : QA) (patients : list (string * string)) : list (string * string) * string :=
  (patients, record_submit_label st).

(** C39: The three inserts of the card are rows the schema accepts: every
    column they set exists with a value of its type, and every column
    [types.ts] marks as required in [Insert] is set. *)
Theorem quick_inserts_conform (pd : PatientData) (ad : AppointmentData) (rd : RecordData) (rn : string) :
  Schema.insert_conforms Schema.patients (patient_insert pd) = true /\
  Schema.insert_conforms Schema.appointments (appointment_insert ad) = true /\
  Schema.insert_conforms Schema.medical_records (record_insert rd rn) = true.
Proof.
  unfold patient_insert, appointment_insert, record_insert, or_null.
  destruct (pd_phone pd === ""), (pd_email pd === ""), (rd_primary_diagnosis rd === ""), (rd_notes rd === "");
    repeat split.
Qed.

End QuickActions.
