(* ===== verification/Auditoria.v ===== *)
(** * The audit page (pages/Auditoria.tsx)

    The page reads the hundred most recent audit logs and five counts,
    derives the security alerts (the first five failed or blocked logs),
    the resources of the filter, and the logs shown: those that match the
    search text, the tab and the five advanced filters.  Times are
    milliseconds since the epoch; [created_at] is already a number (the
    parsing of the store's timestamps is not modelled).  The date filters
    parse their ["yyyy-MM-dd"] inputs as JavaScript does: the start date
    alone is UTC midnight, the end date with ["T23:59:59"] is local time,
    whose offset from UTC is [off]. *)

From Stdlib Require Import List ZArith Lia String Bool Permutation.
From S2P Require Import Prelude.
Import ListNotations.
Open Scope js_scope.
Open Scope string_scope.

Module Auditoria.

Record AuditLog := mkLog {
  log_id : string;
  created_at : Z;
  user_name : string;
  action : string;
  resource : string;
  resource_id : option string;
  ip_address : option string;
  status : string;
  log_type : string;
  details : option string
}.

(** [.from("audit_logs").select("*").order("created_at", { ascending: false }).limit(100)] *)
Definition query_logs (db : list AuditLog) : list AuditLog :=
  firstn 100 (js_sort (desc_by created_at) db).

(** ** Page state *)

Record Page := mkPage {
  searchTerm : string;
  activeTab : string;
  isFilterOpen : bool;
  filterDateFrom : string;
  filterDateTo : string;
  filterStatus : string;
  filterLogType : string;
  filterResource : string
}.

Definition initial_page : Page := mkPage "" "todos" false "" "" "todos" "todos" "todos".

Definition hasActiveFilters (p : Page) : bool :=
  negb (filterDateFrom p === "") || negb (filterDateTo p === "") || negb (filterStatus p === "todos")
  || negb (filterLogType p === "todos") || negb (filterResource p === "todos").

Definition clearFilters (p : Page) : Page :=
  mkPage (searchTerm p) (activeTab p) (isFilterOpen p) "" "" "todos" "todos" "todos".

(** ** The logs shown *)

Definition is_alert_status (s : string) : bool := (s === "falha") || (s === "bloqueado").

Definition matchesSearch (p : Page) (l : AuditLog) : bool :=
  let q := to_lower (searchTerm p) in
  (searchTerm p === "") || includes (to_lower (user_name l)) q || includes (to_lower (action l)) q
  || includes (to_lower (resource l)) q.

Definition matchesTab (p : Page) (l : AuditLog) : bool :=
  (activeTab p === "todos")
  || ((activeTab p === "seguranca") && (is_alert_status (status l) || (log_type l === "seguranca")))
  || ((activeTab p === "acessos") && ((log_type l === "leitura") || (log_type l === "autenticacao")))
  || ((activeTab p === "modificacoes") && (log_type l === "escrita")).

(** [new Date("yyyy-MM-dd")]: UTC midnight; an invalid date is [NaN]. *)
Definition date_utc (s : string) : option Z :=
  option_map (fun d => d * MS_PER_DAY)%Z (parse_ymd s).

(** [new Date("yyyy-MM-ddT23:59:59")]: local time. *)
Definition end_of_day_local (off : Z) (s : string) : option Z :=
  option_map (fun d => d * MS_PER_DAY + 86399000 - off)%Z (parse_ymd s).

(** [isAfter] and [isBefore] are strict and false against [NaN]. *)
Definition isAfter (t : Z) (o : option Z) : bool := match o with Some u => (u <? t)%Z | None => false end.
Definition isBefore (t : Z) (o : option Z) : bool := match o with Some u => (t <? u)%Z | None => false end.

Definition matchesDateFrom (p : Page) (l : AuditLog) : bool :=
  (filterDateFrom p === "") || isAfter (created_at l) (date_utc (filterDateFrom p)).

Definition matchesDateTo (off : Z) (p : Page) (l : AuditLog) : bool :=
  (filterDateTo p === "") || isBefore (created_at l) (end_of_day_local off (filterDateTo p)).

Definition matchesStatus (p : Page) (l : AuditLog) : bool :=
  (filterStatus p === "todos") || (status l === filterStatus p).
Definition matchesLogType (p : Page) (l : AuditLog) : bool :=
  (filterLogType p === "todos") || (log_type l === filterLogType p).
Definition matchesResource (p : Page) (l : AuditLog) : bool :=
  (filterResource p === "todos") || (resource l === filterResource p).

Definition filteredLogs (off : Z) (p : Page) (logs : list AuditLog) : list AuditLog :=
  filter (fun l => matchesSearch p l && matchesTab p l && matchesDateFrom p l && matchesDateTo off p l
                   && matchesStatus p l && matchesLogType p l && matchesResource p l) logs.

(** [[...new Set(auditLogs.map(log => log.resource))]]: first occurrences
    in order. *)
Definition uniqueResources (logs : list AuditLog) : list string := dedup [] (map resource logs).

(** ** Security alerts and statistics *)

Record Alert := mkAlert { alert_id : string; titulo : string; descricao : string; data : string;
                          severidade : string }.

Definition securityAlerts (off : Z) (logs : list AuditLog) : list Alert :=
  map (fun l => mkAlert (log_id l)
                  (if status l === "bloqueado" then "Tentativa bloqueada" else "Ação com falha")
                  (action l ++ " em " ++ resource l)
                  (format_ddMMyyyy (created_at l + off) ++ " " ++
                   substring 0 5 (format_HHmmss (created_at l + off)))
                  (if status l === "bloqueado" then "alta" else "media"))
      (firstn 5 (filter (fun l => is_alert_status (status l)) logs)).

Record Stats := mkStats { todayEvents : Z; successRate : string; activeAlerts : Z; blockedAttempts : Z }.

(** [(success / total * 100).toFixed(1)]: tenths of a percent, rounded. *)
Definition successRate_tenths (success total : Z) : Z := math_round (success * 1000) total.

Definition show_tenths (t : Z) : string := js_string_of_Z (t / 10) ++ "." ++ js_string_of_Z (t mod 10).

(** The five [count] queries; [startOfDay(new Date())] is [today_start]. *)
Definition fetch_stats (db : list AuditLog) (today_start : Z) : Stats :=
  let cnt f := jlen (filter f db) in
  let todayCount := cnt (fun l => (today_start <=? created_at l)%Z) in
  let successCount := cnt (fun l => status l === "sucesso") in
  let totalCount := jlen db in
  let alertsCount := cnt (fun l => is_alert_status (status l)) in
  let blockedCount := cnt (fun l => status l === "bloqueado") in
  mkStats todayCount
          (if (0 <? totalCount)%Z then show_tenths (successRate_tenths successCount totalCount) else "100.0")
          alertsCount blockedCount.

(** ** Rows of the table *)

Definition status_variant (s : string) : string :=
  if s === "sucesso" then "success" else if s === "falha" then "destructive" else "warning".

(** [s.charAt(0).toUpperCase() + s.slice(1)] *)
Definition capitalize (s : string) : string :=
  match s with
  | EmptyString => EmptyString
  | String c s' => String (upper_ascii c) s'
  end.

Inductive Icon := IEye | IFileText | IShield | ILock | IActivity | IUsers | ICalendar | IStethoscope.

Definition getLogTypeIcon (t : string) : Icon :=
  match t with
  | "leitura" => IEye | "escrita" => IFileText | "seguranca" => IShield | "autenticacao" => ILock
  | _ => IActivity
  end.

Definition getResourceIcon (r : string) : Icon :=
  if includes r "Paciente" then IUsers
  else if includes r "Prontuário" then IFileText
  else if includes r "Agendamento" then ICalendar
  else if includes r "Telemedicina" then IStethoscope
  else IActivity.

Record Row := mkRow { row_date : string; row_time : string; row_user : string; row_action : string;
                      row_resource_icon : Icon; row_resource : string; row_status_variant : string;
                      row_status : string; row_type_icon : Icon; row_type : string }.

Definition row_of (off : Z) (l : AuditLog) : Row :=
  mkRow (format_ddMMyyyy (created_at l + off)) (format_HHmmss (created_at l + off)) (user_name l)
        (action l) (getResourceIcon (resource l)) (resource l) (status_variant (status l))
        (capitalize (status l)) (getLogTypeIcon (log_type l)) (log_type l).

Inductive TableView := TLoading | TEmpty | TRows (rows : list Row).

Definition table_view (off : Z) (isLoading : bool) (p : Page) (logs : list AuditLog) : TableView :=
  if isLoading then TLoading
  else match filteredLogs off p logs with
       | [] => TEmpty
       | ls => TRows (map (row_of off) ls)
       end.

(** ** The other panels *)

(** The four cards: [stats] is [undefined] until its query resolves. *)
Record StatsCards := mkStatsCards { card_today : option Z; card_rate : string; card_alerts : Z; card_blocked : Z }.

Definition stats_cards (stats : option Stats) : StatsCards :=
  match stats with
  | Some s => mkStatsCards (Some (todayEvents s)) (successRate s ++ "%") (activeAlerts s) (blockedAttempts s)
  | None => mkStatsCards None "--%" 0 0
  end.

(** [format(new Date(d), "dd/MM/yyyy")] in local time; [format] throws
    on an invalid date ([None]). *)
Definition format_input_date (off : Z) (d : string) : option string :=
  option_map (fun t => format_ddMMyyyy (t + off)) (date_utc d).

(** The badges under the search bar, one per active filter; [None] when
    rendering throws. *)
Definition active_filter_badges (off : Z) (p : Page) : option (list string) :=
  let date_badge (label v : string) :=
    if v === "" then Some [] else option_map (fun s => [label ++ s]) (format_input_date off v) in
  if hasActiveFilters p then
    match date_badge "De: " (filterDateFrom p), date_badge "Até: " (filterDateTo p) with
    | Some b1, Some b2 =>
        Some (b1 ++ b2
              ++ (if filterStatus p === "todos" then [] else [("Status: " ++ filterStatus p)%string])
              ++ (if filterLogType p === "todos" then [] else [("Tipo: " ++ filterLogType p)%string])
              ++ (if filterResource p === "todos" then [] else [("Recurso: " ++ filterResource p)%string]))%list
    | _, _ => None
    end
  else Some [].

(** The filter popover's options. *)
Definition status_options : list string := ["todos"; "sucesso"; "falha"; "bloqueado"].
Definition log_type_options : list string := ["todos"; "leitura"; "escrita"; "sistema"; "seguranca"; "autenticacao"].
Definition resource_options (logs : list AuditLog) : list string := "todos" :: uniqueResources logs.

(** The alerts panel: an empty message or one card per alert. *)
Inductive AlertsView := NoAlerts | AlertCards (cards : list (string * string * string * string * string)).

Definition severity_variant (s : string) : string :=
  if s === "alta" then "destructive" else if s === "media" then "warning" else "secondary".

Definition alerts_view (alerts : list Alert) : AlertsView :=
  match alerts with
  | [] => NoAlerts
  | _ => AlertCards (map (fun a => (titulo a, to_upper (severidade a), severity_variant (severidade a),
                                    descricao a, data a)) alerts)
  end.

(** ** The page's events *)

Inductive Event :=
  | SearchInput (v : string)
  | FilterOpenChange (b : bool)       (* the popover's trigger and outside clicks *)
  | DateFromInput (v : string)
  | DateToInput (v : string)
  | StatusChange (v : string)
  | LogTypeChange (v : string)
  | ResourceChange (v : string)
  | ClearClick                        (* "Limpar" *)
  | ApplyClick                        (* "Aplicar Filtros" *)
  | TabChange (t : string)
  | RemoveDateFrom | RemoveDateTo | RemoveStatus | RemoveLogType | RemoveResource.  (* the badges' X *)

(** Each event calls one setter; "Aplicar Filtros" only closes the
    popover, the filters having applied as they were typed. *)
Definition step (p : Page) (e : Event) : Page :=
  let '(mkPage s tb o df dt fs fl fr) := p in
  match e with
  | SearchInput v => mkPage v tb o df dt fs fl fr
  | FilterOpenChange b => mkPage s tb b df dt fs fl fr
  | DateFromInput v => mkPage s tb o v dt fs fl fr
  | DateToInput v => mkPage s tb o df v fs fl fr
  | StatusChange v => mkPage s tb o df dt v fl fr
  | LogTypeChange v => mkPage s tb o df dt fs v fr
  | ResourceChange v => mkPage s tb o df dt fs fl v
  | ClearClick => clearFilters p
  | ApplyClick => mkPage s tb false df dt fs fl fr
  | TabChange v => mkPage s v o df dt fs fl fr
  | RemoveDateFrom => mkPage s tb o "" dt fs fl fr
  | RemoveDateTo => mkPage s tb o df "" fs fl fr
  | RemoveStatus => mkPage s tb o df dt "todos" fl fr
  | RemoveLogType => mkPage s tb o df dt fs "todos" fr
  | RemoveResource => mkPage s tb o df dt fs fl "todos"
  end.

(** The search card: the "!" on "Filtros" and the "Limpar" button are
    shown while a filter is active. *)
Record FilterBar := mkFilterBar { fb_search : string; fb_popover_open : bool; fb_mark : bool; fb_clear : bool }.

Definition filter_bar (p : Page) : FilterBar :=
  mkFilterBar (searchTerm p) (isFilterOpen p) (hasActiveFilters p) (hasActiveFilters p).

(** "Conformidade LGPD": three fixed cards, always marked compliant. *)
Definition lgpd_compliance : list (string * string) :=
  [("Criptografia de Dados", "Dados sensíveis criptografados");
   ("Controle de Acesso", "Perfis e permissões ativos");
   ("Logs de Auditoria", "Registro completo de atividades")].

(** ** Properties *)

(** The browser of the sample runs at UTC-3. *)
Definition brt : Z := (-3 * 3600000)%Z.

Definition day_filter : Page := mkPage "" "todos" false "2025-01-10" "2025-01-10" "todos" "todos" "todos".

Definition log_at (id : string) (t : Z) : AuditLog :=
  mkLog id t "admin" "Visualizou" "Paciente" None None "sucesso" "leitura" None.

(** 2025-01-09 22:00 and 2025-01-10 23:59:59.5, local time at UTC-3. *)
Definition evening_before : AuditLog := log_at "l1" (20097 * MS_PER_DAY + 22 * 3600000 - brt).
Definition last_second : AuditLog := log_at "l2" (20098 * MS_PER_DAY + 86399500 - brt).

(** The two date filters read their dates in different time zones:
    with "from" and "to" both set to 2025-01-10 in a browser at UTC-3, a
    log of 22:00 on the 9th (local) is shown, since the start date is
    UTC midnight, while a log in the last second of the 10th is hidden,
    since the end bound is 23:59:59 and strict; the badges of both
    filters read 09/01/2025. *)
Example date_filter_time_zones :
  filteredLogs brt day_filter [evening_before; last_second] = [evening_before] /\
  active_filter_badges brt day_filter = Some ["De: 09/01/2025"; "Até: 09/01/2025"].
Proof. vm_compute. split; reflexivity. Qed.

(** With no search, the "Todos" tab and no filter, every log is shown. *)
Lemma filteredLogs_initial (off : Z) (logs : list AuditLog) : filteredLogs off initial_page logs = logs.
Proof. apply filter_all_true. intros l. reflexivity. Qed.

(** The alerts list at most five of the logs read, all failed or blocked,
    and never more than the card "Alertas Ativos" counts over the whole
    table; a blocked attempt is "alta", a failure "media". *)
Theorem securityAlerts_spec (off : Z) (db : list AuditLog) (today_start : Z) :
  (jlen (securityAlerts off (query_logs db)) <= 5)%Z /\
  (jlen (securityAlerts off (query_logs db)) <= activeAlerts (fetch_stats db today_start))%Z /\
  forall a, In a (securityAlerts off (query_logs db)) ->
    exists l, In l db /\ is_alert_status (status l) = true /\ alert_id a = log_id l /\
              (severidade a = "alta" <-> status l = "bloqueado").
Proof.
  unfold securityAlerts, query_logs. set (f := fun l => is_alert_status (status l)).
  set (L := firstn 5 (filter f (firstn 100 (js_sort (desc_by created_at) db)))).
  assert (Hlen : forall g : AuditLog -> Alert, jlen (map g L) = jlen L)
    by (intros g; unfold jlen; rewrite length_map; reflexivity).
  split; [|split].
  - rewrite Hlen. apply jlen_firstn.
  - rewrite Hlen. simpl. fold f.
    pose proof (jlen_firstn_le 5 (filter f (firstn 100 (js_sort (desc_by created_at) db)))) as H1.
    pose proof (jlen_filter_firstn f 100 (js_sort (desc_by created_at) db)) as H2.
    rewrite (jlen_filter_perm f _ _ (js_sort_perm _ db)) in H2. unfold L. lia.
  - intros a Ha. apply in_map_iff in Ha as (l & <- & Hl). apply in_firstn, filter_In in Hl as [Hl Hf].
    apply in_firstn in Hl. apply (Permutation_in _ (js_sort_perm _ db)) in Hl.
    exists l. split; [exact Hl|split; [exact Hf|split; [reflexivity|]]]. simpl.
    destruct (String.eqb_spec (status l) "bloqueado"); split; congruence.
Qed.

(** The success rate is between 0.0 and 100.0 percent. *)
Lemma successRate_range (db : list AuditLog) :
  (0 < jlen db)%Z ->
  (0 <= successRate_tenths (jlen (filter (fun l => status l === "sucesso") db)) (jlen db) <= 1000)%Z.
Proof.
  intros H. unfold successRate_tenths. apply math_round_range; [exact H|].
  pose proof (jlen_filter_le (fun l => status l === "sucesso") db). unfold jlen in *. lia.
Qed.

(** ** Clearing the filters *)

(** "Limpar" keeps the search and the tab and drops the five advanced
    filters: the table then shows exactly the logs that match the search
    and the tab, among them every log it showed before. *)
Theorem clear_filters_shows_more (off : Z) (p : Page) (logs : list AuditLog) :
  filteredLogs off (step p ClearClick) logs = filter (fun l => matchesSearch p l && matchesTab p l) logs /\
  incl (filteredLogs off p logs) (filteredLogs off (step p ClearClick) logs).
Proof.
  assert (E : filteredLogs off (step p ClearClick) logs = filter (fun l => matchesSearch p l && matchesTab p l) logs).
  { destruct p as [s tb o df dt fs fl fr]. unfold filteredLogs. apply filter_ext. intros l. cbn.
    rewrite !andb_true_r. reflexivity. }
  split; [exact E|]. rewrite E. intros l Hl. apply filter_In in Hl as [Hl Hm]. apply filter_In.
  split; [exact Hl|]. repeat rewrite andb_true_iff in Hm. rewrite andb_true_iff. tauto.
Qed.

(** The "!" of "Filtros" is on exactly when the badge row has a badge,
    whenever the row renders (an invalid date makes [format] throw). *)
Lemma filter_mark_iff_badges (off : Z) (p : Page) (bs : list string) :
  active_filter_badges off p = Some bs -> (fb_mark (filter_bar p) = true <-> bs <> []).
Proof.
  unfold active_filter_badges, filter_bar. cbn [fb_mark]. destruct (hasActiveFilters p) eqn:Ha.
  - destruct (if filterDateFrom p === "" then _ else _) as [b1|] eqn:E1; [|discriminate].
    destruct (if filterDateTo p === "" then _ else _) as [b2|] eqn:E2; [|discriminate].
    intros H. injection H as <-. split; [intros _|reflexivity].
    unfold hasActiveFilters in Ha.
    destruct (filterDateFrom p === "") eqn:D1;
      [|destruct (format_input_date off (filterDateFrom p)); [|discriminate]; injection E1 as <-; discriminate].
    destruct (filterDateTo p === "") eqn:D2;
      [|destruct (format_input_date off (filterDateTo p)); [|discriminate]; injection E2 as <-;
        destruct b1; discriminate].
    injection E1 as <-. injection E2 as <-. cbn in Ha |- *.
    destruct (filterStatus p === "todos"); [|discriminate].
    destruct (filterLogType p === "todos"); [|discriminate].
    destruct (filterResource p === "todos"); [discriminate|discriminate].
  - intros H. injection H as <-. split; [discriminate|tauto].
Qed.

End Auditoria.
