(* ===== verification/Pacientes.v ===== *)
(** * The patients page (pages/Pacientes.tsx)

    The page lists the [patients] rows (newest first), filters them by a
    search text, a status and a birth-date range, and writes the store in
    three ways: [createPatient] inserts a row, [updatePatient] sets the six
    columns of the form on the row of an id, [deletePatient] deletes the
    row of an id.  One form state ([formData]) serves both the "Novo
    Paciente" and the "Editar Paciente" dialogs.  Each request's outcome is
    the [Reply] of the store: the id and instant the store gives a new row,
    and the error it answers, if any; besides, the store keeps its unique
    constraint on the CPF, which [handlePatientError] expects, and refuses
    a write that would give two rows one CPF.  The page is a record of its React
    states, each [useState] setter a function of the same name, and every
    user action an [Event] of the step function [step]. *)

From Stdlib Require Import List ZArith Lia String Ascii Bool.
From S2P Require Import Prelude Schema Format ErrorHandler.
Import ErrorHandler Format.
Import ListNotations.
Open Scope js_scope.
Open Scope string_scope.

Module Pacientes.

(** ** Data *)

(** A [patients] row; [created_at] and [updated_at] are the instants
    (milliseconds since the epoch) the store's timestamps denote. *)
Record Patient := mkPatient {
  id : string;
  name : string;
  cpf : string;
  birth_date : string;
  phone : option string;
  email : option string;
  status : string;
  created_at : Z;
  updated_at : Z
}.

Record Filters := mkFilters { f_status : string; dateFrom : string; dateTo : string }.

Definition getStatusVariant (s : string) : string :=
  match s with
  | "Ativo" => "success-light"
  | "Em tratamento" => "info-light"
  | "Internado" => "warning-light"
  | _ => "secondary"
  end.

(** [name.split(" ").map(n => n[0]).slice(0, 2).join("").toUpperCase()] *)
Definition getInitials (n : string) : string :=
  to_upper (join_opt (firstn 2 (map first_char (js_split " "%char n)))).

(** date-fns [parseISO] of a ["yyyy-MM-dd"] text: the day number of the
    date, when the date exists (a day past the month's end is invalid). *)
Definition leap_year (y : Z) : bool :=
  (y mod 4 =? 0)%Z && (negb (y mod 100 =? 0)%Z || (y mod 400 =? 0)%Z).

Definition days_in_month (y m : Z) : Z :=
  if (m =? 2)%Z then (if leap_year y then 29 else 28)%Z
  else if (m =? 4)%Z || (m =? 6)%Z || (m =? 9)%Z || (m =? 11)%Z then 30%Z else 31%Z.

Definition parseISO_date (s : string) : option Z :=
  match digits_value (substring 0 4 s), digits_value (substring 5 2 s), digits_value (substring 8 2 s) with
  | Some y, Some m, Some d =>
      if (String.length s =? 10)%nat && (substring 4 1 s =? "-") && (substring 7 1 s =? "-")
         && (1 <=? m)%Z && (m <=? 12)%Z && (1 <=? d)%Z && (d <=? days_in_month y m)%Z
      then Some (days_from_civil y m d) else None
  | _, _, _ => None
  end.

(** [formatDate(dateString)] with the default ["dd/MM/yyyy"], for a date
    text: [parseISO] gives the local midnight of the day (the UTC instant
    [d * MS_PER_DAY - off] when local time is [off] ms ahead of UTC), which
    [format] shows in local time. *)
Definition formatDate (off : Z) (dateString : string) : string :=
  if dateString === "" then "Data inválida"
  else match parseISO_date dateString with
       | Some d => format_ddMMyyyy ((d * MS_PER_DAY - off) + off)
       | None => "Data inválida"
       end.

(** [formatDate(t, "dd/MM/yyyy HH:mm")] of a timestamp the store wrote. *)
Definition formatDateTime (off : Z) (t : Z) : string :=
  format_ddMMyyyy (t + off) ++ " " ++ substring 0 5 (format_HHmmss (t + off)).

(** The page's own copies of the masks of [QuickActions.tsx]: the same
    code, so the same functions. *)
Definition formatCPF (value : string) : string := Format.formatCPF value.
Definition formatPhone (value : string) : string := Format.formatPhone value.

Record FormData := mkForm {
  fd_name : string; fd_cpf : string; fd_birth_date : string;
  fd_phone : string; fd_email : string; fd_status : string
}.

Definition emptyFormData : FormData := mkForm "" "" "" "" "" "Ativo".
Definition emptyFilters : Filters := mkFilters "" "" "".

(** ** The store *)

Definition DB := list Patient.

(** [select("*").order("created_at", { ascending: false })] *)
Definition query_patients (db : DB) : list Patient := js_sort (desc_by created_at) db.

(** The object passed to [insert([...])] and to [update({...})]. *)
Record NewPatient := mkNew {
  n_name : string; n_cpf : string; n_birth_date : string;
  n_phone : option string; n_email : option string; n_status : string
}.

(** What the store answers a request: the id and instant it gives a new
    row, and the error of the request, if it fails. *)
Record Reply := mkReply { new_id : string; now : Z; fault : option string }.

(** The message of [.single()] when the update matched no row (or more
    than one), in which case nothing is written. *)
Definition SINGLE_ERROR : string := "Cannot coerce the result to a single JSON object".

Definition new_row (r : Reply) (np : NewPatient) : Patient :=
  mkPatient (new_id r) (n_name np) (n_cpf np) (n_birth_date np) (n_phone np) (n_email np)
            (n_status np) (now r) (now r).

Definition set_columns (np : NewPatient) (q : Patient) : Patient :=
  mkPatient (id q) (n_name np) (n_cpf np) (n_birth_date np) (n_phone np) (n_email np)
            (n_status np) (created_at q) (updated_at q).

Definition update_rows (db : DB) (pid : string) (np : NewPatient) : DB :=
  map (fun q => if id q === pid then set_columns np q else q) db.

Definition single_match (db : DB) (pid : string) : bool :=
  Nat.eqb (List.length (filter (fun q => id q === pid) db)) 1.

Definition delete_rows (db : DB) (pid : string) : DB := filter (fun q => negb (id q === pid)) db.

(** The columns as a [Schema.Row], for the typing of the requests. *)
Definition payload_row (np : NewPatient) : Schema.Row :=
  let opt o := match o with Some s => Schema.VString s | None => Schema.VNull end in
  [("name", Schema.VString (n_name np)); ("cpf", Schema.VString (n_cpf np));
   ("birth_date", Schema.VString (n_birth_date np)); ("phone", opt (n_phone np));
   ("email", opt (n_email np)); ("status", Schema.VString (n_status np))].

(** ** The page *)

Inductive Toast := ToastSuccess (message : string) | ToastError (message : string).

(** The three [useMutation]s. *)
Inductive Mutation := MCreate | MUpdate | MDelete.

Definition mutation_eqb (a b : Mutation) : bool :=
  match a, b with MCreate, MCreate | MUpdate, MUpdate | MDelete, MDelete => true | _, _ => false end.

(** A request sent whose callbacks have not run yet: which mutation, and
    the error the store answered, if any. *)
Record Inflight := mkInflight { m_kind : Mutation; m_error : option string }.

(** The states of [Pacientes()]; [patients] is the query's cache and
    [inflight] the mutations awaiting their callbacks, oldest first. *)
Record Page := mkPage {
  searchTerm : string;
  isDialogOpen : bool;
  isEditDialogOpen : bool;
  isViewDialogOpen : bool;
  isDeleteDialogOpen : bool;
  selectedPatient : option Patient;
  formData : FormData;
  filters : Filters;
  isFiltersOpen : bool;
  patients : list Patient;
  toasts : list Toast;
  inflight : list Inflight
}.

Definition initial_page (db : DB) : Page :=
  mkPage "" false false false false None emptyFormData emptyFilters false (query_patients db) [] [].

(** The [useState] setters. *)
Definition setSearchTerm (p : Page) (v : string) : Page :=
  mkPage v (isDialogOpen p) (isEditDialogOpen p) (isViewDialogOpen p) (isDeleteDialogOpen p)
    (selectedPatient p) (formData p) (filters p) (isFiltersOpen p) (patients p) (toasts p) (inflight p).
Definition setIsDialogOpen (p : Page) (v : bool) : Page :=
  mkPage (searchTerm p) v (isEditDialogOpen p) (isViewDialogOpen p) (isDeleteDialogOpen p)
    (selectedPatient p) (formData p) (filters p) (isFiltersOpen p) (patients p) (toasts p) (inflight p).
Definition setIsEditDialogOpen (p : Page) (v : bool) : Page :=
  mkPage (searchTerm p) (isDialogOpen p) v (isViewDialogOpen p) (isDeleteDialogOpen p)
    (selectedPatient p) (formData p) (filters p) (isFiltersOpen p) (patients p) (toasts p) (inflight p).
Definition setIsViewDialogOpen (p : Page) (v : bool) : Page :=
  mkPage (searchTerm p) (isDialogOpen p) (isEditDialogOpen p) v (isDeleteDialogOpen p)
    (selectedPatient p) (formData p) (filters p) (isFiltersOpen p) (patients p) (toasts p) (inflight p).
Definition setIsDeleteDialogOpen (p : Page) (v : bool) : Page :=
  mkPage (searchTerm p) (isDialogOpen p) (isEditDialogOpen p) (isViewDialogOpen p) v
    (selectedPatient p) (formData p) (filters p) (isFiltersOpen p) (patients p) (toasts p) (inflight p).
Definition setSelectedPatient (p : Page) (v : option Patient) : Page :=
  mkPage (searchTerm p) (isDialogOpen p) (isEditDialogOpen p) (isViewDialogOpen p) (isDeleteDialogOpen p)
    v (formData p) (filters p) (isFiltersOpen p) (patients p) (toasts p) (inflight p).
Definition setFormData (p : Page) (v : FormData) : Page :=
  mkPage (searchTerm p) (isDialogOpen p) (isEditDialogOpen p) (isViewDialogOpen p) (isDeleteDialogOpen p)
    (selectedPatient p) v (filters p) (isFiltersOpen p) (patients p) (toasts p) (inflight p).
Definition setFilters (p : Page) (v : Filters) : Page :=
  mkPage (searchTerm p) (isDialogOpen p) (isEditDialogOpen p) (isViewDialogOpen p) (isDeleteDialogOpen p)
    (selectedPatient p) (formData p) v (isFiltersOpen p) (patients p) (toasts p) (inflight p).
Definition setIsFiltersOpen (p : Page) (v : bool) : Page :=
  mkPage (searchTerm p) (isDialogOpen p) (isEditDialogOpen p) (isViewDialogOpen p) (isDeleteDialogOpen p)
    (selectedPatient p) (formData p) (filters p) v (patients p) (toasts p) (inflight p).

(** [toast.success] / [toast.error]. *)
Definition toast (p : Page) (t : Toast) : Page :=
  mkPage (searchTerm p) (isDialogOpen p) (isEditDialogOpen p) (isViewDialogOpen p) (isDeleteDialogOpen p)
    (selectedPatient p) (formData p) (filters p) (isFiltersOpen p) (patients p) (toasts p ++ [t]) (inflight p).

(** [invalidateQueries({ queryKey: ["patients"] })]: the list is fetched
    again from the store. *)
Definition invalidate (p : Page) (db : DB) : Page :=
  mkPage (searchTerm p) (isDialogOpen p) (isEditDialogOpen p) (isViewDialogOpen p) (isDeleteDialogOpen p)
    (selectedPatient p) (formData p) (filters p) (isFiltersOpen p) (query_patients db) (toasts p) (inflight p).

Definition set_inflight (p : Page) (v : list Inflight) : Page :=
  mkPage (searchTerm p) (isDialogOpen p) (isEditDialogOpen p) (isViewDialogOpen p) (isDeleteDialogOpen p)
    (selectedPatient p) (formData p) (filters p) (isFiltersOpen p) (patients p) (toasts p) v.

(** [mutation.isPending] *)
Definition isPending (p : Page) (k : Mutation) : bool :=
  existsb (fun m => mutation_eqb (m_kind m) k) (inflight p).

(** ** The mutations: the request ([mutationFn]) and the callbacks *)

Definition REQUIRED_MSG : string := "Preencha todos os campos obrigatórios.".
Definition DELETE_ERROR_MSG : string := "Erro ao excluir paciente. Tente novamente.".

(** The store's unique constraint on [patients.cpf], which the code's
    error handling expects ([handlePatientError] turns its "duplicate"
    error into "CPF já cadastrado no sistema."): the error of a write that
    would give a second row the CPF of another one. *)
Definition DUPLICATE_CPF_ERROR : string := "duplicate key value violates unique constraint patients_cpf_key".

(** A row other than [except] has the CPF [c]. *)
Definition cpf_taken (db : DB) (except : option string) (c : string) : bool :=
  existsb (fun q => (cpf q === c) && match except with Some pid => negb (id q === pid) | None => true end) db.

(** The store after the request, and its error. *)
Definition createPatient_fn (db : DB) (r : Reply) (np : NewPatient) : DB * option string :=
  match fault r with
  | None => if cpf_taken db None (n_cpf np) then (db, Some DUPLICATE_CPF_ERROR)
            else ((db ++ [new_row r np])%list, None)
  | Some m => (db, Some m)
  end.

Definition updatePatient_fn (db : DB) (r : Reply) (pid : string) (np : NewPatient) : DB * option string :=
  match fault r with
  | None => if single_match db pid then
              if cpf_taken db (Some pid) (n_cpf np) then (db, Some DUPLICATE_CPF_ERROR)
              else (update_rows db pid np, None)
            else (db, Some SINGLE_ERROR)
  | Some m => (db, Some m)
  end.

Definition deletePatient_fn (db : DB) (r : Reply) (pid : string) : DB * option string :=
  match fault r with
  | None => (delete_rows db pid, None)
  | Some m => (db, Some m)
  end.

(** [onSuccess] / [onError] of each mutation, run on the page as it is
    when the answer arrives; [db] is the store the refetch reads. *)
Definition createPatient_settled (p : Page) (db : DB) (err : option string) : Page :=
  match err with
  | None => setFormData (setIsDialogOpen
              (toast (invalidate p db) (ToastSuccess "Paciente cadastrado com sucesso!")) false) emptyFormData
  | Some m => toast p (ToastError (handlePatientError (ThrownError m)))
  end.

Definition updatePatient_settled (p : Page) (db : DB) (err : option string) : Page :=
  match err with
  | None => setFormData (setSelectedPatient (setIsEditDialogOpen
              (toast (invalidate p db) (ToastSuccess "Paciente atualizado com sucesso!")) false) None)
              emptyFormData
  | Some m => toast p (ToastError (handlePatientError (ThrownError m)))
  end.

Definition deletePatient_settled (p : Page) (db : DB) (err : option string) : Page :=
  match err with
  | None => setSelectedPatient (setIsDeleteDialogOpen
              (toast (invalidate p db) (ToastSuccess "Paciente excluído com sucesso!")) false) None
  | Some _ => toast p (ToastError DELETE_ERROR_MSG)
  end.

Definition settled (p : Page) (db : DB) (m : Inflight) : Page :=
  match m_kind m with
  | MCreate => createPatient_settled p db (m_error m)
  | MUpdate => updatePatient_settled p db (m_error m)
  | MDelete => deletePatient_settled p db (m_error m)
  end.

(** [mutate]: the request is sent (and the store answers it); the
    callbacks wait for [Settle]. *)
Definition mutate (p : Page) (k : Mutation) (res : DB * option string) : Page * DB :=
  (set_inflight p (inflight p ++ [mkInflight k (snd res)]), fst res).

(** [formData.phone || null] *)
Definition or_null (s : string) : option string := if s === "" then None else Some s.

Definition form_payload (fd : FormData) : NewPatient :=
  mkNew (fd_name fd) (fd_cpf fd) (fd_birth_date fd) (or_null (fd_phone fd)) (or_null (fd_email fd))
        (fd_status fd).

Definition missing_required (fd : FormData) : bool :=
  (fd_name fd === "") || (fd_cpf fd === "") || (fd_birth_date fd === "").

Definition handleSubmit (p : Page) (db : DB) (r : Reply) : Page * DB :=
  if missing_required (formData p) then (toast p (ToastError REQUIRED_MSG), db)
  else mutate p MCreate (createPatient_fn db r (form_payload (formData p))).

Definition handleEditSubmit (p : Page) (db : DB) (r : Reply) : Page * DB :=
  match selectedPatient p with
  | Some sp =>
      if missing_required (formData p) then (toast p (ToastError REQUIRED_MSG), db)
      else mutate p MUpdate (updatePatient_fn db r (id sp) (form_payload (formData p)))
  | None => (toast p (ToastError REQUIRED_MSG), db)
  end.

(** [patient.phone || ""] *)
Definition or_empty (o : option string) : string := match o with Some s => s | None => "" end.

Definition form_of (q : Patient) : FormData :=
  mkForm (name q) (cpf q) (birth_date q) (or_empty (phone q)) (or_empty (email q)) (status q).

Definition openEditDialog (p : Page) (q : Patient) : Page :=
  setIsEditDialogOpen (setFormData (setSelectedPatient p (Some q)) (form_of q)) true.

Definition openViewDialog (p : Page) (q : Patient) : Page :=
  setIsViewDialogOpen (setSelectedPatient p (Some q)) true.

Definition openDeleteDialog (p : Page) (q : Patient) : Page :=
  setIsDeleteDialogOpen (setSelectedPatient p (Some q)) true.

Definition clearFilters (p : Page) : Page := setFilters p emptyFilters.

Definition hasActiveFilters (f : Filters) : bool :=
  negb (f_status f === "") || negb (dateFrom f === "") || negb (dateTo f === "").

(** ** The filters *)

(** [new Date(s)] of a ["yyyy-MM-dd"] text: its UTC midnight, [None] for
    an invalid date. *)
Definition new_Date (s : string) : option Z := option_map (fun d => (d * MS_PER_DAY)%Z) (parse_ymd s).

(** [a >= b] on two [Date]s, false when either is invalid (NaN). *)
Definition date_ge (a b : option Z) : bool :=
  match a, b with Some x, Some y => (y <=? x)%Z | _, _ => false end.

Definition matchesSearch (term : string) (q : Patient) : bool :=
  includes (to_lower (name q)) (to_lower term) || includes (cpf q) term
  || includes (to_lower (id q)) (to_lower term).

Definition matchesStatus (f : Filters) (q : Patient) : bool :=
  (f_status f === "") || (status q === f_status f).

Definition matchesDateFrom (f : Filters) (q : Patient) : bool :=
  (dateFrom f === "") || date_ge (new_Date (birth_date q)) (new_Date (dateFrom f)).

Definition matchesDateTo (f : Filters) (q : Patient) : bool :=
  (dateTo f === "") || date_ge (new_Date (dateTo f)) (new_Date (birth_date q)).

Definition filteredPatients (p : Page) : list Patient :=
  filter (fun q => matchesSearch (searchTerm p) q && matchesStatus (filters p) q
                   && matchesDateFrom (filters p) q && matchesDateTo (filters p) q) (patients p).

(** ** What the user does *)

Inductive Event :=
  | SearchChange (v : string)
  | NewDialogOpenChange (b : bool)
  | NameChange (v : string)
  | CpfChange (v : string)
  | BirthDateChange (v : string)
  | PhoneChange (v : string)
  | EmailChange (v : string)
  | StatusChange (v : string)
  | SubmitNew
  | SubmitEdit
  | ViewClick (q : Patient)
  | EditClick (q : Patient)
  | DeleteClick (q : Patient)
  | EditDialogOpenChange (b : bool)
  | ViewDialogOpenChange (b : bool)
  | ViewEditClick
  | DeleteDialogOpenChange (b : bool)
  | DeleteConfirm
  | FiltersOpenChange (b : bool)
  | FilterStatusChange (v : string)
  | FilterDateFromChange (v : string)
  | FilterDateToChange (v : string)
  | ClearFiltersClick
  | ApplyFiltersClick
  | Settle (i : nat).


(** One event; [r] is the store's reply to the request the event sends, if
    it sends one.  The inputs of both form dialogs write the one
    [formData].  A submit button is [disabled] while its mutation is
    pending, so the submit does nothing then.  [AlertDialogAction] closes
    its dialog when clicked.  [Settle i] is the answer to the [i]-th
    pending request arriving: its callbacks run, and a refetch reads the
    store as it is then. *)
Definition step (r : Reply) (s : Page * DB) (e : Event) : Page * DB :=
  let (p, db) := s in
  let fd := formData p in
  let f := filters p in
  match e with
  | SearchChange v => (setSearchTerm p v, db)
  | NewDialogOpenChange b => (setIsDialogOpen p b, db)
  | NameChange v =>
      (setFormData p (mkForm v (fd_cpf fd) (fd_birth_date fd) (fd_phone fd) (fd_email fd) (fd_status fd)), db)
  | CpfChange v =>
      (setFormData p (mkForm (fd_name fd) (formatCPF v) (fd_birth_date fd) (fd_phone fd) (fd_email fd)
                             (fd_status fd)), db)
  | BirthDateChange v =>
      (setFormData p (mkForm (fd_name fd) (fd_cpf fd) v (fd_phone fd) (fd_email fd) (fd_status fd)), db)
  | PhoneChange v =>
      (setFormData p (mkForm (fd_name fd) (fd_cpf fd) (fd_birth_date fd) (formatPhone v) (fd_email fd)
                             (fd_status fd)), db)
  | EmailChange v =>
      (setFormData p (mkForm (fd_name fd) (fd_cpf fd) (fd_birth_date fd) (fd_phone fd) v (fd_status fd)), db)
  | StatusChange v =>
      (setFormData p (mkForm (fd_name fd) (fd_cpf fd) (fd_birth_date fd) (fd_phone fd) (fd_email fd) v), db)
  | SubmitNew => if isPending p MCreate then (p, db) else handleSubmit p db r
  | SubmitEdit => if isPending p MUpdate then (p, db) else handleEditSubmit p db r
  | ViewClick q => (openViewDialog p q, db)
  | EditClick q => (openEditDialog p q, db)
  | DeleteClick q => (openDeleteDialog p q, db)
  | EditDialogOpenChange b => (setIsEditDialogOpen p b, db)
  | ViewDialogOpenChange b => (setIsViewDialogOpen p b, db)
  | ViewEditClick =>
      let p := setIsViewDialogOpen p false in
      match selectedPatient p with Some q => (openEditDialog p q, db) | None => (p, db) end
  | DeleteDialogOpenChange b => (setIsDeleteDialogOpen p b, db)
  | DeleteConfirm =>
      let p := setIsDeleteDialogOpen p false in
      match selectedPatient p with Some q => mutate p MDelete (deletePatient_fn db r (id q)) | None => (p, db) end
  | FiltersOpenChange b => (setIsFiltersOpen p b, db)
  | FilterStatusChange v => (setFilters p (mkFilters v (dateFrom f) (dateTo f)), db)
  | FilterDateFromChange v => (setFilters p (mkFilters (f_status f) v (dateTo f)), db)
  | FilterDateToChange v => (setFilters p (mkFilters (f_status f) (dateFrom f) v), db)
  | ClearFiltersClick => (clearFilters p, db)
  | ApplyFiltersClick => (setIsFiltersOpen p false, db)
  | Settle i =>
      match nth_error (inflight p) i with
      | Some m => (settled (set_inflight p (remove_nth i (inflight p))) db m, db)
      | None => (p, db)
      end
  end.

(** A session: events with the store's replies, in order. *)
Definition run (s : Page * DB) (es : list (Reply * Event)) : Page * DB :=
  fold_left (fun s re => step (fst re) s (snd re)) es s.

(** ** What the page shows *)

(** [x && <span>x</span>]: shown when the text is not empty. *)
Definition truthy (o : option string) : option string :=
  match o with Some s => if s === "" then None else Some s | None => None end.

(** The search box and the filters popover. *)
Record FiltersView := mkFiltersView {
  fv_search : string; fv_badge : bool; fv_clear_button : bool;
  fv_status : string; fv_date_from : string; fv_date_to : string; fv_status_options : list string
}.

Definition STATUS_OPTIONS : list string := ["Ativo"; "Em tratamento"; "Internado"].

Definition filters_view (p : Page) : FiltersView :=
  let f := filters p in
  mkFiltersView (searchTerm p) (hasActiveFilters f) (hasActiveFilters f) (f_status f) (dateFrom f) (dateTo f)
                STATUS_OPTIONS.

Record PatientRow := mkRow {
  r_initials : string; r_name : string; r_short_id : string; r_cpf : string;
  r_phone : option string; r_email : option string; r_birth : string;
  r_variant : string; r_status : string
}.

Definition row_of (off : Z) (q : Patient) : PatientRow :=
  mkRow (getInitials (name q)) (name q) (substring 0 8 (id q)) (cpf q) (truthy (phone q)) (truthy (email q))
        (formatDate off (birth_date q)) (getStatusVariant (status q)) (status q).

(** The card's content: the spinner while loading, else the table body
    and the line under it. *)
Inductive TableView :=
  | TLoading
  | TEmpty (message : string) (footer : string)
  | TRows (rows : list PatientRow) (footer : string).

Definition footer (p : Page) : string :=
  "Mostrando " ++ js_string_of_Z (jlen (filteredPatients p)) ++ " de " ++ js_string_of_Z (jlen (patients p))
  ++ " pacientes".

Definition table_view (off : Z) (isLoading : bool) (p : Page) : TableView :=
  if isLoading then TLoading
  else match filteredPatients p with
       | [] => TEmpty (if negb (searchTerm p === "") || hasActiveFilters (filters p)
                       then "Nenhum paciente encontrado." else "Nenhum paciente cadastrado.") (footer p)
       | qs => TRows (map (row_of off) qs) (footer p)
       end.

(** The two form dialogs; [isPending] is the mutation's. *)
Record FormDialogView := mkFormDialog {
  dlg_open : bool; dlg_title : string; dlg_description : string;
  v_name : string; v_cpf : string; v_birth_date : string; v_phone : string; v_email : string;
  v_status : string; v_status_options : list string; submit_label : string; submit_disabled : bool
}.

Definition form_dialog (isOpen : bool) (title description label : string) (pending : bool) (fd : FormData)
  : FormDialogView :=
  mkFormDialog isOpen title description (fd_name fd) (fd_cpf fd) (fd_birth_date fd) (fd_phone fd) (fd_email fd)
               (fd_status fd) STATUS_OPTIONS (if pending then "Salvando..." else label) pending.

Definition new_dialog_view (p : Page) : FormDialogView :=
  form_dialog (isDialogOpen p) "Cadastrar Novo Paciente"
              "Preencha os dados do paciente para realizar o cadastro." "Salvar" (isPending p MCreate) (formData p).

Definition edit_dialog_view (p : Page) : FormDialogView :=
  form_dialog (isEditDialogOpen p) "Editar Paciente" "Altere os dados do paciente conforme necessário."
              "Salvar Alterações" (isPending p MUpdate) (formData p).

Record DetailsView := mkDetails {
  d_initials : string; d_name : string; d_variant : string; d_status : string; d_cpf : string;
  d_birth : string; d_phone : string; d_email : string; d_created : string; d_updated : string; d_id : string
}.

(** [selectedPatient.phone || "Não informado"] *)
Definition or_not_informed (o : option string) : string :=
  match truthy o with Some s => s | None => "Não informado" end.

Definition details_view (off : Z) (p : Page) : option DetailsView :=
  match selectedPatient p with
  | Some q =>
      Some (mkDetails (getInitials (name q)) (name q) (getStatusVariant (status q)) (status q) (cpf q)
                      (formatDate off (birth_date q)) (or_not_informed (phone q)) (or_not_informed (email q))
                      (formatDateTime off (created_at q)) (formatDateTime off (updated_at q)) (id q))
  | None => None
  end.

(** The confirmation: the name it asks about ([selectedPatient?.name])
    and the label of its button. *)
Definition delete_view (p : Page) : option string * string :=
  (option_map name (selectedPatient p), if isPending p MDelete then "Excluindo..." else "Excluir").

(** ** Searching a CPF by its digits *)

(** The text starts with four digits. *)
Definition starts4 (s : string) : bool :=
  match s with
  | String a (String b (String c (String d _))) => is_digit a && is_digit b && is_digit c && is_digit d
  | _ => false
  end.

(** No four digits in a row anywhere in the text. *)
Fixpoint no_run4 (s : string) : bool :=
  match s with
  | EmptyString => true
  | String c s' => negb (starts4 (String c s')) && no_run4 s'
  end.

Definition digit_text (t : string) : bool := all_digits (list_ascii_of_string t).

Lemma prefix_digits_starts4 (t s : string) :
  digit_text t = true -> (4 <= String.length t)%nat -> String.prefix t s = true -> starts4 s = true.
Proof.
  intros Ht Hl Hp.
  destruct t as [|a [|b [|c [|d t]]]]; simpl in Hl; try lia.
  destruct s as [|a' [|b' [|c' [|d' s]]]]; simpl in Hp;
    repeat match type of Hp with
           | context [ascii_dec ?x ?y] => destruct (ascii_dec x y); subst
           end; try discriminate.
  unfold digit_text in Ht. simpl in Ht |- *.
  repeat match goal with H : (_ && _)%bool = true |- _ => apply andb_prop in H as [? H] end.
  repeat match goal with H : is_digit _ = true |- _ => rewrite H; clear H end. reflexivity.
Qed.

Lemma includes_no_run4 (s t : string) :
  digit_text t = true -> (4 <= String.length t)%nat -> no_run4 s = true -> includes s t = false.
Proof.
  intros Ht Hl. induction s as [|c s IH]; intros Hs.
  - destruct t as [|a t]; simpl in Hl; [lia|reflexivity].
  - change (negb (starts4 (String c s)) && no_run4 s = true) in Hs. apply andb_prop in Hs as [Hs1 Hs2].
    change (String.prefix t (String c s) || includes s t = false). rewrite (IH Hs2), Bool.orb_false_r.
    destruct (String.prefix t (String c s)) eqn:E; [|reflexivity].
    rewrite (prefix_digits_starts4 _ _ Ht Hl E) in Hs1. discriminate.
Qed.

Lemma cpf_mask_no_run4 (ds : list ascii) : no_run4 (string_of_list_ascii (cpf_mask ds)) = true.
Proof.
  destruct ds as [|a [|b [|c [|d [|e [|f [|g [|h [|i [|j [|k r]]]]]]]]]]]; simpl;
    repeat (rewrite ?Bool.andb_false_r; simpl); reflexivity.
Qed.

(** ** The birth-date filter *)

Lemma parse_ymd_nonempty (s : string) (n : Z) : parse_ymd s = Some n -> (s === "") = false.
Proof. destruct s; [discriminate|reflexivity]. Qed.

Lemma leb_days (a b : Z) : ((a * MS_PER_DAY <=? b * MS_PER_DAY)%Z = (a <=? b)%Z).
Proof. unfold MS_PER_DAY. destruct (Z.leb_spec a b), (Z.leb_spec (a * 86400000) (b * 86400000)); lia. Qed.

Lemma date_ge_days (x y : string) :
  date_ge (new_Date x) (new_Date y) =
  match parse_ymd x, parse_ymd y with Some n, Some m => (m <=? n)%Z | _, _ => false end.
Proof. unfold date_ge, new_Date. destruct (parse_ymd x), (parse_ymd y); simpl; try rewrite leb_days; reflexivity. Qed.

(** ** The edit dialog *)

Lemma filter_id_single (db : DB) (q : Patient) :
  NoDup (map id db) -> In q db -> filter (fun x => id x === id q) db = [q].
Proof.
  induction db as [|x db IH]; simpl; [tauto|]. intros Hnd [<-|Hin]; inversion Hnd as [|? ? Hx Hnd']; subst.
  - rewrite String.eqb_refl. f_equal. apply filter_nil_existsb.
    destruct (existsb _ _) eqn:E; [|reflexivity]. exfalso. apply Hx.
    apply existsb_exists in E as [y [Hy Hyq]]. apply String.eqb_eq in Hyq. rewrite <- Hyq. apply in_map, Hy.
  - destruct (String.eqb_spec (id x) (id q)) as [E|E]; [|apply IH; assumption].
    exfalso. apply Hx. rewrite E. apply in_map, Hin.
Qed.

Lemma update_rows_same (db : DB) (q : Patient) (np : NewPatient) :
  NoDup (map id db) -> In q db -> set_columns np q = q -> update_rows db (id q) np = db.
Proof.
  intros Hnd Hin Hset. unfold update_rows. rewrite <- (map_id db) at 2. apply map_ext_in.
  intros x Hx. destruct (String.eqb_spec (id x) (id q)) as [E|E]; [|reflexivity].
  assert (x = q) as ->; [|exact Hset].
  apply (NoDup_map_eq id db); assumption.
Qed.

Lemma or_null_or_empty (o : option string) : o <> Some "" -> or_null (or_empty o) = o.
Proof. destruct o as [s|]; simpl; [|reflexivity]. unfold or_null. destruct (String.eqb_spec s ""); congruence. Qed.

Lemma set_columns_form_of (q : Patient) :
  phone q <> Some "" -> email q <> Some "" -> set_columns (form_payload (form_of q)) q = q.
Proof.
  intros Hp He. destruct q. unfold set_columns, form_payload, form_of. simpl in *.
  rewrite !or_null_or_empty by assumption. reflexivity.
Qed.

(** In a store that keeps its unique constraint, no row but [q] has
    [q]'s CPF. *)
Lemma cpf_free_self (db : DB) (q : Patient) :
  NoDup (map cpf db) -> In q db -> cpf_taken db (Some (id q)) (cpf q) = false.
Proof.
  intros Hnd Hin. unfold cpf_taken. apply not_true_iff_false. rewrite existsb_exists.
  intros (x & Hx & E). apply andb_true_iff in E as [E1 E2]. apply String.eqb_eq in E1.
  assert (x = q) as -> by (apply (NoDup_map_eq cpf db); assumption).
  rewrite String.eqb_refl in E2. discriminate E2.
Qed.

(** Unfolds the handlers and setters of the page, so that a session of
    events computes down to the requests and the store's answers. *)
Ltac page_steps :=
  cbv beta iota zeta delta [run fold_left fst snd step isPending handleEditSubmit handleSubmit openEditDialog
       openViewDialog openDeleteDialog mutate settled set_inflight setIsEditDialogOpen setFormData
       setSelectedPatient setIsDialogOpen setIsViewDialogOpen setIsDeleteDialogOpen setFilters setIsFiltersOpen
       setSearchTerm toast invalidate createPatient_settled updatePatient_settled deletePatient_settled
       inflight formData selectedPatient isDialogOpen isEditDialogOpen isViewDialogOpen isDeleteDialogOpen
       patients toasts filters searchTerm isFiltersOpen m_kind m_error nth_error remove_nth existsb
       mutation_eqb app List.length Nat.eqb createPatient_fn updatePatient_fn deletePatient_fn single_match].

(** C20: in a store whose ids and CPFs are unique, editing a patient and
    saving without changing anything writes the row back as it was (the update, once answered, leaves the store equal
    to what it was), closes the dialog, clears the selection and the form
    and shows the success toast; the only columns that could change are a
    phone or e-mail stored as [""], which come back as [null]. *)
Theorem edit_unchanged_roundtrip (p : Page) (db : DB) (q : Patient) (r0 r : Reply) :
  inflight p = [] -> NoDup (map id db) -> NoDup (map cpf db) -> In q db -> fault r = None ->
  missing_required (form_of q) = false -> phone q <> Some "" -> email q <> Some "" ->
  let s := run (p, db) [(r0, EditClick q); (r, SubmitEdit); (r0, Settle 0)] in
  snd s = db /\ patients (fst s) = query_patients db /\ isEditDialogOpen (fst s) = false /\
  selectedPatient (fst s) = None /\ formData (fst s) = emptyFormData /\ inflight (fst s) = [] /\
  toasts (fst s) = (toasts p ++ [ToastSuccess "Paciente atualizado com sucesso!"])%list.
Proof.
  intros Hin0 Hnd Hcpf Hin Hf Hmiss Hph Hem. unfold updatePatient_fn, single_match.
  destruct p; cbn in Hin0; subst.
  pose proof (update_rows_same _ _ _ Hnd Hin (set_columns_form_of _ Hph Hem)) as Hup.
  pose proof (cpf_free_self db q Hcpf Hin : cpf_taken db (Some (id q)) (n_cpf (form_payload (form_of q))) = false) as Hfree.
  repeat progress (page_steps; rewrite ?Hin0, ?Hmiss, ?Hf, ?(filter_id_single _ _ Hnd Hin), ?Hfree, ?Hup).
  repeat split.
Qed.

(** ** Sample data *)

Definition ana : Patient :=
  mkPatient "7c9e6679-7425-40de-944b-e07fc1f90ae7" "Ana Souza" "123.456.789-01" "1990-05-17"
            (Some "(11) 98765-4321") None "Ativo" 1736500000000 1736500000000.
Definition bruno : Patient :=
  mkPatient "16fd2706-8baf-433b-82eb-8c7fada847da" "Bruno Lima" "987.654.321-00" "1985-11-02"
            None None "Internado" 1736600000000 1736600000000.
Definition sample_db : DB := [ana; bruno].
Definition ok_reply : Reply := mkReply "e4eaaaf2-d142-11e1-b3e4-080027620cdd" 1736700000000 None.
Definition dup_reply : Reply :=
  mkReply "" 1736700000000 (Some "duplicate key value violates unique constraint patients_cpf_key").

Lemma edit_unchanged_roundtrip_witness :
  let s := run (initial_page sample_db, sample_db) [(ok_reply, EditClick ana); (ok_reply, SubmitEdit); (ok_reply, Settle 0)] in
  snd s = sample_db /\ patients (fst s) = query_patients sample_db /\ isEditDialogOpen (fst s) = false /\
  selectedPatient (fst s) = None /\ formData (fst s) = emptyFormData /\ inflight (fst s) = [] /\
  toasts (fst s) = ([] ++ [ToastSuccess "Paciente atualizado com sucesso!"])%list.
Proof.
  apply (edit_unchanged_roundtrip (initial_page sample_db) sample_db ana ok_reply ok_reply);
    try reflexivity; try discriminate.
  - apply Schema.nodupb_NoDup. reflexivity.
  - apply Schema.nodupb_NoDup. reflexivity.
  - left. reflexivity.
Defined.

Lemma cpf_taken_in (db : DB) (q : Patient) : In q db -> cpf_taken db None (cpf q) = true.
Proof.
  intros Hin. unfold cpf_taken. apply existsb_exists. exists q. split; [exact Hin|].
  rewrite String.eqb_refl. reflexivity.
Qed.

Lemma duplicate_cpf_message : handlePatientError (ThrownError DUPLICATE_CPF_ERROR) = CPF_DUPLICATE_MESSAGE.
Proof. vm_compute. reflexivity. Qed.

(** C19: one form state serves both dialogs and closing the edit dialog
    does not reset it: after "Editar" on a listed patient and
    "Cancelar", the "Novo Paciente" dialog opens filled with that
    patient's data; saving it asks the store for a second row with the
    same CPF, which the store refuses: nothing is written, and the
    dialog stays open on the patient's data with "CPF já cadastrado no
    sistema.". *)
Theorem cancel_edit_prefills_new (p : Page) (db : DB) (q : Patient) (r0 r : Reply) :
  inflight p = [] -> fault r = None -> missing_required (form_of q) = false -> In q db ->
  let s := run (p, db) [(r0, EditClick q); (r0, EditDialogOpenChange false); (r0, NewDialogOpenChange true)] in
  new_dialog_view (fst s) = form_dialog true "Cadastrar Novo Paciente"
    "Preencha os dados do paciente para realizar o cadastro." "Salvar" false (form_of q) /\
  let s' := run s [(r, SubmitNew); (r0, Settle 0)] in
  snd s' = db /\ isDialogOpen (fst s') = true /\ formData (fst s') = form_of q /\
  toasts (fst s') = (toasts p ++ [ToastError CPF_DUPLICATE_MESSAGE])%list.
Proof.
  intros Hin0 Hf Hmiss Hin. unfold new_dialog_view, createPatient_fn.
  pose proof (cpf_taken_in db q Hin : cpf_taken db None (n_cpf (form_payload (form_of q))) = true) as Htaken.
  destruct p; cbn in Hin0; subst.
  repeat progress (page_steps; rewrite ?Hin0, ?Hmiss, ?Hf, ?Htaken, ?duplicate_cpf_message).
  repeat split.
Qed.

Lemma cancel_edit_prefills_new_witness :
  let s := run (initial_page sample_db, sample_db)
                 [(ok_reply, EditClick ana); (ok_reply, EditDialogOpenChange false); (ok_reply, NewDialogOpenChange true)] in
  new_dialog_view (fst s) = form_dialog true "Cadastrar Novo Paciente"
    "Preencha os dados do paciente para realizar o cadastro." "Salvar" false (form_of ana) /\
  let s' := run s [(ok_reply, SubmitNew); (ok_reply, Settle 0)] in
  snd s' = sample_db /\ isDialogOpen (fst s') = true /\ formData (fst s') = form_of ana /\
  toasts (fst s') = ([] ++ [ToastError CPF_DUPLICATE_MESSAGE])%list.
Proof. apply (cancel_edit_prefills_new (initial_page sample_db)); [reflexivity|reflexivity|reflexivity|left; reflexivity]. Defined.

(** C18: the callbacks of a deletion run on the page as it is when the
    answer arrives: if the user opens "Editar" on another patient while the
    deletion is pending, its [onSuccess] clears the selection under the
    open edit dialog, whose complete form then only gets "Preencha todos
    os campos obrigatórios." and is never saved. *)
Theorem delete_settle_blocks_edit (p : Page) (db : DB) (q1 q2 : Patient) (r0 r r' : Reply) :
  inflight p = [] -> fault r = None -> missing_required (form_of q2) = false ->
  let s := run (p, db) [(r0, DeleteClick q1); (r, DeleteConfirm); (r0, EditClick q2); (r0, Settle 0)] in
  snd s = delete_rows db (id q1) /\ isEditDialogOpen (fst s) = true /\ formData (fst s) = form_of q2 /\
  missing_required (formData (fst s)) = false /\
  step r' s SubmitEdit = (toast (fst s) (ToastError REQUIRED_MSG), snd s).
Proof.
  intros Hin0 Hf Hmiss. unfold deletePatient_fn. destruct p; cbn in Hin0; subst.
  repeat progress (page_steps; rewrite ?Hin0, ?Hmiss, ?Hf). repeat split; assumption.
Qed.

Lemma delete_settle_blocks_edit_witness :
  let s := run (initial_page sample_db, sample_db)
                 [(ok_reply, DeleteClick bruno); (ok_reply, DeleteConfirm); (ok_reply, EditClick ana); (ok_reply, Settle 0)] in
  snd s = delete_rows sample_db (id bruno) /\ isEditDialogOpen (fst s) = true /\ formData (fst s) = form_of ana /\
  missing_required (formData (fst s)) = false /\
  step ok_reply s SubmitEdit = (toast (fst s) (ToastError REQUIRED_MSG), snd s).
Proof. apply delete_settle_blocks_edit; reflexivity. Defined.

(** A failed insert leaves the store as it was, keeps the dialog and
    everything typed in the form, and shows one toast, one of the fixed
    messages of [errorHandler.ts]. *)
Theorem create_error_keeps_form (p : Page) (db : DB) (r r0 : Reply) (m : string) :
  inflight p = [] -> missing_required (formData p) = false -> fault r = Some m ->
  let s := run (p, db) [(r, SubmitNew); (r0, Settle 0)] in
  snd s = db /\ formData (fst s) = formData p /\ isDialogOpen (fst s) = isDialogOpen p /\ inflight (fst s) = [] /\
  exists msg, toasts (fst s) = (toasts p ++ [ToastError msg])%list /\ In msg fixed_messages.
Proof.
  intros Hin0 Hmiss Hf. unfold createPatient_fn. destruct p; cbn in Hin0, Hmiss; subst.
  repeat progress (page_steps; rewrite ?Hin0, ?Hmiss, ?Hf).
  repeat split. eexists. split; [reflexivity|apply handlePatientError_in].
Qed.

Lemma create_error_keeps_form_witness :
  let p := setFormData (setIsDialogOpen (initial_page sample_db) true) (form_of ana) in
  let s := run (p, sample_db) [(dup_reply, SubmitNew); (ok_reply, Settle 0)] in
  snd s = sample_db /\ formData (fst s) = formData p /\ isDialogOpen (fst s) = isDialogOpen p /\ inflight (fst s) = [] /\
  exists msg, toasts (fst s) = (toasts p ++ [ToastError msg])%list /\ In msg fixed_messages.
Proof. apply (create_error_keeps_form _ _ dup_reply ok_reply "duplicate key value violates unique constraint patients_cpf_key"); reflexivity. Defined.

(** C21: with no search text and no status, the birth-date filter keeps
    exactly the patients born between the two dates, both included, by
    calendar day: both sides are UTC midnights, so the local time zone
    plays no part (unlike the audit log's date filter). *)
Theorem filteredPatients_birth_range (p : Page) (nf nt : Z) :
  searchTerm p = "" -> f_status (filters p) = "" ->
  parse_ymd (dateFrom (filters p)) = Some nf -> parse_ymd (dateTo (filters p)) = Some nt ->
  filteredPatients p =
  filter (fun q => match parse_ymd (birth_date q) with
                   | Some n => (nf <=? n)%Z && (n <=? nt)%Z
                   | None => false
                   end) (patients p).
Proof.
  intros Hs Hst Hf Ht. unfold filteredPatients. apply filter_ext. intros q.
  unfold matchesSearch, matchesStatus, matchesDateFrom, matchesDateTo.
  rewrite Hs, Hst, (parse_ymd_nonempty _ _ Hf), (parse_ymd_nonempty _ _ Ht), !date_ge_days, Hf, Ht.
  simpl. rewrite includes_empty. destruct (parse_ymd (birth_date q)); reflexivity.
Qed.

Definition filtered_1990 : Page :=
  setFilters (initial_page sample_db) (mkFilters "" "1990-01-01" "1990-05-17").

Lemma filteredPatients_birth_range_witness : filteredPatients filtered_1990 = [ana].
Proof.
  rewrite (filteredPatients_birth_range filtered_1990 (days_from_civil 1990 1 1) (days_from_civil 1990 5 17));
    reflexivity.
Defined.

(** C22: a CPF is stored as [formatCPF] writes it, with its dots and dash,
    and the search compares it with the raw search text: a search of four
    or more digits (a CPF typed without punctuation) never matches a
    CPF, whatever was typed into the CPF field. *)
Theorem cpf_digit_search_misses (v t : string) :
  digit_text t = true -> (4 <= String.length t)%nat -> includes (formatCPF v) t = false.
Proof.
  intros Ht Hl. unfold formatCPF, Format.formatCPF. rewrite formatCPF_chars_mask.
  apply includes_no_run4; [exact Ht|exact Hl|apply cpf_mask_no_run4].
Qed.

Lemma cpf_digit_search_misses_witness :
  includes (formatCPF "12345678901") "12345678901" = false /\ formatCPF "12345678901" = cpf ana /\
  matchesSearch "12345678901" ana = false.
Proof.
  split; [apply cpf_digit_search_misses; [reflexivity|simpl; lia]|]. split; reflexivity.
Defined.

(** The objects of [insert] and [update] are rows of [patients] in the
    generated types. *)
Lemma payload_row_conforms (np : NewPatient) :
  Schema.insert_conforms Schema.patients (payload_row np) = true /\
  Schema.update_conforms Schema.patients (payload_row np) = true.
Proof. unfold payload_row. destruct (n_phone np), (n_email np); split; reflexivity. Qed.

End Pacientes.
