(* ===== verification/Agendamentos.v ===== *)
(** * The scheduling page (pages/Agendamentos.tsx)

    The page shows the appointments of one day ([selectedDate]) in sixteen
    fixed half-hour slots, with a week strip, type/professional/status
    filters, a creation dialog and a details dialog in which the status
    can be changed and the appointment deleted.  Dates are local calendar
    days, numbered from 1970-01-01 (the time of day of [selectedDate] is
    never read: every use goes through its local date).  As in the
    patients page, each [useMutation] is a request answered when sent and
    callbacks that run when the answer arrives ([Settle i]). *)

From Stdlib Require Import List ZArith Lia String Ascii Bool.
From S2P Require Import Prelude Schema.
Import ListNotations.
Open Scope js_scope.
Open Scope string_scope.

Module Agendamentos.

(** ** Data *)

Definition timeSlots : list string :=
  ["08:00"; "08:30"; "09:00"; "09:30"; "10:00"; "10:30"; "11:00"; "11:30";
   "14:00"; "14:30"; "15:00"; "15:30"; "16:00"; "16:30"; "17:00"; "17:30"].

Definition appointmentTypes : list string := ["Consulta"; "Retorno"; "Teleconsulta"; "Exame"; "Procedimento"].

Definition appointmentStatuses : list string :=
  ["Agendado"; "Confirmado"; "Em atendimento"; "Concluído"; "Cancelado"].

Definition weekDays : list string := ["Dom"; "Seg"; "Ter"; "Qua"; "Qui"; "Sex"; "Sáb"].

(** An [appointments] row with the names its query joins. *)
Record Appointment := mkAppointment {
  id : string;
  patient_id : string;
  professional_id : string;
  appointment_date : string;
  appointment_time : string;
  duration : Z;
  apt_type : string;
  is_video : bool;
  status : string;
  notes : option string;
  patient : option string;
  professional : option (string * string)
}.

Record FormData := mkForm {
  fd_patient_id : string; fd_professional_id : string; fd_appointment_date : string;
  fd_appointment_time : string; fd_duration : string; fd_type : string; fd_is_video : bool;
  fd_notes : string
}.

(** ** Local dates *)

(** [Date.prototype.getDay] of a local day: 1970-01-01 was a Thursday. *)
Definition getDay (d : Z) : Z := ((d + 4) mod 7)%Z.

Definition weekday_long : list string :=
  ["domingo"; "segunda-feira"; "terça-feira"; "quarta-feira"; "quinta-feira"; "sexta-feira"; "sábado"].

Definition month_long : list string :=
  ["janeiro"; "fevereiro"; "março"; "abril"; "maio"; "junho"; "julho"; "agosto"; "setembro";
   "outubro"; "novembro"; "dezembro"].

(** [date.toLocaleDateString("pt-BR", { weekday: "long", day: "numeric",
    month: "long", year: "numeric" })] *)
Definition formatDate (d : Z) : string :=
  let '(y, m, dd) := civil_from_days d in
  nth (Z.to_nat (getDay d)) weekday_long "" ++ ", " ++ js_string_of_Z dd ++ " de "
  ++ nth (Z.to_nat (m - 1)) month_long "" ++ " de " ++ js_string_of_Z y.

(** [generateWeekDates]: from the Sunday on or before [selectedDate], seven
    days ([setDate] on a local date moves by whole calendar days). *)
Definition generateWeekDates (selectedDate : Z) : list Z :=
  let startOfWeek := (selectedDate - getDay selectedDate)%Z in
  map (fun i => startOfWeek + Z.of_nat i)%Z (seq 0 7).

(** [format(new Date(date + "T12:00:00"), "dd 'de' MMMM 'de' yyyy",
    { locale: ptBR })]: local noon of the stored day. *)
Definition format_details_date (date : string) : option string :=
  option_map (fun d => let '(y, m, dd) := civil_from_days d in
                       pad2 dd ++ " de " ++ nth (Z.to_nat (m - 1)) month_long "" ++ " de " ++ pad4 y)
             (parse_ymd date).

Definition getStatusBadgeVariant (s : string) : string :=
  match s with
  | "Confirmado" => "success-light"
  | "Em atendimento" => "info-light"
  | "Concluído" => "secondary"
  | "Cancelado" => "destructive"
  | _ => "primary-light"
  end.

(** ** The store *)

Record DB := mkDB {
  db_appointments : list Appointment;
  db_patients : list (string * string * string);
  db_professionals : list (string * string * string)
}.

Definition name_of (rows : list (string * string * string)) (i : string) : option string :=
  option_map (fun r => snd (fst r)) (find (fun r => fst (fst r) === i) rows).

(** [professionals(name, specialty)] of the select. *)
Definition professional_of (db : DB) (i : string) : option (string * string) :=
  option_map (fun r => (snd (fst r), snd r)) (find (fun r => fst (fst r) === i) (db_professionals db)).

(** [ORDER BY] on a [time] column: its ["HH:MM:SS"] texts compare as
    their characters do. *)
Definition time_cmp (a b : Appointment) : Z :=
  match String.compare (appointment_time a) (appointment_time b) with Lt => -1 | Eq => 0 | Gt => 1 end%Z.

(** The appointments query of a day: the rows of that date with their
    joined names, ordered by time (stable). *)
Definition query_appointments (db : DB) (day : Z) : list Appointment :=
  let rows := filter (fun a => appointment_date a === format_yyyy_MM_dd day) (db_appointments db) in
  map (fun a => mkAppointment (id a) (patient_id a) (professional_id a) (appointment_date a)
                  (appointment_time a) (duration a) (apt_type a) (is_video a) (status a) (notes a)
                  (name_of (db_patients db) (patient_id a)) (professional_of db (professional_id a)))
      (js_sort time_cmp rows).

(** [select("id, name").eq("status", "Ativo").order("name")] and
    [select("id, name, specialty").order("name")]: the rows are kept in
    the order the store returns them (its collation is not modelled). *)
Definition query_patient_options (db : DB) : list (string * string) :=
  map fst (filter (fun r => snd r === "Ativo") (db_patients db)).

Definition query_professional_options (db : DB) : list (string * string * string) := db_professionals db.

(** What the store answers a request: the id and default status of a new
    row, the browser's current local day, and the request's error. *)
Record Reply := mkReply { new_id : string; default_status : string; today : Z; fault : option string }.

(** [JSON.stringify(NaN)] is [null], refused by the [NOT NULL] column. *)
Definition NULL_DURATION : string := "null value in column duration violates not-null constraint".

(** [notes: data.notes || null] *)
Definition or_null (s : string) : option string := if s === "" then None else Some s.

(** A [time] column reads ["HH:MM"] back as ["HH:MM:SS"]. *)
Definition pg_time (t : string) : string := if (String.length t =? 5)%nat then t ++ ":00" else t.

Definition createAppointment_fn (db : DB) (r : Reply) (fd : FormData) : DB * option string :=
  match fault r with
  | Some m => (db, Some m)
  | None =>
      match digits_value (fd_duration fd) with
      | Some dur =>
          (mkDB (db_appointments db ++
                   [mkAppointment (new_id r) (fd_patient_id fd) (fd_professional_id fd) (fd_appointment_date fd)
                      (pg_time (fd_appointment_time fd)) dur (fd_type fd) (fd_is_video fd) (default_status r)
                      (or_null (fd_notes fd)) None None])%list
                (db_patients db) (db_professionals db), None)
      | None => (db, Some NULL_DURATION)
      end
  end.

Definition set_status (s : string) (a : Appointment) : Appointment :=
  mkAppointment (id a) (patient_id a) (professional_id a) (appointment_date a) (appointment_time a)
    (duration a) (apt_type a) (is_video a) s (notes a) (patient a) (professional a).

Definition updateAppointmentStatus_fn (db : DB) (r : Reply) (aid s : string) : DB * option string :=
  match fault r with
  | Some m => (db, Some m)
  | None => (mkDB (map (fun a => if id a === aid then set_status s a else a) (db_appointments db))
                  (db_patients db) (db_professionals db), None)
  end.

Definition deleteAppointment_fn (db : DB) (r : Reply) (aid : string) : DB * option string :=
  match fault r with
  | Some m => (db, Some m)
  | None => (mkDB (filter (fun a => negb (id a === aid)) (db_appointments db)) (db_patients db)
                  (db_professionals db), None)
  end.

(** ** The page *)

Inductive View := Day | Week.

Inductive Toast := ToastSuccess (message : string) | ToastError (message : string).

Inductive Mutation := MCreate | MUpdateStatus | MDelete.

Definition mutation_eqb (a b : Mutation) : bool :=
  match a, b with
  | MCreate, MCreate | MUpdateStatus, MUpdateStatus | MDelete, MDelete => true
  | _, _ => false
  end.

Record Inflight := mkInflight { m_kind : Mutation; m_error : option string }.

(** The states of [Agendamentos()] and the caches of its three queries. *)
Record Page := mkPage {
  selectedDate : Z;
  view : View;
  isDialogOpen : bool;
  isDetailsOpen : bool;
  selectedAppointment : option Appointment;
  typeFilter : string;
  professionalFilter : string;
  statusFilter : string;
  formData : FormData;
  appointments : list Appointment;
  patients : list (string * string);
  professionals : list (string * string * string);
  toasts : list Toast;
  inflight : list Inflight
}.

Definition empty_form (today : Z) : FormData :=
  mkForm "" "" (format_yyyy_MM_dd today) "" "30" "Consulta" false "".

Definition initial_page (db : DB) (today : Z) : Page :=
  mkPage today Day false false None "all" "all" "all" (empty_form today) (query_appointments db today)
         (query_patient_options db) (query_professional_options db) [] [].

(** The setters the handlers use.  A new [selectedDate] is a new query
    key: the day's appointments are fetched. *)
Definition setSelectedDate (p : Page) (db : DB) (d : Z) : Page :=
  mkPage d (view p) (isDialogOpen p) (isDetailsOpen p) (selectedAppointment p) (typeFilter p)
    (professionalFilter p) (statusFilter p) (formData p) (query_appointments db d) (patients p)
    (professionals p) (toasts p) (inflight p).
Definition setView (p : Page) (v : View) : Page :=
  mkPage (selectedDate p) v (isDialogOpen p) (isDetailsOpen p) (selectedAppointment p) (typeFilter p)
    (professionalFilter p) (statusFilter p) (formData p) (appointments p) (patients p)
    (professionals p) (toasts p) (inflight p).
Definition setIsDialogOpen (p : Page) (v : bool) : Page :=
  mkPage (selectedDate p) (view p) v (isDetailsOpen p) (selectedAppointment p) (typeFilter p)
    (professionalFilter p) (statusFilter p) (formData p) (appointments p) (patients p)
    (professionals p) (toasts p) (inflight p).
Definition setIsDetailsOpen (p : Page) (v : bool) : Page :=
  mkPage (selectedDate p) (view p) (isDialogOpen p) v (selectedAppointment p) (typeFilter p)
    (professionalFilter p) (statusFilter p) (formData p) (appointments p) (patients p)
    (professionals p) (toasts p) (inflight p).
Definition setSelectedAppointment (p : Page) (v : option Appointment) : Page :=
  mkPage (selectedDate p) (view p) (isDialogOpen p) (isDetailsOpen p) v (typeFilter p)
    (professionalFilter p) (statusFilter p) (formData p) (appointments p) (patients p)
    (professionals p) (toasts p) (inflight p).
Definition setFilters (p : Page) (t pr st : string) : Page :=
  mkPage (selectedDate p) (view p) (isDialogOpen p) (isDetailsOpen p) (selectedAppointment p) t pr st
    (formData p) (appointments p) (patients p) (professionals p) (toasts p) (inflight p).
Definition setFormData (p : Page) (v : FormData) : Page :=
  mkPage (selectedDate p) (view p) (isDialogOpen p) (isDetailsOpen p) (selectedAppointment p) (typeFilter p)
    (professionalFilter p) (statusFilter p) v (appointments p) (patients p)
    (professionals p) (toasts p) (inflight p).
Definition toast (p : Page) (t : Toast) : Page :=
  mkPage (selectedDate p) (view p) (isDialogOpen p) (isDetailsOpen p) (selectedAppointment p) (typeFilter p)
    (professionalFilter p) (statusFilter p) (formData p) (appointments p) (patients p)
    (professionals p) (toasts p ++ [t]) (inflight p).
(** [invalidateQueries({ queryKey: ["appointments"] })]: the selected
    day's appointments are fetched again. *)
Definition invalidate (p : Page) (db : DB) : Page :=
  mkPage (selectedDate p) (view p) (isDialogOpen p) (isDetailsOpen p) (selectedAppointment p) (typeFilter p)
    (professionalFilter p) (statusFilter p) (formData p) (query_appointments db (selectedDate p)) (patients p)
    (professionals p) (toasts p) (inflight p).
Definition set_inflight (p : Page) (v : list Inflight) : Page :=
  mkPage (selectedDate p) (view p) (isDialogOpen p) (isDetailsOpen p) (selectedAppointment p) (typeFilter p)
    (professionalFilter p) (statusFilter p) (formData p) (appointments p) (patients p)
    (professionals p) (toasts p) v.

Definition isPending (p : Page) (k : Mutation) : bool :=
  existsb (fun m => mutation_eqb (m_kind m) k) (inflight p).

Definition mutate (p : Page) (k : Mutation) (res : DB * option string) : Page * DB :=
  (set_inflight p (inflight p ++ [mkInflight k (snd res)]), fst res).

(** ** Callbacks *)

Definition resetForm (p : Page) (today : Z) : Page := setFormData p (empty_form today).

Definition createAppointment_settled (p : Page) (db : DB) (today : Z) (err : option string) : Page :=
  match err with
  | None => resetForm (setIsDialogOpen (invalidate (toast p (ToastSuccess "Agendamento criado com sucesso!")) db)
                                       false) today
  | Some m => toast p (ToastError ("Erro ao criar agendamento: " ++ m))
  end.

Definition updateAppointmentStatus_settled (p : Page) (db : DB) (err : option string) : Page :=
  match err with
  | None => invalidate (toast p (ToastSuccess "Status atualizado com sucesso!")) db
  | Some m => toast p (ToastError ("Erro ao atualizar status: " ++ m))
  end.

Definition deleteAppointment_settled (p : Page) (db : DB) (err : option string) : Page :=
  match err with
  | None => setSelectedAppointment (setIsDetailsOpen
              (invalidate (toast p (ToastSuccess "Agendamento excluído com sucesso!")) db) false) None
  | Some m => toast p (ToastError ("Erro ao excluir agendamento: " ++ m))
  end.

Definition settled (p : Page) (db : DB) (today : Z) (m : Inflight) : Page :=
  match m_kind m with
  | MCreate => createAppointment_settled p db today (m_error m)
  | MUpdateStatus => updateAppointmentStatus_settled p db (m_error m)
  | MDelete => deleteAppointment_settled p db (m_error m)
  end.

(** ** Handlers and filters *)

Definition REQUIRED_MSG : string := "Preencha todos os campos obrigatórios".

Definition handleSubmit (p : Page) (db : DB) (r : Reply) : Page * DB :=
  let fd := formData p in
  if (fd_patient_id fd === "") || (fd_professional_id fd === "") || (fd_appointment_time fd === "")
  then (toast p (ToastError REQUIRED_MSG), db)
  else mutate p MCreate (createAppointment_fn db r fd).

Definition clearFilters (p : Page) : Page := setFilters p "all" "all" "all".

Definition hasActiveFilters (p : Page) : bool :=
  negb (typeFilter p === "all") || negb (professionalFilter p === "all") || negb (statusFilter p === "all").

Definition filteredAppointments (p : Page) : list Appointment :=
  filter (fun apt => negb (negb (typeFilter p === "all") && negb (apt_type apt === typeFilter p))
                     && negb (negb (professionalFilter p === "all")
                              && negb (professional_id apt === professionalFilter p))
                     && negb (negb (statusFilter p === "all") && negb (status apt === statusFilter p)))
         (appointments p).

(** [apt.appointment_time?.slice(0, 5)] *)
Definition slot_of (a : Appointment) : string := substring 0 5 (appointment_time a).

Definition getAppointmentForSlot (p : Page) (time : string) : option Appointment :=
  find (fun apt => slot_of apt === time) (filteredAppointments p).

(** ** What the user does *)

Inductive Event :=
  | PrevDay
  | NextDay
  | ViewClick (v : View)
  | WeekDateClick (d : Z)
  | TypeFilterChange (v : string)
  | ProfessionalFilterChange (v : string)
  | StatusFilterChange (v : string)
  | ClearFiltersClick
  | DialogOpenChange (b : bool)
  | PatientSelect (v : string)
  | ProfessionalSelect (v : string)
  | DateInput (v : string)
  | TimeSelect (v : string)
  | TypeSelect (v : string)
  | DurationSelect (v : string)
  | NotesInput (v : string)
  | Submit
  | ScheduleSlot (time : string)
  | DetailsClick (a : Appointment)
  | DetailsOpenChange (b : bool)
  | StatusSelect (v : string)
  | DeleteConfirm
  | Settle (i : nat).

(** One event with the store's reply to the request it sends.  The
    submit and the delete trigger are [disabled] while their mutation is
    pending; [DeleteConfirm] is the trigger and the confirmation's
    "Excluir".  The status [Select] sends the update and at once shows the
    new status in the dialog. *)
Definition step (r : Reply) (s : Page * DB) (e : Event) : Page * DB :=
  let (p, db) := s in
  let fd := formData p in
  let with_form f := (setFormData p f, db) in
  match e with
  | PrevDay => (setSelectedDate p db (selectedDate p - 1)%Z, db)
  | NextDay => (setSelectedDate p db (selectedDate p + 1)%Z, db)
  | ViewClick v => (setView p v, db)
  | WeekDateClick d => (setSelectedDate p db d, db)
  | TypeFilterChange v => (setFilters p v (professionalFilter p) (statusFilter p), db)
  | ProfessionalFilterChange v => (setFilters p (typeFilter p) v (statusFilter p), db)
  | StatusFilterChange v => (setFilters p (typeFilter p) (professionalFilter p) v, db)
  | ClearFiltersClick => (clearFilters p, db)
  | DialogOpenChange b => (setIsDialogOpen p b, db)
  | PatientSelect v =>
      with_form (mkForm v (fd_professional_id fd) (fd_appointment_date fd) (fd_appointment_time fd)
                        (fd_duration fd) (fd_type fd) (fd_is_video fd) (fd_notes fd))
  | ProfessionalSelect v =>
      with_form (mkForm (fd_patient_id fd) v (fd_appointment_date fd) (fd_appointment_time fd)
                        (fd_duration fd) (fd_type fd) (fd_is_video fd) (fd_notes fd))
  | DateInput v =>
      with_form (mkForm (fd_patient_id fd) (fd_professional_id fd) v (fd_appointment_time fd)
                        (fd_duration fd) (fd_type fd) (fd_is_video fd) (fd_notes fd))
  | TimeSelect v =>
      with_form (mkForm (fd_patient_id fd) (fd_professional_id fd) (fd_appointment_date fd) v
                        (fd_duration fd) (fd_type fd) (fd_is_video fd) (fd_notes fd))
  | TypeSelect v =>
      with_form (mkForm (fd_patient_id fd) (fd_professional_id fd) (fd_appointment_date fd)
                        (fd_appointment_time fd) (fd_duration fd) v (v === "Teleconsulta") (fd_notes fd))
  | DurationSelect v =>
      with_form (mkForm (fd_patient_id fd) (fd_professional_id fd) (fd_appointment_date fd)
                        (fd_appointment_time fd) v (fd_type fd) (fd_is_video fd) (fd_notes fd))
  | NotesInput v =>
      with_form (mkForm (fd_patient_id fd) (fd_professional_id fd) (fd_appointment_date fd)
                        (fd_appointment_time fd) (fd_duration fd) (fd_type fd) (fd_is_video fd) v)
  | Submit => if isPending p MCreate then (p, db) else handleSubmit p db r
  | ScheduleSlot t =>
      (setIsDialogOpen (setFormData p (mkForm (fd_patient_id fd) (fd_professional_id fd)
                          (format_yyyy_MM_dd (selectedDate p)) t (fd_duration fd) (fd_type fd)
                          (fd_is_video fd) (fd_notes fd))) true, db)
  | DetailsClick a => (setIsDetailsOpen (setSelectedAppointment p (Some a)) true, db)
  | DetailsOpenChange b => (setIsDetailsOpen p b, db)
  | StatusSelect v =>
      match selectedAppointment p with
      | Some a =>
          let (p', db') := mutate p MUpdateStatus (updateAppointmentStatus_fn db r (id a) v) in
          (setSelectedAppointment p' (Some (set_status v a)), db')
      | None => (p, db)
      end
  | DeleteConfirm =>
      if isPending p MDelete then (p, db)
      else match selectedAppointment p with
           | Some a => mutate p MDelete (deleteAppointment_fn db r (id a))
           | None => (p, db)
           end
  | Settle i =>
      match nth_error (inflight p) i with
      | Some m => (settled (set_inflight p (remove_nth i (inflight p))) db (today r) m, db)
      | None => (p, db)
      end
  end.

Definition run (s : Page * DB) (es : list (Reply * Event)) : Page * DB :=
  fold_left (fun s re => step (fst re) s (snd re)) es s.

(** ** What the page shows *)

(** The day's schedule: each slot with the appointment it shows. *)
Definition schedule (p : Page) : list (string * option Appointment) :=
  map (fun t => (t, getAppointmentForSlot p t)) timeSlots.

Inductive SlotView :=
  | Booked (time : string) (patient_name : option string) (video : bool) (variant : string)
           (status_text : string) (professional_name : option string) (minutes : Z)
  | Free (time : string).

Definition slot_view (ts : string * option Appointment) : SlotView :=
  match snd ts with
  | Some a => Booked (fst ts) (patient a) (is_video a) (getStatusBadgeVariant (status a)) (status a)
                     (option_map fst (professional a)) (duration a)
  | None => Free (fst ts)
  end.

Inductive ScheduleView := SLoading | SSlots (slots : list SlotView).

Definition schedule_view (isLoading : bool) (p : Page) : ScheduleView :=
  if isLoading then SLoading else SSlots (map slot_view (schedule p)).

(** "Total hoje", "Teleconsultas", "Presenciais". *)
Record Stats := mkStats { total : Z; teleconsultasCount : Z; presenciaisCount : Z }.

Definition stats (p : Page) : Stats :=
  let l := filteredAppointments p in
  mkStats (jlen l) (jlen (filter is_video l)) (jlen (filter (fun a => negb (is_video a)) l)).

(** The header: the long date, the two view buttons' variants and the
    number on the filters button (shown when a filter is active). *)
Record HeaderView := mkHeader {
  hv_date : string; hv_day_variant : string; hv_week_variant : string; hv_filter_badge : option Z
}.

Definition header_view (p : Page) : HeaderView :=
  mkHeader (formatDate (selectedDate p))
           (match view p with Day => "default" | Week => "ghost" end)
           (match view p with Week => "default" | Day => "ghost" end)
           (if hasActiveFilters p
            then Some (jlen (filter (fun v => negb (v === "all"))
                                    [typeFilter p; professionalFilter p; statusFilter p]))
            else None).

(** The week strip: each day's number, whether it is selected, whether it
    is today. *)
Definition week_view (today : Z) (p : Page) : list (Z * bool * bool) :=
  map (fun d => (let '(_, _, dd) := civil_from_days d in dd, (d =? selectedDate p)%Z, (d =? today)%Z))
      (generateWeekDates (selectedDate p)).

Record DialogView := mkDialog {
  dlg_open : bool;
  patient_options : list (string * string);
  professional_options : list (string * string);
  v_form : FormData;
  time_options : list string;
  type_options : list string;
  duration_options : list string;
  submit_disabled : bool
}.

Definition dialog_view (p : Page) : DialogView :=
  mkDialog (isDialogOpen p) (patients p)
           (map (fun r => (fst (fst r), snd (fst r) ++ " - " ++ snd r)) (professionals p))
           (formData p) timeSlots appointmentTypes ["15"; "30"; "45"; "60"] (isPending p MCreate).

Record DetailsView := mkDetails {
  dv_open : bool; dv_patient : option string; dv_date : option string; dv_time : string;
  dv_professional : option (string * string); dv_video : bool; dv_status : string;
  dv_status_options : list string; dv_notes : option string; dv_delete_disabled : bool
}.

Definition details_view (p : Page) : option DetailsView :=
  match selectedAppointment p with
  | Some a =>
      Some (mkDetails (isDetailsOpen p) (patient a) (format_details_date (appointment_date a))
                      (slot_of a ++ " (" ++ js_string_of_Z (duration a) ++ " min)") (professional a) (is_video a)
                      (status a) appointmentStatuses
                      (match notes a with Some n => if n === "" then None else Some n | None => None end)
                      (isPending p MDelete))
  | None => None
  end.

(** ** Video flag and type *)

Definition video_ok (t : string) (v : bool) : bool := Bool.eqb v (t === "Teleconsulta").

Definition form_video_ok (fd : FormData) : bool := video_ok (fd_type fd) (fd_is_video fd).

(** The invariant: the form's flag agrees with its type, and so does every
    stored row. *)
Definition video_inv (s : Page * DB) : Prop :=
  form_video_ok (formData (fst s)) = true /\
  Forall (fun a => video_ok (apt_type a) (is_video a) = true) (db_appointments (snd s)).

Lemma empty_form_video_ok (t : Z) : form_video_ok (empty_form t) = true.
Proof. reflexivity. Qed.

Lemma settled_form (p : Page) (db : DB) (t : Z) (m : Inflight) :
  form_video_ok (formData p) = true -> form_video_ok (formData (settled p db t m)) = true.
Proof. destruct m as [[| |] [e|]]; simpl; auto. Qed.

Lemma set_status_video (v : string) (a : Appointment) :
  video_ok (apt_type (set_status v a)) (is_video (set_status v a)) = video_ok (apt_type a) (is_video a).
Proof. reflexivity. Qed.

Lemma create_fn_video (db : DB) (r : Reply) (fd : FormData) :
  form_video_ok fd = true -> Forall (fun a => video_ok (apt_type a) (is_video a) = true) (db_appointments db) ->
  Forall (fun a => video_ok (apt_type a) (is_video a) = true) (db_appointments (fst (createAppointment_fn db r fd))).
Proof.
  intros Hf Hdb. unfold createAppointment_fn.
  destruct (fault r); [exact Hdb|]. destruct (digits_value _); [|exact Hdb].
  simpl. apply Forall_app. split; [exact Hdb|]. constructor; [exact Hf|constructor].
Qed.

Lemma update_fn_video (db : DB) (r : Reply) (i v : string) :
  Forall (fun a => video_ok (apt_type a) (is_video a) = true) (db_appointments db) ->
  Forall (fun a => video_ok (apt_type a) (is_video a) = true)
         (db_appointments (fst (updateAppointmentStatus_fn db r i v))).
Proof.
  intros Hdb. unfold updateAppointmentStatus_fn. destruct (fault r); [exact Hdb|]. simpl.
  apply Forall_map. eapply Forall_impl; [|exact Hdb]. intros a Ha. destruct (_ === _); [rewrite set_status_video|]; exact Ha.
Qed.

Lemma delete_fn_video (db : DB) (r : Reply) (i : string) :
  Forall (fun a => video_ok (apt_type a) (is_video a) = true) (db_appointments db) ->
  Forall (fun a => video_ok (apt_type a) (is_video a) = true) (db_appointments (fst (deleteAppointment_fn db r i))).
Proof.
  intros Hdb. unfold deleteAppointment_fn. destruct (fault r); [exact Hdb|]. simpl.
  apply Forall_forall. intros a Ha. apply filter_In in Ha as [Ha _]. eapply Forall_forall in Hdb; eauto.
Qed.

Lemma TypeSelect_video_ok (v : string) : video_ok v (v === "Teleconsulta") = true.
Proof. unfold video_ok. apply Bool.eqb_reflx. Qed.

#[local] Hint Resolve settled_form create_fn_video update_fn_video delete_fn_video TypeSelect_video_ok : medcore.

Lemma step_video_inv (r : Reply) (s : Page * DB) (e : Event) : video_inv s -> video_inv (step r s e).
Proof.
  destruct s as [p db]. intros [Hf Hdb].
  destruct e; cbn -[createAppointment_fn updateAppointmentStatus_fn deleteAppointment_fn settled];
    try (split; assumption); unfold video_inv in *; cbn in *; try (split; [exact Hf|exact Hdb]).
  - split; [apply TypeSelect_video_ok|exact Hdb].
  - destruct (isPending p MCreate); [split; assumption|]. unfold handleSubmit.
    destruct (_ || _); cbn; split; auto with medcore.
  - destruct (selectedAppointment p); cbn; split; auto with medcore.
  - destruct (isPending p MDelete); [split; assumption|]. destruct (selectedAppointment p); cbn; split; auto with medcore.
  - destruct (nth_error (inflight p) i); cbn; split; auto with medcore.
Qed.

Lemma run_video_inv (s : Page * DB) (es : list (Reply * Event)) : video_inv s -> video_inv (run s es).
Proof.
  revert s. induction es as [|[r e] es IH]; intros s H; [exact H|]. apply IH, step_video_inv, H.
Qed.

(** C25: whatever the user does, the video flag of the form agrees with its
    type ([is_video] is set only by the type select, to [type ===
    "Teleconsulta"]), so when the stored rows agree, every row the page
    ever inserts or updates agrees too: a row is a video consultation
    exactly when its type is "Teleconsulta". *)
Theorem is_video_iff_teleconsulta (db0 : DB) (today : Z) (es : list (Reply * Event)) :
  (forall a, In a (db_appointments db0) -> is_video a = (apt_type a === "Teleconsulta")) ->
  let s := run (initial_page db0 today, db0) es in
  fd_is_video (formData (fst s)) = (fd_type (formData (fst s)) === "Teleconsulta") /\
  forall a, In a (db_appointments (snd s)) -> is_video a = (apt_type a === "Teleconsulta").
Proof.
  intros H0. destruct (run_video_inv (initial_page db0 today, db0) es) as [Hf Hdb].
  - split; [reflexivity|]. apply Forall_forall. intros a Ha. unfold video_ok. rewrite (H0 a Ha). apply Bool.eqb_reflx.
  - split; [unfold form_video_ok, video_ok in Hf; apply Bool.eqb_prop in Hf; exact Hf|].
    intros a Ha. eapply Forall_forall in Hdb; [|exact Ha]. apply Bool.eqb_prop in Hdb. exact Hdb.
Qed.

(** ** The status select *)

(** C23: the status select shows the new status in the details dialog as
    soon as it is chosen and nothing undoes it when the update fails: after
    the error toast the dialog still shows the chosen status while the
    store and the day's schedule keep the old one. *)
Theorem status_error_keeps_optimistic (p : Page) (db : DB) (a : Appointment) (v m : string) (r r0 : Reply) :
  inflight p = [] -> selectedAppointment p = Some a -> fault r = Some m ->
  let s := run (p, db) [(r, StatusSelect v); (r0, Settle 0)] in
  snd s = db /\ appointments (fst s) = appointments p /\
  option_map dv_status (details_view (fst s)) = Some v /\
  toasts (fst s) = (toasts p ++ [ToastError ("Erro ao atualizar status: " ++ m)])%list.
Proof.
  intros Hin Hsel Hf. destruct p. cbn in Hin, Hsel. subst. cbn.
  unfold updateAppointmentStatus_fn. rewrite Hf. cbn. repeat split.
Qed.

(** ** The day's schedule *)

(** The appointments the schedule shows, slot by slot. *)
Definition booked (p : Page) : list Appointment :=
  flat_map (fun ts => match snd ts with Some a => [a] | None => [] end) (schedule p).

Lemma find_first {A : Type} (f : A -> bool) (l1 l2 : list A) (x : A) :
  f x = true -> exists y, find f (l1 ++ x :: l2) = Some y /\ In y (l1 ++ [x]).
Proof.
  intros Hx. induction l1 as [|z l1 IH]; simpl.
  - rewrite Hx. eexists. split; [reflexivity|left; reflexivity].
  - destruct (f z); [eexists; split; [reflexivity|left; reflexivity]|].
    destruct IH as [y [Hy Hin]]. exists y. split; [exact Hy|right; exact Hin].
Qed.

Lemma in_booked (p : Page) (a : Appointment) :
  In a (booked p) <-> exists t, In t timeSlots /\ getAppointmentForSlot p t = Some a.
Proof.
  unfold booked, schedule. rewrite flat_map_concat_map, map_map, <- flat_map_concat_map, in_flat_map.
  split.
  - intros [t [Ht Ha]]. simpl in Ha. destruct (getAppointmentForSlot p t) eqn:E; [|contradiction].
    destruct Ha as [<-|[]]. exists t. split; assumption.
  - intros [t [Ht Ha]]. exists t. split; [exact Ht|]. simpl. rewrite Ha. left. reflexivity.
Qed.

Lemma getAppointmentForSlot_spec (p : Page) (t : string) (a : Appointment) :
  getAppointmentForSlot p t = Some a -> In a (filteredAppointments p) /\ slot_of a = t.
Proof.
  unfold getAppointmentForSlot. intros H. apply find_some in H as [Hin Ht].
  split; [exact Hin|apply String.eqb_eq, Ht].
Qed.

Lemma booked_nodup (p : Page) : NoDup (booked p).
Proof.
  unfold booked, schedule. rewrite flat_map_concat_map, map_map, <- flat_map_concat_map.
  assert (Hts : NoDup timeSlots) by (apply Schema.nodupb_NoDup; reflexivity).
  induction Hts as [|t ts Ht Hts IH]; simpl; [constructor|].
  destruct (getAppointmentForSlot p t) as [a|] eqn:E; simpl; [|exact IH].
  constructor; [|exact IH]. intros Hin. apply in_flat_map in Hin as [t' [Ht' Ha]].
  destruct (getAppointmentForSlot p t') as [a'|] eqn:E'; [|contradiction]. destruct Ha as [<-|[]].
  apply getAppointmentForSlot_spec in E as [_ E]. apply getAppointmentForSlot_spec in E' as [_ E'].
  apply Ht. congruence.
Qed.

(** C24: a slot shows only the first of the day's appointments at its time:
    when two (filtered) appointments share a slot the later one is never
    shown, although "Total hoje" counts it, so the schedule shows fewer
    appointments than the total.  Nothing prevents such a pair: the
    dialog offers every slot and the insert checks none. *)
Theorem schedule_hides_later_same_slot (p : Page) (l1 l2 l3 : list Appointment) (a1 a2 : Appointment) :
  filteredAppointments p = (l1 ++ a1 :: l2 ++ a2 :: l3)%list -> slot_of a1 = slot_of a2 ->
  ~ In a2 (l1 ++ a1 :: l2)%list ->
  ~ In a2 (booked p) /\ (jlen (booked p) < total (stats p))%Z.
Proof.
  intros Hl Hslot Hnot.
  assert (Hhid : ~ In a2 (booked p)).
  { intros Hin. apply in_booked in Hin as [t [_ Ht]].
    pose proof (getAppointmentForSlot_spec _ _ _ Ht) as [_ Hs].
    unfold getAppointmentForSlot in Ht. rewrite Hl in Ht.
    destruct (find_first (fun apt => slot_of apt === t) l1 (l2 ++ a2 :: l3) a1) as [y [Hy Hiny]].
    { apply String.eqb_eq. congruence. }
    rewrite Hy in Ht. injection Ht as ->. apply Hnot. apply in_app_or in Hiny as [H|[H|[]]];
      [apply in_or_app; left; exact H|subst; apply in_or_app; right; left; reflexivity]. }
  split; [exact Hhid|]. unfold stats, total, jlen. rewrite Hl.
  assert (Hle : (List.length (booked p) <= List.length (l1 ++ a1 :: l2 ++ l3))%nat).
  { apply NoDup_incl_length; [apply booked_nodup|]. intros x Hx.
    pose proof Hx as Hx'. apply in_booked in Hx' as [t [_ Ht]]. apply getAppointmentForSlot_spec in Ht as [Hin _].
    rewrite Hl in Hin. assert (Hne : x <> a2) by (intros ->; contradiction).
    rewrite app_comm_cons, app_assoc in Hin |- *. apply in_app_or in Hin as [H|[H|H]];
      [apply in_or_app; left; exact H|congruence|apply in_or_app; right; exact H]. }
  rewrite !length_app in *. simpl in *. rewrite length_app in *. simpl in *. lia.
Qed.

(** ** The week strip *)

(** C26: the week strip shows seven consecutive days, starting on the
    Sunday on or before the selected day, and the selected day is one of
    them. *)
Theorem generateWeekDates_spec (d : Z) :
  let w := generateWeekDates d in
  List.length w = 7%nat /\ getDay (hd 0%Z w) = 0%Z /\ In d w /\
  forall i, (i < 6)%nat -> nth (S i) w 0%Z = (nth i w 0%Z + 1)%Z.
Proof.
  unfold generateWeekDates, getDay. simpl. repeat split.
  - pose proof (Z.mod_pos_bound (d + 4) 7) as Hb. pose proof (Z.div_mod (d + 4) 7) as Hd.
    replace (d - (d + 4) mod 7 + 0 + 4)%Z with (7 * ((d + 4) / 7))%Z by lia.
    rewrite Z.mul_comm, Z_mod_mult. reflexivity.
  - pose proof (Z.mod_pos_bound (d + 4) 7) as Hb.
    assert (Hc : ((d + 4) mod 7 = 0 \/ (d + 4) mod 7 = 1 \/ (d + 4) mod 7 = 2 \/ (d + 4) mod 7 = 3 \/
                  (d + 4) mod 7 = 4 \/ (d + 4) mod 7 = 5 \/ (d + 4) mod 7 = 6)%Z) by lia.
    destruct Hc as [H|[H|[H|[H|[H|[H|H]]]]]]; rewrite H; simpl;
      repeat (left; lia) || right; try (left; lia).
  - intros i Hi. destruct i as [|[|[|[|[|[|i]]]]]]; simpl; try lia.
Qed.

(** ** Sample data *)

Definition day0 : Z := days_from_civil 2025 1 10.

Definition apt_ana : Appointment :=
  mkAppointment "a1" "pa1" "pr1" "2025-01-10" "09:00:00" 30 "Consulta" false "Agendado" None None None.
Definition sample_db : DB :=
  mkDB [apt_ana] [("pa1", "Ana Souza", "Ativo"); ("pa2", "Bruno Lima", "Ativo")]
       [("pr1", "Dra. Carla Mendes", "Cardiologia")].
Definition ok_reply : Reply := mkReply "a2" "Agendado" day0 None.
Definition err_reply : Reply := mkReply "" "" day0 (Some "permission denied for table appointments").

(** "Novo Agendamento" for Bruno with the same professional at 09:00. *)
Definition booking : list (Reply * Event) :=
  [(ok_reply, DialogOpenChange true); (ok_reply, PatientSelect "pa2"); (ok_reply, ProfessionalSelect "pr1");
   (ok_reply, TimeSelect "09:00"); (ok_reply, TypeSelect "Teleconsulta"); (ok_reply, Submit);
   (ok_reply, Settle 0)].

Definition booked_page : Page := fst (run (initial_page sample_db day0, sample_db) booking).

Definition ana_joined : Appointment :=
  mkAppointment "a1" "pa1" "pr1" "2025-01-10" "09:00:00" 30 "Consulta" false "Agendado" None
                (Some "Ana Souza") (Some ("Dra. Carla Mendes", "Cardiologia")).
Definition bruno_joined : Appointment :=
  mkAppointment "a2" "pa2" "pr1" "2025-01-10" "09:00:00" 30 "Teleconsulta" true "Agendado" None
                (Some "Bruno Lima") (Some ("Dra. Carla Mendes", "Cardiologia")).

Lemma is_video_iff_teleconsulta_witness :
  let s := run (initial_page sample_db day0, sample_db) booking in
  fd_is_video (formData (fst s)) = (fd_type (formData (fst s)) === "Teleconsulta") /\
  forall a, In a (db_appointments (snd s)) -> is_video a = (apt_type a === "Teleconsulta").
Proof. apply is_video_iff_teleconsulta. intros a [<-|[]]. reflexivity. Defined.

Lemma status_error_keeps_optimistic_witness :
  let p := fst (run (initial_page sample_db day0, sample_db) [(ok_reply, DetailsClick ana_joined)]) in
  let s := run (p, sample_db) [(err_reply, StatusSelect "Confirmado"); (ok_reply, Settle 0)] in
  snd s = sample_db /\ appointments (fst s) = appointments p /\
  option_map dv_status (details_view (fst s)) = Some "Confirmado" /\
  toasts (fst s) = (toasts p ++ [ToastError ("Erro ao atualizar status: " ++ "permission denied for table appointments")])%list.
Proof. apply (status_error_keeps_optimistic _ _ ana_joined); reflexivity. Defined.

Lemma schedule_hides_later_same_slot_witness :
  ~ In bruno_joined (booked booked_page) /\ (jlen (booked booked_page) < total (stats booked_page))%Z.
Proof.
  apply (schedule_hides_later_same_slot booked_page [] [] [] ana_joined bruno_joined).
  - vm_compute. reflexivity.
  - reflexivity.
  - simpl. intros [H|[]]. discriminate H.
Defined.

(** After the booking above the store holds two appointments of the same
    professional at 09:00; the schedule shows Ana's, and "Total hoje"
    counts two. *)
Example double_booking_shown_once :
  List.length (db_appointments (snd (run (initial_page sample_db day0, sample_db) booking))) = 2%nat /\
  booked booked_page = [ana_joined] /\ total (stats booked_page) = 2%Z.
Proof. vm_compute. repeat split. Qed.

End Agendamentos.
