(* ===== verification/Profissionais.v ===== *)
(** * The professionals page (pages/Profissionais.tsx)

    The page lists the [professionals] rows (newest first) as cards,
    filters them by a search text (name or specialty), a status and a
    specialty, and creates, updates and deletes rows.  As in the patients
    page, one form state serves the "Novo Profissional" and "Editar
    Profissional" dialogs, and each mutation is a request answered when
    sent and callbacks that run when the answer arrives ([Settle i]).
    Numbers ([rating], [patients_count]) are shown with JavaScript's
    [Number.prototype.toString], left as the section variable
    [num_to_string] of the views. *)

From Stdlib Require Import List ZArith QArith Lia String Ascii Bool Sorted.
From S2P Require Import Prelude.
Import ListNotations.
Open Scope js_scope.
Open Scope string_scope.

Module Profissionais.

(** ** Data *)

(** [Tables<"professionals">]. *)
Record Professional := mkProfessional {
  id : string;
  name : string;
  specialty : string;
  registration_type : string;
  registration_number : string;
  status : string;
  phone : option string;
  email : option string;
  rating : option Q;
  patients_count : option Q;
  next_available : option string;
  created_at : Z;
  updated_at : Z
}.

Definition getStatusVariant (s : string) : string :=
  match s with
  | "Disponível" => "success-light"
  | "Em atendimento" => "info-light"
  | "Em plantão" => "warning-light"
  | "Férias" => "secondary"
  | _ => "secondary"
  end.

(** [name.split(" ").map(n => n[0]).join("").substring(0, 2).toUpperCase()] *)
Definition getInitials (n : string) : string :=
  to_upper (take_chars 2 (join_opt (map first_char (js_split " "%char n)))).

Definition specialties : list string :=
  ["Cardiologia"; "Dermatologia"; "Ortopedia"; "Neurologia"; "Psiquiatria"; "Pediatria"; "Ginecologia";
   "Urologia"; "Oftalmologia"; "Enfermagem UTI"; "Enfermagem Geral"; "Fisioterapia"].

Definition registrationTypes : list (string * string) :=
  [("CRM", "CRM (Médico)"); ("COREN", "COREN (Enfermeiro)"); ("CRF", "CRF (Farmacêutico)");
   ("CREFITO", "CREFITO (Fisioterapeuta)"); ("CRO", "CRO (Dentista)")].

Definition statusOptions : list string := ["Disponível"; "Em atendimento"; "Em plantão"; "Férias"].

Record FormData := mkForm {
  fd_name : string; fd_specialty : string; fd_registration_type : string; fd_registration_number : string;
  fd_status : string; fd_phone : string; fd_email : string
}.

Definition empty_form : FormData := mkForm "" "" "CRM" "" "Disponível" "" "".

(** ** The store *)

Definition DB := list Professional.

(** [select("*").order("created_at", { ascending: false })] *)
Definition query_professionals (db : DB) : list Professional := js_sort (desc_by created_at) db.

(** What the store answers: the id and instant of a new row, and the
    request's error. *)
Record Reply := mkReply { new_id : string; now : Z; fault : option string }.

(** [data.phone || null] *)
Definition or_null (s : string) : option string := if s === "" then None else Some s.

(** The insert; the columns it leaves out take their defaults. *)
Definition createProfessional_fn (db : DB) (r : Reply) (fd : FormData) : DB * option string :=
  match fault r with
  | Some m => (db, Some m)
  | None =>
      ((db ++ [mkProfessional (new_id r) (fd_name fd) (fd_specialty fd) (fd_registration_type fd)
                 (fd_registration_number fd) (fd_status fd) (or_null (fd_phone fd)) (or_null (fd_email fd))
                 None None None (now r) (now r)])%list, None)
  end.

Definition set_columns (fd : FormData) (q : Professional) : Professional :=
  mkProfessional (id q) (fd_name fd) (fd_specialty fd) (fd_registration_type fd) (fd_registration_number fd)
    (fd_status fd) (or_null (fd_phone fd)) (or_null (fd_email fd)) (rating q) (patients_count q)
    (next_available q) (created_at q) (updated_at q).

Definition updateProfessional_fn (db : DB) (r : Reply) (pid : string) (fd : FormData) : DB * option string :=
  match fault r with
  | Some m => (db, Some m)
  | None => (map (fun q => if id q === pid then set_columns fd q else q) db, None)
  end.

Definition deleteProfessional_fn (db : DB) (r : Reply) (pid : string) : DB * option string :=
  match fault r with
  | Some m => (db, Some m)
  | None => (filter (fun q => negb (id q === pid)) db, None)
  end.

(** ** The page *)

(** A call of [toast({ title, description, variant })] of use-toast. *)
Record Toast := mkToast { title : string; description : string; destructive : bool }.

Inductive Mutation := MCreate | MUpdate | MDelete.

Definition mutation_eqb (a b : Mutation) : bool :=
  match a, b with MCreate, MCreate | MUpdate, MUpdate | MDelete, MDelete => true | _, _ => false end.

Record Inflight := mkInflight { m_kind : Mutation; m_error : option string }.

Record Page := mkPage {
  searchTerm : string;
  statusFilter : string;
  specialtyFilter : string;
  isFiltersOpen : bool;
  isDialogOpen : bool;
  isEditDialogOpen : bool;
  isViewDialogOpen : bool;
  isDeleteAlertOpen : bool;
  selectedProfessional : option Professional;
  formData : FormData;
  professionals : list Professional;
  toasts : list Toast;
  inflight : list Inflight
}.

Definition initial_page (db : DB) : Page :=
  mkPage "" "" "" false false false false false None empty_form (query_professionals db) [] [].

(** The setters the handlers use. *)
Definition setFilterFields (p : Page) (search st sp : string) (fo : bool) : Page :=
  mkPage search st sp fo (isDialogOpen p) (isEditDialogOpen p) (isViewDialogOpen p) (isDeleteAlertOpen p)
    (selectedProfessional p) (formData p) (professionals p) (toasts p) (inflight p).
Definition setDialogs (p : Page) (d e v a : bool) : Page :=
  mkPage (searchTerm p) (statusFilter p) (specialtyFilter p) (isFiltersOpen p) d e v a
    (selectedProfessional p) (formData p) (professionals p) (toasts p) (inflight p).
Definition setIsDialogOpen (p : Page) (b : bool) : Page :=
  setDialogs p b (isEditDialogOpen p) (isViewDialogOpen p) (isDeleteAlertOpen p).
Definition setIsEditDialogOpen (p : Page) (b : bool) : Page :=
  setDialogs p (isDialogOpen p) b (isViewDialogOpen p) (isDeleteAlertOpen p).
Definition setIsViewDialogOpen (p : Page) (b : bool) : Page :=
  setDialogs p (isDialogOpen p) (isEditDialogOpen p) b (isDeleteAlertOpen p).
Definition setIsDeleteAlertOpen (p : Page) (b : bool) : Page :=
  setDialogs p (isDialogOpen p) (isEditDialogOpen p) (isViewDialogOpen p) b.
Definition setSelectedProfessional (p : Page) (v : option Professional) : Page :=
  mkPage (searchTerm p) (statusFilter p) (specialtyFilter p) (isFiltersOpen p) (isDialogOpen p)
    (isEditDialogOpen p) (isViewDialogOpen p) (isDeleteAlertOpen p) v (formData p) (professionals p)
    (toasts p) (inflight p).
Definition setFormData (p : Page) (v : FormData) : Page :=
  mkPage (searchTerm p) (statusFilter p) (specialtyFilter p) (isFiltersOpen p) (isDialogOpen p)
    (isEditDialogOpen p) (isViewDialogOpen p) (isDeleteAlertOpen p) (selectedProfessional p) v
    (professionals p) (toasts p) (inflight p).
Definition toast (p : Page) (t : Toast) : Page :=
  mkPage (searchTerm p) (statusFilter p) (specialtyFilter p) (isFiltersOpen p) (isDialogOpen p)
    (isEditDialogOpen p) (isViewDialogOpen p) (isDeleteAlertOpen p) (selectedProfessional p) (formData p)
    (professionals p) (toasts p ++ [t]) (inflight p).
Definition invalidate (p : Page) (db : DB) : Page :=
  mkPage (searchTerm p) (statusFilter p) (specialtyFilter p) (isFiltersOpen p) (isDialogOpen p)
    (isEditDialogOpen p) (isViewDialogOpen p) (isDeleteAlertOpen p) (selectedProfessional p) (formData p)
    (query_professionals db) (toasts p) (inflight p).
Definition set_inflight (p : Page) (v : list Inflight) : Page :=
  mkPage (searchTerm p) (statusFilter p) (specialtyFilter p) (isFiltersOpen p) (isDialogOpen p)
    (isEditDialogOpen p) (isViewDialogOpen p) (isDeleteAlertOpen p) (selectedProfessional p) (formData p)
    (professionals p) (toasts p) v.

Definition isPending (p : Page) (k : Mutation) : bool :=
  existsb (fun m => mutation_eqb (m_kind m) k) (inflight p).

Definition mutate (p : Page) (k : Mutation) (res : DB * option string) : Page * DB :=
  (set_inflight p (inflight p ++ [mkInflight k (snd res)]), fst res).

Definition resetForm (p : Page) : Page := setFormData p empty_form.

Definition success (d : string) : Toast := mkToast "Sucesso" d false.
Definition failure (d : string) : Toast := mkToast "Erro" d true.

Definition createProfessional_settled (p : Page) (db : DB) (err : option string) : Page :=
  match err with
  | None => resetForm (setIsDialogOpen (toast (invalidate p db) (success "Profissional cadastrado com sucesso!")) false)
  | Some m => toast p (failure ("Erro ao cadastrar profissional: " ++ m))
  end.

(** [onSuccess] of the update closes the dialog and clears the selection;
    it does not reset the form. *)
Definition updateProfessional_settled (p : Page) (db : DB) (err : option string) : Page :=
  match err with
  | None => setSelectedProfessional (setIsEditDialogOpen
              (toast (invalidate p db) (success "Profissional atualizado com sucesso!")) false) None
  | Some m => toast p (failure ("Erro ao atualizar profissional: " ++ m))
  end.

Definition deleteProfessional_settled (p : Page) (db : DB) (err : option string) : Page :=
  match err with
  | None => setSelectedProfessional (setIsDeleteAlertOpen
              (toast (invalidate p db) (success "Profissional excluído com sucesso!")) false) None
  | Some m => toast p (failure ("Erro ao excluir profissional: " ++ m))
  end.

Definition settled (p : Page) (db : DB) (m : Inflight) : Page :=
  match m_kind m with
  | MCreate => createProfessional_settled p db (m_error m)
  | MUpdate => updateProfessional_settled p db (m_error m)
  | MDelete => deleteProfessional_settled p db (m_error m)
  end.

(** ** Handlers and filters *)

Definition REQUIRED_MSG : string := "Preencha todos os campos obrigatórios.".

Definition missing_required (fd : FormData) : bool :=
  (fd_name fd === "") || (fd_specialty fd === "") || (fd_registration_number fd === "").

Definition handleSubmit (p : Page) (db : DB) (r : Reply) : Page * DB :=
  if missing_required (formData p) then (toast p (failure REQUIRED_MSG), db)
  else mutate p MCreate (createProfessional_fn db r (formData p)).

(** [prof.phone || ""] *)
Definition or_empty (o : option string) : string := match o with Some s => s | None => "" end.

Definition form_of (q : Professional) : FormData :=
  mkForm (name q) (specialty q) (registration_type q) (registration_number q) (status q)
         (or_empty (phone q)) (or_empty (email q)).

Definition handleEdit (p : Page) (q : Professional) : Page :=
  setIsEditDialogOpen (setFormData (setSelectedProfessional p (Some q)) (form_of q)) true.

Definition handleEditSubmit (p : Page) (db : DB) (r : Reply) : Page * DB :=
  match selectedProfessional p with
  | None => (p, db)
  | Some sp =>
      if missing_required (formData p) then (toast p (failure REQUIRED_MSG), db)
      else mutate p MUpdate (updateProfessional_fn db r (id sp) (formData p))
  end.

Definition handleView (p : Page) (q : Professional) : Page :=
  setIsViewDialogOpen (setSelectedProfessional p (Some q)) true.

Definition handleDeleteClick (p : Page) (q : Professional) : Page :=
  setIsDeleteAlertOpen (setSelectedProfessional p (Some q)) true.

Definition handleDeleteConfirm (p : Page) (db : DB) (r : Reply) : Page * DB :=
  match selectedProfessional p with
  | Some q => mutate p MDelete (deleteProfessional_fn db r (id q))
  | None => (p, db)
  end.

Definition filteredProfessionals (p : Page) : list Professional :=
  filter (fun q => (includes (to_lower (name q)) (to_lower (searchTerm p))
                    || includes (to_lower (specialty q)) (to_lower (searchTerm p)))
                   && ((statusFilter p === "") || (status q === statusFilter p))
                   && ((specialtyFilter p === "") || (specialty q === specialtyFilter p)))
         (professionals p).

(** [[...new Set(professionals.map(p => p.specialty))].sort()] *)
Definition uniqueSpecialties (p : Page) : list string :=
  js_sort default_cmp (dedup [] (map specialty (professionals p))).

Definition hasActiveFilters (p : Page) : bool := negb (statusFilter p === "") || negb (specialtyFilter p === "").

Definition clearFilters (p : Page) : Page := setFilterFields p (searchTerm p) "" "" (isFiltersOpen p).

(** ** What the user does *)

Inductive Event :=
  | SearchChange (v : string)
  | FiltersOpenChange (b : bool)
  | StatusFilterChange (v : string)
  | SpecialtyFilterChange (v : string)
  | ClearFiltersClick
  | ApplyFiltersClick
  | NewClick
  | DialogOpenChange (b : bool)
  | NameInput (v : string)
  | SpecialtySelect (v : string)
  | RegistrationTypeSelect (v : string)
  | RegistrationNumberInput (v : string)
  | StatusSelect (v : string)
  | PhoneInput (v : string)
  | EmailInput (v : string)
  | SubmitNew
  | SubmitEdit
  | ViewClick (q : Professional)
  | EditClick (q : Professional)
  | DeleteClick (q : Professional)
  | EditDialogOpenChange (b : bool)
  | ViewDialogOpenChange (b : bool)
  | ViewEditClick
  | DeleteAlertOpenChange (b : bool)
  | DeleteConfirm
  | Settle (i : nat).

(** One event with the store's reply to the request it sends.  "Novo
    Profissional" and the empty state's "Adicionar Profissional" are
    [NewClick]; the inputs of both dialogs write the one [formData]; a
    submit button is [disabled] while its mutation is pending; the alert's
    action closes the alert. *)
Definition step (r : Reply) (s : Page * DB) (e : Event) : Page * DB :=
  let (p, db) := s in
  let fd := formData p in
  let with_form f := (setFormData p f, db) in
  match e with
  | SearchChange v => (setFilterFields p v (statusFilter p) (specialtyFilter p) (isFiltersOpen p), db)
  | FiltersOpenChange b => (setFilterFields p (searchTerm p) (statusFilter p) (specialtyFilter p) b, db)
  | StatusFilterChange v => (setFilterFields p (searchTerm p) v (specialtyFilter p) (isFiltersOpen p), db)
  | SpecialtyFilterChange v => (setFilterFields p (searchTerm p) (statusFilter p) v (isFiltersOpen p), db)
  | ClearFiltersClick => (clearFilters p, db)
  | ApplyFiltersClick => (setFilterFields p (searchTerm p) (statusFilter p) (specialtyFilter p) false, db)
  | NewClick => (setIsDialogOpen p true, db)
  | DialogOpenChange b => (setIsDialogOpen p b, db)
  | NameInput v => with_form (mkForm v (fd_specialty fd) (fd_registration_type fd) (fd_registration_number fd)
                                     (fd_status fd) (fd_phone fd) (fd_email fd))
  | SpecialtySelect v => with_form (mkForm (fd_name fd) v (fd_registration_type fd) (fd_registration_number fd)
                                           (fd_status fd) (fd_phone fd) (fd_email fd))
  | RegistrationTypeSelect v => with_form (mkForm (fd_name fd) (fd_specialty fd) v (fd_registration_number fd)
                                                  (fd_status fd) (fd_phone fd) (fd_email fd))
  | RegistrationNumberInput v => with_form (mkForm (fd_name fd) (fd_specialty fd) (fd_registration_type fd) v
                                                   (fd_status fd) (fd_phone fd) (fd_email fd))
  | StatusSelect v => with_form (mkForm (fd_name fd) (fd_specialty fd) (fd_registration_type fd)
                                        (fd_registration_number fd) v (fd_phone fd) (fd_email fd))
  | PhoneInput v => with_form (mkForm (fd_name fd) (fd_specialty fd) (fd_registration_type fd)
                                      (fd_registration_number fd) (fd_status fd) v (fd_email fd))
  | EmailInput v => with_form (mkForm (fd_name fd) (fd_specialty fd) (fd_registration_type fd)
                                      (fd_registration_number fd) (fd_status fd) (fd_phone fd) v)
  | SubmitNew => if isPending p MCreate then (p, db) else handleSubmit p db r
  | SubmitEdit => if isPending p MUpdate then (p, db) else handleEditSubmit p db r
  | ViewClick q => (handleView p q, db)
  | EditClick q => (handleEdit p q, db)
  | DeleteClick q => (handleDeleteClick p q, db)
  | EditDialogOpenChange b => (setIsEditDialogOpen p b, db)
  | ViewDialogOpenChange b => (setIsViewDialogOpen p b, db)
  | ViewEditClick =>
      match selectedProfessional p with
      | Some q => (handleEdit (setIsViewDialogOpen p false) q, db)
      | None => (p, db)
      end
  | DeleteAlertOpenChange b => (setIsDeleteAlertOpen p b, db)
  | DeleteConfirm => handleDeleteConfirm (setIsDeleteAlertOpen p false) db r
  | Settle i =>
      match nth_error (inflight p) i with
      | Some m => (settled (set_inflight p (remove_nth i (inflight p))) db m, db)
      | None => (p, db)
      end
  end.

Definition run (s : Page * DB) (es : list (Reply * Event)) : Page * DB :=
  fold_left (fun s re => step (fst re) s (snd re)) es s.

(** ** What the page shows *)

Section Views.
Variable num_to_string : Q -> string.

(** [{prof.rating || "5.0"}]: a missing rating and a rating of [0] both
    show "5.0". *)
Definition rating_text (o : option Q) : string :=
  match o with Some q => if Qeq_bool q 0 then "5.0" else num_to_string q | None => "5.0" end.

(** [{prof.patients_count || 0}] *)
Definition count_text (o : option Q) : string :=
  match o with Some q => if Qeq_bool q 0 then "0" else num_to_string q | None => "0" end.

Definition next_text (o : option string) : string :=
  match o with Some s => if s === "" then "Não definido" else s | None => "Não definido" end.

Record CardView := mkCard {
  c_initials : string; c_name : string; c_specialty : string; c_registration : string;
  c_variant : string; c_status : string; c_rating : string; c_patients : string; c_next : string
}.

Definition card_of (q : Professional) : CardView :=
  mkCard (getInitials (name q)) (name q) (specialty q) (registration_type q ++ "-SP " ++ registration_number q)
         (getStatusVariant (status q)) (status q) (rating_text (rating q))
         (count_text (patients_count q) ++ " pacientes") ("Próximo horário: " ++ next_text (next_available q)).

Inductive GridView :=
  | GLoading
  | GEmpty (message : string) (add_button : bool)
  | GCards (cards : list CardView).

Definition grid_view (isLoading : bool) (p : Page) : GridView :=
  if isLoading then GLoading
  else match filteredProfessionals p with
       | [] => GEmpty (if negb (searchTerm p === "") then "Nenhum profissional corresponde à sua busca."
                       else "Comece adicionando o primeiro profissional.") (searchTerm p === "")
       | qs => GCards (map card_of qs)
       end.

Record ProfileView := mkProfile {
  pv_initials : string; pv_name : string; pv_specialty : string; pv_variant : string; pv_status : string;
  pv_registration : string; pv_phone : option string; pv_email : option string; pv_rating : string;
  pv_patients : string; pv_next : string
}.

Definition truthy (o : option string) : option string :=
  match o with Some s => if s === "" then None else Some s | None => None end.

Definition profile_view (p : Page) : option ProfileView :=
  match selectedProfessional p with
  | Some q =>
      Some (mkProfile (getInitials (name q)) (name q) (specialty q) (getStatusVariant (status q)) (status q)
                      (registration_type q ++ "-SP " ++ registration_number q) (truthy (phone q)) (truthy (email q))
                      ("Avaliação: " ++ rating_text (rating q))
                      (count_text (patients_count q) ++ " pacientes atendidos")
                      ("Próximo horário: " ++ next_text (next_available q)))
  | None => None
  end.

End Views.

(** The filters popover: the badge, the "Limpar" button and the options. *)
Record FiltersView := mkFiltersView {
  fv_badge : bool; fv_clear : bool; fv_status_options : list string; fv_specialty_options : list string
}.

Definition filters_view (p : Page) : FiltersView :=
  mkFiltersView (hasActiveFilters p) (hasActiveFilters p) statusOptions (uniqueSpecialties p).

Record DialogView := mkDialog {
  dlg_open : bool; dlg_title : string; dlg_form : FormData; dlg_specialties : list string;
  dlg_registration_types : list (string * string); dlg_statuses : list string; dlg_submit_label : string;
  dlg_submit_disabled : bool
}.

Definition new_dialog_view (p : Page) : DialogView :=
  mkDialog (isDialogOpen p) "Novo Profissional" (formData p) specialties registrationTypes statusOptions
           (if isPending p MCreate then "Salvando..." else "Salvar") (isPending p MCreate).

Definition edit_dialog_view (p : Page) : DialogView :=
  mkDialog (isEditDialogOpen p) "Editar Profissional" (formData p) specialties registrationTypes statusOptions
           (if isPending p MUpdate then "Salvando..." else "Salvar") (isPending p MUpdate).

Definition delete_view (p : Page) : option string * string :=
  (option_map name (selectedProfessional p), if isPending p MDelete then "Excluindo..." else "Excluir").

(** ** Properties *)

(** Unfolds the handlers and setters, so that a session of events
    computes down to the requests and the store's answers. *)
Ltac page_steps :=
  cbv beta iota zeta delta [run fold_left fst snd step isPending handleEditSubmit handleSubmit handleEdit
       mutate settled set_inflight setIsEditDialogOpen setFormData setSelectedProfessional setIsDialogOpen
       setDialogs toast invalidate createProfessional_settled updateProfessional_settled
       deleteProfessional_settled inflight formData selectedProfessional isDialogOpen isEditDialogOpen
       isViewDialogOpen isDeleteAlertOpen professionals toasts searchTerm statusFilter specialtyFilter
       isFiltersOpen m_kind m_error nth_error remove_nth existsb mutation_eqb app
       createProfessional_fn updateProfessional_fn resetForm].

(** C27: [onSuccess] of the update does not reset the form, which the
    "Novo Profissional" dialog shares: after a professional is edited and
    saved, "Novo Profissional" opens filled with that professional's data,
    and saving it inserts a second professional with the same name,
    specialty and registration. *)
Theorem edit_success_prefills_new (p : Page) (db : DB) (q : Professional) (r0 r r' : Reply) :
  inflight p = [] -> fault r = None -> fault r' = None -> missing_required (form_of q) = false ->
  let s := run (p, db) [(r0, EditClick q); (r, SubmitEdit); (r0, Settle 0); (r0, NewClick)] in
  isDialogOpen (fst s) = true /\ formData (fst s) = form_of q /\
  exists row, snd (step r' s SubmitNew) = (snd s ++ [row])%list /\
              name row = name q /\ specialty row = specialty q /\
              registration_type row = registration_type q /\ registration_number row = registration_number q.
Proof.
  intros Hin Hf Hf' Hmiss. destruct p. cbn in Hin. subst.
  repeat progress (page_steps; rewrite ?Hmiss, ?Hf, ?Hf').
  split; [reflexivity|split; [reflexivity|]]. eexists. split; [reflexivity|repeat split].
Qed.

(** The specialty filter offers each specialty of the loaded
    professionals exactly once, in JavaScript's default (code unit)
    order, and nothing else. *)
Theorem uniqueSpecialties_spec (p : Page) :
  Sorted (fun a b => (default_cmp a b <= 0)%Z) (uniqueSpecialties p) /\ NoDup (uniqueSpecialties p) /\
  forall sp, In sp (uniqueSpecialties p) <-> exists q, In q (professionals p) /\ specialty q = sp.
Proof.
  unfold uniqueSpecialties. split; [apply js_sort_sorted, default_cmp_antisym|split].
  - eapply Permutation.Permutation_NoDup; [symmetry; apply js_sort_perm|apply dedup_nodup].
  - intros sp. split.
    + intros H. apply (Permutation.Permutation_in _ (js_sort_perm _ _)), in_dedup in H as [H _].
      apply in_map_iff in H as [q [Hq Hin]]. exists q. auto.
    + intros [q [Hin Hq]]. apply (Permutation.Permutation_in _ (Permutation.Permutation_sym (js_sort_perm _ _))).
      apply in_dedup. split; [apply in_map_iff; exists q; auto|intros []].
Qed.

(** ** Sample data *)

Definition carla : Professional :=
  mkProfessional "pr1" "Carla Mendes" "Cardiologia" "CRM" "123456" "Disponível" None None (Some 0) None None
                 1736500000000 1736500000000.
Definition davi : Professional :=
  mkProfessional "pr2" "Davi Rocha" "Pediatria" "CRM" "654321" "Férias" None None None (Some 12) None
                 1736600000000 1736600000000.
Definition sample_db : DB := [carla; davi].
Definition ok_reply : Reply := mkReply "pr3" 1736700000000 None.

Lemma edit_success_prefills_new_witness :
  let s := run (initial_page sample_db, sample_db)
               [(ok_reply, EditClick carla); (ok_reply, SubmitEdit); (ok_reply, Settle 0); (ok_reply, NewClick)] in
  isDialogOpen (fst s) = true /\ formData (fst s) = form_of carla /\
  exists row, snd (step ok_reply s SubmitNew) = (snd s ++ [row])%list /\
              name row = name carla /\ specialty row = specialty carla /\
              registration_type row = registration_type carla /\
              registration_number row = registration_number carla.
Proof. apply edit_success_prefills_new; reflexivity. Defined.

(** A rating of [0] and a missing rating both show as "5.0", whatever
    [toString] gives. *)
Example rating_zero_shows_five (f : Q -> string) :
  c_rating (card_of f carla) = "5.0" /\ c_rating (card_of f davi) = "5.0".
Proof. split; reflexivity. Qed.

(** With professionals loaded but none of the chosen status, the empty
    state invites to add "o primeiro profissional". *)
Example empty_state_ignores_filters (f : Q -> string) :
  grid_view f false (setFilterFields (initial_page sample_db) "" "Em plantão" "" false) =
  GEmpty "Comece adicionando o primeiro profissional." true.
Proof. reflexivity. Qed.

End Profissionais.
