(* ===== verification/Prontuarios.v ===== *)
(** * The medical records page (pages/Prontuarios.tsx)

    The page lists the [medical_records] (most recently updated first)
    with their patient and professional, in three tabs (active, archived,
    all) filtered by a search text; it counts active, archived and
    "updated today" records and the prescriptions among the ten latest
    entries; it creates records (the record number is left to the store's
    trigger), adds entries to the selected record and archives or
    reactivates records.  As in the other pages, each mutation is a
    request answered when sent and callbacks that run when the answer
    arrives ([Settle i]).  The store's timestamps are instants in
    milliseconds; the text PostgREST sends for a [timestamptz] starts with
    its UTC date. *)

From Stdlib Require Import List ZArith Lia String Ascii Bool Permutation.
From S2P Require Import Prelude.
Import ListNotations.
Open Scope js_scope.
Open Scope string_scope.

Module Prontuarios.

(** ** Data *)

Definition entryTypes : list string := ["Consulta"; "Exame"; "Prescrição"; "Procedimento"; "Evolução"].

(** A [medical_records] row with its joined patient (name, CPF) and
    professional name. *)
Record MedicalRecord := mkRecord {
  id : string;
  record_number : string;
  patient_id : string;
  primary_professional_id : option string;
  primary_diagnosis : option string;
  status : string;
  notes : option string;
  updated_at : Z;
  patient : option (string * string);
  professional : option string
}.

(** A [medical_record_entries] row with its joined professional name and,
    for the recent history, its record's number and patient name. *)
Record Entry := mkEntry {
  e_id : string;
  medical_record_id : string;
  e_professional_id : option string;
  entry_type : string;
  description : string;
  entry_date : string;
  e_created_at : Z;
  e_professional : option string;
  e_record : option (string * option string)
}.

Record RecordForm := mkRecordForm {
  rf_patient_id : string; rf_primary_professional_id : string; rf_primary_diagnosis : string; rf_notes : string
}.

Record EntryForm := mkEntryForm { ef_entry_type : string; ef_description : string }.

Definition empty_record_form : RecordForm := mkRecordForm "" "" "" "".
Definition empty_entry_form : EntryForm := mkEntryForm "Consulta" "".

(** ** The store *)

Record DB := mkDB {
  db_records : list MedicalRecord;
  db_entries : list Entry;
  db_patients : list (string * string * string);
  db_professionals : list (string * string * string)
}.

Definition patient_of (db : DB) (i : string) : option (string * string) :=
  option_map (fun r => (snd (fst r), snd r)) (find (fun r => fst (fst r) === i) (db_patients db)).

Definition professional_name (db : DB) (o : option string) : option string :=
  match o with
  | Some i => option_map (fun r => snd (fst r)) (find (fun r => fst (fst r) === i) (db_professionals db))
  | None => None
  end.

Definition join_record (db : DB) (r : MedicalRecord) : MedicalRecord :=
  mkRecord (id r) (record_number r) (patient_id r) (primary_professional_id r) (primary_diagnosis r)
    (status r) (notes r) (updated_at r) (patient_of db (patient_id r))
    (professional_name db (primary_professional_id r)).

(** Every column with [patient:patients(name, cpf)] and
    [professional:professionals(name)], by [updated_at] descending. *)
Definition query_records (db : DB) : list MedicalRecord :=
  map (join_record db) (js_sort (desc_by updated_at) (db_records db)).

Definition join_entry (db : DB) (e : Entry) : Entry :=
  mkEntry (e_id e) (medical_record_id e) (e_professional_id e) (entry_type e) (description e) (entry_date e)
    (e_created_at e) (professional_name db (e_professional_id e))
    (option_map (fun r => (record_number r, option_map fst (patient_of db (patient_id r))))
                (find (fun r => id r === medical_record_id e) (db_records db))).

(** [professional:professionals(name)] alone. *)
Definition join_professional (db : DB) (e : Entry) : Entry :=
  mkEntry (e_id e) (medical_record_id e) (e_professional_id e) (entry_type e) (description e) (entry_date e)
    (e_created_at e) (professional_name db (e_professional_id e)) None.

(** The entries of one record, by [entry_date] descending (a [date]
    column: its texts compare as their characters do). *)
Definition query_entries (db : DB) (rid : string) : list Entry :=
  map (join_professional db)
      (js_sort (fun a b => default_cmp (entry_date b) (entry_date a))
               (filter (fun e => medical_record_id e === rid) (db_entries db))).

(** [.order("created_at", { ascending: false }).limit(10)] *)
Definition query_recent_entries (db : DB) : list Entry :=
  map (join_entry db) (firstn 10 (js_sort (desc_by e_created_at) (db_entries db))).

(** [select("id, name, cpf").order("name")], in the store's order. *)
Definition query_patient_options (db : DB) : list (string * string * string) := db_patients db.
Definition query_professional_options (db : DB) : list (string * string * string) := db_professionals db.

(** What the store answers a request: the new row's id, the record number
    its trigger writes, the default status, the current date and instant,
    and the request's error. *)
Record Reply := mkReply {
  new_id : string; trigger_number : string; default_status : string; server_date : string; now : Z;
  fault : option string
}.

(** [x || null] *)
Definition or_null (s : string) : option string := if s === "" then None else Some s.

Definition createRecord_fn (db : DB) (r : Reply) (rf : RecordForm) : DB * option string :=
  match fault r with
  | Some m => (db, Some m)
  | None =>
      (mkDB (db_records db ++
               [mkRecord (new_id r) (trigger_number r) (rf_patient_id rf) (or_null (rf_primary_professional_id rf))
                         (or_null (rf_primary_diagnosis rf)) (default_status r) (or_null (rf_notes rf)) (now r)
                         None None])%list
            (db_entries db) (db_patients db) (db_professionals db), None)
  end.

Definition NO_RECORD_MSG : string := "Nenhum prontuário selecionado".

(** [createEntry]'s [mutationFn] throws before any request when no record
    is selected. *)
Definition createEntry_fn (db : DB) (r : Reply) (sel : option MedicalRecord) (ef : EntryForm) : DB * option string :=
  match sel with
  | None => (db, Some NO_RECORD_MSG)
  | Some rec =>
      match fault r with
      | Some m => (db, Some m)
      | None =>
          (mkDB (db_records db)
                (db_entries db ++ [mkEntry (new_id r) (id rec) None (ef_entry_type ef) (ef_description ef)
                                           (server_date r) (now r) None None])%list
                (db_patients db) (db_professionals db), None)
      end
  end.

Definition set_status (s : string) (r : MedicalRecord) : MedicalRecord :=
  mkRecord (id r) (record_number r) (patient_id r) (primary_professional_id r) (primary_diagnosis r) s
    (notes r) (updated_at r) (patient r) (professional r).

Definition updateRecordStatus_fn (db : DB) (r : Reply) (rid s : string) : DB * option string :=
  match fault r with
  | Some m => (db, Some m)
  | None => (mkDB (map (fun x => if id x === rid then set_status s x else x) (db_records db)) (db_entries db)
                  (db_patients db) (db_professionals db), None)
  end.

(** ** The page *)

Inductive Toast := ToastSuccess (message : string) | ToastError (message : string).

Inductive Mutation := MCreateRecord | MCreateEntry | MUpdateStatus.

Definition mutation_eqb (a b : Mutation) : bool :=
  match a, b with
  | MCreateRecord, MCreateRecord | MCreateEntry, MCreateEntry | MUpdateStatus, MUpdateStatus => true
  | _, _ => false
  end.

Record Inflight := mkInflight { m_kind : Mutation; m_error : option string }.

(** The states of [Prontuarios()] (with the uncontrolled [Tabs]' own
    value) and the caches of its five queries. *)
Record Page := mkPage {
  searchTerm : string;
  isNewRecordOpen : bool;
  isDetailsOpen : bool;
  isNewEntryOpen : bool;
  selectedRecord : option MedicalRecord;
  newRecordData : RecordForm;
  newEntryData : EntryForm;
  tab : string;
  records : list MedicalRecord;
  entries : list Entry;
  recent : list Entry;
  patients : list (string * string * string);
  professionals : list (string * string * string);
  toasts : list Toast;
  inflight : list Inflight
}.

Definition initial_page (db : DB) : Page :=
  mkPage "" false false false None empty_record_form empty_entry_form "ativos" (query_records db) []
         (query_recent_entries db) (query_patient_options db) (query_professional_options db) [] [].

(** The setters: the dialogs and the tab, the selection with its entries
    query, the two forms, the caches, the toasts. *)
Definition set_ui (p : Page) (search : string) (nr d ne : bool) (t : string) : Page :=
  mkPage search nr d ne (selectedRecord p) (newRecordData p) (newEntryData p) t (records p) (entries p)
    (recent p) (patients p) (professionals p) (toasts p) (inflight p).
Definition setIsNewRecordOpen (p : Page) (b : bool) : Page :=
  set_ui p (searchTerm p) b (isDetailsOpen p) (isNewEntryOpen p) (tab p).
Definition setIsDetailsOpen (p : Page) (b : bool) : Page :=
  set_ui p (searchTerm p) (isNewRecordOpen p) b (isNewEntryOpen p) (tab p).
Definition setIsNewEntryOpen (p : Page) (b : bool) : Page :=
  set_ui p (searchTerm p) (isNewRecordOpen p) (isDetailsOpen p) b (tab p).
(** A new selection is a new key of the entries query: its entries are
    fetched. *)
Definition setSelectedRecord (p : Page) (db : DB) (r : MedicalRecord) : Page :=
  mkPage (searchTerm p) (isNewRecordOpen p) (isDetailsOpen p) (isNewEntryOpen p) (Some r) (newRecordData p)
    (newEntryData p) (tab p) (records p) (query_entries db (id r)) (recent p) (patients p) (professionals p)
    (toasts p) (inflight p).
Definition setNewRecordData (p : Page) (v : RecordForm) : Page :=
  mkPage (searchTerm p) (isNewRecordOpen p) (isDetailsOpen p) (isNewEntryOpen p) (selectedRecord p) v
    (newEntryData p) (tab p) (records p) (entries p) (recent p) (patients p) (professionals p) (toasts p)
    (inflight p).
Definition setNewEntryData (p : Page) (v : EntryForm) : Page :=
  mkPage (searchTerm p) (isNewRecordOpen p) (isDetailsOpen p) (isNewEntryOpen p) (selectedRecord p)
    (newRecordData p) v (tab p) (records p) (entries p) (recent p) (patients p) (professionals p) (toasts p)
    (inflight p).
Definition toast (p : Page) (t : Toast) : Page :=
  mkPage (searchTerm p) (isNewRecordOpen p) (isDetailsOpen p) (isNewEntryOpen p) (selectedRecord p)
    (newRecordData p) (newEntryData p) (tab p) (records p) (entries p) (recent p) (patients p)
    (professionals p) (toasts p ++ [t]) (inflight p).
Definition set_inflight (p : Page) (v : list Inflight) : Page :=
  mkPage (searchTerm p) (isNewRecordOpen p) (isDetailsOpen p) (isNewEntryOpen p) (selectedRecord p)
    (newRecordData p) (newEntryData p) (tab p) (records p) (entries p) (recent p) (patients p)
    (professionals p) (toasts p) v.

(** [invalidateQueries] of ["medical_records"]. *)
Definition invalidate_records (p : Page) (db : DB) : Page :=
  mkPage (searchTerm p) (isNewRecordOpen p) (isDetailsOpen p) (isNewEntryOpen p) (selectedRecord p)
    (newRecordData p) (newEntryData p) (tab p) (query_records db) (entries p) (recent p) (patients p)
    (professionals p) (toasts p) (inflight p).

(** [invalidateQueries] of ["medical_record_entries"] and
    ["recent_entries"]: the selected record's entries and the history. *)
Definition invalidate_entries (p : Page) (db : DB) : Page :=
  mkPage (searchTerm p) (isNewRecordOpen p) (isDetailsOpen p) (isNewEntryOpen p) (selectedRecord p)
    (newRecordData p) (newEntryData p) (tab p) (records p)
    (match selectedRecord p with Some r => query_entries db (id r) | None => [] end)
    (query_recent_entries db) (patients p) (professionals p) (toasts p) (inflight p).

Definition isPending (p : Page) (k : Mutation) : bool :=
  existsb (fun m => mutation_eqb (m_kind m) k) (inflight p).

Definition mutate (p : Page) (k : Mutation) (res : DB * option string) : Page * DB :=
  (set_inflight p (inflight p ++ [mkInflight k (snd res)]), fst res).

(** ** Callbacks *)

Definition createRecord_settled (p : Page) (db : DB) (err : option string) : Page :=
  match err with
  | None => setNewRecordData (setIsNewRecordOpen (invalidate_records
              (toast p (ToastSuccess "Prontuário criado com sucesso!")) db) false) empty_record_form
  | Some m => toast p (ToastError ("Erro ao criar prontuário: " ++ m))
  end.

Definition createEntry_settled (p : Page) (db : DB) (err : option string) : Page :=
  match err with
  | None => setNewEntryData (setIsNewEntryOpen (invalidate_records (invalidate_entries
              (toast p (ToastSuccess "Registro adicionado com sucesso!")) db) db) false) empty_entry_form
  | Some m => toast p (ToastError ("Erro ao adicionar registro: " ++ m))
  end.

Definition updateRecordStatus_settled (p : Page) (db : DB) (err : option string) : Page :=
  match err with
  | None => invalidate_records (toast p (ToastSuccess "Status atualizado com sucesso!")) db
  | Some m => toast p (ToastError ("Erro ao atualizar status: " ++ m))
  end.

Definition settled (p : Page) (db : DB) (m : Inflight) : Page :=
  match m_kind m with
  | MCreateRecord => createRecord_settled p db (m_error m)
  | MCreateEntry => createEntry_settled p db (m_error m)
  | MUpdateStatus => updateRecordStatus_settled p db (m_error m)
  end.

(** ** Handlers, filters and counters *)

Definition handleCreateRecord (p : Page) (db : DB) (r : Reply) : Page * DB :=
  if rf_patient_id (newRecordData p) === "" then (toast p (ToastError "Selecione um paciente"), db)
  else mutate p MCreateRecord (createRecord_fn db r (newRecordData p)).

Definition handleCreateEntry (p : Page) (db : DB) (r : Reply) : Page * DB :=
  if ef_description (newEntryData p) === "" then (toast p (ToastError "Preencha a descrição"), db)
  else mutate p MCreateEntry (createEntry_fn db r (selectedRecord p) (newEntryData p)).

Definition filteredRecords (p : Page) : list MedicalRecord :=
  let search := to_lower (searchTerm p) in
  filter (fun r => includes (to_lower (record_number r)) search
                   || match patient r with
                      | Some (n, c) => includes (to_lower n) search || includes c search
                      | None => false
                      end) (records p).

Definition activeRecords (p : Page) : list MedicalRecord :=
  filter (fun r => status r === "ativo") (filteredRecords p).
Definition archivedRecords (p : Page) : list MedicalRecord :=
  filter (fun r => status r === "arquivado") (filteredRecords p).

(** The text of a [timestamptz] as PostgREST sends it (fractional seconds
    left out): its UTC date and time. *)
Definition timestamptz_text (t : Z) : string :=
  format_yyyy_MM_dd (t / MS_PER_DAY) ++ "T" ++ format_HHmmss t ++ "+00:00".

(** The four cards; [off] is the local offset and [now] the instant. *)
Record Stats := mkStats { totalActive : Z; updatedToday : Z; prescriptions : Z; totalArchived : Z }.

Definition stats (off now : Z) (p : Page) : Stats :=
  let todayDate := format_yyyy_MM_dd ((now + off) / MS_PER_DAY) in
  mkStats (jlen (filter (fun r => status r === "ativo") (records p)))
          (jlen (filter (fun r => String.prefix todayDate (timestamptz_text (updated_at r))) (records p)))
          (jlen (filter (fun e => entry_type e === "Prescrição") (recent p)))
          (jlen (filter (fun r => status r === "arquivado") (records p))).

(** ** What the user does *)

Inductive Event :=
  | SearchChange (v : string)
  | NewRecordOpenChange (b : bool)
  | RecordPatientSelect (v : string)
  | RecordProfessionalSelect (v : string)
  | DiagnosisInput (v : string)
  | RecordNotesInput (v : string)
  | SubmitRecord
  | ViewClick (r : MedicalRecord)
  | DetailsOpenChange (b : bool)
  | NewEntryOpenChange (b : bool)
  | EntryTypeSelect (v : string)
  | EntryDescriptionInput (v : string)
  | SubmitEntry
  | StatusToggleClick (r : MedicalRecord)
  | TabChange (t : string)
  | Settle (i : nat).

(** One event with the store's reply to the request it sends.  The row's
    toggle archives an active record and reactivates any other; the submit
    buttons are [disabled] while their mutation is pending. *)
Definition step (rep : Reply) (s : Page * DB) (e : Event) : Page * DB :=
  let (p, db) := s in
  let rf := newRecordData p in
  let ef := newEntryData p in
  match e with
  | SearchChange v => (set_ui p v (isNewRecordOpen p) (isDetailsOpen p) (isNewEntryOpen p) (tab p), db)
  | NewRecordOpenChange b => (setIsNewRecordOpen p b, db)
  | RecordPatientSelect v =>
      (setNewRecordData p (mkRecordForm v (rf_primary_professional_id rf) (rf_primary_diagnosis rf) (rf_notes rf)), db)
  | RecordProfessionalSelect v =>
      (setNewRecordData p (mkRecordForm (rf_patient_id rf) v (rf_primary_diagnosis rf) (rf_notes rf)), db)
  | DiagnosisInput v =>
      (setNewRecordData p (mkRecordForm (rf_patient_id rf) (rf_primary_professional_id rf) v (rf_notes rf)), db)
  | RecordNotesInput v =>
      (setNewRecordData p (mkRecordForm (rf_patient_id rf) (rf_primary_professional_id rf)
                                        (rf_primary_diagnosis rf) v), db)
  | SubmitRecord => if isPending p MCreateRecord then (p, db) else handleCreateRecord p db rep
  | ViewClick r => (setIsDetailsOpen (setSelectedRecord p db r) true, db)
  | DetailsOpenChange b => (setIsDetailsOpen p b, db)
  | NewEntryOpenChange b => (setIsNewEntryOpen p b, db)
  | EntryTypeSelect v => (setNewEntryData p (mkEntryForm v (ef_description ef)), db)
  | EntryDescriptionInput v => (setNewEntryData p (mkEntryForm (ef_entry_type ef) v), db)
  | SubmitEntry => if isPending p MCreateEntry then (p, db) else handleCreateEntry p db rep
  | StatusToggleClick r =>
      mutate p MUpdateStatus
        (updateRecordStatus_fn db rep (id r) (if status r === "ativo" then "arquivado" else "ativo"))
  | TabChange t => (set_ui p (searchTerm p) (isNewRecordOpen p) (isDetailsOpen p) (isNewEntryOpen p) t, db)
  | Settle i =>
      match nth_error (inflight p) i with
      | Some m => (settled (set_inflight p (remove_nth i (inflight p))) db m, db)
      | None => (p, db)
      end
  end.

Definition run (s : Page * DB) (es : list (Reply * Event)) : Page * DB :=
  fold_left (fun s re => step (fst re) s (snd re)) es s.

(** ** What the page shows *)

Record RowView := mkRow {
  rv_number : string; rv_patient : option string; rv_cpf : option string; rv_diagnosis : string;
  rv_professional : string; rv_updated : string; rv_variant : string; rv_badge : string; rv_action : string
}.

Definition or_dash (o : option string) : string :=
  match o with Some s => if s === "" then "-" else s | None => "-" end.

Definition row_of (off : Z) (r : MedicalRecord) : RowView :=
  mkRow (record_number r) (option_map fst (patient r)) (option_map snd (patient r)) (or_dash (primary_diagnosis r))
        (or_dash (professional r)) (format_ddMMyyyy (updated_at r + off))
        (if status r === "ativo" then "success" else "secondary")
        (if status r === "ativo" then "Ativo" else "Arquivado")
        (if status r === "ativo" then "archive" else "activate").

Inductive TableView := TLoading | TEmpty | TRows (rows : list RowView).

Definition renderRecordsTable (off : Z) (isLoading : bool) (rs : list MedicalRecord) : TableView :=
  if isLoading then TLoading else match rs with [] => TEmpty | _ => TRows (map (row_of off) rs) end.

(** The tabs' labels with their counts and the table of the open tab. *)
Definition tabs_view (off : Z) (isLoading : bool) (p : Page) : list string * TableView :=
  (["Ativos (" ++ js_string_of_Z (jlen (activeRecords p)) ++ ")";
    "Arquivados (" ++ js_string_of_Z (jlen (archivedRecords p)) ++ ")";
    "Todos (" ++ js_string_of_Z (jlen (filteredRecords p)) ++ ")"],
   renderRecordsTable off isLoading
     (if tab p === "ativos" then activeRecords p
      else if tab p === "arquivados" then archivedRecords p else filteredRecords p)).

(** [format(new Date(date + "T12:00:00"), "dd/MM/yyyy")]: local noon of
    the stored day. *)
Definition entry_date_text (d : string) : option string :=
  option_map (fun n => format_ddMMyyyy (n * MS_PER_DAY)) (parse_ymd d).

Inductive EntryIcon := ActivityPrimary | FileTextWarning | PillSuccess | FileTextMuted.

Definition getEntryIcon (t : string) : EntryIcon :=
  if t === "Consulta" then ActivityPrimary
  else if t === "Exame" then FileTextWarning
  else if t === "Prescrição" then PillSuccess
  else FileTextMuted.

Record EntryView := mkEntryView {
  ev_icon : EntryIcon; ev_type : string; ev_date : option string; ev_description : string;
  ev_professional : string; ev_patient : option string
}.

Definition entry_view (e : Entry) : EntryView :=
  mkEntryView (getEntryIcon (entry_type e)) (entry_type e) (entry_date_text (entry_date e)) (description e)
    (match e_professional e with Some n => if n === "" then "Profissional não informado" else n
                                 | None => "Profissional não informado" end)
    (match e_record e with Some (_, n) => n | None => None end).

Definition history_view (p : Page) : option (list EntryView) :=
  match recent p with [] => None | es => Some (map entry_view es) end.

Record DetailsView := mkDetails {
  dv_title : string; dv_patient : option string; dv_cpf : option string; dv_badge : string;
  dv_professional : string; dv_diagnosis : string; dv_notes : option string; dv_entries : option (list EntryView)
}.

Definition details_view (p : Page) : option DetailsView :=
  match selectedRecord p with
  | Some r =>
      Some (mkDetails ("Prontuário " ++ record_number r) (option_map fst (patient r)) (option_map snd (patient r))
              (if status r === "ativo" then "Ativo" else "Arquivado")
              (match professional r with Some n => if n === "" then "Não definido" else n | None => "Não definido" end)
              (match primary_diagnosis r with Some d => if d === "" then "Não informado" else d
                                            | None => "Não informado" end)
              (match notes r with Some n => if n === "" then None else Some n | None => None end)
              (match entries p with [] => None | es => Some (map entry_view es) end))
  | None => None
  end.

(** The new-record dialog's options ("name - cpf", "name - specialty")
    and the submit button's state. *)
Definition new_record_view (p : Page) : list (string * string) * list (string * string) * bool :=
  (map (fun r => (fst (fst r), snd (fst r) ++ " - " ++ snd r)) (patients p),
   map (fun r => (fst (fst r), snd (fst r) ++ " - " ++ snd r)) (professionals p),
   isPending p MCreateRecord).

(** The new-entry dialog: the five types and the submit button's state. *)
Definition new_entry_view (p : Page) : list string * string * bool :=
  (entryTypes, ef_entry_type (newEntryData p), isPending p MCreateEntry).

(** ** The two tabs split the list *)

(** A status the page knows: every status the page itself writes is one. *)
Definition status_ok (s : string) : bool := (s === "ativo") || (s === "arquivado").

Definition records_ok (rs : list MedicalRecord) : Prop := Forall (fun r => status_ok (status r) = true) rs.

(** The cached list and the store hold known statuses only. *)
Definition state_ok (s : Page * DB) : Prop := records_ok (records (fst s)) /\ records_ok (db_records (snd s)).

Lemma jlen_filter_split {A : Type} (f g : A -> bool) (l : list A) :
  (forall x, In x l -> f x = negb (g x)) -> (jlen (filter f l) + jlen (filter g l) = jlen l)%Z.
Proof.
  unfold jlen. induction l as [|x xs IH]; intros H; [reflexivity|]. cbn [filter].
  rewrite (H x (or_introl eq_refl)). specialize (IH (fun y Hy => H y (or_intror Hy))).
  destruct (g x); cbn [negb List.length]; lia.
Qed.

Lemma status_split (rs : list MedicalRecord) :
  records_ok rs ->
  (jlen (filter (fun r => status r === "ativo") rs) + jlen (filter (fun r => status r === "arquivado") rs)
   = jlen rs)%Z.
Proof.
  intros H. apply jlen_filter_split. intros r Hr. unfold records_ok in H. rewrite Forall_forall in H. specialize (H r Hr).
  unfold status_ok in H. destruct (status r === "ativo") eqn:E; [|cbn in H; rewrite H; reflexivity].
  apply String.eqb_eq in E. rewrite E. reflexivity.
Qed.

Lemma query_records_ok (db : DB) : records_ok (db_records db) -> records_ok (query_records db).
Proof.
  unfold records_ok, query_records. intros H. apply Forall_map. cbn [status join_record].
  eapply Permutation_Forall; [symmetry; apply js_sort_perm | exact H].
Qed.

Lemma filteredRecords_ok (p : Page) : records_ok (records p) -> records_ok (filteredRecords p).
Proof. unfold records_ok, filteredRecords. rewrite !Forall_forall. intros H r Hr. apply filter_In in Hr. apply H, Hr. Qed.

Lemma settled_ok (p : Page) (db : DB) (m : Inflight) :
  records_ok (records p) -> records_ok (db_records db) -> records_ok (records (settled p db m)).
Proof. destruct p, m as [[] [e|]]; cbn; auto using query_records_ok. Qed.

Lemma createRecord_fn_ok (db : DB) (r : Reply) (rf : RecordForm) :
  status_ok (default_status r) = true -> records_ok (db_records db) ->
  records_ok (db_records (fst (createRecord_fn db r rf))).
Proof. intros Hs H. unfold createRecord_fn. destruct (fault r); cbn; auto. apply Forall_app. auto. Qed.

Lemma createEntry_fn_records (db : DB) (r : Reply) sel (ef : EntryForm) :
  db_records (fst (createEntry_fn db r sel ef)) = db_records db.
Proof. unfold createEntry_fn. destruct sel; [destruct (fault r)|]; reflexivity. Qed.

Lemma updateRecordStatus_fn_ok (db : DB) (r : Reply) (rid s : string) :
  status_ok s = true -> records_ok (db_records db) -> records_ok (db_records (fst (updateRecordStatus_fn db r rid s))).
Proof.
  intros Hs H. unfold updateRecordStatus_fn. destruct (fault r); cbn; auto.
  apply Forall_map. eapply Forall_impl; [|exact H]. intros x Hx. destruct (id x === rid); auto.
Qed.

Lemma toggle_target_ok (r : MedicalRecord) :
  status_ok (if status r === "ativo" then "arquivado" else "ativo") = true.
Proof. destruct (status r === "ativo"); reflexivity. Qed.

Lemma step_ok (rep : Reply) (s : Page * DB) (e : Event) :
  status_ok (default_status rep) = true -> state_ok s -> state_ok (step rep s e).
Proof.
  destruct s as [p db]. unfold state_ok. cbn [fst snd]. intros Hrep [Hp Hdb].
  destruct e; cbn [step]; try (destruct p; split; assumption).
  - destruct (isPending p MCreateRecord); [split; assumption|]. unfold handleCreateRecord.
    destruct (_ === ""); [destruct p; split; assumption|]. split; [destruct p; exact Hp|].
    apply createRecord_fn_ok; assumption.
  - destruct (isPending p MCreateEntry); [split; assumption|]. unfold handleCreateEntry.
    destruct (_ === ""); [destruct p; split; assumption|]. split; [destruct p; exact Hp|].
    cbn [mutate snd]. rewrite createEntry_fn_records. exact Hdb.
  - split; [destruct p; exact Hp|]. apply updateRecordStatus_fn_ok; auto using toggle_target_ok.
  - destruct (nth_error (inflight p) i); cbn [fst snd]; split; auto.
    apply settled_ok; [destruct p|]; assumption.
Qed.

Lemma run_ok (s : Page * DB) (es : list (Reply * Event)) :
  Forall (fun re => status_ok (default_status (fst re)) = true) es -> state_ok s -> state_ok (run s es).
Proof.
  unfold run. revert s. induction es as [|[rep e] es IH]; intros s Hes Hs; [exact Hs|].
  inversion Hes; subst. cbn [fold_left]. apply IH; [assumption|]. apply step_ok; assumption.
Qed.

(** C28: In every state the page reaches from a store whose records are
    active or archived, with a store whose default status is one of the
    two, the counts in the tab labels add up: "Ativos" plus "Arquivados"
    is "Todos", and the "Prontuários Ativos" and "Arquivados" cards add up
    to the number of records; no record falls outside both tabs. *)
Theorem tabs_partition (db0 : DB) (es : list (Reply * Event)) (off now : Z) :
  records_ok (db_records db0) ->
  Forall (fun re => status_ok (default_status (fst re)) = true) es ->
  let p := fst (run (initial_page db0, db0) es) in
  (jlen (activeRecords p) + jlen (archivedRecords p) = jlen (filteredRecords p))%Z /\
  (totalActive (stats off now p) + totalArchived (stats off now p) = jlen (records p))%Z.
Proof.
  intros Hdb Hes p.
  assert (Hs : state_ok (run (initial_page db0, db0) es)).
  { apply run_ok; [exact Hes|]. split; [apply query_records_ok|]; exact Hdb. }
  destruct Hs as [Hp _]. split; [apply status_split, filteredRecords_ok, Hp | apply status_split, Hp].
Qed.

(** ** Samples *)

Definition HOUR : Z := 3600000.
(** 9 November 2026, 00:00 UTC. *)
Definition NOV9 : Z := days_from_civil 2026 11 9 * MS_PER_DAY.
(** São Paulo, UTC-3. *)
Definition BRT : Z := -3 * HOUR.

Definition ana_record : MedicalRecord :=
  mkRecord "r1" "PRO-1" "p1" None (Some "Hipertensão") "ativo" None NOV9 None None.
Definition sample_db : DB :=
  mkDB [ana_record] [] [("p1", "Ana", "123.456.789-00")] [("m1", "Carla", "Cardiologia")].
Definition ok_reply : Reply := mkReply "r2" "PRO-2" "ativo" "2026-11-09" (NOV9 + HOUR) None.

Lemma tabs_partition_witness :
  records_ok (db_records sample_db) /\
  Forall (fun re => status_ok (default_status (fst re)) = true)
         [(ok_reply, RecordPatientSelect "p1"); (ok_reply, SubmitRecord); (ok_reply, Settle 0);
          (ok_reply, StatusToggleClick ana_record); (ok_reply, Settle 0)] /\
  let p := fst (run (initial_page sample_db, sample_db)
                   [(ok_reply, RecordPatientSelect "p1"); (ok_reply, SubmitRecord); (ok_reply, Settle 0);
                    (ok_reply, StatusToggleClick ana_record); (ok_reply, Settle 0)]) in
  (jlen (activeRecords p) + jlen (archivedRecords p) = jlen (filteredRecords p))%Z /\
  (totalActive (stats BRT NOV9 p) + totalArchived (stats BRT NOV9 p) = jlen (records p))%Z.
Proof.
  assert (Hdb : records_ok (db_records sample_db)) by (repeat constructor).
  assert (Hes : Forall (fun re => status_ok (default_status (fst re)) = true)
         [(ok_reply, RecordPatientSelect "p1"); (ok_reply, SubmitRecord); (ok_reply, Settle 0);
          (ok_reply, StatusToggleClick ana_record); (ok_reply, Settle 0)]) by (repeat constructor).
  split; [exact Hdb|]. split; [exact Hes|]. exact (tabs_partition _ _ BRT NOV9 Hdb Hes).
Defined.

(** A record whose status is neither: it is counted in "Todos" only,
    shows the badge "Arquivado" and its button reactivates it. *)
Example unknown_status_outside_tabs :
  let r := mkRecord "r9" "PRO-9" "p1" None None "pendente" None NOV9 (Some ("Ana", "123.456.789-00")) None in
  let p := initial_page (mkDB [r] [] [] []) in
  jlen (activeRecords p) = 0%Z /\ jlen (archivedRecords p) = 0%Z /\ jlen (filteredRecords p) = 1%Z /\
  rv_badge (row_of BRT r) = "Arquivado" /\ rv_action (row_of BRT r) = "activate".
Proof. vm_compute. repeat split. Qed.

(** "Atualizados Hoje" compares the UTC date at the head of the
    [updated_at] text with the local date: in São Paulo, at 22:00 on
    8 November, a record updated at 21:00 that evening is dated 08/11/2026
    in its row, today's local date, yet not counted as updated today. *)
Example updatedToday_utc_date :
  let r := mkRecord "r1" "PRO-1" "p1" None None "ativo" None NOV9 None None in
  let p := initial_page (mkDB [r] [] [] []) in
  rv_updated (row_of BRT r) = format_ddMMyyyy (NOV9 + HOUR + BRT) /\
  rv_updated (row_of BRT r) = "08/11/2026" /\
  updatedToday (stats BRT (NOV9 + HOUR) p) = 0%Z.
Proof. vm_compute. repeat split. Qed.

End Prontuarios.
