(* ===== verification/Telemedicina.v ===== *)
(** * The telemedicine page (pages/Telemedicina.tsx)

    The page lists the upcoming video appointments (today and later,
    scheduled or confirmed) and the recent ones (earlier days, or
    concluded or cancelled), lets the user select one, start it as a call
    (its status becomes "Em atendimento"), end it ("Concluído") or cancel
    it ("Cancelado"), and, for the selected appointment, open the
    patient's medical record, schedule a return visit and issue a
    prescription (an entry of the patient's record, created first when
    the lookup finds none).  As in the other pages, each mutation is a
    request answered when sent and callbacks that run when the answer
    arrives ([Settle i]).  The browser's clock is the reply's [now] and its
    time zone the offset [off] of [step]. *)

From Stdlib Require Import List ZArith Lia String Ascii Bool.
From S2P Require Import Prelude Profissionais.
Import ListNotations.
Open Scope js_scope.
Open Scope string_scope.

Module Telemedicina.

(** ** Data *)

(** An [appointments] row with its joined patient name and professional
    (name, specialty). *)
Record Appointment := mkAppointment {
  id : string;
  patient_id : string;
  professional_id : string;
  appointment_date : string;
  appointment_time : string;
  duration : Z;
  type : string;
  is_video : bool;
  status : string;
  notes : option string;
  patient : option string;
  professional : option (string * string)
}.

(** The [medical_records] and [medical_record_entries] columns the page
    reads or writes. *)
Record MRecord := mkMRecord {
  r_id : string; r_patient_id : string; r_primary_professional_id : option string; r_status : string;
  r_record_number : string; r_primary_diagnosis : option string
}.

Record MEntry := mkMEntry {
  e_id : string; e_medical_record_id : string; e_professional_id : option string; e_entry_type : string;
  e_entry_date : string; e_description : string; e_created_at : Z
}.

(** ** The store *)

Record DB := mkDB {
  db_appointments : list Appointment;
  db_patients : list (string * string);
  db_professionals : list (string * string * string);
  db_records : list MRecord;
  db_entries : list MEntry
}.

Definition join (db : DB) (a : Appointment) : Appointment :=
  mkAppointment (id a) (patient_id a) (professional_id a) (appointment_date a) (appointment_time a)
    (duration a) (type a) (is_video a) (status a) (notes a)
    (option_map snd (find (fun r => fst r === patient_id a) (db_patients db)))
    (option_map (fun r => (snd (fst r), snd r)) (find (fun r => fst (fst r) === professional_id a) (db_professionals db))).

(** [format(new Date(), "yyyy-MM-dd")]: the local date. *)
Definition today (off now : Z) : string := format_yyyy_MM_dd ((now + off) / MS_PER_DAY).

(** The store compares [date] columns with the text of a date; on
    ["yyyy-MM-dd"] texts that is the order of their characters. *)
Definition by_date_time (a b : Appointment) : Z :=
  let c := default_cmp (appointment_date a) (appointment_date b) in
  if (c =? 0)%Z then default_cmp (appointment_time a) (appointment_time b) else c.

Definition is_upcoming (t : string) (a : Appointment) : bool :=
  is_video a && (0 <=? default_cmp (appointment_date a) t)%Z
  && ((status a === "Agendado") || (status a === "Confirmado")).

(** [.eq("is_video", true).gte("appointment_date", today)
    .in("status", ["Agendado", "Confirmado"])], by date and time. *)
Definition query_upcoming (off now : Z) (db : DB) : list Appointment :=
  map (join db) (js_sort by_date_time (filter (is_upcoming (today off now)) (db_appointments db))).

Definition is_recent (t : string) (a : Appointment) : bool :=
  is_video a && ((default_cmp (appointment_date a) t <? 0)%Z
                 || (status a === "Concluído") || (status a === "Cancelado")).

(** [.or("appointment_date.lt.today,status.in.(Concluído,Cancelado)")],
    latest first, [.limit(10)]. *)
Definition query_recent (off now : Z) (db : DB) : list Appointment :=
  map (join db) (firstn 10 (js_sort (fun a b => by_date_time b a)
                                    (filter (is_recent (today off now)) (db_appointments db)))).

(** [.maybeSingle()]: no row, the row, or the error of several rows. *)
Inductive Single (A : Type) := SNone | SOne (a : A) | SMany.
Arguments SNone {A}. Arguments SOne {A} a. Arguments SMany {A}.

Definition maybeSingle {A : Type} (l : list A) : Single A :=
  match l with [] => SNone | [a] => SOne a | _ => SMany end.

Definition records_of (db : DB) (pid : string) : list MRecord :=
  filter (fun r => r_patient_id r === pid) (db_records db).

(** The patient's record with its entries and their professional's name;
    a failed [maybeSingle] leaves the query without data. *)
Definition query_medical_record (db : DB) (pid : string) : option (MRecord * list (MEntry * option string)) :=
  match maybeSingle (records_of db pid) with
  | SOne r =>
      Some (r, map (fun e => (e, match e_professional_id e with
                                  | Some i => option_map (fun q => snd (fst q))
                                                (find (fun q => fst (fst q) === i) (db_professionals db))
                                  | None => None
                                  end))
                   (filter (fun e => e_medical_record_id e === r_id r) (db_entries db)))
  | _ => None
  end.

(** ** Requests *)

(** What the store answers: the new rows' ids, the record number its
    trigger writes, the column defaults, the instant, and the errors of
    the request and of the record insert of [savePrescription]. *)
Record Reply := mkReply {
  new_id : string; new_record_id : string; trigger_number : string; default_duration : Z;
  server_date : string; now : Z; fault : option string; record_fault : option string
}.

Definition set_status (i s : string) (a : Appointment) : Appointment :=
  if id a === i then
    mkAppointment (id a) (patient_id a) (professional_id a) (appointment_date a) (appointment_time a)
      (duration a) (type a) (is_video a) s (notes a) (patient a) (professional a)
  else a.

Definition with_appointments (db : DB) (l : list Appointment) : DB :=
  mkDB l (db_patients db) (db_professionals db) (db_records db) (db_entries db).

Definition updateStatus_fn (db : DB) (r : Reply) (i s : string) : DB * option string :=
  match fault r with
  | Some m => (db, Some m)
  | None => (with_appointments db (map (set_status i s) (db_appointments db)), None)
  end.

Definition NO_CALL_MSG : string := "Nenhuma consulta selecionada".

(** [x || null] *)
Definition or_null (s : string) : option string := if s === "" then None else Some s.

Definition createReturnAppointment_fn (db : DB) (r : Reply) (sel : option Appointment)
    (returnDate returnTime returnNotes : string) : DB * option string :=
  match sel with
  | None => (db, Some NO_CALL_MSG)
  | Some c =>
      match fault r with
      | Some m => (db, Some m)
      | None =>
          (with_appointments db (db_appointments db ++
             [mkAppointment (new_id r) (patient_id c) (professional_id c) returnDate returnTime
                (default_duration r) "Retorno" true "Agendado" (or_null returnNotes) None None]), None)
      end
  end.

Definition NL : string := String (ascii_of_nat 10) EmptyString.

Definition prescriptionText (med dos instr : string) : string :=
  "Medicamento: " ++ med ++ NL ++ "Posologia: " ++ dos ++ NL ++ "Instruções: " ++ instr.

(** The lookup's error is not read: several records give [null], as no
    record does, and a new record is inserted ([status: "ativo"], the
    number written by the trigger).  The entry insert then runs on its
    own: its failure leaves the new record in place. *)
Definition savePrescription_fn (db : DB) (r : Reply) (sel : option Appointment) (med dos instr : string)
    : DB * option string :=
  match sel with
  | None => (db, Some NO_CALL_MSG)
  | Some c =>
      let found := match maybeSingle (map r_id (records_of db (patient_id c))) with
                   | SOne i => Some i | _ => None end in
      let created :=
        match found with
        | Some i => inl (db, i)
        | None =>
            match record_fault r with
            | Some m => inr m
            | None =>
                inl (mkDB (db_appointments db) (db_patients db) (db_professionals db)
                       (db_records db ++ [mkMRecord (new_record_id r) (patient_id c) (Some (professional_id c))
                                                    "ativo" (trigger_number r) None])
                       (db_entries db), new_record_id r)
            end
        end in
      match created with
      | inr m => (db, Some m)
      | inl (db', i) =>
          match fault r with
          | Some m => (db', Some m)
          | None =>
              (mkDB (db_appointments db') (db_patients db') (db_professionals db') (db_records db')
                    (db_entries db' ++ [mkMEntry (new_id r) i (Some (professional_id c)) "Prescrição"
                                                 (server_date r) (prescriptionText med dos instr) (now r)]),
               None)
          end
      end
  end.

(** ** The page *)

Inductive Toast := ToastSuccess (message : string) | ToastError (message : string) | ToastInfo (message : string).

Inductive Mutation := MUpdateStatus | MCreateReturn | MSavePrescription.

Definition mutation_eqb (a b : Mutation) : bool :=
  match a, b with
  | MUpdateStatus, MUpdateStatus | MCreateReturn, MCreateReturn | MSavePrescription, MSavePrescription => true
  | _, _ => false
  end.

Record Inflight := mkInflight { m_kind : Mutation; m_error : option string }.

(** The states of [Telemedicina()] and the caches of its three queries. *)
Record Page := mkPage {
  isVideoOn : bool;
  isMicOn : bool;
  selectedCall : option Appointment;
  isInCall : bool;
  callStartTime : option Z;
  isReturnDialogOpen : bool;
  isPrescriptionDialogOpen : bool;
  isMedicalRecordDialogOpen : bool;
  returnDate : string;
  returnTime : string;
  returnNotes : string;
  prescriptionMedication : string;
  prescriptionDosage : string;
  prescriptionInstructions : string;
  upcomingCalls : list Appointment;
  recentCalls : list Appointment;
  patientMedicalRecord : option (MRecord * list (MEntry * option string));
  toasts : list Toast;
  inflight : list Inflight
}.

Definition initial_page (off now : Z) (db : DB) : Page :=
  mkPage true true None false None false false false "" "09:00" "" "" "" ""
         (query_upcoming off now db) (query_recent off now db) None [] [].

(** The setters: the call's three states, the three dialogs, the return
    form, the prescription form, the caches, the toasts. *)
Definition set_call (p : Page) (v m : bool) (sel : option Appointment) (inc : bool) (st : option Z) : Page :=
  mkPage v m sel inc st (isReturnDialogOpen p) (isPrescriptionDialogOpen p) (isMedicalRecordDialogOpen p)
    (returnDate p) (returnTime p) (returnNotes p) (prescriptionMedication p) (prescriptionDosage p)
    (prescriptionInstructions p) (upcomingCalls p) (recentCalls p) (patientMedicalRecord p) (toasts p) (inflight p).
Definition setSelectedCall (p : Page) (c : option Appointment) : Page :=
  set_call p (isVideoOn p) (isMicOn p) c (isInCall p) (callStartTime p).
Definition set_dialogs (p : Page) (r pr mr : bool) : Page :=
  mkPage (isVideoOn p) (isMicOn p) (selectedCall p) (isInCall p) (callStartTime p) r pr mr
    (returnDate p) (returnTime p) (returnNotes p) (prescriptionMedication p) (prescriptionDosage p)
    (prescriptionInstructions p) (upcomingCalls p) (recentCalls p) (patientMedicalRecord p) (toasts p) (inflight p).
Definition setIsReturnDialogOpen (p : Page) (b : bool) : Page :=
  set_dialogs p b (isPrescriptionDialogOpen p) (isMedicalRecordDialogOpen p).
Definition setIsPrescriptionDialogOpen (p : Page) (b : bool) : Page :=
  set_dialogs p (isReturnDialogOpen p) b (isMedicalRecordDialogOpen p).
Definition setIsMedicalRecordDialogOpen (p : Page) (b : bool) : Page :=
  set_dialogs p (isReturnDialogOpen p) (isPrescriptionDialogOpen p) b.
Definition set_return (p : Page) (d t n : string) : Page :=
  mkPage (isVideoOn p) (isMicOn p) (selectedCall p) (isInCall p) (callStartTime p) (isReturnDialogOpen p)
    (isPrescriptionDialogOpen p) (isMedicalRecordDialogOpen p) d t n (prescriptionMedication p)
    (prescriptionDosage p) (prescriptionInstructions p) (upcomingCalls p) (recentCalls p)
    (patientMedicalRecord p) (toasts p) (inflight p).
Definition set_prescription (p : Page) (m d i : string) : Page :=
  mkPage (isVideoOn p) (isMicOn p) (selectedCall p) (isInCall p) (callStartTime p) (isReturnDialogOpen p)
    (isPrescriptionDialogOpen p) (isMedicalRecordDialogOpen p) (returnDate p) (returnTime p) (returnNotes p)
    m d i (upcomingCalls p) (recentCalls p) (patientMedicalRecord p) (toasts p) (inflight p).
Definition setPatientMedicalRecord (p : Page) (v : option (MRecord * list (MEntry * option string))) : Page :=
  mkPage (isVideoOn p) (isMicOn p) (selectedCall p) (isInCall p) (callStartTime p) (isReturnDialogOpen p)
    (isPrescriptionDialogOpen p) (isMedicalRecordDialogOpen p) (returnDate p) (returnTime p) (returnNotes p)
    (prescriptionMedication p) (prescriptionDosage p) (prescriptionInstructions p) (upcomingCalls p)
    (recentCalls p) v (toasts p) (inflight p).
Definition toast (p : Page) (t : Toast) : Page :=
  mkPage (isVideoOn p) (isMicOn p) (selectedCall p) (isInCall p) (callStartTime p) (isReturnDialogOpen p)
    (isPrescriptionDialogOpen p) (isMedicalRecordDialogOpen p) (returnDate p) (returnTime p) (returnNotes p)
    (prescriptionMedication p) (prescriptionDosage p) (prescriptionInstructions p) (upcomingCalls p)
    (recentCalls p) (patientMedicalRecord p) (toasts p ++ [t]) (inflight p).
Definition set_inflight (p : Page) (v : list Inflight) : Page :=
  mkPage (isVideoOn p) (isMicOn p) (selectedCall p) (isInCall p) (callStartTime p) (isReturnDialogOpen p)
    (isPrescriptionDialogOpen p) (isMedicalRecordDialogOpen p) (returnDate p) (returnTime p) (returnNotes p)
    (prescriptionMedication p) (prescriptionDosage p) (prescriptionInstructions p) (upcomingCalls p)
    (recentCalls p) (patientMedicalRecord p) (toasts p) v.

(** [invalidateQueries({ queryKey: ["appointments"] })]: both lists. *)
Definition invalidate_appointments (off now : Z) (p : Page) (db : DB) : Page :=
  mkPage (isVideoOn p) (isMicOn p) (selectedCall p) (isInCall p) (callStartTime p) (isReturnDialogOpen p)
    (isPrescriptionDialogOpen p) (isMedicalRecordDialogOpen p) (returnDate p) (returnTime p) (returnNotes p)
    (prescriptionMedication p) (prescriptionDosage p) (prescriptionInstructions p) (query_upcoming off now db)
    (query_recent off now db) (patientMedicalRecord p) (toasts p) (inflight p).

Definition isPending (p : Page) (k : Mutation) : bool :=
  existsb (fun m => mutation_eqb (m_kind m) k) (inflight p).

Definition mutate (p : Page) (k : Mutation) (res : DB * option string) : Page * DB :=
  (set_inflight p (inflight p ++ [mkInflight k (snd res)]), fst res).

(** ** Callbacks *)

Definition updateStatus_settled (off now : Z) (p : Page) (db : DB) (err : option string) : Page :=
  match err with
  | None => invalidate_appointments off now p db
  | Some m => toast p (ToastError ("Erro ao atualizar status: " ++ m))
  end.

Definition createReturnAppointment_settled (off now : Z) (p : Page) (db : DB) (err : option string) : Page :=
  match err with
  | None => set_return (setIsReturnDialogOpen (toast (invalidate_appointments off now p db)
              (ToastSuccess "Retorno agendado com sucesso!")) false) "" "09:00" ""
  | Some m => toast p (ToastError ("Erro ao agendar retorno: " ++ m))
  end.

(** [invalidateQueries({ queryKey: ["medical_records"] })] names no query
    of this page (the record's key is ["medical_record", id]): no cache
    changes. *)
Definition savePrescription_settled (p : Page) (err : option string) : Page :=
  match err with
  | None => set_prescription (setIsPrescriptionDialogOpen (toast p (ToastSuccess "Receita emitida com sucesso!"))
              false) "" "" ""
  | Some m => toast p (ToastError ("Erro ao emitir receita: " ++ m))
  end.

Definition settled (off now : Z) (p : Page) (db : DB) (m : Inflight) : Page :=
  match m_kind m with
  | MUpdateStatus => updateStatus_settled off now p db (m_error m)
  | MCreateReturn => createReturnAppointment_settled off now p db (m_error m)
  | MSavePrescription => savePrescription_settled p (m_error m)
  end.

(** ** Handlers *)

Definition startCall (now : Z) (p : Page) (db : DB) (r : Reply) (a : Appointment) : Page * DB :=
  let p1 := set_call p (isVideoOn p) (isMicOn p) (Some a) true (Some now) in
  let (p2, db2) := mutate p1 MUpdateStatus (updateStatus_fn db r (id a) "Em atendimento") in
  (toast p2 (ToastSuccess "Teleconsulta iniciada!"), db2).

Definition endCall (p : Page) (db : DB) (r : Reply) : Page * DB :=
  let (p1, db1) :=
    match selectedCall p with
    | Some c =>
        let (p0, db0) := mutate p MUpdateStatus (updateStatus_fn db r (id c) "Concluído") in
        (toast p0 (ToastSuccess "Teleconsulta finalizada!"), db0)
    | None => (p, db)
    end in
  (set_call p1 (isVideoOn p1) (isMicOn p1) None false None, db1).

Definition cancelCall (p : Page) (db : DB) (r : Reply) (a : Appointment) : Page * DB :=
  let (p1, db1) := mutate p MUpdateStatus (updateStatus_fn db r (id a) "Cancelado") in
  (toast p1 (ToastInfo "Consulta cancelada"), db1).

Definition SELECT_FIRST_MSG : string := "Selecione uma consulta primeiro".

(** [setIsMedicalRecordDialogOpen(true); refetchMedicalRecord()]. *)
Definition openMedicalRecord (p : Page) (db : DB) : Page :=
  match selectedCall p with
  | None => toast p (ToastError SELECT_FIRST_MSG)
  | Some c => setPatientMedicalRecord (setIsMedicalRecordDialogOpen p true) (query_medical_record db (patient_id c))
  end.

(** The return date defaults to the local date seven days ahead. *)
Definition openReturnDialog (off now : Z) (p : Page) : Page :=
  match selectedCall p with
  | None => toast p (ToastError SELECT_FIRST_MSG)
  | Some _ => setIsReturnDialogOpen
                (set_return p (format_yyyy_MM_dd ((now + off) / MS_PER_DAY + 7)) (returnTime p) (returnNotes p)) true
  end.

Definition openPrescriptionDialog (p : Page) : Page :=
  match selectedCall p with
  | None => toast p (ToastError SELECT_FIRST_MSG)
  | Some _ => setIsPrescriptionDialogOpen p true
  end.

(** [!!x] on an optional object. *)
Definition isSome {A : Type} (o : option A) : bool := match o with Some _ => true | None => false end.

(** [isToday(new Date(d + "T12:00:00"))]: an invalid date is never today. *)
Definition is_today (off now : Z) (d : string) : bool :=
  match parse_ymd d with Some n => (n =? (now + off) / MS_PER_DAY)%Z | None => false end.

Definition todaysCalls (off now : Z) (p : Page) : list Appointment :=
  filter (fun c => is_today off now (appointment_date c)) (upcomingCalls p).

Definition completedToday (off now : Z) (p : Page) : Z :=
  jlen (filter (fun c => (status c === "Concluído") && is_today off now (appointment_date c)) (recentCalls p)).

(** ** What the user does *)

Inductive Event :=
  | MicClick
  | VideoClick
  | StartNextClick
  | CallClick (i : nat)
  | StartClick
  | CancelClick
  | EndCallClick
  | MedicalRecordClick
  | ReturnClick
  | PrescriptionClick
  | ReturnOpenChange (b : bool)
  | ReturnDateInput (v : string)
  | ReturnTimeSelect (v : string)
  | ReturnNotesInput (v : string)
  | ReturnSubmit
  | PrescriptionOpenChange (b : bool)
  | MedicationInput (v : string)
  | DosageInput (v : string)
  | InstructionsInput (v : string)
  | PrescriptionSubmit
  | MedicalRecordOpenChange (b : bool)
  | Settle (i : nat).

(** One event with the store's reply to the request it sends, in the time
    zone [off].  [CallClick i] clicks the [i]-th of the five listed
    upcoming calls; buttons that are not rendered or [disabled] do
    nothing. *)
Definition step (off : Z) (rep : Reply) (s : Page * DB) (e : Event) : Page * DB :=
  let (p, db) := s in
  let t := now rep in
  match e with
  | MicClick => (set_call p (isVideoOn p) (negb (isMicOn p)) (selectedCall p) (isInCall p) (callStartTime p), db)
  | VideoClick => (set_call p (negb (isVideoOn p)) (isMicOn p) (selectedCall p) (isInCall p) (callStartTime p), db)
  | StartNextClick =>
      if isInCall p && isSome (selectedCall p) then (p, db)
      else match todaysCalls off t p with c :: _ => startCall t p db rep c | [] => (p, db) end
  | CallClick i =>
      match nth_error (firstn 5 (upcomingCalls p)) i with
      | Some c => (setSelectedCall p (Some c), db)
      | None => (p, db)
      end
  | StartClick =>
      match selectedCall p with
      | Some c => if isInCall p then (p, db) else startCall t p db rep c
      | None => (p, db)
      end
  | CancelClick =>
      match selectedCall p with
      | Some c => if isInCall p then (p, db) else cancelCall p db rep c
      | None => (p, db)
      end
  | EndCallClick => if isInCall p then endCall p db rep else (p, db)
  | MedicalRecordClick => if isSome (selectedCall p) then (openMedicalRecord p db, db) else (p, db)
  | ReturnClick => if isSome (selectedCall p) then (openReturnDialog off t p, db) else (p, db)
  | PrescriptionClick => if isSome (selectedCall p) then (openPrescriptionDialog p, db) else (p, db)
  | ReturnOpenChange b => (setIsReturnDialogOpen p b, db)
  | ReturnDateInput v => (set_return p v (returnTime p) (returnNotes p), db)
  | ReturnTimeSelect v => (set_return p (returnDate p) v (returnNotes p), db)
  | ReturnNotesInput v => (set_return p (returnDate p) (returnTime p) v, db)
  | ReturnSubmit =>
      if (returnDate p === "") || isPending p MCreateReturn then (p, db)
      else mutate p MCreateReturn
             (createReturnAppointment_fn db rep (selectedCall p) (returnDate p) (returnTime p) (returnNotes p))
  | PrescriptionOpenChange b => (setIsPrescriptionDialogOpen p b, db)
  | MedicationInput v => (set_prescription p v (prescriptionDosage p) (prescriptionInstructions p), db)
  | DosageInput v => (set_prescription p (prescriptionMedication p) v (prescriptionInstructions p), db)
  | InstructionsInput v => (set_prescription p (prescriptionMedication p) (prescriptionDosage p) v, db)
  | PrescriptionSubmit =>
      if (prescriptionMedication p === "") || (prescriptionDosage p === "") || isPending p MSavePrescription
      then (p, db)
      else mutate p MSavePrescription
             (savePrescription_fn db rep (selectedCall p) (prescriptionMedication p) (prescriptionDosage p)
                                  (prescriptionInstructions p))
  | MedicalRecordOpenChange b => (setIsMedicalRecordDialogOpen p b, db)
  | Settle i =>
      match nth_error (inflight p) i with
      | Some m => (settled off t (set_inflight p (remove_nth i (inflight p))) db m, db)
      | None => (p, db)
      end
  end.

Definition run (off : Z) (s : Page * DB) (es : list (Reply * Event)) : Page * DB :=
  fold_left (fun s re => step off (fst re) s (snd re)) es s.

(** ** What the page shows *)

(** [name.split(" ").map((n) => n[0]).slice(0, 2).join("").toUpperCase()],
    ["??"] for a missing or empty name. *)
Definition getInitials (name : option string) : string :=
  match name with
  | Some n => if n === "" then "??" else to_upper (join_opt (firstn 2 (map first_char (js_split " "%char n))))
  | None => "??"
  end.

(** [s.padStart(2, "0")] *)
Definition padStart2 (s : string) : string :=
  match String.length s with 0 => "00" | 1 => "0" ++ s | _ => s end.

(** [Math.floor] of the elapsed seconds, minutes by [Math.floor] and
    seconds by [%]. *)
Definition getCallDuration (now : Z) (callStartTime : option Z) : string :=
  match callStartTime with
  | None => "00:00"
  | Some st =>
      let diff := ((now - st) / 1000)%Z in
      let mins := (diff / 60)%Z in
      let secs := Z.rem diff 60 in
      padStart2 (js_string_of_Z mins) ++ ":" ++ padStart2 (js_string_of_Z secs)
  end.

Inductive VideoView :=
  | InCall (initials : string) (name : option string) (type : string) (badge : string) (doctor : option string)
  | Ready (start_next : bool).

Definition video_view (off now : Z) (p : Page) : VideoView :=
  match isInCall p, selectedCall p with
  | true, Some c =>
      InCall (getInitials (patient c)) (patient c) (type c) ("Em chamada - " ++ getCallDuration now (callStartTime p))
             (option_map fst (professional c))
  | _, _ => Ready (0 <? jlen (todaysCalls off now p))%Z
  end.

Record ControlsView := mkControls {
  self_video_on : bool; mic_variant : string; video_variant : string; end_disabled : bool
}.

Definition controls_view (p : Page) : ControlsView :=
  mkControls (isVideoOn p) (if isMicOn p then "secondary" else "destructive")
             (if isVideoOn p then "secondary" else "destructive") (negb (isInCall p)).

Record CallItem := mkCallItem {
  ci_initials : string; ci_name : option string; ci_type : string; ci_time : string; ci_day : option string;
  ci_selected : bool
}.

Definition NOON : Z := 43200000.

Definition call_item (off now : Z) (p : Page) (c : Appointment) : CallItem :=
  mkCallItem (getInitials (patient c)) (patient c) (type c) (substring 0 5 (appointment_time c))
    (if is_today off now (appointment_date c) then Some "Hoje"
     else option_map (fun n => format_ddMM (n * MS_PER_DAY + NOON)) (parse_ymd (appointment_date c)))
    (match selectedCall p with Some s => id s === id c | None => false end).

Inductive ListView (A : Type) := LLoading | LEmpty | LItems (items : list A).
Arguments LLoading {A}. Arguments LEmpty {A}. Arguments LItems {A} items.

(** "Próximas Teleconsultas" with the Iniciar and cancel buttons of the
    selected call, and whether the three quick actions are disabled. *)
Definition upcoming_view (off now : Z) (isLoading : bool) (p : Page) : ListView CallItem * bool * bool :=
  (if isLoading then LLoading
   else match upcomingCalls p with [] => LEmpty | l => LItems (map (call_item off now p) (firstn 5 l)) end,
   isSome (selectedCall p) && negb (isInCall p),
   negb (isSome (selectedCall p))).

Record RecentItem := mkRecentItem {
  ri_initials : string; ri_name : option string; ri_date : option string; ri_variant : string; ri_status : string
}.

Definition recent_view (isLoading : bool) (p : Page) : ListView RecentItem :=
  if isLoading then LLoading
  else match recentCalls p with
       | [] => LEmpty
       | l => LItems (map (fun c => mkRecentItem (getInitials (patient c)) (patient c)
                                      (option_map (fun n => format_ddMMyyyy (n * MS_PER_DAY + NOON))
                                                  (parse_ymd (appointment_date c)))
                                      (if status c === "Concluído" then "success-light" else "destructive-light")
                                      (status c)) (firstn 5 l))
       end.

Definition returnTimes : list string := ["08:00"; "09:00"; "10:00"; "11:00"; "14:00"; "15:00"; "16:00"; "17:00"].

(** The return dialog: patient, date, time and its options, notes, and
    whether Agendar is disabled. *)
Definition return_view (p : Page) : option string * string * string * list string * string * bool :=
  (match selectedCall p with Some c => patient c | None => None end, returnDate p, returnTime p, returnTimes,
   returnNotes p, (returnDate p === "") || isPending p MCreateReturn).

Definition prescription_view (p : Page) : option string * string * string * string * bool :=
  (match selectedCall p with Some c => patient c | None => None end, prescriptionMedication p,
   prescriptionDosage p, prescriptionInstructions p,
   (prescriptionMedication p === "") || (prescriptionDosage p === "") || isPending p MSavePrescription).

(** [new Date(entry.entry_date).getTime()]: a date-only text is UTC
    midnight. *)
Definition entry_time (e : MEntry * option string) : Z :=
  match parse_ymd (e_entry_date (fst e)) with Some n => n * MS_PER_DAY | None => 0 end.

Record EntryItem := mkEntryItem {
  ei_type : string; ei_date : option string; ei_description : string; ei_by : option string
}.

(** [format(new Date(entry.entry_date), "dd/MM/yyyy")]: the local date of
    that UTC midnight. *)
Definition entry_item (off : Z) (e : MEntry * option string) : EntryItem :=
  mkEntryItem (e_entry_type (fst e))
    (option_map (fun n => format_ddMMyyyy (n * MS_PER_DAY + off)) (parse_ymd (e_entry_date (fst e))))
    (e_description (fst e)) (option_map (fun n => "Por: " ++ n) (snd e)).

Inductive RecordView :=
  | NoRecord
  | RecordShown (number status variant : string) (diagnosis : option string) (entries : option (list EntryItem)).

Definition record_view (off : Z) (p : Page) : RecordView :=
  match patientMedicalRecord p with
  | None => NoRecord
  | Some (r, es) =>
      RecordShown (r_record_number r) (r_status r) (if r_status r === "ativo" then "success" else "secondary")
        (match r_primary_diagnosis r with Some d => if d === "" then None else Some d | None => None end)
        (match es with [] => None | _ => Some (map (entry_item off) (js_sort (desc_by entry_time) es)) end)
  end.

(** ** Ending a call *)

(** C29: The list of upcoming calls stays clickable during a call, and
    clicking one replaces the selected call: "Encerrar" then marks the
    clicked appointment "Concluído" and leaves every other row, the call
    in progress included, as it was, and the page leaves the call. *)
Theorem end_call_completes_clicked (off : Z) (rep : Reply) (p : Page) (db : DB) (i : nat) (b : Appointment) :
  fault rep = None -> isInCall p = true -> nth_error (firstn 5 (upcomingCalls p)) i = Some b ->
  let s := run off (p, db) [(rep, CallClick i); (rep, EndCallClick)] in
  db_appointments (snd s) = map (set_status (id b) "Concluído") (db_appointments db) /\
  isInCall (fst s) = false /\ selectedCall (fst s) = None.
Proof.
  intros Hf Hin Hb. destruct p. cbn in Hin, Hb. subst. cbn. rewrite Hb. cbn.
  unfold updateStatus_fn. rewrite Hf. cbn. auto.
Qed.

(** ** Dates of the record's entries *)

Lemma div_day_early (n off : Z) : (- MS_PER_DAY <= off < 0)%Z -> ((n * MS_PER_DAY + off) / MS_PER_DAY = n - 1)%Z.
Proof.
  intros H. symmetry. apply Z.div_unique with (off + MS_PER_DAY)%Z; unfold MS_PER_DAY in *; lia.
Qed.

(** C31: West of UTC (an offset between minus one day and zero) the
    record dialog dates every entry one day early: its [date] text is
    read as UTC midnight and shown in local time. *)
Theorem entry_item_day_early (off : Z) (e : MEntry * option string) (n : Z) :
  (- MS_PER_DAY <= off < 0)%Z -> parse_ymd (e_entry_date (fst e)) = Some n ->
  ei_date (entry_item off e) = Some (format_ddMMyyyy ((n - 1) * MS_PER_DAY)).
Proof.
  intros Hoff Hn. unfold entry_item. cbn [ei_date]. rewrite Hn. cbn [option_map]. f_equal.
  unfold format_ddMMyyyy. rewrite div_day_early by exact Hoff. rewrite Z.div_mul by (unfold MS_PER_DAY; lia).
  reflexivity.
Qed.

(** ** The two [getInitials] *)

(** [first_char] of a word that starts with a lead byte, followed by any
    text that does too, keeps its length in characters. *)
Lemma take_chars_join (k : nat) (ws : list string) :
  forallb starts_lead ws = true -> Forall (fun w => w <> EmptyString) (firstn k ws) ->
  take_chars k (join_opt (map first_char ws)) = join_opt (firstn k (map first_char ws)).
Proof.
  revert ws. induction k as [|k IH]; intros ws Hl Hne; [reflexivity|].
  destruct ws as [|w ws]; [reflexivity|]. cbn [forallb] in Hl. apply andb_true_iff in Hl as [Hw Hws].
  cbn [firstn] in Hne. inversion Hne as [|? ? Hw0 Hne']; subst.
  destruct w as [|c w]; [contradiction|]. cbn [map firstn first_char join_opt fold_right].
  rewrite take_chars_first by exact (join_first_chars_lead ws Hws). f_equal. f_equal.
  exact (IH ws Hws Hne').
Qed.

(** C33: The page's [getInitials] (first letters of the first two words)
    and the professionals page's (first two letters of all first
    letters) agree on every non-empty name in UTF-8 whose first two words
    are not empty; a double space before the second word tells them
    apart. *)
Theorem getInitials_agree (n : string) :
  n <> EmptyString -> forallb starts_lead (js_split " "%char n) = true ->
  Forall (fun w => w <> EmptyString) (firstn 2 (js_split " "%char n)) ->
  getInitials (Some n) = Profissionais.getInitials n.
Proof.
  intros Hn Hl Hne. unfold getInitials, Profissionais.getInitials.
  destruct (n === EmptyString) eqn:E; [apply String.eqb_eq in E; contradiction|].
  rewrite take_chars_join by assumption. rewrite firstn_map. reflexivity.
Qed.

(** ** Pending requests settle *)

(** The callbacks start no request. *)
Lemma settled_inflight (off t : Z) (p : Page) (db : DB) (m : Inflight) :
  inflight (settled off t p db m) = inflight p.
Proof. destruct p, m as [[] [e|]]; reflexivity. Qed.

Lemma settle_first (off : Z) (rep : Reply) (p : Page) (db : DB) (m : Inflight) (ms : list Inflight) :
  inflight p = m :: ms -> inflight (fst (step off rep (p, db) (Settle 0))) = ms.
Proof. intros H. cbn [step]. rewrite H. cbn [nth_error fst]. rewrite settled_inflight. reflexivity. Qed.

(** C32: Once the answers of the requests in flight arrive, in the order
    they were sent, no request is pending: every submit button that a
    pending mutation disabled is enabled again, whatever the state. *)
Theorem pending_requests_settle (off : Z) (rep : Reply) (s : Page * DB) :
  let s' := run off s (repeat (rep, Settle 0) (List.length (inflight (fst s)))) in
  inflight (fst s') = [] /\ forall k, isPending (fst s') k = false.
Proof.
  cbv zeta. enough (H : inflight (fst (run off s (repeat (rep, Settle 0) (List.length (inflight (fst s)))))) = [])
    by (split; [exact H | intros k; unfold isPending; rewrite H; reflexivity]).
  destruct s as [p db]. cbn [fst]. remember (inflight p) as l eqn:Hl. revert p db Hl.
  induction l as [|m ms IH]; intros p db Hl; [exact (eq_sym Hl)|].
  cbn [List.length repeat fst]. unfold run. cbn [fold_left fst snd].
  destruct (step off rep (p, db) (Settle 0)) as [p' db'] eqn:E.
  assert (Hp' : inflight p' = ms) by (pose proof (settle_first off rep p db m ms (eq_sym Hl)) as H; rewrite E in H; exact H).
  exact (IH p' db' (eq_sym Hp')).
Qed.

(** ** A prescription for a patient with several records *)

Lemma maybeSingle_many {A : Type} (l : list A) : (2 <= List.length l)%nat -> maybeSingle l = SMany.
Proof. destruct l as [|x [|y l]]; cbn; intros H; [lia | lia | reflexivity]. Qed.

(** C30: The prescription's lookup ignores the error of [maybeSingle]:
    for a patient who already has two or more records, issuing a
    prescription inserts yet another record, and the record dialog,
    whose query fails on several rows, still reports that the patient
    has no record. *)
Theorem prescription_adds_record (db : DB) (r : Reply) (c : Appointment) (med dos instr : string) :
  fault r = None -> record_fault r = None -> (2 <= List.length (records_of db (patient_id c)))%nat ->
  let db' := fst (savePrescription_fn db r (Some c) med dos instr) in
  List.length (records_of db' (patient_id c)) = S (List.length (records_of db (patient_id c))) /\
  query_medical_record db' (patient_id c) = None.
Proof.
  intros Hf Hr H2. unfold savePrescription_fn.
  rewrite (maybeSingle_many (map r_id _)) by (rewrite length_map; exact H2). rewrite Hr, Hf. cbn [fst].
  unfold query_medical_record, records_of. cbn [db_records]. rewrite filter_app. cbn [filter r_patient_id].
  rewrite String.eqb_refl. fold (records_of db (patient_id c)). rewrite length_app. cbn [List.length].
  split; [lia|]. rewrite maybeSingle_many; [reflexivity|]. rewrite length_app. cbn [List.length]. lia.
Qed.

(** ** Samples *)

Definition HOUR : Z := 3600000.
(** São Paulo, UTC-3. *)
Definition BRT : Z := -3 * HOUR.
(** 9 November 2026, and 10:00 that morning in São Paulo. *)
Definition DAY9 : Z := days_from_civil 2026 11 9.
Definition T10 : Z := DAY9 * MS_PER_DAY + 13 * HOUR.

Definition apptA : Appointment :=
  mkAppointment "a1" "p1" "m1" "2026-11-09" "10:00:00" 30 "Teleconsulta" true "Agendado" None None None.
Definition apptB : Appointment :=
  mkAppointment "a2" "p2" "m1" "2026-11-09" "11:00:00" 30 "Teleconsulta" true "Agendado" None None None.
Definition demo_db : DB :=
  mkDB [apptA; apptB] [("p1", "Ana Souza"); ("p2", "Bruno Lima")] [("m1", "Carla Dias", "Cardiologia")] [] [].
Definition ok_rep : Reply := mkReply "n1" "mr1" "PRO-7" 30 "2026-11-09" T10 None None.

(** "Iniciar Próxima Consulta" started Ana's call and its status update
    has been answered. *)
Definition in_call_state : Page * DB :=
  run BRT (initial_page BRT T10 demo_db, demo_db) [(ok_rep, StartNextClick); (ok_rep, Settle 0)].

Lemma end_call_completes_clicked_witness :
  fault ok_rep = None /\ isInCall (fst in_call_state) = true /\
  nth_error (firstn 5 (upcomingCalls (fst in_call_state))) 0 = Some (join demo_db apptB) /\
  let s := run BRT (fst in_call_state, snd in_call_state) [(ok_rep, CallClick 0); (ok_rep, EndCallClick)] in
  db_appointments (snd s) = map (set_status (id (join demo_db apptB)) "Concluído") (db_appointments (snd in_call_state)) /\
  isInCall (fst s) = false /\ selectedCall (fst s) = None.
Proof.
  assert (Hf : fault ok_rep = None) by reflexivity.
  assert (Hin : isInCall (fst in_call_state) = true) by (vm_compute; reflexivity).
  assert (Hb : nth_error (firstn 5 (upcomingCalls (fst in_call_state))) 0 = Some (join demo_db apptB))
    by (vm_compute; reflexivity).
  split; [exact Hf|]. split; [exact Hin|]. split; [exact Hb|].
  exact (end_call_completes_clicked BRT ok_rep (fst in_call_state) (snd in_call_state) 0 _ Hf Hin Hb).
Defined.

(** The whole story: Ana's call stays "Em atendimento" and leaves both
    lists, Bruno's appointment, never started, is "Concluído". *)
Example switch_call_scenario :
  let s := run BRT in_call_state [(ok_rep, CallClick 0); (ok_rep, EndCallClick); (ok_rep, Settle 0)] in
  map status (db_appointments (snd s)) = ["Em atendimento"; "Concluído"] /\
  map id (upcomingCalls (fst s)) = [] /\ map id (recentCalls (fst s)) = ["a2"].
Proof. vm_compute. repeat split. Qed.

Definition sample_entry : MEntry :=
  mkMEntry "e1" "r1" (Some "m1") "Prescrição" "2026-11-09" "Medicamento: Dipirona" (DAY9 * MS_PER_DAY).

Lemma entry_item_day_early_witness :
  (- MS_PER_DAY <= BRT < 0)%Z /\ parse_ymd "2026-11-09" = Some DAY9 /\
  ei_date (entry_item BRT (sample_entry, None)) = Some (format_ddMMyyyy ((DAY9 - 1) * MS_PER_DAY)).
Proof.
  assert (H1 : (- MS_PER_DAY <= BRT < 0)%Z) by (unfold BRT, HOUR, MS_PER_DAY; lia).
  assert (H2 : parse_ymd "2026-11-09" = Some DAY9) by (vm_compute; reflexivity).
  split; [exact H1|]. split; [exact H2|]. exact (entry_item_day_early BRT (sample_entry, None) DAY9 H1 H2).
Defined.

(** The same day in the record dialog and in the lists of calls. *)
Example entry_dates_disagree :
  ei_date (entry_item BRT (sample_entry, None)) = Some "08/11/2026" /\
  ri_date (mkRecentItem "" None (option_map (fun n => format_ddMMyyyy (n * MS_PER_DAY + NOON))
                                              (parse_ymd "2026-11-09")) "" "") = Some "09/11/2026".
Proof. vm_compute. split; reflexivity. Qed.

Lemma getInitials_agree_witness :
  "Ana Maria" <> EmptyString /\ forallb starts_lead (js_split " "%char "Ana Maria") = true /\
  Forall (fun w => w <> EmptyString) (firstn 2 (js_split " "%char "Ana Maria")) /\
  getInitials (Some "Ana Maria") = Profissionais.getInitials "Ana Maria".
Proof.
  assert (H1 : "Ana Maria" <> EmptyString) by discriminate.
  assert (H2 : forallb starts_lead (js_split " "%char "Ana Maria") = true) by reflexivity.
  assert (H3 : Forall (fun w => w <> EmptyString) (firstn 2 (js_split " "%char "Ana Maria")))
    by (cbn; repeat constructor; discriminate).
  split; [exact H1|]. split; [exact H2|]. split; [exact H3|]. exact (getInitials_agree _ H1 H2 H3).
Defined.

(** With two spaces the second word of the split is empty. *)
Example initials_double_space :
  getInitials (Some "Ana  Maria") = "A" /\ Profissionais.getInitials "Ana  Maria" = "AM".
Proof. vm_compute. split; reflexivity. Qed.

Definition two_records_db : DB :=
  mkDB [apptA] [("p1", "Ana Souza")] [("m1", "Carla Dias", "Cardiologia")]
       [mkMRecord "r1" "p1" (Some "m1") "ativo" "PRO-1" None; mkMRecord "r2" "p1" None "ativo" "PRO-2" None] [].

Lemma prescription_adds_record_witness :
  fault ok_rep = None /\ record_fault ok_rep = None /\ (2 <= List.length (records_of two_records_db (patient_id apptA)))%nat /\
  let db' := fst (savePrescription_fn two_records_db ok_rep (Some apptA) "Dipirona" "1 comprimido" "") in
  List.length (records_of db' (patient_id apptA)) = S (List.length (records_of two_records_db (patient_id apptA))) /\
  query_medical_record db' (patient_id apptA) = None.
Proof.
  assert (H1 : fault ok_rep = None) by reflexivity.
  assert (H2 : record_fault ok_rep = None) by reflexivity.
  assert (H3 : (2 <= List.length (records_of two_records_db (patient_id apptA)))%nat) by (vm_compute; lia).
  split; [exact H1|]. split; [exact H2|]. split; [exact H3|]. exact (prescription_adds_record _ _ _ _ _ _ H1 H2 H3).
Defined.

End Telemedicina.
