(* ===== verification/Widgets.v ===== *)
(** * The dashboard widgets and the sidebar

    [RecentPatients] (components/dashboard/RecentPatients.tsx) reads the
    five newest patients once, when it mounts, and shows each with its
    initials, age, status badge and creation time.
    [UpcomingAppointments] (components/dashboard/UpcomingAppointments.tsx)
    reads, once, the first four scheduled appointments from today on.
    [Sidebar] (components/layout/Sidebar.tsx) shows the navigation with a
    badge counting the scheduled appointments from today on, refreshed on
    every change of the [appointments] table.  Both "today"s are
    [new Date().toISOString().split("T")[0]], the UTC date.  The store's
    failures go to [logError] (errorHandler.ts), whose console output is
    modelled there; here a failed request leaves the state as the [catch]
    leaves it. *)

From Stdlib Require Import List ZArith Lia String Ascii Bool.
From S2P Require Import Prelude.
Import ListNotations.
Open Scope js_scope.
Open Scope string_scope.
Open Scope Z_scope.

(** ** Calendar helpers (date-fns) *)

(** Lexicographic comparison of calendar fields. *)
Fixpoint lex (a b : list Z) : comparison :=
  match a, b with
  | x :: xs, y :: ys => match Z.compare x y with Eq => lex xs ys | c => c end
  | _, _ => Eq
  end.

Definition cmp_to_Z (c : comparison) : Z := match c with Lt => -1 | Eq => 0 | Gt => 1 end.

Definition is_leap (y : Z) : bool := ((y mod 4 =? 0) && negb (y mod 100 =? 0)) || (y mod 400 =? 0).

Definition days_in_month (y m : Z) : Z :=
  if m =? 2 then (if is_leap y then 29 else 28)
  else if (m =? 4) || (m =? 6) || (m =? 9) || (m =? 11) then 30 else 31.

(** [parseISO] of a ["yyyy-MM-dd"] text (the form of a [date] column):
    its fields, or [Invalid Date] for a day the month does not have. *)
Definition parseISO_date (s : string) : option (Z * Z * Z) :=
  match digits_value (substring 0 4 s), digits_value (substring 5 2 s), digits_value (substring 8 2 s) with
  | Some y, Some m, Some d =>
      if (String.length s =? 10)%nat && (1 <=? m) && (m <=? 12) && (1 <=? d) && (d <=? days_in_month y m)
      then Some (y, m, d) else None
  | _, _, _ => None
  end.

(** [differenceInYears(left, right)] on the local fields of both dates
    (year, month, day, milliseconds into the day): the sign of the
    comparison times the calendar-year difference, less one when the
    last year is not full, which date-fns decides by moving both dates to
    the leap year 1584.  With a fixed offset the order of two instants is
    the order of their local fields. *)
Definition differenceInYears (ly lm ld lt ry rm rd rt : Z) : Z :=
  let sign := cmp_to_Z (lex [ly; lm; ld; lt] [ry; rm; rd; rt]) in
  let difference := Z.abs (ly - ry) in
  let isLastYearNotFull := cmp_to_Z (lex [lm; ld; lt] [rm; rd; rt]) =? - sign in
  sign * (difference - (if isLastYearNotFull then 1 else 0)).

(** date-fns [format(t, "HH:mm")] of a local time. *)
Definition format_HHmm (t : Z) : string :=
  let s := t mod MS_PER_DAY / 1000 in pad2 (s / 3600) ++ ":" ++ pad2 (s mod 3600 / 60).

Module RecentPatients.

(** [name.split(" ").map((word) => word[0]).slice(0, 2).join("").toUpperCase()] *)
Definition getInitials (name : string) : string :=
  to_upper (join_opt (firstn 2 (map first_char (js_split " "%char name)))).

Record Patient := mkPatient {
  id : string; name : string; birth_date : string; status : string; created_at : Z
}.

Inductive BadgeVariant := SuccessLight | InfoLight | WarningLight | Secondary.

Definition STATUS_VARIANTS : list (string * BadgeVariant) :=
  [("Ativo", SuccessLight); ("Em tratamento", InfoLight); ("Internado", WarningLight)].

Definition CARD_TITLE : string := "Pacientes Recentes".
Definition PATIENTS_LIMIT : nat := 5.

(** [STATUS_VARIANTS[status] || "secondary"] (the statuses are the
    patients' status values, none of them a key of [Object.prototype]). *)
Definition getStatusVariant (s : string) : BadgeVariant :=
  match find (fun kv => fst kv === s) STATUS_VARIANTS with Some (_, v) => v | None => Secondary end.

(** [calculateAge]: [null] for an empty or invalid date, otherwise
    [differenceInYears(new Date(), parseISO(birthDate))], the birth date
    at local midnight. *)
Definition calculateAge (off now : Z) (birthDate : string) : option Z :=
  if birthDate === "" then None
  else match parseISO_date birthDate with
       | Some (y, m, d) =>
           let '(ny, nm, nd) := civil_from_days ((now + off) / MS_PER_DAY) in
           Some (differenceInYears ny nm nd ((now + off) mod MS_PER_DAY) y m d 0)
       | None => None
       end.

(** [formatTime(created_at)]: the local hour and minute of the instant. *)
Definition formatTime (off t : Z) : string := format_HHmm (t + off).

(** [.order("created_at", { ascending: false }).limit(PATIENTS_LIMIT)] *)
Definition query_recent_patients (db : list Patient) : list Patient :=
  firstn PATIENTS_LIMIT (js_sort (desc_by created_at) db).

Record State := mkState { patients : list Patient; loading : bool }.

Definition initial : State := mkState [] true.

(** [fetchRecentPatients]: [data || []] on success; on an error the
    [catch] only logs; [finally] clears [loading]. *)
Definition fetchRecentPatients (st : State) (res : Response (list Patient)) : State :=
  match error res with
  | Some _ => mkState (patients st) false
  | None => mkState (or_nil (data res)) false
  end.

Definition handleViewAll : string := "/pacientes".

Record PatientItem := mkPatientItem {
  pi_initials : string; pi_name : string; pi_age : option string; pi_status : string;
  pi_variant : BadgeVariant; pi_time : string
}.

Definition patient_item (off now : Z) (p : Patient) : PatientItem :=
  mkPatientItem (getInitials (name p)) (name p)
    (option_map (fun a => js_string_of_Z a ++ " anos") (calculateAge off now (birth_date p)))
    (status p) (getStatusVariant (status p)) (formatTime off (created_at p)).

Inductive CardView := LoadingSkeleton (rows : nat) | EmptyState | PatientList (items : list PatientItem).

Definition render (off now : Z) (st : State) : CardView :=
  if loading st then LoadingSkeleton PATIENTS_LIMIT
  else match patients st with [] => EmptyState | ps => PatientList (map (patient_item off now) ps) end.

End RecentPatients.

(** ** The scheduled appointments the two components read *)

Module UpcomingAppointments.

(** An [appointments] row with the joined patient name and professional
    specialty ([patients!appointments_patient_id_fkey(name)],
    [professionals!appointments_professional_id_fkey(specialty)]). *)
Record Row := mkRow {
  row_id : string; row_date : string; row_time : string; row_duration : Z; row_type : string;
  row_is_video : bool; row_status : string; row_patient : option string; row_specialty : option string
}.

Record Appointment := mkAppointment {
  id : string; appointment_date : string; appointment_time : string; duration : Z; type : string;
  is_video : bool; patient : option string; professional : option string
}.

(** [new Date().toISOString().split('T')[0]]: the UTC date. *)
Definition today (now : Z) : string := format_yyyy_MM_dd (now / MS_PER_DAY).

Definition scheduled_from (t : string) (r : Row) : bool :=
  (row_status r === "Agendado") && (0 <=? default_cmp (row_date r) t).

Definition by_date_time (a b : Row) : Z :=
  let c := default_cmp (row_date a) (row_date b) in
  if c =? 0 then default_cmp (row_time a) (row_time b) else c.

Definition select (r : Row) : Appointment :=
  mkAppointment (row_id r) (row_date r) (row_time r) (row_duration r) (row_type r) (row_is_video r)
    (row_patient r) (row_specialty r).

(** [.eq("status", "Agendado").gte("appointment_date", today)], by date
    and time, [.limit(4)]. *)
Definition query (now : Z) (rows : list Row) : list Appointment :=
  map select (firstn 4 (js_sort by_date_time (filter (scheduled_from (today now)) rows))).

Record State := mkState { appointments : list Appointment; loading : bool }.

Definition initial : State := mkState [] true.

Definition fetchUpcomingAppointments (st : State) (res : Response (list Appointment)) : State :=
  match error res with
  | Some _ => mkState (appointments st) false
  | None => mkState (or_nil (data res)) false
  end.

Inductive Icon := VideoIcon | CalendarIcon | MapPinIcon.
Inductive Variant := InfoLight | SuccessLight | PrimaryLight.

Definition getAppointmentIcon (isVideo : bool) (type : string) : Icon :=
  if isVideo then VideoIcon else if type === "Retorno" then CalendarIcon else MapPinIcon.

Definition getAppointmentVariant (isVideo : bool) (type : string) : Variant :=
  if isVideo then InfoLight else if type === "Retorno" then SuccessLight else PrimaryLight.

(** [time.slice(0, 5)]: ["HH:mm"] of ["HH:mm:ss"]. *)
Definition formatTime (time : string) : string := substring 0 5 time.

Record ItemView := mkItemView {
  iv_icon : Icon; iv_variant : Variant; iv_patient : string; iv_type : string; iv_specialty : string;
  iv_time : string; iv_duration : string
}.

Definition or_text (o : option string) (d : string) : string :=
  match o with Some s => if s === "" then d else s | None => d end.

Definition item_view (a : Appointment) : ItemView :=
  mkItemView (getAppointmentIcon (is_video a) (type a)) (getAppointmentVariant (is_video a) (type a))
    (or_text (patient a) "Paciente não encontrado") (if is_video a then "Teleconsulta" else type a)
    (or_text (professional a) "Especialidade não informada") (formatTime (appointment_time a))
    (js_string_of_Z (duration a) ++ " min").

Inductive CardView := Skeletons (rows : nat) | Empty | Items (items : list ItemView).

Definition render (st : State) : CardView :=
  if loading st then Skeletons 4
  else match appointments st with [] => Empty | l => Items (map item_view l) end.

Definition see_agenda : string := "/agendamentos".

End UpcomingAppointments.

Module Sidebar.

Record NavItem := mkNavItem { title : string; href : string; badgeKey : option string }.

Definition NAV_ITEMS : list NavItem :=
  [mkNavItem "Dashboard" "/" None; mkNavItem "Pacientes" "/pacientes" None;
   mkNavItem "Profissionais" "/profissionais" None; mkNavItem "Agendamentos" "/agendamentos" (Some "appointments");
   mkNavItem "Leitos" "/leitos" None; mkNavItem "Prontuários" "/prontuarios" None;
   mkNavItem "Telemedicina" "/telemedicina" None; mkNavItem "Auditoria" "/auditoria" None;
   mkNavItem "Configurações" "/configuracoes" None].

Definition MAX_BADGE_VALUE : Z := 99.
Definition APP_VERSION : string := "v1.0.0".

(** [formatBadgeValue]: nothing for [undefined] or [0], ["99+"] above the
    maximum. *)
Definition formatBadgeValue (count : option Z) : option string :=
  match count with
  | None => None
  | Some n => if n =? 0 then None else if MAX_BADGE_VALUE <? n then Some "99+" else Some (js_string_of_Z n)
  end.

Definition getTodayDateString (now : Z) : string := format_yyyy_MM_dd (now / MS_PER_DAY).

(** [select("*", { count: "exact", head: true }).eq("status", "Agendado")
    .gte("appointment_date", today)]: the number of rows. *)
Definition count_scheduled (now : Z) (rows : list UpcomingAppointments.Row) : Z :=
  jlen (filter (fun r => (UpcomingAppointments.row_status r === "Agendado")
                         && (0 <=? default_cmp (UpcomingAppointments.row_date r) (getTodayDateString now))) rows).

(** The states and the router's path; [badges] holds the one key the
    code writes, ["appointments"]. *)
Record State := mkState { collapsed : bool; mobileOpen : bool; badges : option Z; pathname : string }.

Definition initial (path : string) : State := mkState false false None path.

(** [fetchBadges]: [setBadges({ appointments: count || 0 })]; on an error
    the [catch] only logs. *)
Definition fetchBadges (st : State) (res : Response unit) : State :=
  match error res with
  | Some _ => st
  | None => mkState (collapsed st) (mobileOpen st) (Some ((count res) ||0)) (pathname st)
  end.

Inductive Event :=
  | Mount
  | AppointmentsChange
  | MenuClick
  | OverlayClick
  | NavClick (href : string)
  | CollapseClick.

(** One event with the store's answer to the count it sends: the mount
    and every realtime change of [appointments] refetch the badge; the
    overlay exists only while the mobile menu is open. *)
Definition step (res : Response unit) (st : State) (e : Event) : State :=
  match e with
  | Mount | AppointmentsChange => fetchBadges st res
  | MenuClick => mkState (collapsed st) (negb (mobileOpen st)) (badges st) (pathname st)
  | OverlayClick => if mobileOpen st then mkState (collapsed st) false (badges st) (pathname st) else st
  | NavClick h => mkState (collapsed st) false (badges st) h
  | CollapseClick => mkState (negb (collapsed st)) (mobileOpen st) (badges st) (pathname st)
  end.

Record NavLinkView := mkNavLinkView {
  nl_href : string; nl_title : option string; nl_active : bool; nl_badge : option string
}.

(** [badges[item.badgeKey || ""]]: only the appointments item has a key. *)
Definition nav_view (st : State) : list NavLinkView :=
  map (fun it =>
         let badgeValue := formatBadgeValue (match badgeKey it with
                                             | Some k => if k === "appointments" then badges st else None
                                             | None => None end) in
         mkNavLinkView (href it) (if collapsed st then None else Some (title it)) (pathname st === href it)
                       (if collapsed st then None else badgeValue))
      NAV_ITEMS.

End Sidebar.

(** ** The badge and the widget agree *)

Lemma formatBadgeValue_none (n : Z) : 0 <= n -> Sidebar.formatBadgeValue (Some n) = None <-> n = 0.
Proof.
  intros H. unfold Sidebar.formatBadgeValue. destruct (n =? 0) eqn:E; [apply Z.eqb_eq in E; tauto|].
  apply Z.eqb_neq in E. destruct (_ <? n); split; intros H'; congruence.
Qed.

Lemma query_length (now : Z) (rows : list UpcomingAppointments.Row) :
  jlen (UpcomingAppointments.query now rows) = Z.min 4 (Sidebar.count_scheduled now rows).
Proof.
  unfold UpcomingAppointments.query, Sidebar.count_scheduled, UpcomingAppointments.scheduled_from,
    UpcomingAppointments.today, Sidebar.getTodayDateString, jlen.
  rewrite length_map, length_firstn, js_sort_length. lia.
Qed.

(** C34: With the same store and clock, the dashboard's widget lists the
    first [min 4 n] of the [n] appointments the sidebar's badge counts,
    and it shows its empty state exactly when the badge is hidden: both
    read the scheduled appointments from the UTC date on. *)
Theorem widget_matches_badge (now : Z) (rows : list UpcomingAppointments.Row) (path : string) :
  let w := UpcomingAppointments.fetchUpcomingAppointments UpcomingAppointments.initial
             (mkResponse (Some (UpcomingAppointments.query now rows)) None None) in
  let sb := Sidebar.step (mkResponse None (Some (Sidebar.count_scheduled now rows)) None) (Sidebar.initial path)
              Sidebar.Mount in
  jlen (UpcomingAppointments.appointments w) = Z.min 4 ((Sidebar.badges sb) ||0) /\
  (UpcomingAppointments.render w = UpcomingAppointments.Empty <-> Sidebar.formatBadgeValue (Sidebar.badges sb) = None).
Proof.
  cbn zeta. cbn [UpcomingAppointments.fetchUpcomingAppointments Sidebar.step Sidebar.fetchBadges error count data
                 or_nil or_zero UpcomingAppointments.appointments Sidebar.badges Sidebar.initial].
  pose proof (query_length now rows) as Hlen. split; [exact Hlen|].
  rewrite formatBadgeValue_none by (unfold Sidebar.count_scheduled, jlen; lia).
  unfold UpcomingAppointments.render. cbn [UpcomingAppointments.loading UpcomingAppointments.appointments].
  destruct (UpcomingAppointments.query now rows) as [|a l]; unfold jlen in Hlen; cbn [List.length] in Hlen.
  - split; [intros _; lia | reflexivity].
  - split; [discriminate | intros H0; lia].
Qed.

(** ** "Today" is the UTC date *)

Lemma utc_day_after (off now : Z) :
  - MS_PER_DAY <= off < 0 -> MS_PER_DAY + off <= (now + off) mod MS_PER_DAY ->
  now / MS_PER_DAY = (now + off) / MS_PER_DAY + 1.
Proof.
  intros Hoff Hr. pose proof (Z.mod_pos_bound (now + off) MS_PER_DAY) as Hb.
  pose proof (Z.div_mod (now + off) MS_PER_DAY) as Hd.
  symmetry. apply Z.div_unique with ((now + off) mod MS_PER_DAY - off - MS_PER_DAY); unfold MS_PER_DAY in *; lia.
Qed.

(** C35: West of UTC, once the local time of day reaches the offset's
    distance to midnight (21:00 in São Paulo), the date both components
    send as "today" is the next local day: the widget and the badge drop
    the rest of the day's scheduled appointments. *)
Theorem today_is_next_local_day (off now : Z) :
  - MS_PER_DAY <= off < 0 -> MS_PER_DAY + off <= (now + off) mod MS_PER_DAY ->
  UpcomingAppointments.today now = format_yyyy_MM_dd ((now + off) / MS_PER_DAY + 1) /\
  Sidebar.getTodayDateString now = format_yyyy_MM_dd ((now + off) / MS_PER_DAY + 1).
Proof.
  intros Hoff Hr. unfold UpcomingAppointments.today, Sidebar.getTodayDateString.
  rewrite (utc_day_after off now Hoff Hr). split; reflexivity.
Qed.

(** ** Ages *)

(** The cases of a lexicographic comparison of calendar fields. *)
Ltac lex_cases :=
  repeat match goal with
  | |- context [Z.compare ?a ?b] => destruct (Z.compare_spec a b)
  | H : context [Z.compare ?a ?b] |- _ => destruct (Z.compare_spec a b)
  end.

Lemma lex3_not_gt (a1 a2 a3 b1 b2 b3 : Z) :
  lex [a1; a2; a3] [b1; b2; b3] <> Gt <-> a1 < b1 \/ (a1 = b1 /\ (a2 < b2 \/ (a2 = b2 /\ a3 <= b3))).
Proof. cbn [lex]. lex_cases; split; intros; (lia || congruence || discriminate). Qed.

Lemma lex3_lt (a1 a2 a3 b1 b2 b3 : Z) :
  lex [a1; a2; a3] [b1; b2; b3] = Lt <-> a1 < b1 \/ (a1 = b1 /\ (a2 < b2 \/ (a2 = b2 /\ a3 < b3))).
Proof. cbn [lex]. lex_cases; split; intros; (lia || congruence || discriminate). Qed.

(** [differenceInYears(now, birth)] for a birth at midnight on or before
    today is the number of full years. *)
Lemma differenceInYears_full (ny nm nd t y0 m0 d0 : Z) :
  0 <= t -> lex [y0; m0; d0] [ny; nm; nd] <> Gt ->
  let k := differenceInYears ny nm nd t y0 m0 d0 0 in
  0 <= k /\ lex [y0 + k; m0; d0] [ny; nm; nd] <> Gt /\ lex [ny; nm; nd] [y0 + k + 1; m0; d0] = Lt.
Proof.
  intros Ht Hle. rewrite lex3_not_gt in Hle. cbv zeta. rewrite lex3_not_gt, lex3_lt.
  unfold differenceInYears, cmp_to_Z. cbn [lex]. lex_cases; cbn [Z.eqb Z.opp Pos.eqb]; lia.
Qed.

(** For a valid birth date on or before the local date, the age the
    recent-patients widget shows is the number of full years: the
    birthday of that year has passed and the next one has not, a 29
    February birthday counting from 1 March in other years. *)
Theorem calculateAge_full_years (off now : Z) (b : string) (y0 m0 d0 ny nm nd : Z) :
  parseISO_date b = Some (y0, m0, d0) -> civil_from_days ((now + off) / MS_PER_DAY) = (ny, nm, nd) ->
  lex [y0; m0; d0] [ny; nm; nd] <> Gt ->
  exists k, RecentPatients.calculateAge off now b = Some k /\ 0 <= k /\
            lex [y0 + k; m0; d0] [ny; nm; nd] <> Gt /\ lex [ny; nm; nd] [y0 + k + 1; m0; d0] = Lt.
Proof.
  intros Hp Hc Hle. unfold RecentPatients.calculateAge.
  destruct (b === "") eqn:E; [apply String.eqb_eq in E; subst; discriminate|].
  rewrite Hp, Hc. eexists. split; [reflexivity|].
  apply differenceInYears_full; [apply Z.mod_pos_bound; unfold MS_PER_DAY; lia | exact Hle].
Qed.

(** ** Samples *)

Definition HOUR : Z := 3600000.
Definition BRT : Z := -3 * HOUR.
Definition DAY9 : Z := days_from_civil 2026 11 9.
(** 22:30 on 9 November 2026 in São Paulo. *)
Definition LATE : Z := DAY9 * MS_PER_DAY + 22 * HOUR + HOUR / 2 - BRT.

Definition late_row : UpcomingAppointments.Row :=
  UpcomingAppointments.mkRow "a1" "2026-11-09" "23:00:00" 30 "Consulta" false "Agendado" (Some "Ana Souza") (Some "Cardiologia").
Definition next_row : UpcomingAppointments.Row :=
  UpcomingAppointments.mkRow "a2" "2026-11-10" "08:00:00" 30 "Retorno" false "Agendado" (Some "Bruno Lima") None.

Lemma today_is_next_local_day_witness :
  (- MS_PER_DAY <= BRT < 0) /\ MS_PER_DAY + BRT <= (LATE + BRT) mod MS_PER_DAY /\
  UpcomingAppointments.today LATE = format_yyyy_MM_dd ((LATE + BRT) / MS_PER_DAY + 1) /\
  Sidebar.getTodayDateString LATE = format_yyyy_MM_dd ((LATE + BRT) / MS_PER_DAY + 1).
Proof.
  assert (H1 : - MS_PER_DAY <= BRT < 0) by (unfold BRT, HOUR, MS_PER_DAY; lia).
  assert (H2 : MS_PER_DAY + BRT <= (LATE + BRT) mod MS_PER_DAY) by (vm_compute; discriminate).
  split; [exact H1|]. split; [exact H2|]. exact (today_is_next_local_day BRT LATE H1 H2).
Defined.

(** At 22:30 the 23:00 appointment of the day is neither listed nor
    counted; the next morning's is. *)
Example late_evening_drops_today :
  map UpcomingAppointments.id (UpcomingAppointments.query LATE [late_row; next_row]) = ["a2"] /\
  Sidebar.count_scheduled LATE [late_row; next_row] = 1.
Proof. vm_compute. split; reflexivity. Qed.

Definition NOON9 : Z := DAY9 * MS_PER_DAY + 12 * HOUR - BRT.

Lemma calculateAge_full_years_witness :
  parseISO_date "1990-03-15" = Some (1990, 3, 15) /\
  civil_from_days ((NOON9 + BRT) / MS_PER_DAY) = (2026, 11, 9) /\
  lex [1990; 3; 15] [2026; 11; 9] <> Gt /\
  exists k, RecentPatients.calculateAge BRT NOON9 "1990-03-15" = Some k /\ 0 <= k /\
            lex [1990 + k; 3; 15] [2026; 11; 9] <> Gt /\ lex [2026; 11; 9] [1990 + k + 1; 3; 15] = Lt.
Proof.
  assert (H1 : parseISO_date "1990-03-15" = Some (1990, 3, 15)) by (vm_compute; reflexivity).
  assert (H2 : civil_from_days ((NOON9 + BRT) / MS_PER_DAY) = (2026, 11, 9)) by (vm_compute; reflexivity).
  assert (H3 : lex [1990; 3; 15] [2026; 11; 9] <> Gt) by (vm_compute; discriminate).
  split; [exact H1|]. split; [exact H2|]. split; [exact H3|].
  exact (calculateAge_full_years BRT NOON9 "1990-03-15" 1990 3 15 2026 11 9 H1 H2 H3).
Defined.

(** A 29 February birthday: 25 years on 28 February 2026, 26 on 1 March;
    the 30th of February is not a date. *)
Example leap_day_birthday :
  RecentPatients.calculateAge 0 (days_from_civil 2026 2 28 * MS_PER_DAY) "2000-02-29" = Some 25 /\
  RecentPatients.calculateAge 0 (days_from_civil 2026 3 1 * MS_PER_DAY) "2000-02-29" = Some 26 /\
  RecentPatients.calculateAge 0 (days_from_civil 2026 3 1 * MS_PER_DAY) "2000-02-30" = None.
Proof. vm_compute. repeat split. Qed.
