(* ===== verification/Configuracoes.v ===== *)
(** * The settings page (pages/Configuracoes.tsx)

    The page loads the institution's settings (one row of
    [institution_settings]) and the signed-in user's profile (their row of
    [user_profiles]) into two forms, saves each form with its texts
    trimmed and empty optional texts written as [null], then reloads it;
    it changes the profile photo (an image of at most 2 MB, uploaded to
    the [avatars] bucket, whose public URL is written to the profile) and
    switches the theme.  Each handler runs to completion (its [saving]
    flag is set and cleared within the run); the store's answers,
    including the signed-in user and the upload's, are the reply.  The
    password, two-factor, session and notification controls have no
    handler. *)

From Stdlib Require Import List ZArith Lia String Ascii Bool.
From S2P Require Import Prelude.
Import ListNotations.
Open Scope js_scope.
Open Scope string_scope.

Module Configuracoes.

(** ** [String.prototype.trim] *)

(** The white space [trim] removes, on ASCII: tab, line feed, vertical
    tab, form feed, carriage return and space. *)
Definition is_ws (c : ascii) : bool :=
  let n := nat_of_ascii c in ((9 <=? n)%nat && (n <=? 13)%nat) || (n =? 32)%nat.

Fixpoint drop_ws (l : list ascii) : list ascii :=
  match l with c :: l' => if is_ws c then drop_ws l' else l | [] => [] end.

Definition js_trim (s : string) : string :=
  string_of_list_ascii (rev (drop_ws (rev (drop_ws (list_ascii_of_string s))))).

(** [s.trim() || null] *)
Definition trim_or_null (s : string) : option string :=
  let t := js_trim s in if t === "" then None else Some t.

(** [x || ""] *)
Definition or_empty (o : option string) : string := match o with Some s => s | None => "" end.

(** ** Data *)

Record InstitutionSettings := mkSettings {
  s_id : string; s_name : string; cnpj : string; s_email : option string; s_phone : option string;
  address : option string
}.

Record UserProfile := mkProfile {
  p_id : string; full_name : string; role : string; p_email : option string; p_phone : option string;
  avatar_url : option string
}.

(** The institution form ([name], [cnpj], [email], [phone], [address]) and
    the profile form ([profileFullName], [profileRole], [profileEmail],
    [profilePhone]). *)
Record SettingsForm := mkSettingsForm { f_name : string; f_cnpj : string; f_email : string; f_phone : string; f_address : string }.
Record ProfileForm := mkProfileForm { f_full_name : string; f_role : string; f_p_email : string; f_p_phone : string }.

Definition empty_settings_form : SettingsForm := mkSettingsForm "" "" "" "" "".
Definition empty_profile_form : ProfileForm := mkProfileForm "" "" "" "".

Record File := mkFile { file_name : string; file_type : string; file_size : Z }.

(** ** The store *)

Record DB := mkDB {
  db_settings : list InstitutionSettings;
  db_profiles : list UserProfile;
  db_avatars : list string;
  auth_user : option string
}.

(** What the store answers: the error of each request (the settings
    read, the profile read, a save, the upload, the avatar update), the
    instant, and the bucket's public URL prefix. *)
Record Reply := mkReply {
  settings_fault : option string; profile_fault : option string; save_fault : option string;
  upload_fault : option string; update_fault : option string; now : Z; public_base : string
}.

(** [.select("*").limit(1).maybeSingle()]: the first row. *)
Definition query_settings (db : DB) : option InstitutionSettings := hd_error (db_settings db).

(** [.eq("id", user.id).maybeSingle()] *)
Definition query_profile (db : DB) (uid : string) : option UserProfile :=
  find (fun p => p_id p === uid) (db_profiles db).

Definition settings_form_of (s : InstitutionSettings) : SettingsForm :=
  mkSettingsForm (s_name s) (cnpj s) (or_empty (s_email s)) (or_empty (s_phone s)) (or_empty (address s)).

Definition profile_form_of (p : UserProfile) : ProfileForm :=
  mkProfileForm (full_name p) (role p) (or_empty (p_email p)) (or_empty (p_phone p)).

(** The row [handleSaveSettings] writes over the one with the loaded id. *)
Definition saved_settings (s : InstitutionSettings) (f : SettingsForm) : InstitutionSettings :=
  mkSettings (s_id s) (js_trim (f_name f)) (js_trim (f_cnpj f)) (trim_or_null (f_email f))
             (trim_or_null (f_phone f)) (trim_or_null (f_address f)).

Definition saved_profile (p : UserProfile) (f : ProfileForm) : UserProfile :=
  mkProfile (p_id p) (js_trim (f_full_name f)) (js_trim (f_role f)) (trim_or_null (f_p_email f))
            (trim_or_null (f_p_phone f)) (avatar_url p).

Definition update_settings (db : DB) (i : string) (s : InstitutionSettings) : DB :=
  mkDB (map (fun x => if s_id x === i then s else x) (db_settings db)) (db_profiles db) (db_avatars db) (auth_user db).

Definition update_profile (db : DB) (i : string) (f : UserProfile -> UserProfile) : DB :=
  mkDB (db_settings db) (map (fun x => if p_id x === i then f x else x) (db_profiles db)) (db_avatars db) (auth_user db).

(** ** The page *)

Inductive Toast := ToastSuccess (message : string) | ToastError (message : string).

(** The page's states (the three [saving] flags are set and cleared
    within a handler and not kept), the theme of [useTheme] and the
    uncontrolled [Tabs]' value. *)
Record Page := mkPage {
  tab : string;
  theme : string;
  settings : option InstitutionSettings;
  loading : bool;
  form : SettingsForm;
  profile : option UserProfile;
  profileLoading : bool;
  pform : ProfileForm;
  toasts : list Toast
}.

(** [searchParams.get("tab") || "geral"] *)
Definition initial_page (tabParam : option string) (theme0 : string) : Page :=
  mkPage (match tabParam with Some t => if t === "" then "geral" else t | None => "geral" end) theme0
         None true empty_settings_form None true empty_profile_form [].

Definition set_settings (p : Page) (s : option InstitutionSettings) (l : bool) (f : SettingsForm) : Page :=
  mkPage (tab p) (theme p) s l f (profile p) (profileLoading p) (pform p) (toasts p).
Definition set_profile (p : Page) (pr : option UserProfile) (l : bool) (f : ProfileForm) : Page :=
  mkPage (tab p) (theme p) (settings p) (loading p) (form p) pr l f (toasts p).
Definition set_view (p : Page) (t th : string) : Page :=
  mkPage t th (settings p) (loading p) (form p) (profile p) (profileLoading p) (pform p) (toasts p).
Definition toast (p : Page) (t : Toast) : Page :=
  mkPage (tab p) (theme p) (settings p) (loading p) (form p) (profile p) (profileLoading p) (pform p) (toasts p ++ [t]).

(** [fetchSettings]: a row fills the form; an error is logged and shown;
    [finally] clears [loading]. *)
Definition fetchSettings (p : Page) (db : DB) (r : Reply) : Page :=
  match settings_fault r with
  | Some _ => set_settings (toast p (ToastError "Erro ao carregar configurações")) (settings p) false (form p)
  | None =>
      match query_settings db with
      | Some s => set_settings p (Some s) false (settings_form_of s)
      | None => set_settings p (settings p) false (form p)
      end
  end.

(** [fetchProfile]: without a signed-in user it returns (and [finally]
    clears [profileLoading]). *)
Definition fetchProfile (p : Page) (db : DB) (r : Reply) : Page :=
  match auth_user db with
  | None => set_profile p (profile p) false (pform p)
  | Some uid =>
      match profile_fault r with
      | Some _ => set_profile (toast p (ToastError "Erro ao carregar perfil")) (profile p) false (pform p)
      | None =>
          match query_profile db uid with
          | Some pr => set_profile p (Some pr) false (profile_form_of pr)
          | None => set_profile p (profile p) false (pform p)
          end
      end
  end.

(** [handleSaveSettings]: nothing before the settings are loaded; on
    success the page reloads them. *)
Definition handleSaveSettings (p : Page) (db : DB) (r : Reply) : Page * DB :=
  match settings p with
  | None => (p, db)
  | Some s =>
      match save_fault r with
      | Some _ => (toast p (ToastError "Erro ao salvar configurações"), db)
      | None =>
          let db' := update_settings db (s_id s) (saved_settings s (form p)) in
          (fetchSettings (toast p (ToastSuccess "Configurações salvas com sucesso!")) db' r, db')
      end
  end.

Definition handleSaveProfile (p : Page) (db : DB) (r : Reply) : Page * DB :=
  match profile p with
  | None => (p, db)
  | Some pr =>
      match save_fault r with
      | Some _ => (toast p (ToastError "Erro ao salvar perfil"), db)
      | None =>
          let db' := update_profile db (p_id pr) (fun x => saved_profile x (pform p)) in
          (fetchProfile (toast p (ToastSuccess "Perfil salvo com sucesso!")) db' r, db')
      end
  end.

Definition MAX_PHOTO_SIZE : Z := 2 * 1024 * 1024.

Definition with_avatar (u : string) (x : UserProfile) : UserProfile :=
  mkProfile (p_id x) (full_name x) (role x) (p_email x) (p_phone x) (Some u).

(** [handlePhotoChange]: the type and size guards, then the upload to
    [<user id>/<profile id>-<Date.now()>.<extension>] and the update of
    [avatar_url]; a failed update leaves the uploaded file. *)
Definition handlePhotoChange (p : Page) (db : DB) (r : Reply) (file : option File) : Page * DB :=
  match file, profile p with
  | Some f, Some pr =>
      if negb (String.prefix "image/" (file_type f)) then (toast p (ToastError "Por favor, selecione uma imagem válida"), db)
      else if (MAX_PHOTO_SIZE <? file_size f)%Z then (toast p (ToastError "A imagem deve ter no máximo 2MB"), db)
      else match auth_user db with
           | None => (toast p (ToastError "Usuário não autenticado"), db)
           | Some uid =>
               let fileExt := last (js_split "."%char (file_name f)) "" in
               let fileName := uid ++ "/" ++ p_id pr ++ "-" ++ js_string_of_Z (now r) ++ "." ++ fileExt in
               match upload_fault r with
               | Some _ => (toast p (ToastError "Erro ao fazer upload da foto"), db)
               | None =>
                   let db1 := mkDB (db_settings db) (db_profiles db)
                                (if existsb (fun a => a === fileName) (db_avatars db) then db_avatars db
                                 else db_avatars db ++ [fileName]) (auth_user db) in
                   let publicUrl := public_base r ++ fileName in
                   match update_fault r with
                   | Some _ => (toast p (ToastError "Erro ao fazer upload da foto"), db1)
                   | None =>
                       (toast (set_profile p (Some (with_avatar publicUrl pr)) (profileLoading p) (pform p))
                              (ToastSuccess "Foto atualizada com sucesso!"),
                        update_profile db1 (p_id pr) (with_avatar publicUrl))
                   end
               end
           end
  | _, _ => (p, db)
  end.

(** ** What the user does *)

Inductive Event :=
  | Mount
  | TabChange (t : string)
  | NameInput (v : string)
  | CnpjInput (v : string)
  | EmailInput (v : string)
  | PhoneInput (v : string)
  | AddressInput (v : string)
  | SaveSettingsClick
  | DarkModeChange (checked : bool)
  | FullNameInput (v : string)
  | RoleInput (v : string)
  | ProfileEmailInput (v : string)
  | ProfilePhoneInput (v : string)
  | SaveProfileClick
  | PhotoChange (file : option File).

(** One event with the store's reply.  The mount effect runs
    [fetchSettings] and [fetchProfile]; the two forms, their buttons and
    the photo input are rendered only once their data has loaded. *)
Definition step (rep : Reply) (s : Page * DB) (e : Event) : Page * DB :=
  let (p, db) := s in
  let f := form p in
  let g := pform p in
  let sf (f' : SettingsForm) := if loading p then (p, db) else (set_settings p (settings p) (loading p) f', db) in
  let pf (g' : ProfileForm) := if profileLoading p then (p, db) else (set_profile p (profile p) (profileLoading p) g', db) in
  match e with
  | Mount => (fetchProfile (fetchSettings p db rep) db rep, db)
  | TabChange t => (set_view p t (theme p), db)
  | NameInput v => sf (mkSettingsForm v (f_cnpj f) (f_email f) (f_phone f) (f_address f))
  | CnpjInput v => sf (mkSettingsForm (f_name f) v (f_email f) (f_phone f) (f_address f))
  | EmailInput v => sf (mkSettingsForm (f_name f) (f_cnpj f) v (f_phone f) (f_address f))
  | PhoneInput v => sf (mkSettingsForm (f_name f) (f_cnpj f) (f_email f) v (f_address f))
  | AddressInput v => sf (mkSettingsForm (f_name f) (f_cnpj f) (f_email f) (f_phone f) v)
  | SaveSettingsClick => if loading p then (p, db) else handleSaveSettings p db rep
  | DarkModeChange c => (set_view p (tab p) (if c then "dark" else "light"), db)
  | FullNameInput v => pf (mkProfileForm v (f_role g) (f_p_email g) (f_p_phone g))
  | RoleInput v => pf (mkProfileForm (f_full_name g) v (f_p_email g) (f_p_phone g))
  | ProfileEmailInput v => pf (mkProfileForm (f_full_name g) (f_role g) v (f_p_phone g))
  | ProfilePhoneInput v => pf (mkProfileForm (f_full_name g) (f_role g) (f_p_email g) v)
  | SaveProfileClick => if profileLoading p then (p, db) else handleSaveProfile p db rep
  | PhotoChange file => if profileLoading p then (p, db) else handlePhotoChange p db rep file
  end.

Definition run (s : Page * DB) (es : list (Reply * Event)) : Page * DB :=
  fold_left (fun s re => step (fst re) s (snd re)) es s.

(** ** What the page shows *)

Inductive FormView (A : Type) := Spinner | Fields (values : A).
Arguments Spinner {A}. Arguments Fields {A} values.

Definition DEFAULT_AVATAR : string := "/src/assets/default-avatar.png".

(** The institution card, the dark-mode switch, and the profile card with
    its photo ([profile?.avatar_url || defaultAvatar]). *)
Definition settings_view (p : Page) : FormView SettingsForm * bool :=
  (if loading p then Spinner else Fields (form p), theme p === "dark").

Definition profile_view (p : Page) : FormView (string * ProfileForm) :=
  if profileLoading p then Spinner
  else Fields (match profile p with
               | Some pr => match avatar_url pr with Some u => if u === "" then DEFAULT_AVATAR else u
                                                   | None => DEFAULT_AVATAR end
               | None => DEFAULT_AVATAR
               end, pform p).

(** The system tab's fixed figures. *)
Definition system_info : list (string * string) :=
  [("Versão", "1.0.0"); ("Última Atualização", "20/01/2025"); ("Status", "Online"); ("Uptime", "99.9%")].

(** ** Saving what was loaded *)

(** An optional text the form gives back as it was read: [null], or a
    non-empty text without surrounding white space. *)
Definition opt_ok (o : option string) : Prop :=
  match o with Some s => s <> "" /\ js_trim s = s | None => True end.

Lemma trim_or_null_or_empty (o : option string) : opt_ok o -> trim_or_null (or_empty o) = o.
Proof.
  destruct o as [s|]; [|reflexivity]. intros [Hne Ht]. unfold trim_or_null, or_empty. rewrite Ht.
  destruct (s === "") eqn:E; [apply String.eqb_eq in E; contradiction | reflexivity].
Qed.

Lemma fetchProfile_keeps (p : Page) (db : DB) (r : Reply) :
  settings (fetchProfile p db r) = settings p /\ loading (fetchProfile p db r) = loading p /\
  form (fetchProfile p db r) = form p.
Proof.
  unfold fetchProfile. destruct (auth_user db) as [u|]; [destruct (profile_fault r); [|destruct (query_profile db u)]|];
  destruct p; auto.
Qed.

Lemma update_settings_same (db : DB) (r : InstitutionSettings) (rest : list InstitutionSettings) :
  db_settings db = r :: rest -> Forall (fun x => s_id x <> s_id r) rest -> update_settings db (s_id r) r = db.
Proof.
  intros Hdb Hrest. destruct db as [ss ps av au]. cbn in Hdb. subst ss. unfold update_settings. cbn.
  rewrite String.eqb_refl. f_equal. f_equal. rewrite <- map_id. apply map_ext_in. intros x Hx.
  rewrite Forall_forall in Hrest. destruct (s_id x === s_id r) eqn:E; [|reflexivity].
  apply String.eqb_eq in E. exfalso. exact (Hrest x Hx E).
Qed.

(** Loading the settings and saving them without an edit writes the
    institution's row back unchanged and refills the form with it, when
    its texts have no surrounding white space and its optional texts are
    [null] or not empty (an empty e-mail, phone or address is written
    back as [null]). *)
Theorem settings_save_roundtrip (rep : Reply) (db : DB) (r : InstitutionSettings) (rest : list InstitutionSettings)
    (p0 : Page) :
  settings_fault rep = None -> save_fault rep = None ->
  db_settings db = r :: rest -> Forall (fun x => s_id x <> s_id r) rest ->
  js_trim (s_name r) = s_name r -> js_trim (cnpj r) = cnpj r ->
  opt_ok (s_email r) -> opt_ok (s_phone r) -> opt_ok (address r) ->
  let s := run (p0, db) [(rep, Mount); (rep, SaveSettingsClick)] in
  snd s = db /\ form (fst s) = settings_form_of r.
Proof.
  intros Hf Hs Hdb Hrest Hn Hc He Hp Ha. unfold run. cbn [fold_left fst snd step].
  assert (E1 : fetchSettings p0 db rep = set_settings p0 (Some r) false (settings_form_of r))
    by (unfold fetchSettings, query_settings; rewrite Hf, Hdb; reflexivity).
  rewrite E1. set (p1 := set_settings p0 (Some r) false (settings_form_of r)).
  destruct (fetchProfile_keeps p1 db rep) as (Hset & Hload & Hform).
  change (settings p1) with (Some r) in Hset. change (loading p1) with false in Hload.
  change (form p1) with (settings_form_of r) in Hform.
  rewrite Hload. unfold handleSaveSettings. rewrite Hset, Hs, Hform.
  assert (Hsaved : saved_settings r (settings_form_of r) = r).
  { destruct r. cbn in *. unfold saved_settings, settings_form_of. cbn.
    rewrite Hn, Hc, !trim_or_null_or_empty by assumption. reflexivity. }
  rewrite Hsaved, (update_settings_same db r rest Hdb Hrest). cbn [fst snd]. split; [reflexivity|].
  unfold fetchSettings, query_settings. rewrite Hf, Hdb. reflexivity.
Qed.

(** A file that is not an image, or is larger than 2 MB, reaches neither
    the bucket nor the profile. *)
Lemma photo_guards (p : Page) (db : DB) (r : Reply) (f : File) :
  (String.prefix "image/" (file_type f) = false \/ (MAX_PHOTO_SIZE < file_size f)%Z) ->
  snd (handlePhotoChange p db r (Some f)) = db /\ profile (fst (handlePhotoChange p db r (Some f))) = profile p.
Proof.
  intros H. unfold handlePhotoChange. destruct (profile p) as [pr|] eqn:Ep; [|split; [reflexivity | exact Ep]].
  destruct (String.prefix "image/" (file_type f)) eqn:Ei; cbn [negb].
  - destruct H as [H|H]; [discriminate H|]. apply Z.ltb_lt in H. rewrite H. destruct p; split; [reflexivity | exact Ep].
  - destruct p; split; [reflexivity | exact Ep].
Qed.

(** ** Samples *)

Definition hc : InstitutionSettings :=
  mkSettings "s1" "Hospital Central" "12.345.678/0001-90" (Some "contato@hc.br") None (Some "Rua A, 100").
Definition settings_db : DB := mkDB [hc] [] [] (Some "u1").
Definition ok_reply : Reply := mkReply None None None None None 0 "https://store/avatars/".

Lemma settings_save_roundtrip_witness :
  settings_fault ok_reply = None /\ save_fault ok_reply = None /\ db_settings settings_db = hc :: [] /\
  Forall (fun x => s_id x <> s_id hc) [] /\ js_trim (s_name hc) = s_name hc /\ js_trim (cnpj hc) = cnpj hc /\
  opt_ok (s_email hc) /\ opt_ok (s_phone hc) /\ opt_ok (address hc) /\
  let s := run (initial_page None "light", settings_db) [(ok_reply, Mount); (ok_reply, SaveSettingsClick)] in
  snd s = settings_db /\ form (fst s) = settings_form_of hc.
Proof.
  assert (H1 : settings_fault ok_reply = None) by reflexivity.
  assert (H2 : save_fault ok_reply = None) by reflexivity.
  assert (H3 : db_settings settings_db = hc :: []) by reflexivity.
  assert (H4 : Forall (fun x => s_id x <> s_id hc) []) by constructor.
  assert (H5 : js_trim (s_name hc) = s_name hc) by (vm_compute; reflexivity).
  assert (H6 : js_trim (cnpj hc) = cnpj hc) by (vm_compute; reflexivity).
  assert (H7 : opt_ok (s_email hc)) by (split; [discriminate | vm_compute; reflexivity]).
  assert (H8 : opt_ok (s_phone hc)) by exact I.
  assert (H9 : opt_ok (address hc)) by (split; [discriminate | vm_compute; reflexivity]).
  do 9 (split; [assumption|]).
  exact (settings_save_roundtrip ok_reply settings_db hc [] (initial_page None "light") H1 H2 H3 H4 H5 H6 H7 H8 H9).
Defined.

(** An empty e-mail is written back as [null], and a name typed with
    surrounding spaces is saved trimmed. *)
Example save_normalises :
  let db := mkDB [mkSettings "s1" "HC" "1" (Some "") None None] [] [] None in
  let s := run (initial_page None "light", db) [(ok_reply, Mount); (ok_reply, NameInput "  HC Norte "); (ok_reply, SaveSettingsClick)] in
  db_settings (snd s) = [mkSettings "s1" "HC Norte" "1" None None None].
Proof. vm_compute. reflexivity. Qed.

End Configuracoes.

(** ** The tabs' uncontrolled controls *)

(** The "Notificações", "Segurança" and "Sistema" tabs hold controls
    with no handler: five notification switches, the two-factor and
    backup switches ([<Switch defaultChecked />] or [<Switch />]) and the
    three password fields ([<Input type="password" />]).  Their state is
    the components' own, and a [TabsContent] that is not selected is
    unmounted, so that state starts again from the defaults each time its
    tab is shown.  The screen is the page, the store and that state. *)
Module ConfiguracoesTabs.

Import Configuracoes.

Record TabLocal := mkLocal {
  email_notif : bool; push_notif : bool; emergency_alerts : bool; reminders : bool; weekly_reports : bool;
  senha_atual : string; nova_senha : string; confirmar_senha : string;
  two_factor : bool; backup : bool
}.

(** [defaultChecked] on every notification switch but "Relatórios
    Semanais", none on "Ativar 2FA", [defaultChecked] on "Backup
    Automático". *)
Definition defaults : TabLocal := mkLocal true true true true false "" "" "" false true.

Inductive Control :=
  | NotifSwitch (k : nat)                   (* the k-th switch of "Preferências de Notificação" *)
  | PasswordField (k : nat) (v : string)    (* "Senha Atual", "Nova Senha", "Confirmar Nova Senha" *)
  | AlterarSenhaClick
  | TwoFactorSwitch
  | VerSessoesClick
  | BackupSwitch.

(** A control acts only while its tab is shown; the buttons have no
    [onClick]. *)
Definition local_step (tab : string) (l : TabLocal) (c : Control) : TabLocal :=
  let '(mkLocal e pu em r w sa ns cs tf b) := l in
  match c with
  | NotifSwitch k =>
      if tab === "notificacoes" then
        match k with
        | 0 => mkLocal (negb e) pu em r w sa ns cs tf b
        | 1 => mkLocal e (negb pu) em r w sa ns cs tf b
        | 2 => mkLocal e pu (negb em) r w sa ns cs tf b
        | 3 => mkLocal e pu em (negb r) w sa ns cs tf b
        | 4 => mkLocal e pu em r (negb w) sa ns cs tf b
        | _ => l
        end
      else l
  | PasswordField k v =>
      if tab === "seguranca" then
        match k with
        | 0 => mkLocal e pu em r w v ns cs tf b
        | 1 => mkLocal e pu em r w sa v cs tf b
        | 2 => mkLocal e pu em r w sa ns v tf b
        | _ => l
        end
      else l
  | TwoFactorSwitch => if tab === "seguranca" then mkLocal e pu em r w sa ns cs (negb tf) b else l
  | BackupSwitch => if tab === "sistema" then mkLocal e pu em r w sa ns cs tf (negb b) else l
  | AlterarSenhaClick | VerSessoesClick => l
  end.

Inductive ScreenEvent := PageEvent (rep : Reply) (e : Event) | ControlEvent (c : Control).

(** A page event that selects another tab unmounts the old content, and
    the new one mounts with the defaults. *)
Definition screen_step (s : Page * DB * TabLocal) (ev : ScreenEvent) : Page * DB * TabLocal :=
  let '(p, db, l) := s in
  match ev with
  | PageEvent rep e =>
      let '(p', db') := step rep (p, db) e in
      (p', db', if tab p' === tab p then l else defaults)
  | ControlEvent c => (p, db, local_step (tab p) l c)
  end.

Definition screen_run (s : Page * DB * TabLocal) (evs : list ScreenEvent) : Page * DB * TabLocal :=
  fold_left screen_step evs s.

(** The page events of a screen run, in order. *)
Fixpoint page_events (evs : list ScreenEvent) : list (Reply * Event) :=
  match evs with
  | [] => []
  | PageEvent rep e :: evs' => (rep, e) :: page_events evs'
  | ControlEvent _ :: evs' => page_events evs'
  end.

(** The controls of the three tabs change nothing of the page and
    nothing of the store: whatever is switched or typed there, the page
    and the store after a run are those of the page events alone.  No
    notification preference, password or backup choice is ever saved. *)
Theorem controls_noninterference (s : Page * DB * TabLocal) (evs : list ScreenEvent) :
  fst (screen_run s evs) = run (fst s) (page_events evs).
Proof.
  unfold screen_run, run. revert s. induction evs as [|[rep e|c] evs IH]; intros [[p db] l]; [reflexivity|..].
  - cbn [fold_left page_events]. cbn [screen_step]. destruct (step rep (p, db) e) as [p' db'] eqn:E.
    rewrite IH. cbn [fst snd fold_left]. rewrite E. reflexivity.
  - cbn [fold_left page_events screen_step]. rewrite IH. reflexivity.
Qed.

(** Leaving a tab and coming back resets its controls: after a page
    event that changes the tab, the controls are the defaults, whatever
    they were. *)
Lemma tab_change_resets (p : Page) (db : DB) (l : TabLocal) (rep : Reply) (t : string) :
  t <> tab p -> snd (screen_step (p, db, l) (PageEvent rep (TabChange t))) = defaults.
Proof.
  intros Ht. cbn [screen_step step]. cbn [fst snd]. unfold set_view. cbn [tab].
  destruct (String.eqb_spec t (tab p)) as [E|E]; [contradiction|reflexivity].
Qed.

(** "Notificações por E-mail" switched off, then "Geral" and back to
    "Notificações": the switch is on again. *)
Example email_switch_forgotten :
  let s0 := (initial_page (Some "notificacoes") "light", mkDB [] [] [] None, defaults) in
  let s1 := screen_run s0 [ControlEvent (NotifSwitch 0)] in
  let s2 := screen_run s1 [PageEvent ok_reply (TabChange "geral"); PageEvent ok_reply (TabChange "notificacoes")] in
  email_notif (snd s1) = false /\ email_notif (snd s2) = true.
Proof. vm_compute. split; reflexivity. Qed.

End ConfiguracoesTabs.
