(* ===== verification/Ajuda.v ===== *)
(** * The help page (pages/Ajuda.tsx)

    The page is data and one piece of state: the questions of [faqs] in a
    single, collapsible [Accordion] whose items have the values
    [item-0], [item-1], ...; four quick links that set
    [window.location.href]; a support card and three resource buttons
    with no handler.  The accordion keeps one value, the empty string
    when every item is closed, as the uncontrolled Radix accordion of
    type "single" does: a trigger opens its item, or closes it when it is
    the open one.  The theorems show that a click on a trigger opens that
    answer and closes every other one, or closes it. *)

From Stdlib Require Import List ZArith Lia String Bool.
From S2P Require Import Prelude.
Import ListNotations.
Open Scope js_scope.
Open Scope string_scope.

Module Ajuda.

Record Faq := mkFaq { question : string; answer : string }.

Definition faqs : list Faq := [
  mkFaq "Como cadastrar um novo paciente?"
    "Para cadastrar um novo paciente, acesse o menu 'Pacientes' no painel lateral e clique no botão 'Novo Paciente'. Preencha os dados obrigatórios como nome, CPF e data de nascimento, e clique em 'Salvar'.";
  mkFaq "Como agendar uma consulta?"
    "Vá até o menu 'Agendamentos' e clique em 'Novo Agendamento'. Selecione o paciente, o profissional de saúde, a data e horário desejados. Você também pode definir se será uma consulta presencial ou por telemedicina.";
  mkFaq "Como acessar o prontuário de um paciente?"
    "Acesse o menu 'Prontuários' e utilize a barra de pesquisa para encontrar o paciente desejado. Clique no prontuário para visualizar todo o histórico médico, incluindo consultas anteriores, exames e prescrições.";
  mkFaq "Como gerenciar a ocupação de leitos?"
    "No menu 'Leitos', você pode visualizar a ocupação atual de todos os leitos por departamento. Para internar um paciente, clique no leito disponível e selecione 'Nova Internação'. Para dar alta, acesse a internação ativa e clique em 'Registrar Alta'.";
  mkFaq "Como alterar minha senha?"
    "Acesse 'Configurações' através do menu do seu perfil no canto superior direito. Na aba 'Segurança', você encontrará a opção para alterar sua senha. Digite sua senha atual e a nova senha desejada.";
  mkFaq "Como exportar relatórios?"
    "Na maioria das telas do sistema, você encontrará um botão 'Exportar' que permite baixar os dados em formato Excel ou PDF. Utilize os filtros disponíveis para personalizar as informações do relatório.";
  mkFaq "Como funciona o sistema de notificações?"
    "O sistema envia notificações automaticamente para alertar sobre consultas próximas, novas internações e pacientes cadastrados recentemente. Você pode personalizar suas preferências de notificação em Configurações > Notificações.";
  mkFaq "Como utilizar a telemedicina?"
    "Para realizar uma consulta por telemedicina, acesse o menu 'Telemedicina'. Você verá as consultas agendadas para o dia. Clique em 'Iniciar Consulta' quando estiver pronto para iniciar a videochamada com o paciente."
].

Inductive Icon := Users | Calendar | ClipboardList | Bed.

Record QuickLink := mkLink { icon : Icon; label : string; path : string }.

Definition quickLinks : list QuickLink :=
  [mkLink Users "Gerenciar Pacientes" "/pacientes"; mkLink Calendar "Agendamentos" "/agendamentos";
   mkLink ClipboardList "Prontuários" "/prontuarios"; mkLink Bed "Gestão de Leitos" "/leitos"].

(** [value={`item-${index}`}] *)
Definition item_value (index : nat) : string := "item-" ++ js_string_of_Z (Z.of_nat index).

(** The accordion's value ([""] when every item is closed) and the
    address a quick link assigned to [window.location.href]. *)
Record Page := mkPage { value : string; location_href : option string }.

Definition initial : Page := mkPage "" None.

Inductive Event :=
  | TriggerClick (index : nat)   (* the [AccordionTrigger] of item [index] *)
  | QuickLinkClick (path : string).

(** [onItemOpen] sets the value; [onItemClose] clears it, the accordion
    being [collapsible].  A trigger exists only for an index of [faqs]. *)
Definition step (p : Page) (e : Event) : Page :=
  match e with
  | TriggerClick index =>
      if (index <? List.length faqs)%nat then
        let v := item_value index in
        if value p === v then mkPage "" (location_href p) else mkPage v (location_href p)
      else p
  | QuickLinkClick path => mkPage (value p) (Some path)
  end.

(** An item is open when the value is not empty and is its own. *)
Definition item_open (p : Page) (index : nat) : bool :=
  negb (value p === "") && (value p === item_value index).

Record ItemView := mkItemView { iv_value : string; iv_question : string; iv_answer : option string }.

Definition no_faq : Faq := mkFaq "" "".

(** [faqs.map((faq, index) => <AccordionItem ...>)]: the content is
    rendered only for the open item. *)
Definition faq_view (p : Page) : list ItemView :=
  map (fun index => let faq := nth index faqs no_faq in
                    mkItemView (item_value index) (question faq)
                               (if item_open p index then Some (answer faq) else None))
      (seq 0 (List.length faqs)).

(** The whole page: the quick links' labels and targets, the questions,
    the support contacts and the buttons, none of which has a handler. *)
Record HelpView := mkHelpView {
  links : list (string * string);
  items : list ItemView;
  contacts : list (string * string);
  inert_buttons : list string
}.

Definition render (p : Page) : HelpView :=
  mkHelpView (map (fun l => (label l, path l)) quickLinks) (faq_view p)
             [("E-mail", "suporte@hospital.com.br"); ("Telefone", "(11) 3000-0000")]
             ["Abrir Chamado"; "Manual do Usuário"; "Tutoriais em Vídeo"; "Novidades da Versão"].

(** ** Item values *)

Lemma item_value_inj (i j : nat) : item_value i = item_value j -> i = j.
Proof.
  unfold item_value. intros E. apply append_cancel_l in E.
  apply js_string_of_Z_inj in E. lia.
Qed.

Lemma item_value_nonempty (i : nat) : (item_value i === "") = false.
Proof. reflexivity. Qed.

Lemma item_open_eq (p : Page) (j : nat) : item_open p j = (value p === item_value j).
Proof.
  unfold item_open. destruct (String.eqb_spec (value p) "") as [->|]; [|reflexivity].
  rewrite String.eqb_sym, item_value_nonempty. reflexivity.
Qed.

(** ** A trigger toggles its own answer and closes the others *)

Lemma trigger_toggles (p : Page) (i j : nat) :
  (i < List.length faqs)%nat ->
  item_open (step p (TriggerClick i)) j = Nat.eqb i j && negb (item_open p i).
Proof.
  intros Hi. cbn [step]. replace (i <? List.length faqs)%nat with true by (symmetry; apply Nat.ltb_lt, Hi).
  rewrite !item_open_eq. destruct (String.eqb_spec (value p) (item_value i)) as [E|E]; cbn [value].
  - rewrite andb_false_r. reflexivity.
  - rewrite andb_true_r. destruct (Nat.eqb_spec i j) as [->|Hij]; [apply String.eqb_refl|].
    apply String.eqb_neq. intros H. apply Hij, item_value_inj, H.
Qed.

Lemma faq_view_nth (p : Page) (j : nat) :
  (j < List.length faqs)%nat ->
  nth_error (faq_view p) j =
  Some (mkItemView (item_value j) (question (nth j faqs no_faq))
                   (if item_open p j then Some (answer (nth j faqs no_faq)) else None)).
Proof.
  intros Hj. unfold faq_view. rewrite nth_error_map.
  rewrite (nth_error_nth' _ 0) by (rewrite length_seq; exact Hj). rewrite seq_nth by exact Hj. reflexivity.
Qed.

(** At most one answer is on screen, whatever was clicked. *)
Lemma at_most_one_open (p : Page) (i j : nat) : item_open p i = true -> item_open p j = true -> i = j.
Proof.
  rewrite !item_open_eq. intros Hi Hj. apply String.eqb_eq in Hi, Hj. apply item_value_inj. congruence.
Qed.

(** A click on the trigger of question [i] changes the accordion so that
    question [j] shows its own answer exactly when [j] is [i] and that
    answer was hidden: the open answer closes, a closed one opens and
    closes any other; the questions and values stay. *)
Theorem trigger_view (p : Page) (i j : nat) :
  (i < List.length faqs)%nat -> (j < List.length faqs)%nat ->
  nth_error (faq_view (step p (TriggerClick i))) j =
  Some (mkItemView (item_value j) (question (nth j faqs no_faq))
                   (if Nat.eqb i j && negb (item_open p i) then Some (answer (nth j faqs no_faq)) else None)).
Proof. intros Hi Hj. rewrite faq_view_nth, trigger_toggles by assumption. reflexivity. Qed.

Lemma trigger_view_witness :
  (5 < List.length faqs)%nat /\ (5 < List.length faqs)%nat /\
  nth_error (faq_view (step initial (TriggerClick 5))) 5 =
  Some (mkItemView (item_value 5) (question (nth 5 faqs no_faq))
                   (if Nat.eqb 5 5 && negb (item_open initial 5) then Some (answer (nth 5 faqs no_faq)) else None)).
Proof.
  assert (H : (5 < List.length faqs)%nat) by (simpl; lia).
  split; [exact H|]. split; [exact H|]. apply (trigger_view initial 5 5 H H).
Defined.

(** Two clicks on the same trigger close what the first one opened. *)
Example double_click_closes :
  faq_view (step (step initial (TriggerClick 3)) (TriggerClick 3)) = faq_view initial.
Proof. vm_compute. reflexivity. Qed.

End Ajuda.
