(* ===== verification/Layout.v ===== *)
(** * The layout: header, sidebar and page frame

    [MainLayout] (components/layout/MainLayout.tsx) places the [Sidebar],
    the [Header] with the page's title and the page itself.  [Header.v]
    models the header's notification feed and search box; this file
    models the rest of [Header] (components/layout/Header.tsx): the
    profile read at mount, the logout, the title, the bell's dropdown
    with its refresh, and the account menu; and the rest of [Sidebar]
    (components/layout/Sidebar.tsx): the logo, the status indicator, the
    collapse and mobile buttons, the overlay and the aside's width.  The
    identity service and the record store are inputs: what [getUser],
    [signOut] and the [user_profiles] query answer.  [IndexPage] puts
    the dashboard (pages/Index.tsx) together: the frame, the four
    statistics cards, the quick actions and the three widgets. *)

From Stdlib Require Import List ZArith Lia String Bool.
From S2P Require Import Prelude Header Widgets Occupancy Dashboard QuickActions.
Import ListNotations.
Open Scope js_scope.
Open Scope string_scope.

Module HeaderShell.

(** The columns [fetchProfile] selects, and a [user_profiles] row. *)
Record Profile := mkProfile { full_name : string; role : string; avatar_url : option string }.

Record ProfileRow := mkProfileRow { row_id : string; row_profile : Profile }.

(** A [sonner] toast: success or error, with its text. *)
Inductive Toast := ToastSuccess (message : string) | ToastError (message : string).

Record State := mkState {
  search : GlobalSearch.SearchState;
  profile : option Profile;
  feed : Notifications.FeedState;
  toasts : list Toast;
  navigated : option string;
  logs : list string
}.

Definition initial : State :=
  mkState GlobalSearch.initial_search None (Notifications.mkFeed [] true) [] None [].

Definition set_profile (st : State) (p : option Profile) : State :=
  mkState (search st) p (feed st) (toasts st) (navigated st) (logs st).

Definition set_feed (st : State) (f : Notifications.FeedState) : State :=
  mkState (search st) (profile st) f (toasts st) (navigated st) (logs st).

Definition navigate (st : State) (to : string) : State :=
  mkState (search st) (profile st) (feed st) (toasts st) (Some to) (logs st).

Definition toast (st : State) (t : Toast) : State :=
  mkState (search st) (profile st) (feed st) (toasts st ++ [t]) (navigated st) (logs st).

Definition logError (st : State) (context : string) : State :=
  mkState (search st) (profile st) (feed st) (toasts st) (navigated st) (logs st ++ [context]).

(** What [supabase.auth.getUser()] gives: a user id, no user, or a throw. *)
Inductive GetUser := UserIs (id : option string) | GetUserThrows.

(** [.maybeSingle()]: no row is [null], two rows an error whose [data]
    is [null]; the code reads only [data]. *)
Definition maybeSingle {A : Type} (rows : list A) : option A :=
  match rows with [r] => Some r | _ => None end.

Definition fetchProfile (st : State) (u : GetUser) (rows : list ProfileRow) : State :=
  match u with
  | GetUserThrows => logError st "fetch_profile"
  | UserIs None => st
  | UserIs (Some uid) =>
      match maybeSingle (filter (fun r => row_id r === uid) rows) with
      | Some r => set_profile st (Some (row_profile r))
      | None => st
      end
  end.

(** What [supabase.auth.signOut()] does: it resolves with an error or
    none, or it throws. *)
Inductive SignOut := SignOutResolves (error : option string) | SignOutThrows.

(** [handleLogout]: the resolved value is not read. *)
Definition handleLogout (st : State) (r : SignOut) : State :=
  match r with
  | SignOutResolves _ => navigate (toast st (ToastSuccess "Sessão encerrada com sucesso")) "/"
  | SignOutThrows => toast (logError st "logout") (ToastError "Erro ao encerrar sessão")
  end.

(** The store's answers to the three notification queries. *)
Record FeedInput := mkFeedInput {
  fi_store : Notifications.Store; fi_faults : Notifications.Faults; fi_now : Z; fi_off : Z
}.

Inductive Event :=
  | Mount (u : GetUser) (rows : list ProfileRow) (fi : FeedInput)
  | RefreshClick                    (* "Atualizar": [setLoadingNotifications(true)] *)
  | FeedArrives (fi : FeedInput)    (* the queries of [fetchNotifications] answer *)
  | NotificationClick (n : Notifications.Notification)
  | MenuClick (to : string)         (* "Perfil", "Configurações", "Ajuda" *)
  | LogoutClick (r : SignOut)
  | Search (e : GlobalSearch.SearchEvent).

Definition load_feed (st : State) (fi : FeedInput) : State :=
  set_feed st (Notifications.fetchNotifications (feed st) (fi_store fi) (fi_faults fi) (fi_now fi) (fi_off fi)).

(** One event.  A click on a notification navigates by its type, as the
    [if]/[else if] chain of the item's [onClick]. *)
Definition step (st : State) (e : Event) : State :=
  match e with
  | Mount u rows fi => load_feed (fetchProfile st u rows) fi
  | RefreshClick => set_feed st (Notifications.mkFeed (Notifications.notifications (feed st)) true)
  | FeedArrives fi => load_feed st fi
  | NotificationClick n => navigate st (Notifications.notification_route n)
  | MenuClick to => navigate st to
  | LogoutClick r => handleLogout st r
  | Search se =>
      mkState (GlobalSearch.search_step (search st) se) (profile st) (feed st) (toasts st)
              (navigated st) (logs st)
  end.

(** ** Views *)

(** [{subtitle && <p>...}]: an empty subtitle is not rendered. *)
Definition title_view (title : string) (subtitle : option string) : string * option string :=
  (title, match subtitle with Some s => if s === "" then None else Some s | None => None end).

Inductive DropdownBody :=
  | FeedSpinner
  | NoNotifications
  | FeedItems (items : list (string * string * string * string)).  (* badge, variant, time, message *)

(** The bell's dropdown at render time [now]. *)
Definition dropdown_view (now off : Z) (st : State) : DropdownBody :=
  if Notifications.loadingNotifications (feed st) then FeedSpinner
  else match Notifications.notifications (feed st) with
       | [] => NoNotifications
       | ns => FeedItems (map (fun n => (Notifications.title n, Notifications.variant n,
                                         Notifications.formatNotificationTime now off (Notifications.time n),
                                         Notifications.message n)) ns)
       end.

Inductive Avatar := AvatarImage (src : string) | UserIcon.

(** The account button: [profile?.avatar_url], [profile?.full_name ||
    "Usuário"], [profile?.role || "Cargo"]. *)
Record UserButton := mkUserButton { avatar : Avatar; shown_name : string; shown_role : string }.

Definition or_text (o : option string) (d : string) : string :=
  match o with Some s => if s === "" then d else s | None => d end.

Definition user_button (st : State) : UserButton :=
  mkUserButton
    (match profile st with
     | Some p => match avatar_url p with Some u => if u === "" then UserIcon else AvatarImage u | None => UserIcon end
     | None => UserIcon
     end)
    (or_text (option_map full_name (profile st)) "Usuário")
    (or_text (option_map role (profile st)) "Cargo").

(** "Minha Conta": the labels and where each item leads ([None]: the
    logout). *)
Definition account_menu : list (string * option string) :=
  [("Perfil", Some "/configuracoes?tab=perfil"); ("Configurações", Some "/configuracoes?tab=geral");
   ("Ajuda", Some "/ajuda"); ("Sair", None)].


(** ** Only a throw of [signOut] is reported *)

Lemma fetchProfile_toasts (st : State) (u : GetUser) (rows : list ProfileRow) :
  toasts (fetchProfile st u rows) = toasts st.
Proof.
  destruct u as [[uid|]|]; try reflexivity. cbn [fetchProfile].
  destruct (maybeSingle _); reflexivity.
Qed.

Lemma step_error_toast (st : State) (e : Event) (m : string) :
  In (ToastError m) (toasts (step st e)) -> In (ToastError m) (toasts st) \/ e = LogoutClick SignOutThrows.
Proof.
  destruct e as [u rows fi| |fi|n|to|[err|]|se]; cbn [step]; intros H; try (left; exact H).
  - left. unfold load_feed in H. cbn [toasts set_feed] in H. rewrite fetchProfile_toasts in H. exact H.
  - left. unfold handleLogout, navigate, toast in H. cbn [toasts] in H.
    apply in_app_iff in H as [H|[H|[]]]; [exact H|discriminate H].
  - right. reflexivity.
Qed.

(** C40: The header reports a failed logout only when [signOut] throws,
    and announces every [signOut] that resolves as a successful logout:
    after any sequence of events from the mount on, every "Erro ao
    encerrar sessão" on screen comes from a click on "Sair" whose
    [signOut] threw; and a click on "Sair" whose [signOut] resolves, with
    an error or without, adds "Sessão encerrada com sucesso" and nothing
    else to the toasts, and leaves for the dashboard. *)
Theorem logout_error_only_on_throw (es : list Event) (m : string) (st : State) (err : option string) :
  (In (ToastError m) (toasts (fold_left step es initial)) -> In (LogoutClick SignOutThrows) es) /\
  toasts (step st (LogoutClick (SignOutResolves err))) = (toasts st ++ [ToastSuccess "Sessão encerrada com sucesso"])%list /\
  navigated (step st (LogoutClick (SignOutResolves err))) = Some "/".
Proof.
  split; [|split; reflexivity].
  assert (G : forall st, In (ToastError m) (toasts (fold_left step es st)) ->
                In (ToastError m) (toasts st) \/ In (LogoutClick SignOutThrows) es).
  { induction es as [|e es IH]; intros st0 H; simpl in *; [left; exact H|].
    destruct (IH _ H) as [H1|H1]; [|right; right; exact H1].
    destruct (step_error_toast _ _ _ H1) as [H2|H2]; [left; exact H2|right; left; exact H2]. }
  intros H. destruct (G initial H) as [[]|H1]. exact H1.
Qed.

Lemma logout_error_only_on_throw_witness :
  In (ToastError "Erro ao encerrar sessão") (toasts (fold_left step [RefreshClick; LogoutClick SignOutThrows] initial)) /\
  In (LogoutClick SignOutThrows) [RefreshClick; LogoutClick SignOutThrows] /\
  toasts (step initial (LogoutClick (SignOutResolves (Some "Failed to fetch")))) =
    [ToastSuccess "Sessão encerrada com sucesso"].
Proof.
  assert (H : In (ToastError "Erro ao encerrar sessão")
                 (toasts (fold_left step [RefreshClick; LogoutClick SignOutThrows] initial)))
    by (simpl; left; reflexivity).
  destruct (logout_error_only_on_throw [RefreshClick; LogoutClick SignOutThrows] "Erro ao encerrar sessão"
              initial (Some "Failed to fetch")) as [H1 [H2 _]].
  split; [exact H|]. split; [exact (H1 H)|]. exact H2.
Defined.

(** [signOut] resolving with an error: the success toast, and the
    navigation to the dashboard. *)
Example logout_failure_reported_as_success :
  let st := step initial (LogoutClick (SignOutResolves (Some "Failed to fetch"))) in
  toasts st = [ToastSuccess "Sessão encerrada com sucesso"] /\ navigated st = Some "/".
Proof. split; reflexivity. Qed.

(** ** The refresh *)

(** "Atualizar" replaces the list by the spinner until the queries
    answer; then the list is the new feed, whatever was shown before. *)
Lemma refresh_then_arrive (now off : Z) (st : State) (fi : FeedInput) :
  dropdown_view now off (step st RefreshClick) = FeedSpinner /\
  Notifications.notifications (feed (step (step st RefreshClick) (FeedArrives fi))) =
  Notifications.buildNotifications (fi_store fi) (fi_faults fi) (fi_now fi) (fi_off fi) /\
  Notifications.loadingNotifications (feed (step (step st RefreshClick) (FeedArrives fi))) = false.
Proof. repeat split. Qed.

(** ** The profile *)

(** With one [user_profiles] row for the signed-in user, the account
    button shows its name and role (or the placeholders for empty ones);
    with no user, no row or a failed read it keeps "Usuário" and "Cargo". *)
Lemma profile_after_mount (uid : string) (p : Profile) (others : list ProfileRow) (fi : FeedInput) :
  Forall (fun r => row_id r <> uid) others ->
  let b := user_button (step initial (Mount (UserIs (Some uid)) (mkProfileRow uid p :: others) fi)) in
  shown_name b = or_text (Some (full_name p)) "Usuário" /\ shown_role b = or_text (Some (role p)) "Cargo".
Proof.
  intros Ho. cbn [step fetchProfile load_feed]. cbn [filter row_id]. rewrite String.eqb_refl.
  rewrite (proj2 (filter_nil_existsb _ _)).
  - split; reflexivity.
  - apply Bool.not_true_iff_false. intros E. apply existsb_exists in E as (r & Hr & E).
    apply String.eqb_eq in E. rewrite Forall_forall in Ho. exact (Ho r Hr E).
Qed.

End HeaderShell.

Module SidebarView.

Import Sidebar.

Inductive Icon := MenuIcon | XIcon | ChevronLeft | ChevronRight.

Record View := mkView {
  mobile_button : Icon;              (* [mobileOpen ? <X/> : <Menu/>] *)
  overlay : bool;                    (* [{mobileOpen && <div onClick={closeMobileMenu}/>}] *)
  aside_width : string;              (* [collapsed ? "w-20" : "w-64"] *)
  aside_translate : string;
  logo_text : option (string * string);
  nav : list NavLinkView;
  status_text : option (string * string);
  collapse_button : Icon
}.

Definition Logo (collapsed : bool) : option (string * string) :=
  if collapsed then None else Some ("SGHSS", "Gestão Hospitalar").

Definition StatusIndicator (collapsed : bool) : option (string * string) :=
  if collapsed then None else Some ("Sistema Online", APP_VERSION).

Definition CollapseButton (collapsed : bool) : Icon := if collapsed then ChevronRight else ChevronLeft.

Definition render (st : State) : View :=
  mkView (if mobileOpen st then XIcon else MenuIcon) (mobileOpen st)
         (if collapsed st then "w-20" else "w-64")
         (if mobileOpen st then "translate-x-0" else "-translate-x-full lg:translate-x-0")
         (Logo (collapsed st)) (nav_view st) (StatusIndicator (collapsed st)) (CollapseButton (collapsed st)).

(** A click on a link of the menu closes the mobile menu and its overlay
    and leaves exactly that link highlighted: the nine targets of
    [NAV_ITEMS] are distinct, and [isActive] compares the path with each. *)
Theorem nav_click_one_active (res : Response unit) (st : State) (it : NavItem) :
  In it NAV_ITEMS ->
  let v := render (Sidebar.step res st (NavClick (href it))) in
  overlay v = false /\ mobile_button v = MenuIcon /\
  map nl_href (filter nl_active (nav v)) = [href it].
Proof.
  intros Hit. destruct st as [c m b p]. cbn zeta.
  repeat (destruct Hit as [<-|Hit]; [vm_compute; repeat split; reflexivity|]). contradiction.
Qed.

Lemma nav_click_one_active_witness :
  In (mkNavItem "Leitos" "/leitos" None) NAV_ITEMS /\
  let v := render (Sidebar.step (mkResponse None None None) (initial "/") (NavClick "/leitos")) in
  overlay v = false /\ mobile_button v = MenuIcon /\ map nl_href (filter nl_active (nav v)) = ["/leitos"].
Proof.
  assert (H : In (mkNavItem "Leitos" "/leitos" None) NAV_ITEMS) by (simpl; tauto).
  split; [exact H|]. exact (nav_click_one_active (mkResponse None None None) (initial "/") _ H).
Defined.

End SidebarView.

Module MainLayout.

(** [<MainLayout title subtitle>{children}</MainLayout>]: the sidebar,
    then the header over the page. *)
Record View (Page : Type) := mkView {
  sidebar : SidebarView.View;
  header_title : string * option string;
  children : Page
}.

Arguments mkView {Page} _ _ _.
Arguments sidebar {Page} _.
Arguments header_title {Page} _.
Arguments children {Page} _.

Definition render {Page : Type} (sb : Sidebar.State) (title : string) (subtitle : option string) (page : Page)
  : View Page :=
  mkView (SidebarView.render sb) (HeaderShell.title_view title subtitle) page.

End MainLayout.

Module IndexPage.

(** The page under the frame, top to bottom. *)
Record Children := mkChildren {
  stats_cards : list Dashboard.CardView;
  quick_actions : list string;
  recent_patients : RecentPatients.CardView;
  bed_occupancy : BedOccupancy.CardView;
  upcoming : UpcomingAppointments.CardView
}.

(** [Index]: each child keeps its own state and runs its own fetch on
    mount; the page only places them. *)
Definition render (sb : Sidebar.State) (off now : Z) (idx : Dashboard.IndexState) (rp : RecentPatients.State)
  (bo : BedOccupancy.CardState) (ua : UpcomingAppointments.State) : MainLayout.View Children :=
  MainLayout.render sb "Dashboard" (Some "Visão geral do sistema hospitalar")
    (mkChildren (Dashboard.index_cards idx) (map fst QuickActions.actions) (RecentPatients.render off now rp)
                (BedOccupancy.render bo) (UpcomingAppointments.render ua)).

(** At the first render every part is loading: the cards show "...",
    the widgets their skeletons. *)
Example first_render_loading :
  let v := render (Sidebar.initial "/") 0 0 Dashboard.initial_index RecentPatients.initial
             BedOccupancy.initial_card UpcomingAppointments.initial in
  map Dashboard.card_value (stats_cards (MainLayout.children v)) =
    [Dashboard.Ellipsis; Dashboard.Ellipsis; Dashboard.Ellipsis; Dashboard.Ellipsis] /\
  BedOccupancy.render BedOccupancy.initial_card = bed_occupancy (MainLayout.children v) /\
  MainLayout.header_title v = ("Dashboard", Some "Visão geral do sistema hospitalar").
Proof. repeat split. Qed.

End IndexPage.
