(* ===== verification/Auth.v ===== *)
(** * Authentication, login and routes

    [AuthProvider] (contexts/AuthContext.tsx) keeps the session the
    identity service reports, first from [getSession] and then from every
    [onAuthStateChange] event; [useAuth] reads it.  The login page
    (pages/Login.tsx) signs in with e-mail and password, sends the
    password-reset e-mail, and leaves for the page the user came from
    once a user is signed in.  The route table (App.tsx) maps paths to
    pages, all behind [ProtectedRoute] but the login and reset pages.
    The router keeps a mounted page across navigations within its
    route, which the settings page's tab from the URL depends on.
    The identity service is external: its answers are the arguments. *)

From Stdlib Require Import List ZArith Lia String Ascii Bool.
From S2P Require Import Prelude Header Widgets Ajuda Configuracoes.
Import ListNotations.
Open Scope js_scope.
Open Scope string_scope.

Module AuthContext.

(** A session and the id of its user. *)
Record Session := mkSession { access_token : string; session_user : string }.

Record AuthContextType := mkAuth { user : option string; session : option Session; loading : bool }.

Definition DEFAULT_AUTH_STATE : AuthContextType := mkAuth None None true.

(** [handleAuthStateChange] and the end of [initializeAuth] set the same
    three states. *)
Definition handleAuthStateChange (s : option Session) : AuthContextType :=
  mkAuth (option_map session_user s) s false.

Definition initializeAuth (s : option Session) : AuthContextType :=
  mkAuth (option_map session_user s) s false.

Inductive AuthEvent := SessionRead (s : option Session) | AuthStateChange (s : option Session).

Definition step (st : AuthContextType) (e : AuthEvent) : AuthContextType :=
  match e with
  | SessionRead s => initializeAuth s
  | AuthStateChange s => handleAuthStateChange s
  end.

(** [useAuth]: the provider's value, or the context's default value
    outside a provider; an object is never falsy, so the guard's error is
    never raised. *)
Definition useAuth (provided : option AuthContextType) : string + AuthContextType :=
  let context := match provided with Some v => v | None => DEFAULT_AUTH_STATE end in
  inr context.

End AuthContext.

Module Login.

Import AuthContext.

Inductive Toast := ToastSuccess (message : string) | ToastError (message : string).

Record Page := mkPage {
  isLoading : bool; showPassword : bool; forgotPasswordOpen : bool; resetEmail : string; isResetting : bool;
  email : string; password : string; toasts : list Toast; navigated : option string
}.

Definition initial : Page := mkPage false false false "" false "" "" [] None.

(** [location.state?.from?.pathname || "/"] *)
Definition from (state : option string) : string :=
  match state with Some p => if p === "" then "/" else p | None => "/" end.

Definition toast (p : Page) (t : Toast) : Page :=
  mkPage (isLoading p) (showPassword p) (forgotPasswordOpen p) (resetEmail p) (isResetting p) (email p)
         (password p) (toasts p ++ [t]) (navigated p).

Definition navigate (p : Page) (to : string) : Page :=
  mkPage (isLoading p) (showPassword p) (forgotPasswordOpen p) (resetEmail p) (isResetting p) (email p)
         (password p) (toasts p) (Some to).

(** The redirect effect: once the session is known and has a user. *)
Definition redirect (auth : AuthContextType) (state : option string) (p : Page) : Page :=
  if negb (loading auth) && match user auth with Some _ => true | None => false end
  then navigate p (from state) else p.

(** What [signInWithPassword] answers, or its throw. *)
Inductive SignIn := SignInError (message : string) | SignInOk (u : option string) | SignInThrows.

(** [if (!email || !password)]: the guard of [handleLogin]. *)
Definition login_guard (p : Page) : bool := (email p === "") || (password p === "").

(** What [handleLogin] does once [signInWithPassword] answers;
    [isLoading] is set and cleared within the run. *)
Definition login_completion (state : option string) (p : Page) (r : SignIn) : Page :=
  match r with
  | SignInError m =>
      toast p (ToastError (if includes m "Invalid login credentials" then "Email ou senha incorretos" else m))
  | SignInOk (Some _) => navigate (toast p (ToastSuccess "Login realizado com sucesso!")) (from state)
  | SignInOk None => p
  | SignInThrows => toast p (ToastError "Erro ao fazer login. Tente novamente.")
  end.

(** [handleLogin]. *)
Definition handleLogin (state : option string) (p : Page) (r : SignIn) : Page :=
  if login_guard p then toast p (ToastError "Preencha todos os campos") else login_completion state p r.

Inductive Reset := ResetError (message : string) | ResetOk | ResetThrows.

(** What [handleForgotPassword] does once [resetPasswordForEmail]
    answers. *)
Definition reset_completion (p : Page) (r : Reset) : Page :=
  match r with
  | ResetError m => toast p (ToastError m)
  | ResetOk =>
      let p1 := toast p (ToastSuccess "Email de recuperação enviado! Verifique sua caixa de entrada.") in
      mkPage (isLoading p1) (showPassword p1) false "" (isResetting p1) (email p1) (password p1) (toasts p1)
             (navigated p1)
  | ResetThrows => toast p (ToastError "Erro ao enviar email. Tente novamente.")
  end.

Definition handleForgotPassword (p : Page) (r : Reset) : Page :=
  if resetEmail p === "" then toast p (ToastError "Digite seu email") else reset_completion p r.

(** Submitting the reset form.  Its [<form>] is rendered by the dialog
    inside the login [<form>] of the React tree, and a React event
    crosses a portal to the ancestors of its component: the [submit]
    reaches [handleForgotPassword] and then [handleLogin], since neither
    stops its propagation.  Both handlers run their synchronous part (the
    guards) in that order; then the reset's answer [r] arrives, then, if
    the login guard passed, the sign-in's answer [s]. *)
Definition reset_submit (state : option string) (p : Page) (r : Reset) (s : SignIn) : Page :=
  let p1 := if resetEmail p === "" then toast p (ToastError "Digite seu email") else p in
  let p2 := if login_guard p1 then toast p1 (ToastError "Preencha todos os campos") else p1 in
  let p3 := if resetEmail p === "" then p2 else reset_completion p2 r in
  if login_guard p1 then p3 else login_completion state p3 s.

Inductive Event :=
  | EmailInput (v : string)
  | PasswordInput (v : string)
  | TogglePassword
  | Submit (r : SignIn)
  | ForgotOpenChange (b : bool)
  | ResetEmailInput (v : string)
  | ResetSubmit (r : Reset) (s : SignIn)
  | AuthChanged (auth : AuthContextType).

(** One event; [state] is the router's [location.state]. *)
Definition step (state : option string) (p : Page) (e : Event) : Page :=
  match e with
  | EmailInput v => mkPage (isLoading p) (showPassword p) (forgotPasswordOpen p) (resetEmail p) (isResetting p) v
                           (password p) (toasts p) (navigated p)
  | PasswordInput v => mkPage (isLoading p) (showPassword p) (forgotPasswordOpen p) (resetEmail p) (isResetting p)
                              (email p) v (toasts p) (navigated p)
  | TogglePassword => mkPage (isLoading p) (negb (showPassword p)) (forgotPasswordOpen p) (resetEmail p)
                             (isResetting p) (email p) (password p) (toasts p) (navigated p)
  | Submit r => handleLogin state p r
  | ForgotOpenChange b => mkPage (isLoading p) (showPassword p) b (resetEmail p) (isResetting p) (email p)
                                 (password p) (toasts p) (navigated p)
  | ResetEmailInput v => mkPage (isLoading p) (showPassword p) (forgotPasswordOpen p) v (isResetting p) (email p)
                                (password p) (toasts p) (navigated p)
  | ResetSubmit r s => reset_submit state p r s
  | AuthChanged a => redirect a state p
  end.

(** The password field's type. *)
Definition password_type (p : Page) : string := if showPassword p then "text" else "password".

(** ** The reset dialog submits the login form too *)

Lemma login_guard_toast (p : Page) (t : Toast) : login_guard (toast p t) = login_guard p.
Proof. reflexivity. Qed.

Lemma reset_completion_credentials (p : Page) (r : Reset) :
  email (reset_completion p r) = email p /\ password (reset_completion p r) = password p.
Proof. destruct r; split; reflexivity. Qed.

(** C15: Submitting the "Recuperar Senha" dialog also submits the login
    form around it: with an empty e-mail or password on the login form
    the page adds "Preencha todos os campos" to the reset's own toast,
    and with both filled it runs the sign-in with them, so a successful
    sign-in leaves the login page, whatever the reset answered. *)
Theorem reset_submit_runs_login (state : option string) (p : Page) (r : Reset) :
  (login_guard p = true -> forall s,
     In (ToastError "Preencha todos os campos") (toasts (step state p (ResetSubmit r s)))) /\
  (login_guard p = false -> forall u,
     navigated (step state p (ResetSubmit r (SignInOk (Some u)))) = Some (from state)).
Proof.
  cbn [step]. unfold reset_submit. split.
  - intros Hg s. assert (G : login_guard (if resetEmail p === "" then toast p (ToastError "Digite seu email") else p) = true)
      by (destruct (resetEmail p === ""); [rewrite login_guard_toast|]; exact Hg).
    rewrite G. destruct (resetEmail p === "").
    + cbn [toasts toast]. apply in_or_app. right. left. reflexivity.
    + destruct r; cbn [reset_completion toasts toast]; apply in_or_app; left; apply in_or_app; right; left; reflexivity.
  - intros Hg u. assert (G : login_guard (if resetEmail p === "" then toast p (ToastError "Digite seu email") else p) = false)
      by (destruct (resetEmail p === ""); [rewrite login_guard_toast|]; exact Hg).
    rewrite G. reflexivity.
Qed.

Lemma reset_submit_runs_login_witness :
  let p := Login.mkPage false false true "ana@hc.br" false "ana@hc.br" "x" [] None in
  login_guard p = false /\ navigated (step None p (ResetSubmit ResetOk (SignInOk (Some "u1")))) = Some (from None).
Proof.
  intros p. assert (H : login_guard p = false) by reflexivity.
  split; [exact H|]. exact (proj2 (reset_submit_runs_login None p ResetOk) H "u1").
Defined.

End Login.

Module Routes.

Inductive Element :=
  | LoginPage | RedefinirSenha | Index | Pacientes | Profissionais | Agendamentos | Leitos | Prontuarios
  | Telemedicina | Auditoria | Configuracoes | Ajuda | NotFound.

(** The [Route]s of [App], with whether [ProtectedRoute] wraps them. *)
Definition routes : list (string * bool * Element) :=
  [("/login", false, LoginPage); ("/redefinir-senha", false, RedefinirSenha); ("/", true, Index);
   ("/pacientes", true, Pacientes); ("/profissionais", true, Profissionais); ("/agendamentos", true, Agendamentos);
   ("/leitos", true, Leitos); ("/prontuarios", true, Prontuarios); ("/telemedicina", true, Telemedicina);
   ("/auditoria", true, Auditoria); ("/configuracoes", true, Configuracoes); ("/ajuda", true, Ajuda)].

(** The path of a link, without its query string. *)
Fixpoint pathname (url : string) : string :=
  match url with
  | String c s => if Ascii.eqb c "?"%char then EmptyString else String c (pathname s)
  | EmptyString => EmptyString
  end.

(** The element a path renders ([*] for any other path). *)
Definition matchRoute (url : string) : bool * Element :=
  match find (fun r => fst (fst r) === pathname url) routes with
  | Some r => (snd (fst r), snd r)
  | None => (false, NotFound)
  end.

(** The account menu of the header and its logout target. *)
Definition header_menu : list string := ["/configuracoes?tab=perfil"; "/configuracoes?tab=geral"; "/ajuda"].
Definition handleLogout_target : string := "/".

End Routes.

(** ** Every link leads to a page *)

Module RouteProofs.

Import Routes.

Definition resolves (url : string) : Prop := fst (matchRoute url) = true /\ snd (matchRoute url) <> NotFound.

Definition resolvesb (url : string) : bool :=
  fst (matchRoute url) && match snd (matchRoute url) with NotFound => false | _ => true end.

Lemma resolves_of_b (url : string) : resolvesb url = true -> resolves url.
Proof.
  unfold resolvesb, resolves. intros H. apply andb_true_iff in H as [H1 H2]. split; [exact H1|].
  intros E. rewrite E in H2. discriminate.
Qed.

(** Every link of the application leads to a page behind the login:
    the sidebar's items, the notifications, the search results, the
    account menu, the dashboard widgets' buttons and the help page's
    quick links all resolve to a protected route of [App], none to
    [NotFound]. *)
Theorem every_link_resolves :
  (forall it, In it Sidebar.NAV_ITEMS -> resolves (Sidebar.href it)) /\
  (forall n, resolves (Notifications.notification_route n)) /\
  (forall t, resolves (GlobalSearch.result_route t)) /\
  (forall u, In u header_menu -> resolves u) /\
  resolves RecentPatients.handleViewAll /\ resolves UpcomingAppointments.see_agenda /\
  (forall l, In l Ajuda.quickLinks -> resolves (Ajuda.path l)).
Proof.
  split; [|split; [|split; [|split; [|split; [|split]]]]].
  - intros item Hit. apply resolves_of_b.
    repeat (destruct Hit as [<-|Hit]; [vm_compute; reflexivity|]). contradiction.
  - intros n. apply resolves_of_b. unfold Notifications.notification_route.
    destruct (Notifications.notif_type n); vm_compute; reflexivity.
  - intros t. apply resolves_of_b. destruct t; vm_compute; reflexivity.
  - intros u Hu. apply resolves_of_b. repeat (destruct Hu as [<-|Hu]; [vm_compute; reflexivity|]). contradiction.
  - apply resolves_of_b. vm_compute. reflexivity.
  - apply resolves_of_b. vm_compute. reflexivity.
  - intros l Hl. apply resolves_of_b. repeat (destruct Hl as [<-|Hl]; [vm_compute; reflexivity|]). contradiction.
Qed.

End RouteProofs.

(** ** The router and the settings page's tab

    [BrowserRouter] keeps the address; [Routes] renders the element of
    the matching route.  A navigation to another address of the same
    route renders the same element type at the same place, so React keeps
    the mounted page and its state; a navigation to another route
    unmounts it and mounts the new page.  The settings page reads
    [searchParams.get("tab") || "geral"] only as the [defaultValue] of its
    uncontrolled [Tabs]. *)

Module Router.

(** [location.search] without its [?]: the text after the first [?]. *)
Fixpoint query (url : string) : string :=
  match url with
  | String c s => if Ascii.eqb c "?"%char then s else query s
  | EmptyString => EmptyString
  end.

(** The form-urlencoded parser replaces [+] by a space (the links of
    the application carry no percent escapes). *)
Fixpoint plus_to_space (s : string) : string :=
  match s with
  | String c s' => String (if Ascii.eqb c "+"%char then " "%char else c) (plus_to_space s')
  | EmptyString => EmptyString
  end.

(** A [name=value] piece, split at its first [=]. *)
Definition name_value (piece : string) : string * string :=
  match js_split "="%char piece with
  | [] => ("", "")
  | n :: rest => (plus_to_space n, plus_to_space (String.concat "=" rest))
  end.

(** [new URLSearchParams(location.search)]: the pieces between the [&],
    the empty ones skipped. *)
Definition search_params (url : string) : list (string * string) :=
  map name_value (filter (fun piece => negb (piece === "")) (js_split "&"%char (query url))).

(** [searchParams.get(key)]: the value of the first pair with that name. *)
Definition get (key url : string) : option string :=
  option_map snd (find (fun kv => fst kv === key) (search_params url)).

Definition is_settings (url : string) : bool :=
  match snd (Routes.matchRoute url) with Routes.Configuracoes => true | _ => false end.

(** The address, the store, the theme of [ThemeProvider] and the settings
    page while it is mounted. *)
Record Screen := mkScreen {
  url : string;
  db : Configuracoes.DB;
  app_theme : string;
  settings_page : option Configuracoes.Page
}.

(** Mounting the element of an address: the settings page starts from
    the tab of the address and the current theme. *)
Definition mount (to theme : string) : option Configuracoes.Page :=
  if is_settings to then Some (Configuracoes.initial_page (get "tab" to) theme) else None.

(** [navigate(to)]: the same route keeps the mounted page. *)
Definition navigate (s : Screen) (to : string) : Screen :=
  mkScreen to (db s) (app_theme s)
           (if is_settings (url s) && is_settings to then settings_page s else mount to (app_theme s)).

Inductive Event :=
  | Navigate (to : string)   (* a link, a menu item, a [navigate] call *)
  | OnSettings (rep : Configuracoes.Reply) (e : Configuracoes.Event).

Definition step (s : Screen) (ev : Event) : Screen :=
  match ev with
  | Navigate to => navigate s to
  | OnSettings rep e =>
      match settings_page s with
      | Some p => let (p', db') := Configuracoes.step rep (p, db s) e in
                  mkScreen (url s) db' (Configuracoes.theme p') (Some p')
      | None => s
      end
  end.

Definition run (s : Screen) (evs : list Event) : Screen := fold_left step evs s.

(** The tab the settings page shows, when it is mounted. *)
Definition tab_shown (s : Screen) : option string := option_map Configuracoes.tab (settings_page s).

(** The page is mounted exactly on its route. *)
Definition mounted_ok (s : Screen) : Prop := is_settings (url s) = true <-> settings_page s <> None.

(** ** The query string *)

Fixpoint has_char (c : ascii) (s : string) : bool :=
  match s with
  | String d s' => Ascii.eqb d c || has_char c s'
  | EmptyString => false
  end.

Lemma has_char_app (c : ascii) (a b : string) : has_char c (a ++ b) = has_char c a || has_char c b.
Proof. induction a as [|d a IH]; simpl; [reflexivity|]. rewrite IH, orb_assoc. reflexivity. Qed.

Lemma js_split_none (c : ascii) (s : string) : has_char c s = false -> js_split c s = [s].
Proof.
  induction s as [|d s IH]; simpl; [reflexivity|]. intros H. apply orb_false_iff in H as [H1 H2].
  rewrite H1, IH by exact H2. reflexivity.
Qed.

Lemma js_split_app (c : ascii) (a b : string) :
  has_char c a = false -> js_split c (a ++ String c b) = a :: js_split c b.
Proof.
  induction a as [|d a IH]; simpl; intros H; [rewrite Ascii.eqb_refl; reflexivity|].
  apply orb_false_iff in H as [H1 H2]. rewrite H1, IH by exact H2. reflexivity.
Qed.

(** Joining the pieces of a split gives the text back. *)
Lemma concat_js_split (c : ascii) (s : string) : String.concat (String c EmptyString) (js_split c s) = s.
Proof.
  induction s as [|d s IH]; simpl; [reflexivity|].
  destruct (js_split c s) as [|w ws] eqn:E; [simpl in IH; subst s; discriminate E|].
  destruct (Ascii.eqb_spec d c) as [->|Hd]; simpl in IH |- *; destruct ws; rewrite <- IH; reflexivity.
Qed.

Lemma query_app (path q : string) : has_char "?"%char path = false -> query (path ++ String "?"%char q) = q.
Proof.
  induction path as [|d path IH]; simpl; intros H; [reflexivity|].
  apply orb_false_iff in H as [H1 H2]. rewrite H1. exact (IH H2).
Qed.

Lemma plus_to_space_id (s : string) : has_char "+"%char s = false -> plus_to_space s = s.
Proof.
  induction s as [|d s IH]; simpl; intros H; [reflexivity|].
  apply orb_false_iff in H as [H1 H2]. rewrite H1, IH by exact H2. reflexivity.
Qed.

(** An address [path?key=value] gives [value] back for [key], when the
    path has no [?] and neither part a [&] or a [+], nor the key a [=]. *)
Theorem get_roundtrip (path key v : string) :
  has_char "?"%char path = false -> has_char "&"%char (key ++ v) = false ->
  has_char "+"%char (key ++ v) = false -> has_char "="%char key = false ->
  get key (path ++ String "?"%char (key ++ String "="%char v)) = Some v.
Proof.
  intros Hq Ha Hp He. rewrite has_char_app in Ha, Hp.
  apply orb_false_iff in Ha as [Ha1 Ha2]. apply orb_false_iff in Hp as [Hp1 Hp2].
  unfold get, search_params. rewrite query_app by exact Hq.
  rewrite js_split_none by (rewrite has_char_app; simpl; rewrite Ha1, Ha2; reflexivity).
  cbn [filter]. replace ((key ++ String "="%char v) === "") with false by (destruct key; reflexivity).
  cbn [negb map]. unfold name_value. rewrite js_split_app by exact He.
  change "=" with (String "="%char EmptyString). rewrite concat_js_split, !plus_to_space_id by assumption.
  cbn [find fst]. rewrite String.eqb_refl. reflexivity.
Qed.

(** ** Mounting *)

Lemma step_mounted_ok (s : Screen) (ev : Event) : mounted_ok s -> mounted_ok (step s ev).
Proof.
  unfold mounted_ok. intros H. destruct ev as [to|rep e]; cbn [step].
  - unfold navigate, mount; cbn [url settings_page].
    destruct (is_settings to) eqn:Et; [rewrite andb_true_r|rewrite andb_false_r].
    + destruct (is_settings (url s)); [tauto|]. split; [discriminate|reflexivity].
    + split; [discriminate|]. intros Hn. exfalso. exact (Hn eq_refl).
  - destruct (settings_page s) as [p|] eqn:Ep; [|rewrite Ep; exact H].
    destruct (Configuracoes.step rep (p, db s) e). cbn [url settings_page].
    split; [discriminate|]. intros _. apply H. discriminate.
Qed.

Lemma run_mounted_ok (s : Screen) (evs : list Event) : mounted_ok s -> mounted_ok (run s evs).
Proof.
  unfold run. revert s. induction evs as [|ev evs IH]; intros s H; [exact H|].
  apply IH, step_mounted_ok, H.
Qed.

(** ** The account menu and the settings tab *)

(** C16: The account menu's "Perfil" and "Configurações" items lead to
    the settings page with the tab of their address only when the
    settings page is not on screen: when it is, the address changes but
    the page stays mounted and keeps the tab it shows. *)
Theorem menu_tab_only_on_mount (s : Screen) (to : string) :
  In to Routes.header_menu -> is_settings to = true ->
  url (step s (Navigate to)) = to /\
  tab_shown (step s (Navigate to)) = (if is_settings (url s) then tab_shown s else get "tab" to).
Proof.
  intros Hin Hs. split; [reflexivity|]. unfold step, navigate, tab_shown. cbn [settings_page].
  rewrite Hs, andb_true_r. destruct (is_settings (url s)); [reflexivity|].
  repeat (destruct Hin as [<-|Hin]; [try discriminate Hs; reflexivity|]). contradiction.
Qed.

Lemma menu_tab_only_on_mount_witness :
  let s := mkScreen "/configuracoes?tab=seguranca" Configuracoes.settings_db "light"
                    (Some (Configuracoes.initial_page (Some "seguranca") "light")) in
  In "/configuracoes?tab=perfil" Routes.header_menu /\ is_settings "/configuracoes?tab=perfil" = true /\
  url (step s (Navigate "/configuracoes?tab=perfil")) = "/configuracoes?tab=perfil" /\
  tab_shown (step s (Navigate "/configuracoes?tab=perfil")) =
    (if is_settings (url s) then tab_shown s else get "tab" "/configuracoes?tab=perfil").
Proof.
  intros s. assert (Hin : In "/configuracoes?tab=perfil" Routes.header_menu) by (left; reflexivity).
  assert (Hs : is_settings "/configuracoes?tab=perfil" = true) by reflexivity.
  split; [exact Hin|]. split; [exact Hs|]. exact (menu_tab_only_on_mount s _ Hin Hs).
Defined.

(** From the patients list the menu's "Configurações" opens the general
    tab; the user picks "Segurança"; the menu's "Perfil" then changes the
    address to [?tab=perfil] while the page still shows "Segurança". *)
Example perfil_link_ignored :
  let s0 := mkScreen "/pacientes" Configuracoes.settings_db "light" None in
  let s1 := run s0 [Navigate "/configuracoes?tab=geral"] in
  let s2 := run s1 [OnSettings Configuracoes.ok_reply (Configuracoes.TabChange "seguranca");
                    Navigate "/configuracoes?tab=perfil"] in
  tab_shown s1 = Some "geral" /\ url s2 = "/configuracoes?tab=perfil" /\ tab_shown s2 = Some "seguranca" /\
  get "tab" (url s2) = Some "perfil".
Proof. vm_compute. repeat split. Qed.

End Router.

(** ** Samples *)

(** Outside a provider [useAuth] returns the default state, loading for
    ever, instead of its error. *)
Example useAuth_outside_provider : AuthContext.useAuth None = inr AuthContext.DEFAULT_AUTH_STATE.
Proof. reflexivity. Qed.

(** The store's message for wrong credentials is replaced, any other is
    shown as it is; a signed-in user goes back where they came from. *)
Example login_messages :
  let p := Login.step (Some "/leitos") (Login.step (Some "/leitos") Login.initial (Login.EmailInput "ana@hc.br"))
                      (Login.PasswordInput "x") in
  Login.toasts (Login.step (Some "/leitos") p (Login.Submit (Login.SignInError "Invalid login credentials")))
    = [Login.ToastError "Email ou senha incorretos"] /\
  Login.navigated (Login.step (Some "/leitos") p (Login.Submit (Login.SignInOk (Some "u1")))) = Some "/leitos" /\
  Login.navigated (Login.step None Login.initial
                     (Login.AuthChanged (AuthContext.mkAuth (Some "u1") None false))) = Some "/".
Proof. vm_compute. repeat split. Qed.
